(** * Strategy-map: the diagram scene and its interaction controller

    A shallow embedding of the TypeScript model classes ([Point], [Node],
    [Arrow], [TextLabel], [Whiteboard], [SelectionBox], [Diagram]) and of the
    [InteractionManager] state machine, followed by the properties of the
    scene and of the controller that are proved about them.

    Conventions of the embedding.
    - A JavaScript [number] is an element of an abstract carrier with the
      operations the code uses ([JSNumber]).  No law of arithmetic is assumed
      unless a statement lists it, so the general theorems hold for IEEE
      doubles as well as for exact arithmetic.
    - A JavaScript [string] is kept as the bytes of its UTF-8 encoding;
      its [length] is counted in UTF-16 code units, as JavaScript counts
      it ([JsString.length]).
    - A [Map<string, V>] is an association list in insertion order
      ([JsMap]); a [Set<string>] is a duplicate-free list in insertion
      order ([JsSet]).
    - [Node] objects are shared between the scene and the arrows that point
      at them, so they live in a store ([Runtime.heap]) and are referred to
      by location.  Arrows, text labels and whiteboards are reached only
      through the scene's own maps and are kept there by value.
    - The static [nextId] counters of the four entity classes and the
      browser console are fields of [Runtime.t].
    - Callbacks into the host ([onUpdate], [onToolChange],
      [onRequestTextEdit]) are recorded as emitted notifications. *)

From Stdlib Require Import ZArith List String Ascii Bool Lia.
From Stdlib Require Import DecimalString DecimalNat.
Import ListNotations.
Local Open Scope string_scope.
Local Open Scope list_scope.

Set Implicit Arguments.

(** ** JavaScript numbers *)

Class JSNumber : Type := {
  num : Type;
  lit : Z -> num;                 (* an integer literal *)
  nadd : num -> num -> num;
  nsub : num -> num -> num;
  nmul : num -> num -> num;
  ndiv : num -> num -> num;
  nle : num -> num -> bool;       (* a <= b *)
  nlt : num -> num -> bool;       (* a < b *)
  neq : num -> num -> bool;       (* a === b *)
  nsqrt : num -> num;             (* Math.sqrt *)
  natan2 : num -> num -> num;     (* Math.atan2(y, x) *)
  ncos : num -> num;
  nsin : num -> num;
  nmax : num -> num -> num;
  nmin : num -> num -> num;
  nabs : num -> num
}.

Declare Scope js_scope.
Delimit Scope js_scope with js.
Infix "+" := nadd : js_scope.
Infix "-" := nsub : js_scope.
Infix "*" := nmul : js_scope.
Infix "/" := ndiv : js_scope.
Infix "<=?" := nle : js_scope.
Infix "<?" := nlt : js_scope.
Notation "a >=? b" := (nle b a) (at level 70) : js_scope.
Notation "a >? b" := (nlt b a) (at level 70) : js_scope.
Infix "===" := neq (at level 70) : js_scope.

(** The integer grid.  It is not a model of doubles in general; it agrees
    with them where a computation stays within what both represent
    exactly:
    - [nadd], [nsub], [nmul] and the comparisons, as long as the operands
      and the result are integers of magnitude below 2^53;
    - [ndiv] when the divisor divides the dividend (it rounds down
      otherwise, where a double keeps the fraction);
    - [nsqrt] on perfect squares (it rounds down otherwise);
    - the trigonometric functions only for the angle 0, the direction of
      a target straight to the right or at the same place
      ([natan2 0 dx = 0] for [dx >= 0], [ncos 0 = 1], [nsin 0 = 0]); the
      end points of an arrow whose target lies in another direction are
      not those of the code.
    It is used to run the model on concrete scenes. *)
Definition ZNumber : JSNumber := {|
  num := Z;
  lit := fun z => z;
  nadd := Z.add;
  nsub := Z.sub;
  nmul := Z.mul;
  ndiv := Z.div;
  nle := Z.leb;
  nlt := Z.ltb;
  neq := Z.eqb;
  nsqrt := Z.sqrt;
  natan2 := fun _ _ => 0%Z;
  ncos := fun _ => 1%Z;
  nsin := fun _ => 0%Z;
  nmax := Z.max;
  nmin := Z.min;
  nabs := Z.abs
|}.

(** ** Ordered maps and sets keyed by strings *)

Module JsMap.
Section WithValue.
  Variable V : Type.

Definition t := list (string * V).

Fixpoint get (k : string) (m : t) : option V :=
    match m with
    | [] => None
    | (k', v) :: m' => if String.eqb k k' then Some v else get k m'
    end.

Definition has (k : string) (m : t) : bool :=
    match get k m with Some _ => true | None => false end.

  (* Map.prototype.set: an existing key keeps its place in the order. *)
Fixpoint set (k : string) (v : V) (m : t) : t :=
    match m with
    | [] => [(k, v)]
    | (k', v') :: m' =>
        if String.eqb k k' then (k, v) :: m' else (k', v') :: set k v m'
    end.

Definition delete (k : string) (m : t) : t :=
    filter (fun kv => negb (String.eqb k (fst kv))) m.

Definition keys (m : t) : list string := map fst m.
Definition values (m : t) : list V := map snd m.
Definition size (m : t) : nat := List.length m.
Definition clear (m : t) : t := [].

  (* [m.get(k)] followed by an update of the object found, if any. *)
Fixpoint update (k : string) (f : V -> V) (m : t) : t :=
    match m with
    | [] => []
    | (k', v') :: m' =>
        if String.eqb k k' then (k', f v') :: m' else (k', v') :: update k f m'
    end.
End WithValue.
End JsMap.

Module JsSet.
Definition t := list string.

Definition has (k : string) (s : t) : bool :=
    existsb (String.eqb k) s.

Definition add (k : string) (s : t) : t :=
    if has k s then s else s ++ [k].

Definition delete (k : string) (s : t) : t :=
    filter (fun k' => negb (String.eqb k k')) s.

Definition size (s : t) : nat := List.length s.
End JsSet.

(** ** Point.ts *)

Module Point.
Section WithNumber.
  Context {N : JSNumber}.
  Local Open Scope js_scope.

Record t : Type := mk { x : num; y : num }.

Definition distanceTo (this other : t) : num :=
    let dx := x this - x other in
    let dy := y this - y other in
    nsqrt (dx * dx + dy * dy).

Definition add (this other : t) : t :=
    mk (x this + x other) (y this + y other).

Definition subtract (this other : t) : t :=
    mk (x this - x other) (y this - y other).

Definition clone (this : t) : t := mk (x this) (y this).
End WithNumber.
End Point.

(** ** Style.ts, FontFamily.ts *)

Inductive Color : Type :=
  | BLACK | GRAY | RED | PINK | GRAPE | VIOLET | INDIGO
  | BLUE | CYAN | TEAL | GREEN | LIME | YELLOW | ORANGE.

Inductive StrokeWidth : Type := THIN | MEDIUM | THICK | EXTRA_THICK.

Inductive FillStyle : Type :=
  | FILL_SOLID | FILL_HACHURE | FILL_CROSS_HATCH | FILL_NONE.

Inductive BorderStyle : Type :=
  | BORDER_NONE | BORDER_SOLID | BORDER_DASHED | BORDER_DOTTED.

Inductive LineStyle : Type := LINE_SOLID | LINE_DASHED | LINE_DOTTED.

Inductive FontFamily : Type := HAND_DRAWN | NORMAL | CODE.

Module Style.
Section WithNumber.
  Context {N : JSNumber}.

Record StyleConfig : Type := mk {
    strokeColor : Color;
    backgroundColor : Color;
    fillStyle : FillStyle;
    strokeWidth : StrokeWidth;
    opacity : num
  }.

Definition DEFAULT_STYLE : StyleConfig :=
    mk BLACK BLUE FILL_SOLID MEDIUM (lit 1).
End WithNumber.
End Style.

(** ** JavaScript strings

    [text.length] counts UTF-16 code units: one for a code point encoded in
    one to three bytes of UTF-8, two (a surrogate pair) for a code point
    encoded in four bytes.  Continuation bytes count nothing. *)

Module JsString.
Definition units (c : ascii) : nat :=
  let n := nat_of_ascii c in
  if Nat.ltb n 128 then 1
  else if Nat.ltb n 192 then 0
  else if Nat.ltb n 240 then 1
  else 2.

Fixpoint length (s : string) : nat :=
  match s with
  | EmptyString => 0
  | String c s' => units c + length s'
  end.
End JsString.

(** ** Entity identifiers: ["<type>-<counter>"] *)

Definition decimal (n : nat) : string :=
  NilEmpty.string_of_uint (Nat.to_uint n).

Definition mint (prefix : string) (n : nat) : string :=
  prefix ++ decimal n.

(** ** Node.ts

    A [Node] object is its immutable [id] together with the address of its
    mutable fields.  [store] is the state of the class: the objects
    allocated so far and the static counter [nextId]. *)

Module Node.
Section WithNumber.
  Context {N : JSNumber}.
  Local Open Scope js_scope.

Record t : Type := mk { id : string; addr : nat }.

Record fields : Type := mkFields {
    position : Point.t;
    text : string;
    radius : num;
    isSelected : bool;
    isDragging : bool;
    style : Style.StyleConfig;
    fontFamily : FontFamily
  }.

Record store : Type := mkStore {
    heap : nat -> fields;
    nextAddr : nat;
    nextId : nat
  }.

Definition read (s : store) (this : t) : fields := heap s (addr this).

Definition write (s : store) (this : t) (f : fields) : store :=
    mkStore (fun a => if Nat.eqb a (addr this) then f else heap s a)
            (nextAddr s) (nextId s).

  (* constructor(position, text = 'Node', style?) *)
Definition new (s : store) (position : Point.t) (text : string)
      (style : option Style.StyleConfig) : store * t :=
    let this := mk (mint "node-" (nextId s)) (nextAddr s) in
    let f := mkFields position text (lit 60) false false
               (match style with Some st => st | None => Style.DEFAULT_STYLE end)
               HAND_DRAWN in
    (mkStore (fun a => if Nat.eqb a (nextAddr s) then f else heap s a)
             (S (nextAddr s)) (S (nextId s)),
     this).

Definition containsPoint (s : store) (this : t) (point : Point.t) : bool :=
    Point.distanceTo (position (read s this)) point <=? radius (read s this).

Definition with_position (f : fields) (p : Point.t) : fields :=
    mkFields p (text f) (radius f) (isSelected f) (isDragging f)
             (style f) (fontFamily f).
Definition with_text (f : fields) (t : string) : fields :=
    mkFields (position f) t (radius f) (isSelected f) (isDragging f)
             (style f) (fontFamily f).
Definition with_radius (f : fields) (r : num) : fields :=
    mkFields (position f) (text f) r (isSelected f) (isDragging f)
             (style f) (fontFamily f).
Definition with_isSelected (f : fields) (b : bool) : fields :=
    mkFields (position f) (text f) (radius f) b (isDragging f)
             (style f) (fontFamily f).
Definition with_isDragging (f : fields) (b : bool) : fields :=
    mkFields (position f) (text f) (radius f) (isSelected f) b
             (style f) (fontFamily f).
Definition with_fontFamily (f : fields) (ff : FontFamily) : fields :=
    mkFields (position f) (text f) (radius f) (isSelected f) (isDragging f)
             (style f) ff.

Definition moveTo (s : store) (this : t) (p : Point.t) : store :=
    write s this (with_position (read s this) p).

Definition moveBy (s : store) (this : t) (delta : Point.t) : store :=
    write s this
      (with_position (read s this) (Point.add (position (read s this)) delta)).

Definition setText (s : store) (this : t) (txt : string) : store :=
    write s this (with_text (read s this) txt).

Definition setSelected (s : store) (this : t) (selected : bool) : store :=
    write s this (with_isSelected (read s this) selected).

Definition setDragging (s : store) (this : t) (dragging : bool) : store :=
    write s this (with_isDragging (read s this) dragging).

Definition getCenter (s : store) (this : t) : Point.t :=
    Point.clone (position (read s this)).

Definition getEdgePoint (s : store) (this : t) (targetPoint : Point.t)
      : Point.t :=
    let p := position (read s this) in
    let angle := natan2 (Point.y targetPoint - Point.y p)
                        (Point.x targetPoint - Point.x p) in
    Point.mk (Point.x p + ncos angle * radius (read s this))
             (Point.y p + nsin angle * radius (read s this)).

Definition clone (s : store) (this : t) : store * t :=
    let f := read s this in
    let '(s1, node) := new s (Point.clone (position f)) (text f)
                           (Some (style f)) in
    let s2 := write s1 node (with_radius (read s1 node) (radius f)) in
    let s3 := write s2 node (with_isSelected (read s2 node) (isSelected f)) in
    let s4 := write s3 node (with_isDragging (read s3 node) (isDragging f)) in
    let s5 := write s4 node (with_fontFamily (read s4 node) (fontFamily f)) in
    (s5, node).

Record JSON : Type := mkJSON {
    j_id : string;
    j_position : Point.t;
    j_text : string;
    j_radius : num;
    j_style : Style.StyleConfig;
    j_fontFamily : FontFamily
  }.

Definition toJSON (s : store) (this : t) : JSON :=
    let f := read s this in
    mkJSON (id this) (Point.mk (Point.x (position f)) (Point.y (position f)))
           (text f) (radius f) (style f) (fontFamily f).

  (* the id minted by the constructor is overwritten by the stored one *)
Definition fromJSON (s : store) (data : JSON) : store * t :=
    let '(s1, node0) :=
      new s (Point.mk (Point.x (j_position data)) (Point.y (j_position data)))
          (j_text data) (Some (j_style data)) in
    let node := mk (j_id data) (addr node0) in
    let s2 := write s1 node (with_radius (read s1 node) (j_radius data)) in
    let s3 := write s2 node
                (with_fontFamily (read s2 node) (j_fontFamily data)) in
    (s3, node).
End WithNumber.
End Node.

(** ** Arrow.ts *)

Module Arrow.
Section WithNumber.
  Context {N : JSNumber}.
  Local Open Scope js_scope.

Record t : Type := mk {
    id : string;
    fromNode : Node.t;
    toNode : Node.t;
    isSelected : bool;
    strokeColor : Color;
    strokeWidth : StrokeWidth;
    lineStyle : LineStyle
  }.

  (* constructor(fromNode, toNode, strokeColor?, strokeWidth?, lineStyle?);
     every member of the three enumerations is truthy, so an argument that
     is given always replaces the default.  [nextId] is the static counter;
     the caller stores [S nextId] back. *)
Definition new (nextId : nat) (fromNode toNode : Node.t)
      (strokeColor : option Color) (strokeWidth : option StrokeWidth)
      (lineStyle : option LineStyle) : t :=
    mk (mint "arrow-" nextId) fromNode toNode false
       (match strokeColor with Some c => c | None => BLACK end)
       (match strokeWidth with Some w => w | None => MEDIUM end)
       (match lineStyle with Some l => l | None => LINE_SOLID end).

Definition getStartPoint (s : Node.store) (this : t) : Point.t :=
    Node.getEdgePoint s (fromNode this) (Node.getCenter s (toNode this)).

Definition getEndPoint (s : Node.store) (this : t) : Point.t :=
    Node.getEdgePoint s (toNode this) (Node.getCenter s (fromNode this)).

Definition containsPoint (s : Node.store) (this : t) (point : Point.t)
      (threshold : num) : bool :=
    let start := getStartPoint s this in
    let end_ := getEndPoint s this in
    let lineLength := Point.distanceTo start end_ in
    if lineLength === lit 0 then false
    else
      let t :=
        nmax (lit 0)
          (nmin (lit 1)
             (((Point.x point - Point.x start) * (Point.x end_ - Point.x start)
               + (Point.y point - Point.y start) * (Point.y end_ - Point.y start))
              / (lineLength * lineLength))) in
      let projection :=
        Point.mk (Point.x start + t * (Point.x end_ - Point.x start))
                 (Point.y start + t * (Point.y end_ - Point.y start)) in
      Point.distanceTo point projection <=? threshold.

Definition setSelected (this : t) (selected : bool) : t :=
    mk (id this) (fromNode this) (toNode this) selected
       (strokeColor this) (strokeWidth this) (lineStyle this).

Record JSON : Type := mkJSON {
    j_id : string;
    j_fromNodeId : string;
    j_toNodeId : string;
    j_strokeColor : Color;
    j_strokeWidth : StrokeWidth;
    j_lineStyle : LineStyle
  }.

Definition toJSON (this : t) : JSON :=
    mkJSON (id this) (Node.id (fromNode this)) (Node.id (toNode this))
           (strokeColor this) (strokeWidth this) (lineStyle this).

  (* [None] stands for the thrown Error("Arrow references missing nodes").
     The constructor runs, and advances the counter, only when both nodes
     were found. *)
Definition fromJSON (nextId : nat) (data : JSON)
      (nodeMap : JsMap.t Node.t) : option t :=
    match JsMap.get (j_fromNodeId data) nodeMap,
          JsMap.get (j_toNodeId data) nodeMap with
    | Some fromNode, Some toNode =>
        let arrow := new nextId fromNode toNode (Some (j_strokeColor data))
                         (Some (j_strokeWidth data)) (Some (j_lineStyle data)) in
        Some (mk (j_id data) (fromNode) (toNode) (isSelected arrow)
                 (strokeColor arrow) (strokeWidth arrow) (lineStyle arrow))
    | _, _ => None
    end.
End WithNumber.
End Arrow.

(** ** TextLabel.ts *)

Module TextLabel.
Section WithNumber.
  Context {N : JSNumber}.
  Local Open Scope js_scope.

Record t : Type := mk {
    id : string;
    position : Point.t;
    text : string;
    fontSize : num;
    isSelected : bool;
    isDragging : bool;
    width : num;
    height : num;
    color : Color;
    fontFamily : FontFamily;
    showBorder : bool;
    borderStyle : BorderStyle;
    borderColor : Color;
    borderWidth : StrokeWidth;
    padding : num
  }.

  (* constructor(position, text = 'Text') *)
Definition new (nextId : nat) (position : Point.t) (text : string) : t :=
    mk (mint "text-" nextId) position text (lit 16) false false
       (lit 100) (lit 30) BLACK HAND_DRAWN
       false BORDER_SOLID BLACK THIN (lit 8).

Definition containsPoint (this : t) (point : Point.t) : bool :=
    let halfWidth := width this / lit 2 in
    let halfHeight := height this / lit 2 in
    (Point.x point >=? Point.x (position this) - halfWidth)
    && (Point.x point <=? Point.x (position this) + halfWidth)
    && (Point.y point >=? Point.y (position this) - halfHeight)
    && (Point.y point <=? Point.y (position this) + halfHeight).

Definition with_position (l : t) (p : Point.t) : t :=
    mk (id l) p (text l) (fontSize l) (isSelected l) (isDragging l)
       (width l) (height l) (color l) (fontFamily l) (showBorder l)
       (borderStyle l) (borderColor l) (borderWidth l) (padding l).

Definition moveTo (this : t) (p : Point.t) : t := with_position this p.

Definition moveBy (this : t) (delta : Point.t) : t :=
    with_position this (Point.add (position this) delta).

Definition setText (this : t) (txt : string) : t :=
    mk (id this) (position this) txt (fontSize this) (isSelected this)
       (isDragging this)
       (nmax (lit 100) (lit (Z.of_nat (JsString.length txt)) * lit 10))
       (height this) (color this) (fontFamily this) (showBorder this)
       (borderStyle this) (borderColor this) (borderWidth this) (padding this).

Definition setSelected (this : t) (selected : bool) : t :=
    mk (id this) (position this) (text this) (fontSize this) selected
       (isDragging this) (width this) (height this) (color this)
       (fontFamily this) (showBorder this) (borderStyle this)
       (borderColor this) (borderWidth this) (padding this).

Definition setDragging (this : t) (dragging : bool) : t :=
    mk (id this) (position this) (text this) (fontSize this) (isSelected this)
       dragging (width this) (height this) (color this)
       (fontFamily this) (showBorder this) (borderStyle this)
       (borderColor this) (borderWidth this) (padding this).

  (* a new label with a fresh id and every other field copied *)
Definition clone (nextId : nat) (this : t) : t :=
    mk (mint "text-" nextId) (Point.clone (position this)) (text this)
       (fontSize this) (isSelected this) (isDragging this) (width this)
       (height this) (color this) (fontFamily this) (showBorder this)
       (borderStyle this) (borderColor this) (borderWidth this) (padding this).

Record JSON : Type := mkJSON {
    j_id : string;
    j_position : Point.t;
    j_text : string;
    j_fontSize : num;
    j_width : num;
    j_height : num;
    j_color : Color;
    j_fontFamily : FontFamily;
    j_showBorder : bool;
    j_borderStyle : BorderStyle;
    j_borderColor : Color;
    j_borderWidth : StrokeWidth;
    j_padding : num
  }.

Definition toJSON (this : t) : JSON :=
    mkJSON (id this)
           (Point.mk (Point.x (position this)) (Point.y (position this)))
           (text this) (fontSize this) (width this) (height this)
           (color this) (fontFamily this) (showBorder this)
           (borderStyle this) (borderColor this) (borderWidth this)
           (padding this).

Definition fromJSON (data : JSON) : t :=
    mk (j_id data)
       (Point.mk (Point.x (j_position data)) (Point.y (j_position data)))
       (j_text data) (j_fontSize data) false false (j_width data)
       (j_height data) (j_color data) (j_fontFamily data)
       (j_showBorder data) (j_borderStyle data) (j_borderColor data)
       (j_borderWidth data) (j_padding data).
End WithNumber.
End TextLabel.

(** ** Whiteboard.ts *)

Inductive ResizeHandle : Type :=
  | TOP_LEFT | TOP | TOP_RIGHT | RIGHT
  | BOTTOM_RIGHT | BOTTOM | BOTTOM_LEFT | LEFT.

Module Whiteboard.
Section WithNumber.
  Context {N : JSNumber}.
  Local Open Scope js_scope.

Record t : Type := mk {
    id : string;
    position : Point.t;   (* top-left corner *)
    width : num;
    height : num;
    backgroundColor : string;
    selected : bool
  }.

Definition new (nextId : nat) (position : Point.t) (width height : num)
      (backgroundColor : string) : t :=
    mk (mint "whiteboard-" nextId) position width height backgroundColor false.

Definition setSelected (this : t) (b : bool) : t :=
    mk (id this) (position this) (width this) (height this)
       (backgroundColor this) b.

Definition isSelected (this : t) : bool := selected this.

Definition containsPoint (this : t) (point : Point.t) : bool :=
    (Point.x point >=? Point.x (position this))
    && (Point.x point <=? Point.x (position this) + width this)
    && (Point.y point >=? Point.y (position this))
    && (Point.y point <=? Point.y (position this) + height this).

Definition with_geometry (this : t) (px py w h : num) : t :=
    mk (id this) (Point.mk px py) w h (backgroundColor this) (selected this).

  (* position.x += dx; position.y += dy *)
Definition translate (this : t) (delta : Point.t) : t :=
    with_geometry this (Point.x (position this) + Point.x delta)
                  (Point.y (position this) + Point.y delta)
                  (width this) (height this).

Definition isLeftHandle (h : ResizeHandle) : bool :=
    match h with LEFT | TOP_LEFT | BOTTOM_LEFT => true | _ => false end.

Definition isTopHandle (h : ResizeHandle) : bool :=
    match h with TOP | TOP_LEFT | TOP_RIGHT => true | _ => false end.

Definition resize (this : t) (handle : ResizeHandle) (delta : Point.t) : t :=
    let px := Point.x (position this) in
    let py := Point.y (position this) in
    let w := width this in
    let h := height this in
    let dx := Point.x delta in
    let dy := Point.y delta in
    let '(px1, py1, w1, h1) :=
      match handle with
      | TOP_LEFT => (px + dx, py + dy, w - dx, h - dy)
      | TOP => (px, py + dy, w, h - dy)
      | TOP_RIGHT => (px, py + dy, w + dx, h - dy)
      | RIGHT => (px, py, w + dx, h)
      | BOTTOM_RIGHT => (px, py, w + dx, h + dy)
      | BOTTOM => (px, py, w, h + dy)
      | BOTTOM_LEFT => (px + dx, py, w - dx, h + dy)
      | LEFT => (px + dx, py, w - dx, h)
      end in
    let minWidth := lit 400 in
    let minHeight := lit 300 in
    let '(px2, w2) :=
      if w1 <? minWidth
      then ((if isLeftHandle handle then px1 - (minWidth - w1) else px1),
            minWidth)
      else (px1, w1) in
    let '(py2, h2) :=
      if h1 <? minHeight
      then ((if isTopHandle handle then py1 - (minHeight - h1) else py1),
            minHeight)
      else (py1, h1) in
    with_geometry this px2 py2 w2 h2.

Definition isNearPoint (p1 p2 : Point.t) (threshold : num) : bool :=
    (nabs (Point.x p1 - Point.x p2) <=? threshold)
    && (nabs (Point.y p1 - Point.y p2) <=? threshold).

Definition getResizeHandleAtPoint (this : t) (point : Point.t)
      (handleSize : num) : option ResizeHandle :=
    let x := Point.x (position this) in
    let y := Point.y (position this) in
    let width := width this in
    let height := height this in
    let halfSize := handleSize / lit 2 in
    if isNearPoint point (Point.mk x y) halfSize then Some TOP_LEFT
    else if isNearPoint point (Point.mk (x + width) y) halfSize
    then Some TOP_RIGHT
    else if isNearPoint point (Point.mk (x + width) (y + height)) halfSize
    then Some BOTTOM_RIGHT
    else if isNearPoint point (Point.mk x (y + height)) halfSize
    then Some BOTTOM_LEFT
    else if isNearPoint point (Point.mk (x + width / lit 2) y) halfSize
    then Some TOP
    else if isNearPoint point (Point.mk (x + width) (y + height / lit 2)) halfSize
    then Some RIGHT
    else if isNearPoint point (Point.mk (x + width / lit 2) (y + height)) halfSize
    then Some BOTTOM
    else if isNearPoint point (Point.mk x (y + height / lit 2)) halfSize
    then Some LEFT
    else None.

  (* a new whiteboard with a fresh id; the selected flag is not copied *)
Definition clone (nextId : nat) (this : t) : t :=
    new nextId (Point.clone (position this)) (width this) (height this)
        (backgroundColor this).
End WithNumber.
End Whiteboard.

(** ** SelectionBox.ts *)

Module SelectionBox.
Section WithNumber.
  Context {N : JSNumber}.
  Local Open Scope js_scope.

Record t : Type := mk { startPoint : Point.t; endPoint : Point.t }.

Definition new (startPoint : Point.t) : t :=
    mk startPoint (Point.clone startPoint).

Definition updateEndPoint (this : t) (endPoint : Point.t) : t :=
    mk (startPoint this) endPoint.

Definition getTopLeft (this : t) : Point.t :=
    Point.mk (nmin (Point.x (startPoint this)) (Point.x (endPoint this)))
             (nmin (Point.y (startPoint this)) (Point.y (endPoint this))).

Definition getBottomRight (this : t) : Point.t :=
    Point.mk (nmax (Point.x (startPoint this)) (Point.x (endPoint this)))
             (nmax (Point.y (startPoint this)) (Point.y (endPoint this))).

Definition getWidth (this : t) : num :=
    nabs (Point.x (endPoint this) - Point.x (startPoint this)).

Definition getHeight (this : t) : num :=
    nabs (Point.y (endPoint this) - Point.y (startPoint this)).

Definition containsPoint (this : t) (point : Point.t) : bool :=
    let topLeft := getTopLeft this in
    let bottomRight := getBottomRight this in
    (Point.x point >=? Point.x topLeft)
    && (Point.x point <=? Point.x bottomRight)
    && (Point.y point >=? Point.y topLeft)
    && (Point.y point <=? Point.y bottomRight).

Definition intersectsRect (this : t) (center : Point.t) (width height : num)
      : bool :=
    let topLeft := getTopLeft this in
    let bottomRight := getBottomRight this in
    let rectLeft := Point.x center - width / lit 2 in
    let rectRight := Point.x center + width / lit 2 in
    let rectTop := Point.y center - height / lit 2 in
    let rectBottom := Point.y center + height / lit 2 in
    negb ((rectRight <? Point.x topLeft)
          || (rectLeft >? Point.x bottomRight)
          || (rectBottom <? Point.y topLeft)
          || (rectTop >? Point.y bottomRight)).

Definition intersectsCircle (this : t) (center : Point.t) (radius : num)
      : bool :=
    let topLeft := getTopLeft this in
    let bottomRight := getBottomRight this in
    let closestX :=
      nmax (Point.x topLeft) (nmin (Point.x center) (Point.x bottomRight)) in
    let closestY :=
      nmax (Point.y topLeft) (nmin (Point.y center) (Point.y bottomRight)) in
    let closestPoint := Point.mk closestX closestY in
    let distance := Point.distanceTo center closestPoint in
    distance <=? radius.

  (* isSignificant(minSize = 5) *)
Definition isSignificant (this : t) (minSize : num) : bool :=
    (getWidth this >=? minSize) || (getHeight this >=? minSize).
End WithNumber.
End SelectionBox.

(** ** The state shared by the classes: the [Node] objects, the static id
    counters and the console *)

Module Runtime.
Section WithNumber.
  Context {N : JSNumber}.

Record t : Type := mk {
    nodeStore : Node.store;
    arrowNextId : nat;
    textLabelNextId : nat;
    whiteboardNextId : nat;
    console : list string
  }.

Definition initial : t :=
    mk (Node.mkStore
          (fun _ => Node.mkFields (Point.mk (lit 0) (lit 0)) "" (lit 0)
                      false false Style.DEFAULT_STYLE HAND_DRAWN)
          0 0)
       0 0 0 [].

Definition with_nodeStore (rt : t) (s : Node.store) : t :=
    mk s (arrowNextId rt) (textLabelNextId rt) (whiteboardNextId rt)
       (console rt).

Definition log (rt : t) (msg : string) : t :=
    mk (nodeStore rt) (arrowNextId rt) (textLabelNextId rt)
       (whiteboardNextId rt) (console rt ++ [msg]).

Definition newNode (rt : t) (position : Point.t) (text : string)
      (style : option Style.StyleConfig) : t * Node.t :=
    let '(s, node) := Node.new (nodeStore rt) position text style in
    (with_nodeStore rt s, node).

Definition cloneNode (rt : t) (node : Node.t) : t * Node.t :=
    let '(s, copy) := Node.clone (nodeStore rt) node in
    (with_nodeStore rt s, copy).

Definition nodeFromJSON (rt : t) (data : Node.JSON) : t * Node.t :=
    let '(s, node) := Node.fromJSON (nodeStore rt) data in
    (with_nodeStore rt s, node).

Definition bumpArrow (rt : t) : t :=
    mk (nodeStore rt) (S (arrowNextId rt)) (textLabelNextId rt)
       (whiteboardNextId rt) (console rt).

Definition bumpTextLabel (rt : t) : t :=
    mk (nodeStore rt) (arrowNextId rt) (S (textLabelNextId rt))
       (whiteboardNextId rt) (console rt).

Definition bumpWhiteboard (rt : t) : t :=
    mk (nodeStore rt) (arrowNextId rt) (textLabelNextId rt)
       (S (whiteboardNextId rt)) (console rt).

Definition newArrow (rt : t) (fromNode toNode : Node.t)
      (strokeColor : option Color) (strokeWidth : option StrokeWidth)
      (lineStyle : option LineStyle) : t * Arrow.t :=
    (bumpArrow rt,
     Arrow.new (arrowNextId rt) fromNode toNode strokeColor strokeWidth
               lineStyle).

Definition arrowFromJSON (rt : t) (data : Arrow.JSON)
      (nodeMap : JsMap.t Node.t) : t * option Arrow.t :=
    match Arrow.fromJSON (arrowNextId rt) data nodeMap with
    | Some arrow => (bumpArrow rt, Some arrow)
    | None => (rt, None)
    end.

Definition newTextLabel (rt : t) (position : Point.t) (text : string)
      : t * TextLabel.t :=
    (bumpTextLabel rt, TextLabel.new (textLabelNextId rt) position text).

Definition cloneTextLabel (rt : t) (label : TextLabel.t) : t * TextLabel.t :=
    (bumpTextLabel rt, TextLabel.clone (textLabelNextId rt) label).

  (* TextLabel.fromJSON runs the constructor before it overwrites the id *)
Definition textLabelFromJSON (rt : t) (data : TextLabel.JSON)
      : t * TextLabel.t :=
    (bumpTextLabel rt, TextLabel.fromJSON data).

Definition newWhiteboard (rt : t) (position : Point.t) (width height : num)
      : t * Whiteboard.t :=
    (bumpWhiteboard rt,
     Whiteboard.new (whiteboardNextId rt) position width height "#ffffff").

Definition cloneWhiteboard (rt : t) (wb : Whiteboard.t) : t * Whiteboard.t :=
    (bumpWhiteboard rt, Whiteboard.clone (whiteboardNextId rt) wb).
End WithNumber.
End Runtime.

(** ** Diagram.ts *)

Inductive ElementType : Type := ElNode | ElArrow | ElText.

Record Hit : Type := mkHit { hit_type : ElementType; hit_id : string }.

Module Diagram.
Section WithNumber.
  Context {N : JSNumber}.
  Local Open Scope js_scope.

Record t : Type := mk {
    nodes : JsMap.t Node.t;
    arrows : JsMap.t Arrow.t;
    textLabels : JsMap.t TextLabel.t;
    whiteboards : JsMap.t Whiteboard.t;
    selectedElementIds : JsSet.t
  }.

Definition with_nodes (d : t) (m : JsMap.t Node.t) : t :=
    mk m (arrows d) (textLabels d) (whiteboards d) (selectedElementIds d).
Definition with_arrows (d : t) (m : JsMap.t Arrow.t) : t :=
    mk (nodes d) m (textLabels d) (whiteboards d) (selectedElementIds d).
Definition with_textLabels (d : t) (m : JsMap.t TextLabel.t) : t :=
    mk (nodes d) (arrows d) m (whiteboards d) (selectedElementIds d).
Definition with_whiteboards (d : t) (m : JsMap.t Whiteboard.t) : t :=
    mk (nodes d) (arrows d) (textLabels d) m (selectedElementIds d).
Definition with_selectedElementIds (d : t) (s : JsSet.t) : t :=
    mk (nodes d) (arrows d) (textLabels d) (whiteboards d) s.

Definition defaultWhiteboard (rt : Runtime.t) : Runtime.t * Whiteboard.t :=
    Runtime.newWhiteboard rt (Point.mk (lit (-800)) (lit (-600)))
                          (lit 1600) (lit 1200).

  (* constructor() *)
Definition new (rt : Runtime.t) : Runtime.t * t :=
    let '(rt1, wb) := defaultWhiteboard rt in
    (rt1, mk [] [] [] (JsMap.set (Whiteboard.id wb) wb []) []).

  (* get whiteboard(): the first whiteboard, created if there is none *)
Definition whiteboard (rt : Runtime.t) (this : t)
      : Runtime.t * t * Whiteboard.t :=
    match JsMap.values (whiteboards this) with
    | first :: _ => (rt, this, first)
    | [] =>
        let '(rt1, wb) := defaultWhiteboard rt in
        (rt1,
         with_whiteboards this
           (JsMap.set (Whiteboard.id wb) wb (whiteboards this)),
         wb)
    end.

Definition addNode (node : Node.t) (this : t) : t :=
    with_nodes this (JsMap.set (Node.id node) node (nodes this)).

Definition touches (nodeId : string) (arrow : Arrow.t) : bool :=
    String.eqb (Node.id (Arrow.fromNode arrow)) nodeId
    || String.eqb (Node.id (Arrow.toNode arrow)) nodeId.

Definition removeNode (nodeId : string) (this : t) : t :=
    let nodes1 := JsMap.delete nodeId (nodes this) in
    let arrowsToRemove :=
      map fst (filter (fun kv => touches nodeId (snd kv)) (arrows this)) in
    let arrows1 :=
      fold_left (fun m id => JsMap.delete id m) arrowsToRemove (arrows this) in
    mk nodes1 arrows1 (textLabels this) (whiteboards this)
       (JsSet.delete nodeId (selectedElementIds this)).

Definition getNode (nodeId : string) (this : t) : option Node.t :=
    JsMap.get nodeId (nodes this).

Definition getAllNodes (this : t) : list Node.t := JsMap.values (nodes this).

Definition addArrow (arrow : Arrow.t) (this : t) : t :=
    with_arrows this (JsMap.set (Arrow.id arrow) arrow (arrows this)).

Definition removeArrow (arrowId : string) (this : t) : t :=
    mk (nodes this) (JsMap.delete arrowId (arrows this)) (textLabels this)
       (whiteboards this) (JsSet.delete arrowId (selectedElementIds this)).

Definition getArrow (arrowId : string) (this : t) : option Arrow.t :=
    JsMap.get arrowId (arrows this).

Definition getAllArrows (this : t) : list Arrow.t :=
    JsMap.values (arrows this).

Definition addTextLabel (label : TextLabel.t) (this : t) : t :=
    with_textLabels this
      (JsMap.set (TextLabel.id label) label (textLabels this)).

Definition removeTextLabel (labelId : string) (this : t) : t :=
    mk (nodes this) (arrows this) (JsMap.delete labelId (textLabels this))
       (whiteboards this) (JsSet.delete labelId (selectedElementIds this)).

Definition getTextLabel (labelId : string) (this : t) : option TextLabel.t :=
    JsMap.get labelId (textLabels this).

Definition getAllTextLabels (this : t) : list TextLabel.t :=
    JsMap.values (textLabels this).

Definition addWhiteboard (wb : Whiteboard.t) (this : t) : t :=
    with_whiteboards this
      (JsMap.set (Whiteboard.id wb) wb (whiteboards this)).

Definition lastWhiteboardWarning : string :=
    "⚠️ Cannot delete the last whiteboard - there must be at least one".

Definition removeWhiteboard (whiteboardId : string) (rt : Runtime.t)
      (this : t) : Runtime.t * t :=
    if Nat.leb (JsMap.size (whiteboards this)) 1
    then (Runtime.log rt lastWhiteboardWarning, this)
    else (rt,
          mk (nodes this) (arrows this) (textLabels this)
             (JsMap.delete whiteboardId (whiteboards this))
             (JsSet.delete whiteboardId (selectedElementIds this))).

Definition clearAllWhiteboards (this : t) : t :=
    with_whiteboards this (JsMap.clear (whiteboards this)).

Definition getWhiteboard (whiteboardId : string) (this : t)
      : option Whiteboard.t :=
    JsMap.get whiteboardId (whiteboards this).

Definition getAllWhiteboards (this : t) : list Whiteboard.t :=
    JsMap.values (whiteboards this).

Definition getElementsInWhiteboard (s : Node.store) (whiteboardId : string)
      (this : t) : list string :=
    match JsMap.get whiteboardId (whiteboards this) with
    | None => []
    | Some wb =>
        map fst
          (filter (fun kv =>
                     Whiteboard.containsPoint wb
                       (Node.position (Node.read s (snd kv))))
                  (nodes this))
        ++ map fst
          (filter (fun kv =>
                     Whiteboard.containsPoint wb (TextLabel.position (snd kv)))
                  (textLabels this))
    end.

Definition getSelectedWhiteboard (this : t) : option Whiteboard.t :=
    find Whiteboard.isSelected (JsMap.values (whiteboards this)).

Definition duplicateWhiteboard (whiteboardId : string) (rt : Runtime.t)
      (this : t) : Runtime.t * t * option string :=
    match JsMap.get whiteboardId (whiteboards this) with
    | None => (rt, this, None)
    | Some original =>
        let '(rt1, duplicate0) := Runtime.cloneWhiteboard rt original in
        let gap := lit 50 in
        let duplicate1 :=
          Whiteboard.with_geometry duplicate0
            (Point.x (Whiteboard.position original)
             + Whiteboard.width original + gap)
            (Point.y (Whiteboard.position original))
            (Whiteboard.width duplicate0) (Whiteboard.height duplicate0) in
        let d1 :=
          with_whiteboards this
            (JsMap.update whiteboardId
               (fun wb => Whiteboard.setSelected wb false)
               (whiteboards this)) in
        let duplicate := Whiteboard.setSelected duplicate1 true in
        let d2 := addWhiteboard duplicate d1 in
        let d3 :=
          with_selectedElementIds d2
            (JsSet.add (Whiteboard.id duplicate)
               (JsSet.delete whiteboardId (selectedElementIds d2))) in
        (rt1, d3, Some (Whiteboard.id duplicate))
    end.

Definition findElementAtPoint (s : Node.store) (this : t) (point : Point.t)
      : option Hit :=
    match find (fun node => Node.containsPoint s node point)
               (JsMap.values (nodes this)) with
    | Some node => Some (mkHit ElNode (Node.id node))
    | None =>
        match find (fun label => TextLabel.containsPoint label point)
                   (JsMap.values (textLabels this)) with
        | Some label => Some (mkHit ElText (TextLabel.id label))
        | None =>
            match find (fun arrow => Arrow.containsPoint s arrow point (lit 10))
                       (JsMap.values (arrows this)) with
            | Some arrow => Some (mkHit ElArrow (Arrow.id arrow))
            | None => None
            end
        end
    end.

  (* the array of values is scanned from its last element down *)
Definition findWhiteboardAtPoint (this : t) (point : Point.t)
      : option Whiteboard.t :=
    find (fun wb => Whiteboard.containsPoint wb point)
         (rev (JsMap.values (whiteboards this))).

Definition arrowInBox (s : Node.store) (selectionBox : SelectionBox.t)
      (arrow : Arrow.t) : bool :=
    let startPoint := Arrow.getStartPoint s arrow in
    let endPoint := Arrow.getEndPoint s arrow in
    let midPoint :=
      Point.mk ((Point.x startPoint + Point.x endPoint) / lit 2)
               ((Point.y startPoint + Point.y endPoint) / lit 2) in
    SelectionBox.containsPoint selectionBox startPoint
    || SelectionBox.containsPoint selectionBox endPoint
    || SelectionBox.containsPoint selectionBox midPoint.

Definition findElementsInBox (s : Node.store) (this : t)
      (selectionBox : SelectionBox.t) : list string :=
    map Node.id
      (filter (fun node =>
                 SelectionBox.intersectsCircle selectionBox
                   (Node.position (Node.read s node))
                   (Node.radius (Node.read s node)))
              (JsMap.values (nodes this)))
    ++ map TextLabel.id
      (filter (fun label =>
                 SelectionBox.intersectsRect selectionBox
                   (TextLabel.position label) (TextLabel.width label)
                   (TextLabel.height label))
              (JsMap.values (textLabels this)))
    ++ map Arrow.id
      (filter (arrowInBox s selectionBox) (JsMap.values (arrows this))).

  (** The mirrored [selected] flag of whatever entity carries the id. *)
Definition flagNode (id : string) (b : bool) (rt : Runtime.t) (d : t)
      : Runtime.t :=
    match JsMap.get id (nodes d) with
    | Some node =>
        Runtime.with_nodeStore rt (Node.setSelected (Runtime.nodeStore rt) node b)
    | None => rt
    end.

Definition flagArrow (id : string) (b : bool) (d : t) : t :=
    with_arrows d
      (JsMap.update id (fun a => Arrow.setSelected a b) (arrows d)).

Definition flagLabel (id : string) (b : bool) (d : t) : t :=
    with_textLabels d
      (JsMap.update id (fun l => TextLabel.setSelected l b) (textLabels d)).

Definition flagWhiteboard (id : string) (b : bool) (d : t) : t :=
    with_whiteboards d
      (JsMap.update id (fun w => Whiteboard.setSelected w b) (whiteboards d)).

Definition clearSelection (rt : Runtime.t) (this : t) : Runtime.t * t :=
    let '(rt1, d1) :=
      fold_left
        (fun (st : Runtime.t * t) id =>
           let '(rt0, d0) := st in
           (flagNode id false rt0 d0,
            flagWhiteboard id false (flagLabel id false (flagArrow id false d0))))
        (selectedElementIds this) (rt, this) in
    (rt1, with_selectedElementIds d1 []).

Definition selectElements (elementIds : list string) (addToSelection : bool)
      (rt : Runtime.t) (this : t) : Runtime.t * t :=
    fold_left
      (fun (st : Runtime.t * t) id =>
         let '(rt0, d0) := st in
         let d1 :=
           with_selectedElementIds d0 (JsSet.add id (selectedElementIds d0)) in
         (flagNode id true rt0 d1, flagLabel id true (flagArrow id true d1)))
      elementIds
      (if addToSelection then (rt, this) else clearSelection rt this).

Definition selectElement (elementId : string) (addToSelection : bool)
      (rt : Runtime.t) (this : t) : Runtime.t * t :=
    let '(rt0, d0) :=
      if addToSelection then (rt, this) else clearSelection rt this in
    let d1 :=
      with_selectedElementIds d0
        (JsSet.add elementId (selectedElementIds d0)) in
    (flagNode elementId true rt0 d1,
     flagLabel elementId true
       (flagWhiteboard elementId true (flagArrow elementId true d1))).

Definition deselectElement (elementId : string) (rt : Runtime.t) (this : t)
      : Runtime.t * t :=
    let d1 :=
      with_selectedElementIds this
        (JsSet.delete elementId (selectedElementIds this)) in
    (flagNode elementId false rt d1,
     flagWhiteboard elementId false
       (flagLabel elementId false (flagArrow elementId false d1))).

Definition getSelectedIds (this : t) : list string :=
    selectedElementIds this.

Definition deleteSelected (rt : Runtime.t) (this : t) : Runtime.t * t :=
    let idsToDelete := selectedElementIds this in
    let '(rt1, d1) :=
      fold_left
        (fun (st : Runtime.t * t) id =>
           let '(rt0, d0) := st in
           if JsMap.has id (nodes d0) then (rt0, removeNode id d0)
           else if JsMap.has id (arrows d0) then (rt0, removeArrow id d0)
           else if JsMap.has id (textLabels d0)
           then (rt0, removeTextLabel id d0)
           else if JsMap.has id (whiteboards d0)
           then removeWhiteboard id rt0 d0
           else (rt0, d0))
        idsToDelete (rt, this) in
    (rt1, with_selectedElementIds d1 []).

Definition selectAll (rt : Runtime.t) (this : t) : Runtime.t * t :=
    let '(rt1, d1) := clearSelection rt this in
    let rt2 :=
      fold_left
        (fun rt0 node =>
           Runtime.with_nodeStore rt0
             (Node.setSelected (Runtime.nodeStore rt0) node true))
        (JsMap.values (nodes d1)) rt1 in
    let sel :=
      fold_left (fun s id => JsSet.add id s)
        (map Node.id (JsMap.values (nodes d1))
         ++ map Arrow.id (JsMap.values (arrows d1))
         ++ map TextLabel.id (JsMap.values (textLabels d1)))
        (selectedElementIds d1) in
    (rt2,
     mk (nodes d1)
        (map (fun kv => (fst kv, Arrow.setSelected (snd kv) true)) (arrows d1))
        (map (fun kv => (fst kv, TextLabel.setSelected (snd kv) true))
             (textLabels d1))
        (whiteboards d1) sel).

  (** [duplicateSelected]: the three passes over the selection. *)
Definition offset : num := lit 20.

Definition duplicateNode
      (st : Runtime.t * t * JsMap.t Node.t * list string) (id : string)
      : Runtime.t * t * JsMap.t Node.t * list string :=
    let '(rt, d, nodeIdMap, newIds) := st in
    match JsMap.get id (nodes d) with
    | Some node =>
        let '(rt1, newNode) := Runtime.cloneNode rt node in
        let p := Node.position (Node.read (Runtime.nodeStore rt1) node) in
        let s2 :=
          Node.moveTo (Runtime.nodeStore rt1) newNode
            (Point.mk (Point.x p + offset) (Point.y p + offset)) in
        let s3 := Node.setSelected s2 newNode false in
        (Runtime.with_nodeStore rt1 s3, addNode newNode d,
         JsMap.set id newNode nodeIdMap, newIds ++ [Node.id newNode])
    | None => st
    end.

Definition duplicateLabel (st : Runtime.t * t * list string) (id : string)
      : Runtime.t * t * list string :=
    let '(rt, d, newIds) := st in
    match JsMap.get id (textLabels d) with
    | Some label =>
        let '(rt1, newLabel0) := Runtime.cloneTextLabel rt label in
        let newLabel1 :=
          TextLabel.moveTo newLabel0
            (Point.mk (Point.x (TextLabel.position label) + offset)
                      (Point.y (TextLabel.position label) + offset)) in
        let newLabel := TextLabel.setSelected newLabel1 false in
        (rt1, addTextLabel newLabel d, newIds ++ [TextLabel.id newLabel])
    | None => st
    end.

Definition duplicateArrow (nodeIdMap : JsMap.t Node.t)
      (st : Runtime.t * t * list string) (id : string)
      : Runtime.t * t * list string :=
    let '(rt, d, newIds) := st in
    match JsMap.get id (arrows d) with
    | Some arrow =>
        match JsMap.get (Node.id (Arrow.fromNode arrow)) nodeIdMap,
              JsMap.get (Node.id (Arrow.toNode arrow)) nodeIdMap with
        | Some newFromNode, Some newToNode =>
            let '(rt1, newArrow) :=
              Runtime.newArrow rt newFromNode newToNode
                (Some (Arrow.strokeColor arrow))
                (Some (Arrow.strokeWidth arrow))
                (Some (Arrow.lineStyle arrow)) in
            (rt1, addArrow newArrow d, newIds ++ [Arrow.id newArrow])
        | _, _ => st
        end
    | None => st
    end.

Definition duplicateSelected (rt : Runtime.t) (this : t)
      : Runtime.t * t * list string :=
    let selection := selectedElementIds this in
    let '(rt1, d1, nodeIdMap, ids1) :=
      fold_left duplicateNode selection (rt, this, [], []) in
    let '(rt2, d2, ids2) :=
      fold_left duplicateLabel selection (rt1, d1, ids1) in
    let '(rt3, d3, newIds) :=
      fold_left (duplicateArrow nodeIdMap) selection (rt2, d2, ids2) in
    let '(rt4, d4) := clearSelection rt3 d3 in
    let '(rt5, d5) := selectElements newIds false rt4 d4 in
    (rt5, d5, newIds).

Definition clear (rt : Runtime.t) (this : t) : Runtime.t * t :=
    let '(rt1, wb) := defaultWhiteboard rt in
    (rt1, mk [] [] [] (JsMap.set (Whiteboard.id wb) wb []) []).

  (** Serialization.  [JSON] is the object that [toJSON] returns, before it
      is turned into text.  In it a whiteboard entry also carries
      [isSelected: wb.isSelected], the method itself rather than its
      result; [fromJSON] assigns it to the restored whiteboard
      ([wb.isSelected = wbData.isSelected || false]), which puts the same
      method in place again and leaves the whiteboard unselected, as the
      constructor made it.  The model has no function values and omits the
      member.  An object read from JSON text has lost that member (a
      function is not written to text); [fromJSON] then stores [false] in
      place of the method, and a later call of [isSelected()] on such a
      whiteboard fails.  Objects read from text are not covered by
      [fromJSON] below. *)
Record WhiteboardJSON : Type := mkWhiteboardJSON {
    wj_id : string;
    wj_position : Point.t;
    wj_width : num;
    wj_height : num
  }.

Record JSON : Type := mkJSON {
    j_nodes : list Node.JSON;
    j_arrows : list Arrow.JSON;
    j_textLabels : list TextLabel.JSON;
    j_whiteboards : list WhiteboardJSON
  }.

Definition toJSON (rt : Runtime.t) (this : t) : JSON :=
    mkJSON
      (map (Node.toJSON (Runtime.nodeStore rt)) (JsMap.values (nodes this)))
      (map Arrow.toJSON (JsMap.values (arrows this)))
      (map TextLabel.toJSON (JsMap.values (textLabels this)))
      (map (fun wb =>
              mkWhiteboardJSON (Whiteboard.id wb)
                (Point.mk (Point.x (Whiteboard.position wb))
                          (Point.y (Whiteboard.position wb)))
                (Whiteboard.width wb) (Whiteboard.height wb))
           (JsMap.values (whiteboards this))).

Definition skippedArrowWarning : string :=
    "Skipping arrow due to missing nodes:".

Definition restoreWhiteboard (st : Runtime.t * t) (wbData : WhiteboardJSON)
      : Runtime.t * t :=
    let '(rt, d) := st in
    let '(rt1, wb0) :=
      Runtime.newWhiteboard rt
        (Point.mk (Point.x (wj_position wbData)) (Point.y (wj_position wbData)))
        (wj_width wbData) (wj_height wbData) in
    let wb :=
      Whiteboard.mk (wj_id wbData) (Whiteboard.position wb0)
        (Whiteboard.width wb0) (Whiteboard.height wb0)
        (Whiteboard.backgroundColor wb0) (Whiteboard.selected wb0) in
    (rt1, with_whiteboards d (JsMap.set (Whiteboard.id wb) wb (whiteboards d))).

Definition restoreNode (st : Runtime.t * t * JsMap.t Node.t)
      (nodeData : Node.JSON) : Runtime.t * t * JsMap.t Node.t :=
    let '(rt, d, nodeMap) := st in
    let '(rt1, node) := Runtime.nodeFromJSON rt nodeData in
    (rt1, with_nodes d (JsMap.set (Node.id node) node (nodes d)),
     JsMap.set (Node.id node) node nodeMap).

Definition restoreArrow (nodeMap : JsMap.t Node.t) (st : Runtime.t * t)
      (arrowData : Arrow.JSON) : Runtime.t * t :=
    let '(rt, d) := st in
    match Runtime.arrowFromJSON rt arrowData nodeMap with
    | (rt1, Some arrow) =>
        (rt1, with_arrows d (JsMap.set (Arrow.id arrow) arrow (arrows d)))
    | (rt1, None) => (Runtime.log rt1 skippedArrowWarning, d)
    end.

Definition restoreLabel (st : Runtime.t * t) (labelData : TextLabel.JSON)
      : Runtime.t * t :=
    let '(rt, d) := st in
    let '(rt1, label) := Runtime.textLabelFromJSON rt labelData in
    (rt1,
     with_textLabels d
       (JsMap.set (TextLabel.id label) label (textLabels d))).

Definition fromJSON (rt : Runtime.t) (data : JSON) : Runtime.t * t :=
    let '(rt0, diagram0) := new rt in
    let diagram := with_whiteboards diagram0 (JsMap.clear (whiteboards diagram0)) in
    let '(rt1, d1) :=
      match j_whiteboards data with
      | _ :: _ => fold_left restoreWhiteboard (j_whiteboards data) (rt0, diagram)
      | [] =>
          let '(rt', wb) := defaultWhiteboard rt0 in
          (rt', with_whiteboards diagram
                  (JsMap.set (Whiteboard.id wb) wb (whiteboards diagram)))
      end in
    let '(rt2, d2, nodeMap) :=
      fold_left restoreNode (j_nodes data) (rt1, d1, []) in
    let '(rt3, d3) :=
      fold_left (restoreArrow nodeMap) (j_arrows data) (rt2, d2) in
    fold_left restoreLabel (j_textLabels data) (rt3, d3).
End WithNumber.
End Diagram.

(** ** InteractionManager.ts

    The laser trail (time-stamped points pruned by [Date.now]) is transient
    display state that no handler reads back; it is left out of the state.
    [onToolChange] records whether a callback is installed; calling a
    callback appends a notification to [emitted]. *)

Inductive Tool : Type := SELECT | NODE | ARROW | TEXT | PAN | LASER.

Inductive InteractionMode : Type :=
  | IDLE | DRAGGING | CREATING_ARROW | EDITING_TEXT
  | PANNING | BOX_SELECTING | RESIZING_WHITEBOARD | LASER_ACTIVE.

Inductive Notification : Type :=
  | Update
  | ToolChange (tool : Tool)
  | RequestTextEdit (elementId : string) (initialText : string).

Definition Tool_eqb (a b : Tool) : bool :=
  match a, b with
  | SELECT, SELECT | NODE, NODE | ARROW, ARROW
  | TEXT, TEXT | PAN, PAN | LASER, LASER => true
  | _, _ => false
  end.

Definition Mode_eqb (a b : InteractionMode) : bool :=
  match a, b with
  | IDLE, IDLE | DRAGGING, DRAGGING | CREATING_ARROW, CREATING_ARROW
  | EDITING_TEXT, EDITING_TEXT | PANNING, PANNING
  | BOX_SELECTING, BOX_SELECTING
  | RESIZING_WHITEBOARD, RESIZING_WHITEBOARD
  | LASER_ACTIVE, LASER_ACTIVE => true
  | _, _ => false
  end.

Module InteractionManager.
Section WithNumber.
  Context {N : JSNumber}.
  Local Open Scope js_scope.

Record t : Type := mk {
    diagram : Diagram.t;
    currentTool : Tool;
    mode : InteractionMode;
    dragStartPoint : option Point.t;
    draggedElementId : option string;
    arrowStartNode : option Node.t;
    mousePosition : Point.t;
    panOffset : Point.t;
    panStartOffset : Point.t;
    panStartScreenPoint : option Point.t;
    selectionBox : option SelectionBox.t;
    resizingHandle : option ResizeHandle;
    onToolChange : bool;
    emitted : list Notification
  }.

  (* constructor(diagram) *)
Definition new (diagram : Diagram.t) : t :=
    mk diagram SELECT IDLE None None None
       (Point.mk (lit 0) (lit 0)) (Point.mk (lit 0) (lit 0))
       (Point.mk (lit 0) (lit 0)) None None None false [].

Definition with_diagram (m : t) (d : Diagram.t) : t :=
    mk d (currentTool m) (mode m) (dragStartPoint m) (draggedElementId m)
       (arrowStartNode m) (mousePosition m) (panOffset m) (panStartOffset m)
       (panStartScreenPoint m) (selectionBox m) (resizingHandle m)
       (onToolChange m) (emitted m).
Definition with_currentTool (m : t) (x : Tool) : t :=
    mk (diagram m) x (mode m) (dragStartPoint m) (draggedElementId m)
       (arrowStartNode m) (mousePosition m) (panOffset m) (panStartOffset m)
       (panStartScreenPoint m) (selectionBox m) (resizingHandle m)
       (onToolChange m) (emitted m).
Definition with_mode (m : t) (x : InteractionMode) : t :=
    mk (diagram m) (currentTool m) x (dragStartPoint m) (draggedElementId m)
       (arrowStartNode m) (mousePosition m) (panOffset m) (panStartOffset m)
       (panStartScreenPoint m) (selectionBox m) (resizingHandle m)
       (onToolChange m) (emitted m).
Definition with_dragStartPoint (m : t) (x : option Point.t) : t :=
    mk (diagram m) (currentTool m) (mode m) x (draggedElementId m)
       (arrowStartNode m) (mousePosition m) (panOffset m) (panStartOffset m)
       (panStartScreenPoint m) (selectionBox m) (resizingHandle m)
       (onToolChange m) (emitted m).
Definition with_draggedElementId (m : t) (x : option string) : t :=
    mk (diagram m) (currentTool m) (mode m) (dragStartPoint m) x
       (arrowStartNode m) (mousePosition m) (panOffset m) (panStartOffset m)
       (panStartScreenPoint m) (selectionBox m) (resizingHandle m)
       (onToolChange m) (emitted m).
Definition with_arrowStartNode (m : t) (x : option Node.t) : t :=
    mk (diagram m) (currentTool m) (mode m) (dragStartPoint m)
       (draggedElementId m) x (mousePosition m) (panOffset m)
       (panStartOffset m) (panStartScreenPoint m) (selectionBox m)
       (resizingHandle m) (onToolChange m) (emitted m).
Definition with_mousePosition (m : t) (x : Point.t) : t :=
    mk (diagram m) (currentTool m) (mode m) (dragStartPoint m)
       (draggedElementId m) (arrowStartNode m) x (panOffset m)
       (panStartOffset m) (panStartScreenPoint m) (selectionBox m)
       (resizingHandle m) (onToolChange m) (emitted m).
Definition with_panOffset (m : t) (x : Point.t) : t :=
    mk (diagram m) (currentTool m) (mode m) (dragStartPoint m)
       (draggedElementId m) (arrowStartNode m) (mousePosition m) x
       (panStartOffset m) (panStartScreenPoint m) (selectionBox m)
       (resizingHandle m) (onToolChange m) (emitted m).
Definition with_panStartOffset (m : t) (x : Point.t) : t :=
    mk (diagram m) (currentTool m) (mode m) (dragStartPoint m)
       (draggedElementId m) (arrowStartNode m) (mousePosition m) (panOffset m)
       x (panStartScreenPoint m) (selectionBox m)
       (resizingHandle m) (onToolChange m) (emitted m).
Definition with_panStartScreenPoint (m : t) (x : option Point.t) : t :=
    mk (diagram m) (currentTool m) (mode m) (dragStartPoint m)
       (draggedElementId m) (arrowStartNode m) (mousePosition m) (panOffset m)
       (panStartOffset m) x (selectionBox m)
       (resizingHandle m) (onToolChange m) (emitted m).
Definition with_selectionBox (m : t) (x : option SelectionBox.t) : t :=
    mk (diagram m) (currentTool m) (mode m) (dragStartPoint m)
       (draggedElementId m) (arrowStartNode m) (mousePosition m) (panOffset m)
       (panStartOffset m) (panStartScreenPoint m) x
       (resizingHandle m) (onToolChange m) (emitted m).
Definition with_resizingHandle (m : t) (x : option ResizeHandle) : t :=
    mk (diagram m) (currentTool m) (mode m) (dragStartPoint m)
       (draggedElementId m) (arrowStartNode m) (mousePosition m) (panOffset m)
       (panStartOffset m) (panStartScreenPoint m) (selectionBox m)
       x (onToolChange m) (emitted m).
Definition with_onToolChange (m : t) (x : bool) : t :=
    mk (diagram m) (currentTool m) (mode m) (dragStartPoint m)
       (draggedElementId m) (arrowStartNode m) (mousePosition m) (panOffset m)
       (panStartOffset m) (panStartScreenPoint m) (selectionBox m)
       (resizingHandle m) x (emitted m).
Definition emit (m : t) (n : Notification) : t :=
    mk (diagram m) (currentTool m) (mode m) (dragStartPoint m)
       (draggedElementId m) (arrowStartNode m) (mousePosition m) (panOffset m)
       (panStartOffset m) (panStartScreenPoint m) (selectionBox m)
       (resizingHandle m) (onToolChange m) (emitted m ++ [n]).

Definition onUpdate (m : t) : t := emit m Update.

  (* if (this.onToolChange) this.onToolChange(tool) *)
Definition requestTool (m : t) (tool : Tool) : t :=
    if onToolChange m then emit m (ToolChange tool) else m.

Definition setOnToolChange (m : t) : t := with_onToolChange m true.

Definition setTool (tool : Tool) (this : t) : t :=
    let m0 :=
      if Tool_eqb (currentTool this) LASER && negb (Tool_eqb tool LASER)
      then onUpdate this else this in
    with_arrowStartNode (with_mode (with_currentTool m0 tool) IDLE) None.

Definition getTool (this : t) : Tool := currentTool this.
Definition getMode (this : t) : InteractionMode := mode this.

Definition deselectAllWhiteboards (d : Diagram.t) : Diagram.t :=
    Diagram.with_whiteboards d
      (map (fun kv => (fst kv, Whiteboard.setSelected (snd kv) false))
           (Diagram.whiteboards d)).

Definition markDragging (id : string) (b : bool) (rt : Runtime.t)
      (d : Diagram.t) : Runtime.t * Diagram.t :=
    let rt1 :=
      match Diagram.getNode id d with
      | Some node =>
          Runtime.with_nodeStore rt
            (Node.setDragging (Runtime.nodeStore rt) node b)
      | None => rt
      end in
    (rt1,
     Diagram.with_textLabels d
       (JsMap.update id (fun l => TextLabel.setDragging l b)
                     (Diagram.textLabels d))).

Definition handleSelectMouseDown (point : Point.t) (element : option Hit)
      (shiftKey : bool) (rt : Runtime.t) (this : t) : Runtime.t * t :=
    let d := diagram this in
    let handle :=
      match Diagram.getSelectedWhiteboard d with
      | Some selectedWhiteboard =>
          Whiteboard.getResizeHandleAtPoint selectedWhiteboard point (lit 12)
      | None => None
      end in
    match handle with
    | Some h =>
        (rt, with_resizingHandle (with_mode this RESIZING_WHITEBOARD) (Some h))
    | None =>
        match element with
        | Some el =>
            let d1 := deselectAllWhiteboards d in
            let wasAlreadySelected :=
              JsSet.has (hit_id el) (Diagram.getSelectedIds d1) in
            let '(rt2, d2) :=
              if negb shiftKey
              then if negb wasAlreadySelected
                   then Diagram.selectElement (hit_id el) false rt d1
                   else (rt, d1)
              else Diagram.selectElement (hit_id el) true rt d1 in
            match hit_type el with
            | ElNode | ElText =>
                let '(rt3, d3) := markDragging (hit_id el) true rt2 d2 in
                (rt3,
                 with_diagram
                   (with_draggedElementId (with_mode this DRAGGING)
                      (Some (hit_id el)))
                   d3)
            | ElArrow => (rt2, with_diagram this d2)
            end
        | None =>
            match Diagram.findWhiteboardAtPoint d point with
            | Some clickedWhiteboard =>
                let '(rt1, d1) := Diagram.clearSelection rt d in
                let d2 :=
                  Diagram.flagWhiteboard (Whiteboard.id clickedWhiteboard)
                    true d1 in
                let '(rt3, d3) :=
                  Diagram.selectElement (Whiteboard.id clickedWhiteboard)
                    false rt1 d2 in
                (rt3,
                 with_diagram
                   (with_draggedElementId (with_mode this DRAGGING)
                      (Some (Whiteboard.id clickedWhiteboard)))
                   d3)
            | None =>
                let d1 := deselectAllWhiteboards d in
                let '(rt2, d2) :=
                  if negb shiftKey then Diagram.clearSelection rt d1
                  else (rt, d1) in
                (rt2,
                 with_diagram
                   (with_mode
                      (with_selectionBox this (Some (SelectionBox.new point)))
                      BOX_SELECTING)
                   d2)
            end
        end
    end.

Definition handleNodeCreation (point : Point.t) (rt : Runtime.t) (this : t)
      : Runtime.t * t :=
    let '(rt1, node) := Runtime.newNode rt point "New Node" None in
    let d1 := Diagram.addNode node (diagram this) in
    let '(rt2, d2) := Diagram.selectElement (Node.id node) false rt1 d1 in
    (rt2, requestTool (with_diagram this d2) ARROW).

Definition handleArrowCreationStart (element : option Hit) (this : t) : t :=
    match element with
    | Some (mkHit ElNode id) =>
        match Diagram.getNode id (diagram this) with
        | Some node =>
            with_mode (with_arrowStartNode this (Some node)) CREATING_ARROW
        | None => this
        end
    | _ => this
    end.

Definition handleTextCreation (point : Point.t) (rt : Runtime.t) (this : t)
      : Runtime.t * t :=
    let '(rt1, label) := Runtime.newTextLabel rt point "Text" in
    let d1 := Diagram.addTextLabel label (diagram this) in
    let '(rt2, d2) := Diagram.selectElement (TextLabel.id label) false rt1 d1 in
    (rt2, requestTool (with_diagram this d2) SELECT).

Definition handleMouseDown (point : Point.t) (shiftKey : bool)
      (rt : Runtime.t) (this : t) : Runtime.t * t :=
    let m0 := with_mousePosition (with_dragStartPoint this (Some point)) point in
    let element :=
      Diagram.findElementAtPoint (Runtime.nodeStore rt) (diagram m0) point in
    let '(rt1, m1) :=
      match currentTool m0 with
      | SELECT => handleSelectMouseDown point element shiftKey rt m0
      | NODE => handleNodeCreation point rt m0
      | ARROW => (rt, handleArrowCreationStart element m0)
      | TEXT => handleTextCreation point rt m0
      | PAN =>
          (rt,
           with_panStartScreenPoint
             (with_panStartOffset (with_mode m0 PANNING)
                (Point.clone (panOffset m0)))
             None)
      | LASER => (rt, with_mode m0 LASER_ACTIVE)
      end in
    (rt1, onUpdate m1).

  (** Pointer move. *)
Definition moveElement (delta : Point.t) (st : Runtime.t * Diagram.t)
      (id : string) : Runtime.t * Diagram.t :=
    let '(rt, d) := st in
    let rt1 :=
      match Diagram.getNode id d with
      | Some node =>
          Runtime.with_nodeStore rt
            (Node.moveBy (Runtime.nodeStore rt) node delta)
      | None => rt
      end in
    (rt1,
     Diagram.with_textLabels d
       (JsMap.update id (fun l => TextLabel.moveBy l delta)
                     (Diagram.textLabels d))).

Definition dragElement (delta : Point.t) (st : Runtime.t * Diagram.t)
      (id : string) : Runtime.t * Diagram.t :=
    let '(rt1, d1) := moveElement delta st id in
    match Diagram.getWhiteboard id d1 with
    | Some _ =>
        (* the whiteboard moves first; its contents are looked up after *)
        let d2 :=
          Diagram.with_whiteboards d1
            (JsMap.update id (fun w => Whiteboard.translate w delta)
                          (Diagram.whiteboards d1)) in
        fold_left (moveElement delta)
          (Diagram.getElementsInWhiteboard (Runtime.nodeStore rt1) id d2)
          (rt1, d2)
    | None => (rt1, d1)
    end.

Definition handleDragging (point : Point.t) (rt : Runtime.t) (this : t)
      : Runtime.t * t :=
    match dragStartPoint this with
    | None => (rt, this)
    | Some start =>
        let delta := Point.subtract point start in
        let selectedIds := Diagram.getSelectedIds (diagram this) in
        let '(rt1, d1) :=
          fold_left (dragElement delta) selectedIds (rt, diagram this) in
        (rt1,
         onUpdate (with_dragStartPoint (with_diagram this d1) (Some point)))
    end.

Definition handlePanning (point : Point.t) (this : t) : t :=
    match dragStartPoint this with
    | None => this
    | Some start =>
        let delta := Point.subtract point start in
        onUpdate (with_panOffset this (Point.add (panStartOffset this) delta))
    end.

Definition handleBoxSelecting (point : Point.t) (rt : Runtime.t) (this : t)
      : Runtime.t * t :=
    match selectionBox this with
    | None => (rt, this)
    | Some box0 =>
        let box := SelectionBox.updateEndPoint box0 point in
        let elementsInBox :=
          Diagram.findElementsInBox (Runtime.nodeStore rt) (diagram this) box in
        let '(rt1, d1) := Diagram.clearSelection rt (diagram this) in
        let '(rt2, d2) :=
          if Nat.ltb 0 (List.length elementsInBox)
          then Diagram.selectElements elementsInBox false rt1 d1
          else (rt1, d1) in
        (rt2, onUpdate (with_diagram (with_selectionBox this (Some box)) d2))
    end.

Definition handleResizingWhiteboard (point : Point.t) (this : t) : t :=
    match dragStartPoint this, resizingHandle this with
    | Some start, Some handle =>
        match Diagram.getSelectedWhiteboard (diagram this) with
        | None => this
        | Some selectedWhiteboard =>
            let delta := Point.subtract point start in
            let d1 :=
              Diagram.with_whiteboards (diagram this)
                (JsMap.update (Whiteboard.id selectedWhiteboard)
                   (fun w => Whiteboard.resize w handle delta)
                   (Diagram.whiteboards (diagram this))) in
            onUpdate (with_dragStartPoint (with_diagram this d1) (Some point))
        end
    | _, _ => this
    end.

Definition handleMouseMove (point : Point.t) (rt : Runtime.t) (this : t)
      : Runtime.t * t :=
    let m0 := with_mousePosition this point in
    if Mode_eqb (mode m0) LASER_ACTIVE then (rt, onUpdate m0)
    else
      match dragStartPoint m0 with
      | None => (rt, m0)
      | Some _ =>
          match mode m0 with
          | DRAGGING => handleDragging point rt m0
          | CREATING_ARROW => (rt, onUpdate m0)
          | PANNING => (rt, handlePanning point m0)
          | BOX_SELECTING => handleBoxSelecting point rt m0
          | RESIZING_WHITEBOARD => (rt, handleResizingWhiteboard point m0)
          | _ => (rt, m0)
          end
      end.

  (** Pointer up.  [completeArrow] is the first block of [handleMouseUp];
      its boolean result tells whether the handler returned from inside it. *)
Definition completeArrow (point : Point.t) (rt : Runtime.t) (this : t)
      : Runtime.t * t * bool :=
    match mode this, arrowStartNode this with
    | CREATING_ARROW, Some start =>
        let s := Runtime.nodeStore rt in
        match Diagram.findElementAtPoint s (diagram this) point with
        | Some el =>
            match hit_type el with
            | ElNode =>
                if negb (String.eqb (hit_id el) (Node.id start)) then
                  match Diagram.getNode (hit_id el) (diagram this) with
                  | Some endNode =>
                      let '(rt1, arrow) :=
                        Runtime.newArrow rt start endNode None None None in
                      (rt1,
                       with_arrowStartNode
                         (with_diagram this
                            (Diagram.addArrow arrow (diagram this)))
                         None,
                       false)
                  | None => (rt, with_arrowStartNode this None, false)
                  end
                else (rt, with_arrowStartNode this None, false)
            | _ => (rt, with_arrowStartNode this None, false)
            end
        | None =>
            let distance :=
              Point.distanceTo (Node.position (Node.read s start)) point in
            let minDistance := Node.radius (Node.read s start) + lit 80 in
            if distance >=? minDistance then
              let '(rt1, newNode) := Runtime.newNode rt point "New Node" None in
              let d1 := Diagram.addNode newNode (diagram this) in
              let '(rt2, d2) :=
                Diagram.selectElement (Node.id newNode) false rt1 d1 in
              let '(rt3, arrow) :=
                Runtime.newArrow rt2 start newNode None None None in
              let d3 := Diagram.addArrow arrow d2 in
              (rt3, with_arrowStartNode (with_diagram this d3) None, true)
            else (rt, with_arrowStartNode this None, false)
        end
    | _, _ => (rt, this, false)
    end.

Definition completeBoxSelection (rt : Runtime.t) (this : t)
      : Runtime.t * t :=
    match mode this, selectionBox this with
    | BOX_SELECTING, Some box =>
        let '(rt1, d1) :=
          if SelectionBox.isSignificant box (lit 5)
          then
            Diagram.selectElements
              (Diagram.findElementsInBox (Runtime.nodeStore rt) (diagram this)
                 box)
              false rt (diagram this)
          else (rt, diagram this) in
        (rt1, with_selectionBox (with_diagram this d1) None)
    | _, _ => (rt, this)
    end.

  (* a string is truthy unless it is empty *)
Definition truthy (o : option string) : option string :=
    match o with
    | Some EmptyString => None
    | other => other
    end.

Definition clearDragging (rt : Runtime.t) (this : t) : Runtime.t * t :=
    match truthy (draggedElementId this) with
    | Some id =>
        let '(rt1, d1) := markDragging id false rt (diagram this) in
        (rt1, with_draggedElementId (with_diagram this d1) None)
    | None => (rt, this)
    end.

Definition handleMouseUp (point : Point.t) (rt : Runtime.t) (this : t)
      : Runtime.t * t :=
    let m0 := with_mousePosition this point in
    let '(rt1, m1, returned) := completeArrow point rt m0 in
    if returned then (rt1, m1)
    else
      let '(rt2, m2) := completeBoxSelection rt1 m1 in
      let m3 := if Mode_eqb (mode m2) LASER_ACTIVE then with_mode m2 IDLE else m2 in
      let '(rt4, m4) := clearDragging rt2 m3 in
      let m5 :=
        if Mode_eqb (mode m4) RESIZING_WHITEBOARD
        then with_resizingHandle m4 None else m4 in
      let m6 := with_dragStartPoint m5 None in
      let m7 :=
        if negb (Mode_eqb (mode m6) EDITING_TEXT) then with_mode m6 IDLE
        else m6 in
      (rt4, onUpdate m7).

Definition handleDoubleClick (point : Point.t) (rt : Runtime.t) (this : t)
      : Runtime.t * t :=
    let s := Runtime.nodeStore rt in
    let elementNodeOrText :=
      match Diagram.findElementAtPoint s (diagram this) point with
      | Some (mkHit ElNode id) | Some (mkHit ElText id) => Some id
      | _ => None
      end in
    match elementNodeOrText with
    | Some id =>
        let '(rt1, m1) := clearDragging rt this in
        match Diagram.getNode id (diagram m1) with
        | Some node =>
            (rt1,
             emit (with_mode m1 EDITING_TEXT)
               (RequestTextEdit (Node.id node)
                  (Node.text (Node.read (Runtime.nodeStore rt1) node))))
        | None =>
            match Diagram.getTextLabel id (diagram m1) with
            | Some label =>
                (rt1,
                 emit (with_mode m1 EDITING_TEXT)
                   (RequestTextEdit (TextLabel.id label) (TextLabel.text label)))
            | None => (rt1, m1)
            end
        end
    | None =>
        (rt,
         if Tool_eqb (currentTool this) ARROW then requestTool this SELECT
         else this)
    end.

  (** Keyboard. *)
Definition handleKeyDown (key : string) (rt : Runtime.t) (this : t)
      : Runtime.t * t :=
    if String.eqb key "Delete" || String.eqb key "Backspace" then
      if negb (Mode_eqb (mode this) EDITING_TEXT) then
        let '(rt1, d1) := Diagram.deleteSelected rt (diagram this) in
        (rt1, onUpdate (with_diagram this d1))
      else (rt, this)
    else if String.eqb key "Escape" then
      match mode this with
      | CREATING_ARROW =>
          (rt, onUpdate (with_mode (with_arrowStartNode this None) IDLE))
      | EDITING_TEXT => (rt, onUpdate (with_mode this IDLE))
      | BOX_SELECTING =>
          (rt, onUpdate (with_mode (with_selectionBox this None) IDLE))
      | _ =>
          if Nat.ltb 0 (List.length (Diagram.getSelectedIds (diagram this)))
          then
            let '(rt1, d1) := Diagram.clearSelection rt (diagram this) in
            (rt1, onUpdate (with_diagram this d1))
          else if negb (Tool_eqb (currentTool this) SELECT)
          then (rt, requestTool this SELECT)
          else (rt, this)
      end
    else (rt, this).
End WithNumber.
End InteractionManager.

(** ** The host (Canvas.tsx under StrategyMap): how notifications come back

    The page keeps the current tool in React state; [onToolChange] is its
    setter, and an effect on that state calls [setTool].  Setting the state
    to the value it already has triggers no effect. *)

Module Canvas.
Section WithNumber.
  Context {N : JSNumber}.

Definition deliver (m : InteractionManager.t) (n : Notification)
      : InteractionManager.t :=
    match n with
    | ToolChange tool =>
        if Tool_eqb tool (InteractionManager.currentTool m) then m
        else InteractionManager.setTool tool m
    | _ => m
    end.

Definition clearEmitted (m : InteractionManager.t) : InteractionManager.t :=
    InteractionManager.mk
      (InteractionManager.diagram m) (InteractionManager.currentTool m)
      (InteractionManager.mode m) (InteractionManager.dragStartPoint m)
      (InteractionManager.draggedElementId m)
      (InteractionManager.arrowStartNode m)
      (InteractionManager.mousePosition m) (InteractionManager.panOffset m)
      (InteractionManager.panStartOffset m)
      (InteractionManager.panStartScreenPoint m)
      (InteractionManager.selectionBox m) (InteractionManager.resizingHandle m)
      (InteractionManager.onToolChange m) [].

  (* run the notifications a handler left behind *)
Definition settle (m : InteractionManager.t) : InteractionManager.t :=
    fold_left deliver (InteractionManager.emitted m) (clearEmitted m).

  (* a key press while no text is being edited (the window listener of
     Canvas hands the key to handleKeyDown): the handler starts from an
     empty log, and what it emits is run when it returns.  While a text is
     being edited Canvas handles keys itself: on Escape it closes the
     editor, asks for the arrow tool (when the node tool is active) or the
     select tool (when the text tool is active) and only then calls
     handleKeyDown; that route is not modelled. *)
Definition pressKey (key : string)
      (st : Runtime.t * InteractionManager.t)
      : Runtime.t * InteractionManager.t :=
    let '(rt1, m1) :=
      InteractionManager.handleKeyDown key (fst st) (clearEmitted (snd st)) in
    (rt1, settle m1).
End WithNumber.
End Canvas.

(** ** Sequences of scene operations

    The mutating part of the public interface of [Diagram], as data.  The
    clipboard pair works on JSON text and is not part of the model. *)

Module Scene.
Section WithNumber.
  Context {N : JSNumber}.

Inductive Op : Type :=
    | AddNode (node : Node.t)
    | RemoveNode (nodeId : string)
    | AddArrow (arrow : Arrow.t)
    | RemoveArrow (arrowId : string)
    | AddTextLabel (label : TextLabel.t)
    | RemoveTextLabel (labelId : string)
    | AddWhiteboard (wb : Whiteboard.t)
    | RemoveWhiteboard (whiteboardId : string)
    | ClearAllWhiteboards
    | WhiteboardGetter
    | DuplicateWhiteboard (whiteboardId : string)
    | SelectElements (elementIds : list string) (addToSelection : bool)
    | SelectElement (elementId : string) (addToSelection : bool)
    | DeselectElement (elementId : string)
    | ClearSelection
    | DeleteSelected
    | SelectAll
    | DuplicateSelected
    | Clear.

Definition state : Type := (Runtime.t * Diagram.t)%type.

Definition apply (st : state) (op : Op) : state :=
    let '(rt, d) := st in
    match op with
    | AddNode node => (rt, Diagram.addNode node d)
    | RemoveNode nodeId => (rt, Diagram.removeNode nodeId d)
    | AddArrow arrow => (rt, Diagram.addArrow arrow d)
    | RemoveArrow arrowId => (rt, Diagram.removeArrow arrowId d)
    | AddTextLabel label => (rt, Diagram.addTextLabel label d)
    | RemoveTextLabel labelId => (rt, Diagram.removeTextLabel labelId d)
    | AddWhiteboard wb => (rt, Diagram.addWhiteboard wb d)
    | RemoveWhiteboard whiteboardId => Diagram.removeWhiteboard whiteboardId rt d
    | ClearAllWhiteboards => (rt, Diagram.clearAllWhiteboards d)
    | WhiteboardGetter => fst (Diagram.whiteboard rt d)
    | DuplicateWhiteboard whiteboardId =>
        fst (Diagram.duplicateWhiteboard whiteboardId rt d)
    | SelectElements elementIds addToSelection =>
        Diagram.selectElements elementIds addToSelection rt d
    | SelectElement elementId addToSelection =>
        Diagram.selectElement elementId addToSelection rt d
    | DeselectElement elementId => Diagram.deselectElement elementId rt d
    | ClearSelection => Diagram.clearSelection rt d
    | DeleteSelected => Diagram.deleteSelected rt d
    | SelectAll => Diagram.selectAll rt d
    | DuplicateSelected => fst (Diagram.duplicateSelected rt d)
    | Clear => Diagram.clear rt d
    end.

Definition run (ops : list Op) (st : state) : state :=
    fold_left apply ops st.

  (** Every arrow's endpoint ids are keys of the node collection. *)
Definition resolves (d : Diagram.t) (arrow : Arrow.t) : bool :=
    JsMap.has (Node.id (Arrow.fromNode arrow)) (Diagram.nodes d)
    && JsMap.has (Node.id (Arrow.toNode arrow)) (Diagram.nodes d).

Definition integrity (d : Diagram.t) : bool :=
    forallb (resolves d) (JsMap.values (Diagram.arrows d)).

  (** [addArrow] is called only with arrows whose endpoints are present. *)
Fixpoint arrowsGuarded (ops : list Op) (st : state) : Prop :=
    match ops with
    | [] => True
    | op :: rest =>
        match op with
        | AddArrow arrow => resolves (snd st) arrow = true
        | _ => True
        end
        /\ arrowsGuarded rest (apply st op)
    end.

Definition isClearAllWhiteboards (op : Op) : bool :=
    match op with ClearAllWhiteboards => true | _ => false end.
End WithNumber.
End Scene.
(** * Properties *)

(** ** Facts about ordered maps and sets *)

Module JsMapFacts.
Section WithValue.
  Variable V : Type.
  Implicit Types (m : JsMap.t V) (k : string) (v : V).

Lemma get_set_same k v m : JsMap.get k (JsMap.set k v m) = Some v.
  Proof.
    induction m as [|[k' v'] m IH]; simpl.
    - now rewrite String.eqb_refl.
    - destruct (String.eqb k k') eqn:E; simpl.
      + now rewrite String.eqb_refl.
      + now rewrite E.
  Qed.

Lemma get_set_other k k' v m :
    k <> k' -> JsMap.get k' (JsMap.set k v m) = JsMap.get k' m.
  Proof.
    intros Hne. induction m as [|[k0 v0] m IH]; simpl.
    - destruct (String.eqb k' k) eqn:E; [|reflexivity].
      apply String.eqb_eq in E. congruence.
    - destruct (String.eqb k k0) eqn:E; simpl.
      + apply String.eqb_eq in E. subst k0.
        destruct (String.eqb k' k) eqn:E'; [|reflexivity].
        apply String.eqb_eq in E'. congruence.
      + now rewrite IH.
  Qed.

Lemma has_set k k' v m :
    JsMap.has k' (JsMap.set k v m) = String.eqb k' k || JsMap.has k' m.
  Proof.
    unfold JsMap.has. destruct (String.eqb k' k) eqn:E.
    - apply String.eqb_eq in E. subst. now rewrite get_set_same.
    - rewrite get_set_other; [reflexivity|].
      intros ->. now rewrite String.eqb_refl in E.
  Qed.

Lemma in_set k v m kv :
    In kv (JsMap.set k v m) -> kv = (k, v) \/ In kv m.
  Proof.
    induction m as [|[k' v'] m IH]; simpl.
    - intros [H|[]]; auto.
    - destruct (String.eqb k k'); simpl; intros [H|H]; auto.
      destruct (IH H); auto.
  Qed.

Lemma in_values_set k v m x :
    In x (JsMap.values (JsMap.set k v m)) -> x = v \/ In x (JsMap.values m).
  Proof.
    unfold JsMap.values. rewrite !in_map_iff.
    intros [kv [<- H]]. apply in_set in H as [->|H]; [now left|].
    right. now exists kv.
  Qed.

Lemma keys_set k v m :
    JsMap.keys (JsMap.set k v m)
    = if JsMap.has k m then JsMap.keys m else JsMap.keys m ++ [k].
  Proof.
    unfold JsMap.has.
    induction m as [|[k' v'] m IH]; simpl; [reflexivity|].
    destruct (String.eqb k k') eqn:E; simpl.
    - apply String.eqb_eq in E. now subst.
    - rewrite IH. now destruct (JsMap.get k m).
  Qed.

Lemma set_fresh k v m :
    JsMap.has k m = false -> JsMap.set k v m = m ++ [(k, v)].
  Proof.
    unfold JsMap.has.
    induction m as [|[k' v'] m IH]; simpl; [reflexivity|].
    destruct (String.eqb k k') eqn:E; [discriminate|].
    intros H. now rewrite IH.
  Qed.

Lemma has_true_iff k m : JsMap.has k m = true <-> In k (JsMap.keys m).
  Proof.
    unfold JsMap.has, JsMap.keys.
    induction m as [|[k' v'] m IH]; simpl.
    - split; [discriminate|tauto].
    - destruct (String.eqb k k') eqn:E.
      + apply String.eqb_eq in E. subst. tauto.
      + rewrite IH. split; [tauto|]. intros [->|H]; [|assumption].
        now rewrite String.eqb_refl in E.
  Qed.

Lemma has_false_iff k m : JsMap.has k m = false <-> ~ In k (JsMap.keys m).
  Proof.
    rewrite <- has_true_iff. destruct (JsMap.has k m); split; intros; congruence.
  Qed.

Lemma get_in k v m : JsMap.get k m = Some v -> In (k, v) m.
  Proof.
    induction m as [|[k' v'] m IH]; simpl; [discriminate|].
    destruct (String.eqb k k') eqn:E.
    - apply String.eqb_eq in E. intros [= ->]. subst. now left.
    - auto.
  Qed.

Lemma in_get k v m :
    NoDup (JsMap.keys m) -> In (k, v) m -> JsMap.get k m = Some v.
  Proof.
    induction m as [|[k' v'] m IH]; simpl; [tauto|].
    intros Hnd [H|H].
    - injection H as -> ->. now rewrite String.eqb_refl.
    - inversion Hnd as [|? ? Hnotin Hnd']; subst.
      destruct (String.eqb k k') eqn:E.
      + apply String.eqb_eq in E. subst k'.
        exfalso. apply Hnotin. unfold JsMap.keys.
        change k with (fst (k, v)). now apply in_map.
      + auto.
  Qed.

Lemma in_delete k m kv :
    In kv (JsMap.delete k m) <-> In kv m /\ fst kv <> k.
  Proof.
    unfold JsMap.delete. rewrite filter_In, negb_true_iff.
    split; intros [H1 H2]; split; auto.
    - intros <-. now rewrite String.eqb_refl in H2.
    - destruct (String.eqb k (fst kv)) eqn:E; [|reflexivity].
      apply String.eqb_eq in E. congruence.
  Qed.

Lemma get_delete k k' m :
    JsMap.get k' (JsMap.delete k m)
    = if String.eqb k k' then None else JsMap.get k' m.
  Proof.
    unfold JsMap.delete.
    induction m as [|[k0 v0] m IH]; simpl.
    - now destruct (String.eqb k k').
    - destruct (String.eqb k k0) eqn:E0; simpl.
      + apply String.eqb_eq in E0. subst k0. rewrite IH.
        destruct (String.eqb k k') eqn:E; [reflexivity|].
        rewrite String.eqb_sym, E. reflexivity.
      + rewrite IH. destruct (String.eqb k' k0) eqn:E1; [|reflexivity].
        apply String.eqb_eq in E1. subst k0. now rewrite E0.
  Qed.

Lemma has_delete k k' m :
    JsMap.has k' (JsMap.delete k m)
    = negb (String.eqb k k') && JsMap.has k' m.
  Proof.
    unfold JsMap.has. rewrite get_delete.
    now destruct (String.eqb k k').
  Qed.

Lemma keys_delete k m :
    JsMap.keys (JsMap.delete k m)
    = filter (fun k' => negb (String.eqb k k')) (JsMap.keys m).
  Proof.
    unfold JsMap.delete, JsMap.keys.
    induction m as [|[k0 v0] m IH]; simpl; [reflexivity|].
    destruct (String.eqb k k0); simpl; now rewrite IH.
  Qed.

Lemma keys_update k f m : JsMap.keys (JsMap.update k f m) = JsMap.keys m.
  Proof.
    unfold JsMap.keys.
    induction m as [|[k0 v0] m IH]; simpl; [reflexivity|].
    destruct (String.eqb k k0); simpl; [reflexivity|now rewrite IH].
  Qed.

Lemma length_update k f m :
    List.length (JsMap.update k f m) = List.length m.
  Proof.
    induction m as [|[k0 v0] m IH]; simpl; [reflexivity|].
    destruct (String.eqb k k0); simpl; [reflexivity|now rewrite IH].
  Qed.

Lemma in_update k f m kv :
    In kv (JsMap.update k f m) ->
    exists v0, In (fst kv, v0) m /\ (snd kv = v0 \/ snd kv = f v0).
  Proof.
    induction m as [|[k0 v0] m IH]; simpl; [tauto|].
    destruct (String.eqb k k0); simpl.
    - intros [<-|H]; simpl.
      + exists v0. auto.
      + exists (snd kv). destruct kv; simpl; auto.
    - intros [<-|H]; simpl.
      + exists v0. auto.
      + destruct (IH H) as [x [H1 H2]]. exists x. auto.
  Qed.

Lemma get_update k f k' m :
    JsMap.get k' (JsMap.update k f m)
    = if String.eqb k k' then option_map f (JsMap.get k' m)
      else JsMap.get k' m.
  Proof.
    induction m as [|[k0 v0] m IH]; simpl.
    - now destruct (String.eqb k k').
    - destruct (String.eqb k k0) eqn:E0; simpl.
      + apply String.eqb_eq in E0. subst k0.
        rewrite (String.eqb_sym k' k).
        now destruct (String.eqb k k').
      + rewrite IH. destruct (String.eqb k' k0) eqn:E1; [|reflexivity].
        apply String.eqb_eq in E1. subst k0. now rewrite E0.
  Qed.

Lemma has_update k f k' m :
    JsMap.has k' (JsMap.update k f m) = JsMap.has k' m.
  Proof.
    unfold JsMap.has. rewrite get_update.
    destruct (String.eqb k k'); [|reflexivity].
    now destruct (JsMap.get k' m).
  Qed.

Lemma NoDup_keys_set k v m :
    NoDup (JsMap.keys m) -> NoDup (JsMap.keys (JsMap.set k v m)).
  Proof.
    intros H. rewrite keys_set. destruct (JsMap.has k m) eqn:E; [assumption|].
    apply has_false_iff in E.
    apply NoDup_app; [assumption|constructor; [tauto|constructor]|].
    intros x Hx [<-|[]]. contradiction.
  Qed.

Lemma NoDup_keys_delete k m :
    NoDup (JsMap.keys m) -> NoDup (JsMap.keys (JsMap.delete k m)).
  Proof. rewrite keys_delete. apply NoDup_filter. Qed.

Lemma length_delete k m :
    NoDup (JsMap.keys m) ->
    List.length m <= S (List.length (JsMap.delete k m)).
  Proof.
    unfold JsMap.delete.
    induction m as [|[k0 v0] m IH]; simpl; [lia|].
    intros Hnd. inversion Hnd as [|? ? Hnotin Hnd']; subst.
    destruct (String.eqb k k0) eqn:E; simpl.
    - apply String.eqb_eq in E. subst k0.
      assert (filter (fun kv => negb (String.eqb k (fst kv))) m = m) as ->;
        [|lia].
      apply forallb_filter_id, forallb_forall. intros [k1 v1] Hin. simpl.
      destruct (String.eqb k k1) eqn:E1; [|reflexivity].
      apply String.eqb_eq in E1. subst k1. exfalso. apply Hnotin.
      unfold JsMap.keys. change k with (fst (k, v1)). now apply in_map.
    - specialize (IH Hnd'). lia.
  Qed.
End WithValue.
End JsMapFacts.

Module JsSetFacts.
Lemma set_has_true_iff k s : JsSet.has k s = true <-> In k s.
  Proof.
    unfold JsSet.has. rewrite existsb_exists. split.
    - intros [x [H E]]. apply String.eqb_eq in E. now subst.
    - intros H. exists k. split; [assumption|apply String.eqb_refl].
  Qed.

Lemma set_in_add k k' s : In k' (JsSet.add k s) <-> k' = k \/ In k' s.
  Proof.
    unfold JsSet.add. destruct (JsSet.has k s) eqn:E.
    - apply set_has_true_iff in E. split; [tauto|]. intros [->|H]; assumption.
    - rewrite in_app_iff. simpl. split; intros H; intuition congruence.
  Qed.

Lemma set_in_delete k k' s : In k' (JsSet.delete k s) <-> In k' s /\ k' <> k.
  Proof.
    unfold JsSet.delete. rewrite filter_In, negb_true_iff. split.
    - intros [H E]. split; [assumption|]. intros ->.
      now rewrite String.eqb_refl in E.
    - intros [H E]. split; [assumption|].
      destruct (String.eqb k k') eqn:E'; [|reflexivity].
      apply String.eqb_eq in E'. congruence.
  Qed.

Lemma set_NoDup_add k s : NoDup s -> NoDup (JsSet.add k s).
  Proof.
    intros H. unfold JsSet.add. destruct (JsSet.has k s) eqn:E; [assumption|].
    apply NoDup_app; [assumption|constructor; [tauto|constructor]|].
    intros x Hx [<-|[]]. apply set_has_true_iff in Hx. congruence.
  Qed.
End JsSetFacts.

Unset Implicit Arguments.

(** ** Selection flags

    The operations on the selection change the mirrored [selected] flags
    and nothing else.  [Skeleton] is what they leave alone. *)

Module Skeleton.
Section WithNumber.
  Context {N : JSNumber}.

Definition mapv [V : Type] (f : V -> V) (m : JsMap.t V) : JsMap.t V :=
    map (fun kv => (fst kv, f (snd kv))) m.

Definition eraseA (a : Arrow.t) : Arrow.t := Arrow.setSelected a false.
Definition eraseL (l : TextLabel.t) : TextLabel.t :=
    TextLabel.setSelected l false.
Definition eraseW (w : Whiteboard.t) : Whiteboard.t :=
    Whiteboard.setSelected w false.

  (** Two diagrams that differ at most in flags and in the selection set. *)
Record same (d d' : Diagram.t) : Prop := mkSame {
    same_nodes : Diagram.nodes d' = Diagram.nodes d;
    same_arrows :
      mapv eraseA (Diagram.arrows d') = mapv eraseA (Diagram.arrows d);
    same_labels :
      mapv eraseL (Diagram.textLabels d')
      = mapv eraseL (Diagram.textLabels d);
    same_whiteboards :
      mapv eraseW (Diagram.whiteboards d')
      = mapv eraseW (Diagram.whiteboards d)
  }.

  (** Two runtimes that differ at most in the [isSelected] flag of nodes. *)
Record sameRt (rt rt' : Runtime.t) : Prop := mkSameRt {
    same_heap : forall a,
      Node.with_isSelected (Node.heap (Runtime.nodeStore rt') a) false
      = Node.with_isSelected (Node.heap (Runtime.nodeStore rt) a) false;
    same_nextAddr :
      Node.nextAddr (Runtime.nodeStore rt')
      = Node.nextAddr (Runtime.nodeStore rt);
    same_nextId :
      Node.nextId (Runtime.nodeStore rt') = Node.nextId (Runtime.nodeStore rt);
    same_arrowNextId : Runtime.arrowNextId rt' = Runtime.arrowNextId rt;
    same_textLabelNextId :
      Runtime.textLabelNextId rt' = Runtime.textLabelNextId rt;
    same_whiteboardNextId :
      Runtime.whiteboardNextId rt' = Runtime.whiteboardNextId rt;
    same_console : Runtime.console rt' = Runtime.console rt
  }.

Lemma same_refl d : same d d.
  Proof. now constructor. Qed.

Lemma same_trans d1 d2 d3 : same d1 d2 -> same d2 d3 -> same d1 d3.
  Proof. intros [] []. constructor; congruence. Qed.

Lemma sameRt_refl rt : sameRt rt rt.
  Proof. now constructor. Qed.

Lemma sameRt_trans r1 r2 r3 : sameRt r1 r2 -> sameRt r2 r3 -> sameRt r1 r3.
  Proof. intros [] []. constructor; intros; congruence. Qed.

Lemma mapv_update [V : Type] (e f : V -> V) k (m : JsMap.t V) :
    (forall v, e (f v) = e v) -> mapv e (JsMap.update k f m) = mapv e m.
  Proof.
    intros H. induction m as [|[k0 v0] m IH]; simpl; [reflexivity|].
    destruct (String.eqb k k0); simpl.
    - now rewrite H.
    - now rewrite IH.
  Qed.

Lemma mapv_mapv [V : Type] (e f : V -> V) (m : JsMap.t V) :
    (forall v, e (f v) = e v) -> mapv e (mapv f m) = mapv e m.
  Proof.
    intros H. unfold mapv. rewrite map_map. apply map_ext. intros [k v].
    simpl. now rewrite H.
  Qed.

Lemma keys_mapv [V : Type] (f : V -> V) (m : JsMap.t V) :
    JsMap.keys (mapv f m) = JsMap.keys m.
  Proof. unfold JsMap.keys, mapv. rewrite map_map. now apply map_ext. Qed.

Lemma mapv_keys [V : Type] (e : V -> V) (m m' : JsMap.t V) :
    mapv e m' = mapv e m -> JsMap.keys m' = JsMap.keys m.
  Proof.
    intros H. rewrite <- (keys_mapv e m), <- (keys_mapv e m'). now rewrite H.
  Qed.

Lemma mapv_length [V : Type] (e : V -> V) (m m' : JsMap.t V) :
    mapv e m' = mapv e m -> List.length m' = List.length m.
  Proof.
    intros H. apply (f_equal (@List.length _)) in H. unfold mapv in H.
    now rewrite !length_map in H.
  Qed.

Lemma mapv_in [V : Type] (e : V -> V) (m m' : JsMap.t V) kv :
    mapv e m' = mapv e m -> In kv m' ->
    exists v, In (fst kv, v) m /\ e v = e (snd kv).
  Proof.
    intros H Hin.
    assert (Hin' : In (fst kv, e (snd kv)) (mapv e m)).
    { rewrite <- H. unfold mapv. apply in_map_iff. now exists kv. }
    unfold mapv in Hin'. apply in_map_iff in Hin' as [[k v] [E Hin']].
    simpl in E. injection E as <- E. now exists v.
  Qed.

Lemma mapv_get [V : Type] (e : V -> V) (m m' : JsMap.t V) k :
    mapv e m' = mapv e m ->
    option_map e (JsMap.get k m') = option_map e (JsMap.get k m).
  Proof.
    revert m'. induction m as [|[k0 v0] m IH]; intros [|[k1 v1] m'] H;
      simpl in *; try discriminate; [reflexivity|].
    injection H as -> E H. destruct (String.eqb k k0); simpl.
    - now rewrite E.
    - now apply IH.
  Qed.

Lemma mapv_has [V : Type] (e : V -> V) (m m' : JsMap.t V) k :
    mapv e m' = mapv e m -> JsMap.has k m' = JsMap.has k m.
  Proof.
    intros H. apply mapv_get with (k := k) in H. unfold JsMap.has.
    destruct (JsMap.get k m'), (JsMap.get k m); simpl in H;
      congruence.
  Qed.

Lemma eraseA_setSelected a b : eraseA (Arrow.setSelected a b) = eraseA a.
  Proof. reflexivity. Qed.
Lemma eraseL_setSelected l b : eraseL (TextLabel.setSelected l b) = eraseL l.
  Proof. reflexivity. Qed.
Lemma eraseW_setSelected w b : eraseW (Whiteboard.setSelected w b) = eraseW w.
  Proof. reflexivity. Qed.

Lemma flagArrow_same id b d : same d (Diagram.flagArrow id b d).
  Proof.
    constructor; try reflexivity. simpl.
    apply mapv_update. intros. apply eraseA_setSelected.
  Qed.

Lemma flagLabel_same id b d : same d (Diagram.flagLabel id b d).
  Proof.
    constructor; try reflexivity. simpl.
    apply mapv_update. intros. apply eraseL_setSelected.
  Qed.

Lemma flagWhiteboard_same id b d : same d (Diagram.flagWhiteboard id b d).
  Proof.
    constructor; try reflexivity. simpl.
    apply mapv_update. intros. apply eraseW_setSelected.
  Qed.

Lemma with_selectedElementIds_same d s :
    same d (Diagram.with_selectedElementIds d s).
  Proof. now constructor. Qed.

Lemma setSelected_sameRt rt node b :
    sameRt rt
      (Runtime.with_nodeStore rt
         (Node.setSelected (Runtime.nodeStore rt) node b)).
  Proof.
    constructor; try reflexivity. intros a. simpl.
    destruct (Nat.eqb a (Node.addr node)) eqn:E; [|reflexivity].
    apply Nat.eqb_eq in E. subst a. reflexivity.
  Qed.

Lemma flagNode_sameRt id b rt d : sameRt rt (Diagram.flagNode id b rt d).
  Proof.
    unfold Diagram.flagNode. destruct (JsMap.get id (Diagram.nodes d)).
    - apply setSelected_sameRt.
    - apply sameRt_refl.
  Qed.

Lemma fold_same [A : Type] (step : Runtime.t * Diagram.t -> A -> Runtime.t * Diagram.t)
      (l : list A) :
    (forall rt d x, sameRt rt (fst (step (rt, d) x))
                    /\ same d (snd (step (rt, d) x))) ->
    forall rt d,
      sameRt rt (fst (fold_left step l (rt, d)))
      /\ same d (snd (fold_left step l (rt, d))).
  Proof.
    intros Hstep. induction l as [|x l IH]; intros rt d; simpl.
    - split; [apply sameRt_refl|apply same_refl].
    - destruct (step (rt, d) x) as [rt1 d1] eqn:E.
      destruct (Hstep rt d x) as [H1 H2]. rewrite E in H1, H2. simpl in *.
      destruct (IH rt1 d1) as [H3 H4]. split.
      + eapply sameRt_trans; eassumption.
      + eapply same_trans; eassumption.
  Qed.

Lemma clearSelection_same rt d :
    sameRt rt (fst (Diagram.clearSelection rt d))
    /\ same d (snd (Diagram.clearSelection rt d)).
  Proof.
    unfold Diagram.clearSelection.
    match goal with |- context [fold_left ?f ?l ?a] =>
      pose proof (fold_same f l) as H end.
    specialize (H ltac:(
      intros rt0 d0 x; simpl; split;
      [apply flagNode_sameRt|
       eapply same_trans; [apply flagArrow_same|];
       eapply same_trans; [apply flagLabel_same|];
       apply flagWhiteboard_same]) rt d).
    destruct (fold_left _ _ _) as [rt1 d1]. simpl in *.
    destruct H as [H1 H2]. split; [assumption|].
    eapply same_trans; [eassumption|apply with_selectedElementIds_same].
  Qed.

Lemma clearSelection_selection rt d :
    Diagram.selectedElementIds (snd (Diagram.clearSelection rt d)) = [].
  Proof.
    unfold Diagram.clearSelection. now destruct (fold_left _ _ _).
  Qed.

Lemma selectElements_same ids add rt d :
    sameRt rt (fst (Diagram.selectElements ids add rt d))
    /\ same d (snd (Diagram.selectElements ids add rt d)).
  Proof.
    unfold Diagram.selectElements.
    match goal with |- context [fold_left ?f ?l ?a] =>
      pose proof (fold_same f l) as H end.
    specialize (H ltac:(
      intros rt0 d0 x; simpl; split;
      [apply flagNode_sameRt|
       eapply same_trans; [apply with_selectedElementIds_same|];
       eapply same_trans; [apply flagArrow_same|];
       apply flagLabel_same])).
    destruct add.
    - apply H.
    - pose proof (clearSelection_same rt d) as [H1 H2].
      destruct (Diagram.clearSelection rt d) as [rt1 d1]. simpl in *.
      destruct (H rt1 d1). split.
      + eapply sameRt_trans; eassumption.
      + eapply same_trans; eassumption.
  Qed.

Lemma selectElement_same id add rt d :
    sameRt rt (fst (Diagram.selectElement id add rt d))
    /\ same d (snd (Diagram.selectElement id add rt d)).
  Proof.
    unfold Diagram.selectElement.
    assert (H : sameRt rt (fst (if add then (rt, d)
                                else Diagram.clearSelection rt d))
                /\ same d (snd (if add then (rt, d)
                                else Diagram.clearSelection rt d))).
    { destruct add; [split; [apply sameRt_refl|apply same_refl]|].
      apply clearSelection_same. }
    destruct (if add then _ else _) as [rt0 d0]. simpl in *.
    destruct H as [H1 H2]. split.
    - eapply sameRt_trans; [eassumption|apply flagNode_sameRt].
    - eapply same_trans; [eassumption|].
      eapply same_trans; [apply with_selectedElementIds_same|].
      eapply same_trans; [apply flagArrow_same|].
      eapply same_trans; [apply flagWhiteboard_same|].
      apply flagLabel_same.
  Qed.

Lemma deselectElement_same id rt d :
    sameRt rt (fst (Diagram.deselectElement id rt d))
    /\ same d (snd (Diagram.deselectElement id rt d)).
  Proof.
    unfold Diagram.deselectElement. simpl. split.
    - apply flagNode_sameRt.
    - eapply same_trans; [apply with_selectedElementIds_same|].
      eapply same_trans; [apply flagArrow_same|].
      eapply same_trans; [apply flagLabel_same|].
      apply flagWhiteboard_same.
  Qed.

Lemma selectAll_same rt d :
    sameRt rt (fst (Diagram.selectAll rt d))
    /\ same d (snd (Diagram.selectAll rt d)).
  Proof.
    unfold Diagram.selectAll.
    pose proof (clearSelection_same rt d) as [H1 H2].
    destruct (Diagram.clearSelection rt d) as [rt1 d1]. simpl in *. split.
    - eapply sameRt_trans; [eassumption|].
      generalize (JsMap.values (Diagram.nodes d1)). intros l. clear.
      revert rt1. induction l as [|x l IH]; intros rt1; simpl.
      + apply sameRt_refl.
      + eapply sameRt_trans; [apply setSelected_sameRt|apply IH].
    - eapply same_trans; [eassumption|].
      constructor; simpl; try reflexivity.
      + apply (mapv_mapv eraseA (fun a => Arrow.setSelected a true)). intros. apply eraseA_setSelected.
      + apply (mapv_mapv eraseL (fun l => TextLabel.setSelected l true)). intros. apply eraseL_setSelected.
  Qed.
End WithNumber.
End Skeleton.

(** ** Loops *)

Lemma fold_left_invariant [A S : Type] (f : S -> A -> S) (P : S -> Prop)
    (l : list A) (s : S) :
  P s -> (forall s x, In x l -> P s -> P (f s x)) -> P (fold_left f l s).
Proof.
  revert s. induction l as [|x l IH]; intros s H0 Hstep; simpl; [assumption|].
  apply IH.
  - apply Hstep; [now left|assumption].
  - intros s' y Hy. apply Hstep. now right.
Qed.

(** ** Arrow-node integrity *)

Module Integrity.
Section WithNumber.
Context {N : JSNumber}.

Lemma integrity_iff d :
  Scene.integrity d = true
  <-> forall a, In a (JsMap.values (Diagram.arrows d)) ->
                Scene.resolves d a = true.
Proof. unfold Scene.integrity. apply forallb_forall. Qed.

(** Integrity moves from [d] to [d'] when the node keys only grow and
    every arrow of [d'] has the endpoints of resolved arrows. *)
Lemma transfer d d' :
  (forall k, JsMap.has k (Diagram.nodes d) = true ->
             JsMap.has k (Diagram.nodes d') = true) ->
  (forall a', In a' (JsMap.values (Diagram.arrows d')) ->
     Scene.resolves d' a' = true
     \/ exists a, In a (JsMap.values (Diagram.arrows d))
                  /\ Arrow.fromNode a = Arrow.fromNode a'
                  /\ Arrow.toNode a = Arrow.toNode a') ->
  Scene.integrity d = true -> Scene.integrity d' = true.
Proof.
  intros Hn Ha. rewrite !integrity_iff. intros H a' Hin.
  destruct (Ha a' Hin) as [Hr|[a [Hin0 [Ef Et]]]]; [assumption|].
  specialize (H a Hin0). unfold Scene.resolves in *.
  apply andb_true_iff in H as [H1 H2]. rewrite <- Ef, <- Et.
  now rewrite (Hn _ H1), (Hn _ H2).
Qed.

Lemma same_integrity d d' :
  Skeleton.same d d' -> Scene.integrity d = true -> Scene.integrity d' = true.
Proof.
  intros [Hn Ha _ _]. apply transfer.
  - now rewrite Hn.
  - intros a' Hin. right. unfold JsMap.values in Hin.
    apply in_map_iff in Hin as [kv [<- Hin]].
    destruct (Skeleton.mapv_in _ _ _ _ Ha Hin) as [v [Hv E]].
    exists v. split.
    + unfold JsMap.values. apply in_map_iff. now exists (fst kv, v).
    + unfold Skeleton.eraseA in E.
      split; [exact (f_equal Arrow.fromNode E)|exact (f_equal Arrow.toNode E)].
Qed.

Lemma in_fold_delete [V : Type] (ks : list string) (m : JsMap.t V) kv :
  In kv (fold_left (fun m id => JsMap.delete id m) ks m)
  <-> In kv m /\ ~ In (fst kv) ks.
Proof.
  revert m. induction ks as [|k ks IH]; intros m; simpl.
  - tauto.
  - rewrite IH, JsMapFacts.in_delete. intuition congruence.
Qed.

Lemma removeNode_arrows nodeId d kv :
  In kv (Diagram.arrows (Diagram.removeNode nodeId d)) ->
  In kv (Diagram.arrows d) /\ Diagram.touches nodeId (snd kv) = false.
Proof.
  unfold Diagram.removeNode. simpl. rewrite in_fold_delete.
  intros [Hin Hnot]. split; [assumption|].
  destruct (Diagram.touches nodeId (snd kv)) eqn:E; [|reflexivity].
  exfalso. apply Hnot. apply in_map. apply filter_In. now split.
Qed.

Lemma removeNode_arrows_kept nodeId d kv :
  NoDup (JsMap.keys (Diagram.arrows d)) ->
  In kv (Diagram.arrows d) -> Diagram.touches nodeId (snd kv) = false ->
  In kv (Diagram.arrows (Diagram.removeNode nodeId d)).
Proof.
  intros Hnd Hin Ht. unfold Diagram.removeNode. simpl.
  apply in_fold_delete. split; [assumption|].
  intros Hk. apply in_map_iff in Hk as [kv' [E Hin']].
  apply filter_In in Hin' as [Hin' Ht'].
  assert (kv' = kv); [|subst; congruence].
  destruct kv as [k v], kv' as [k' v']. simpl in *. subst k'.
  apply JsMapFacts.in_get in Hin, Hin'; try assumption. congruence.
Qed.

Lemma touches_false nodeId a :
  Diagram.touches nodeId a = false ->
  Node.id (Arrow.fromNode a) <> nodeId /\ Node.id (Arrow.toNode a) <> nodeId.
Proof.
  unfold Diagram.touches. intros H. apply orb_false_iff in H as [H1 H2].
  split; intros E; rewrite E, String.eqb_refl in *; discriminate.
Qed.

Lemma removeNode_integrity nodeId d :
  Scene.integrity d = true ->
  Scene.integrity (Diagram.removeNode nodeId d) = true.
Proof.
  rewrite !integrity_iff. intros H a Hin.
  unfold JsMap.values in Hin. apply in_map_iff in Hin as [kv [<- Hin]].
  apply removeNode_arrows in Hin as [Hin Ht].
  specialize (H (snd kv) (in_map snd _ _ Hin)).
  apply touches_false in Ht as [H1 H2].
  unfold Scene.resolves in *. simpl. rewrite !JsMapFacts.has_delete.
  apply andb_true_iff in H as [-> ->].
  rewrite !andb_true_r.
  apply andb_true_iff. split; apply negb_true_iff.
  - destruct (String.eqb nodeId _) eqn:E; [|reflexivity].
    apply String.eqb_eq in E. congruence.
  - destruct (String.eqb nodeId _) eqn:E; [|reflexivity].
    apply String.eqb_eq in E. congruence.
Qed.

Lemma addNode_integrity node d :
  Scene.integrity d = true -> Scene.integrity (Diagram.addNode node d) = true.
Proof.
  apply transfer.
  - intros k Hk. simpl. rewrite JsMapFacts.has_set, Hk. apply orb_true_r.
  - intros a' Hin. right. now exists a'.
Qed.

Lemma resolves_addNode node d a :
  Scene.resolves d a = true -> Scene.resolves (Diagram.addNode node d) a = true.
Proof.
  unfold Scene.resolves. simpl. rewrite !JsMapFacts.has_set.
  intros H. apply andb_true_iff in H as [-> ->]. now rewrite !orb_true_r.
Qed.

Lemma addArrow_integrity arrow d :
  Scene.resolves d arrow = true -> Scene.integrity d = true ->
  Scene.integrity (Diagram.addArrow arrow d) = true.
Proof.
  intros Hr. apply transfer.
  - auto.
  - intros a' Hin. simpl in Hin.
    apply JsMapFacts.in_values_set in Hin as [->|Hin].
    + now left.
    + right. now exists a'.
Qed.

Lemma removeArrow_integrity arrowId d :
  Scene.integrity d = true ->
  Scene.integrity (Diagram.removeArrow arrowId d) = true.
Proof.
  apply transfer; [auto|]. intros a' Hin. right. exists a'.
  split; [|auto]. simpl in Hin. unfold JsMap.values in *.
  apply in_map_iff in Hin as [kv [<- Hin]].
  apply JsMapFacts.in_delete in Hin as [Hin _]. now apply in_map.
Qed.

(** Operations that touch neither the nodes nor the arrows. *)
Lemma unchanged_integrity d d' :
  Diagram.nodes d' = Diagram.nodes d -> Diagram.arrows d' = Diagram.arrows d ->
  Scene.integrity d = true -> Scene.integrity d' = true.
Proof.
  intros Hn Ha. apply transfer.
  - now rewrite Hn.
  - intros a'. rewrite Ha. intros Hin. right. now exists a'.
Qed.

Lemma removeWhiteboard_shape id rt d :
  Diagram.nodes (snd (Diagram.removeWhiteboard id rt d)) = Diagram.nodes d
  /\ Diagram.arrows (snd (Diagram.removeWhiteboard id rt d)) = Diagram.arrows d
  /\ Diagram.textLabels (snd (Diagram.removeWhiteboard id rt d))
     = Diagram.textLabels d.
Proof.
  unfold Diagram.removeWhiteboard.
  destruct (Nat.leb _ 1); simpl; auto.
Qed.

Lemma deleteSelected_integrity rt d :
  Scene.integrity d = true ->
  Scene.integrity (snd (Diagram.deleteSelected rt d)) = true.
Proof.
  intros H. unfold Diagram.deleteSelected.
  match goal with |- context [fold_left ?f ?l ?a] =>
    assert (Hf : Scene.integrity (snd (fold_left f l a)) = true) end.
  { apply fold_left_invariant with (P := fun st => Scene.integrity (snd st) = true);
      [assumption|].
    intros [rt0 d0] id _ H0. simpl in *.
    destruct (JsMap.has id (Diagram.nodes d0));
      [now apply removeNode_integrity|].
    destruct (JsMap.has id (Diagram.arrows d0));
      [now apply removeArrow_integrity|].
    destruct (JsMap.has id (Diagram.textLabels d0));
      [now apply (unchanged_integrity d0)|].
    destruct (JsMap.has id (Diagram.whiteboards d0)); [|assumption].
    destruct (removeWhiteboard_shape id rt0 d0) as [H1 [H2 _]].
    now apply (unchanged_integrity d0). }
  destruct (fold_left _ _ _) as [rt1 d1]. simpl in *.
  now apply (unchanged_integrity d1).
Qed.

(** [duplicateSelected]: the cloned nodes are added to the scene before
    any arrow is drawn between them. *)
Definition clonesPresent (d : Diagram.t) (nodeIdMap : JsMap.t Node.t) : Prop :=
  forall kv, In kv nodeIdMap ->
             JsMap.has (Node.id (snd kv)) (Diagram.nodes d) = true.

Lemma duplicateNode_invariant l rt d :
  Scene.integrity d = true ->
  let '(_, d1, nodeIdMap, _) :=
    fold_left Diagram.duplicateNode l (rt, d, [], []) in
  Scene.integrity d1 = true /\ clonesPresent d1 nodeIdMap.
Proof.
  intros H.
  apply fold_left_invariant
    with (P := fun st : Runtime.t * Diagram.t * JsMap.t Node.t * list string =>
                 let '(_, d1, nodeIdMap, _) := st in
                 Scene.integrity d1 = true /\ clonesPresent d1 nodeIdMap).
  - split; [assumption|]. intros kv [].
  - intros [[[rt0 d0] m0] ids0] id _ [H1 H2]. unfold Diagram.duplicateNode.
    destruct (JsMap.get id (Diagram.nodes d0)) as [node|]; [|now split].
    destruct (Runtime.cloneNode rt0 node) as [rt1 newNode]. split.
    + now apply addNode_integrity.
    + intros kv Hin. simpl. rewrite JsMapFacts.has_set.
      apply JsMapFacts.in_set in Hin as [->|Hin]; simpl.
      * now rewrite String.eqb_refl.
      * rewrite (H2 kv Hin). apply orb_true_r.
Qed.

Lemma duplicateLabel_invariant l rt d ids :
  let '(_, d1, _) := fold_left Diagram.duplicateLabel l (rt, d, ids) in
  Diagram.nodes d1 = Diagram.nodes d /\ Diagram.arrows d1 = Diagram.arrows d.
Proof.
  apply fold_left_invariant
    with (P := fun st : Runtime.t * Diagram.t * list string =>
                 let '(_, d1, _) := st in
                 Diagram.nodes d1 = Diagram.nodes d
                 /\ Diagram.arrows d1 = Diagram.arrows d).
  - now split.
  - intros [[rt0 d0] ids0] id _ [H1 H2]. unfold Diagram.duplicateLabel.
    destruct (JsMap.get id (Diagram.textLabels d0)) as [label|]; [|now split].
    destruct (Runtime.cloneTextLabel rt0 label) as [rt1 newLabel0].
    now split.
Qed.

Lemma duplicateArrow_invariant nodeIdMap l rt d ids :
  clonesPresent d nodeIdMap -> Scene.integrity d = true ->
  let '(_, d1, _) :=
    fold_left (Diagram.duplicateArrow nodeIdMap) l (rt, d, ids) in
  Diagram.nodes d1 = Diagram.nodes d /\ Scene.integrity d1 = true.
Proof.
  intros Hc H.
  apply fold_left_invariant
    with (P := fun st : Runtime.t * Diagram.t * list string =>
                 let '(_, d1, _) := st in
                 Diagram.nodes d1 = Diagram.nodes d
                 /\ Scene.integrity d1 = true).
  - now split.
  - intros [[rt0 d0] ids0] id _ [H1 H2]. unfold Diagram.duplicateArrow.
    destruct (JsMap.get id (Diagram.arrows d0)) as [arrow|]; [|now split].
    destruct (JsMap.get (Node.id (Arrow.fromNode arrow)) nodeIdMap)
      as [newFrom|] eqn:Ef; [|now split].
    destruct (JsMap.get (Node.id (Arrow.toNode arrow)) nodeIdMap)
      as [newTo|] eqn:Et; [|now split].
    simpl. split; [assumption|].
    apply addArrow_integrity; [|assumption].
    apply JsMapFacts.get_in in Ef, Et.
    apply Hc in Ef, Et. simpl in Ef, Et.
    unfold Scene.resolves. simpl. rewrite H1.
    now rewrite Ef, Et.
Qed.

Lemma duplicateSelected_integrity rt d :
  Scene.integrity d = true ->
  Scene.integrity (snd (fst (Diagram.duplicateSelected rt d))) = true.
Proof.
  intros H. unfold Diagram.duplicateSelected.
  pose proof (duplicateNode_invariant (Diagram.selectedElementIds d) rt d H) as H1.
  destruct (fold_left Diagram.duplicateNode _ _) as [[[rt1 d1] nodeIdMap] ids1].
  destruct H1 as [H1 Hc].
  pose proof (duplicateLabel_invariant (Diagram.selectedElementIds d) rt1 d1 ids1)
    as H2.
  destruct (fold_left Diagram.duplicateLabel _ _) as [[rt2 d2] ids2].
  destruct H2 as [H2n H2a].
  assert (Hc2 : clonesPresent d2 nodeIdMap).
  { intros kv Hin. rewrite H2n. now apply Hc. }
  assert (Hi2 : Scene.integrity d2 = true).
  { now apply (unchanged_integrity d1). }
  pose proof (duplicateArrow_invariant nodeIdMap (Diagram.selectedElementIds d)
                rt2 d2 ids2 Hc2 Hi2) as H3.
  destruct (fold_left (Diagram.duplicateArrow nodeIdMap) _ _)
    as [[rt3 d3] newIds].
  destruct H3 as [_ H3].
  pose proof (Skeleton.clearSelection_same rt3 d3) as [_ H4].
  destruct (Diagram.clearSelection rt3 d3) as [rt4 d4].
  pose proof (Skeleton.selectElements_same newIds false rt4 d4) as [_ H5].
  destruct (Diagram.selectElements newIds false rt4 d4) as [rt5 d5].
  simpl in *. eapply same_integrity; [eassumption|].
  eapply same_integrity; eassumption.
Qed.

Lemma apply_integrity st op :
  match op with
  | Scene.AddArrow arrow => Scene.resolves (snd st) arrow = true
  | _ => True
  end ->
  Scene.integrity (snd st) = true ->
  Scene.integrity (snd (Scene.apply st op)) = true.
Proof.
  destruct st as [rt d]. intros Hg H. simpl in H, Hg.
  destruct op; cbn [Scene.apply snd].
  - now apply addNode_integrity.
  - now apply removeNode_integrity.
  - now apply addArrow_integrity.
  - now apply removeArrow_integrity.
  - now apply (unchanged_integrity d).
  - now apply (unchanged_integrity d).
  - now apply (unchanged_integrity d).
  - destruct (removeWhiteboard_shape whiteboardId rt d) as [H1 [H2 _]].
    now apply (unchanged_integrity d).
  - now apply (unchanged_integrity d).
  - unfold Diagram.whiteboard.
    destruct (JsMap.values (Diagram.whiteboards d)); simpl; [|assumption].
    now apply (unchanged_integrity d).
  - unfold Diagram.duplicateWhiteboard.
    destruct (JsMap.get whiteboardId (Diagram.whiteboards d)); simpl;
      [|assumption].
    now apply (unchanged_integrity d).
  - apply (same_integrity d); [apply Skeleton.selectElements_same|assumption].
  - apply (same_integrity d); [apply Skeleton.selectElement_same|assumption].
  - apply (same_integrity d); [apply Skeleton.deselectElement_same|assumption].
  - apply (same_integrity d); [apply Skeleton.clearSelection_same|assumption].
  - now apply deleteSelected_integrity.
  - apply (same_integrity d); [apply Skeleton.selectAll_same|assumption].
  - now apply duplicateSelected_integrity.
  - reflexivity.
Qed.

Lemma run_integrity ops st :
  Scene.arrowsGuarded ops st ->
  Scene.integrity (snd st) = true ->
  Scene.integrity (snd (Scene.run ops st)) = true.
Proof.
  revert st. induction ops as [|op ops IH]; intros st Hg H; simpl.
  - assumption.
  - destruct Hg as [Hg1 Hg2]. apply IH; [assumption|].
    now apply apply_integrity.
Qed.
End WithNumber.
End Integrity.

(** ** Concrete scenes on the integer grid *)

Module Example.
Local Open Scope Z_scope.

Definition pt (x y : Z) : @Point.t ZNumber := @Point.mk ZNumber x y.

(** A fresh diagram, a node A at (0,0) and a node B at (300,0), both
    constructed but not yet added. *)
Definition fresh : Runtime.t * Diagram.t := Diagram.new (@Runtime.initial ZNumber).

Definition withA : Runtime.t * Node.t :=
  Runtime.newNode (fst fresh) (pt 0 0) "A" None.
Definition nodeA : Node.t := snd withA.

Definition withB : Runtime.t * Node.t :=
  Runtime.newNode (fst withA) (pt 300 0) "B" None.
Definition nodeB : Node.t := snd withB.

Definition withX : Runtime.t * Arrow.t :=
  Runtime.newArrow (fst withB) nodeA nodeB None None None.
Definition arrowX : Arrow.t := snd withX.

(** A at (0,0) connected to B at (300,0) by the arrow X. *)
Definition sceneAXB : Scene.state :=
  (fst withX,
   Diagram.addArrow arrowX
     (Diagram.addNode nodeB (Diagram.addNode nodeA (snd fresh)))).
End Example.

(** ** C1 *)

Section C1.
Context {N : JSNumber}.

(** C1 (as amended).  Arrow-node integrity is kept by every sequence of
    scene operations in which [addArrow] is only given arrows whose two
    endpoint ids are keys of the node collection.  [removeNode id] removes
    the node, removes every arrow one of whose endpoints has that id (and
    no other arrow, the keys of a Map being distinct), drops the id from
    the selection and leaves every other node as it was. *)
Theorem C1_arrow_node_integrity (rt : Runtime.t) (d : Diagram.t)
    (ops : list Scene.Op) (id : string) :
  (Scene.integrity d = true -> Scene.arrowsGuarded ops (rt, d) ->
   Scene.integrity (snd (Scene.run ops (rt, d))) = true)
  /\ JsMap.has id (Diagram.nodes (Diagram.removeNode id d)) = false
  /\ (forall kv, In kv (Diagram.arrows (Diagram.removeNode id d)) ->
        In kv (Diagram.arrows d)
        /\ Node.id (Arrow.fromNode (snd kv)) <> id
        /\ Node.id (Arrow.toNode (snd kv)) <> id)
  /\ (NoDup (JsMap.keys (Diagram.arrows d)) ->
      forall kv, In kv (Diagram.arrows d) ->
        Node.id (Arrow.fromNode (snd kv)) <> id ->
        Node.id (Arrow.toNode (snd kv)) <> id ->
        In kv (Diagram.arrows (Diagram.removeNode id d)))
  /\ JsSet.has id (Diagram.selectedElementIds (Diagram.removeNode id d)) = false
  /\ (forall k, k <> id ->
        JsMap.get k (Diagram.nodes (Diagram.removeNode id d))
        = JsMap.get k (Diagram.nodes d))
  /\ Diagram.textLabels (Diagram.removeNode id d) = Diagram.textLabels d
  /\ Diagram.whiteboards (Diagram.removeNode id d) = Diagram.whiteboards d.
Proof.
  split; [|split; [|split; [|split; [|split; [|split; [|split]]]]]].
  - intros H Hg. now apply Integrity.run_integrity.
  - simpl. rewrite JsMapFacts.has_delete, String.eqb_refl. reflexivity.
  - intros kv Hin. apply Integrity.removeNode_arrows in Hin as [Hin Ht].
    split; [assumption|]. now apply Integrity.touches_false.
  - intros Hnd kv Hin Hf Ht. apply Integrity.removeNode_arrows_kept; try assumption.
    unfold Diagram.touches. apply orb_false_iff.
    split; apply String.eqb_neq; assumption.
  - simpl. destruct (JsSet.has id _) eqn:E; [|reflexivity].
    apply JsSetFacts.set_has_true_iff, JsSetFacts.set_in_delete in E.
    now destruct E.
  - intros k Hk. simpl. rewrite JsMapFacts.get_delete.
    destruct (String.eqb id k) eqn:E; [|reflexivity].
    apply String.eqb_eq in E. congruence.
  - reflexivity.
  - reflexivity.
Qed.
End C1.

(** The cascade of the specification's scenario: removing A removes the
    arrow X and keeps B, and the scene keeps its integrity. *)
Lemma C1_witness :
  Scene.integrity
    (snd (Scene.run [Scene.RemoveNode "node-0"] Example.sceneAXB)) = true
  /\ JsMap.has "node-1"
       (Diagram.nodes (Diagram.removeNode "node-0" (snd Example.sceneAXB)))
     = true
  /\ Diagram.arrows (Diagram.removeNode "node-0" (snd Example.sceneAXB)) = [].
Proof.
  split; [|split].
  - apply (proj1 (C1_arrow_node_integrity (fst Example.sceneAXB)
                    (snd Example.sceneAXB) [Scene.RemoveNode "node-0"] "node-0")).
    + vm_compute. reflexivity.
    + simpl. auto.
  - vm_compute. reflexivity.
  - vm_compute. reflexivity.
Defined.

(** C1 as stated fails: [addArrow] checks nothing, so one call on a fresh
    scene leaves an arrow whose endpoints are not in the node collection. *)
Lemma C1_counterexample :
  Scene.integrity
    (snd (Scene.run [Scene.AddArrow Example.arrowX] Example.fresh)) = false.
Proof. vm_compute. reflexivity. Qed.

(** ** The last whiteboard *)

Module LastWhiteboard.
Section WithNumber.
Context {N : JSNumber}.

(** The whiteboard collection is a Map (distinct keys) with an entry. *)
Definition inhabitedMap (m : JsMap.t Whiteboard.t) : Prop :=
  NoDup (JsMap.keys m) /\ 1 <= List.length m.

Definition inhabited (d : Diagram.t) : Prop :=
  inhabitedMap (Diagram.whiteboards d).

Lemma inhabited_length d :
  List.length (Diagram.getAllWhiteboards d)
  = List.length (Diagram.whiteboards d).
Proof. unfold Diagram.getAllWhiteboards, JsMap.values. apply length_map. Qed.

Lemma length_set [V : Type] k (v : V) m :
  List.length m <= List.length (JsMap.set k v m)
  /\ 1 <= List.length (JsMap.set k v m).
Proof.
  induction m as [|[k0 v0] m IH]; simpl; [lia|].
  destruct (String.eqb k k0); simpl; lia.
Qed.

Lemma unchanged_inhabited d d' :
  Diagram.whiteboards d' = Diagram.whiteboards d ->
  inhabited d -> inhabited d'.
Proof. unfold inhabited. now intros ->. Qed.

Lemma same_inhabited d d' : Skeleton.same d d' -> inhabited d -> inhabited d'.
Proof.
  intros [_ _ _ Hw]. unfold inhabited, inhabitedMap.
  now rewrite (Skeleton.mapv_keys _ _ _ Hw), (Skeleton.mapv_length _ _ _ Hw).
Qed.

Lemma set_inhabited k wb m :
  NoDup (JsMap.keys m) -> inhabitedMap (JsMap.set k wb m).
Proof.
  intros H. split.
  - now apply JsMapFacts.NoDup_keys_set.
  - apply length_set.
Qed.

Lemma removeWhiteboard_inhabited id rt d :
  inhabited d -> inhabited (snd (Diagram.removeWhiteboard id rt d)).
Proof.
  intros [Hnd Hlen]. unfold Diagram.removeWhiteboard, JsMap.size.
  destruct (Nat.leb (List.length (Diagram.whiteboards d)) 1) eqn:E; simpl.
  - now split.
  - apply Nat.leb_gt in E. split; simpl.
    + now apply JsMapFacts.NoDup_keys_delete.
    + pose proof (JsMapFacts.length_delete id (Diagram.whiteboards d) Hnd). lia.
Qed.

Lemma deleteSelected_inhabited rt d :
  inhabited d -> inhabited (snd (Diagram.deleteSelected rt d)).
Proof.
  intros H. unfold Diagram.deleteSelected.
  match goal with |- context [fold_left ?f ?l ?a] =>
    assert (Hf : inhabited (snd (fold_left f l a))) end.
  { apply fold_left_invariant with (P := fun st => inhabited (snd st));
      [assumption|].
    intros [rt0 d0] id _ H0. simpl in *.
    destruct (JsMap.has id (Diagram.nodes d0));
      [now apply (unchanged_inhabited d0)|].
    destruct (JsMap.has id (Diagram.arrows d0));
      [now apply (unchanged_inhabited d0)|].
    destruct (JsMap.has id (Diagram.textLabels d0));
      [now apply (unchanged_inhabited d0)|].
    destruct (JsMap.has id (Diagram.whiteboards d0)); [|assumption].
    now apply removeWhiteboard_inhabited. }
  destruct (fold_left _ _ _) as [rt1 d1]. simpl in *.
  now apply (unchanged_inhabited d1).
Qed.

Lemma duplicateSelected_whiteboards rt d :
  Skeleton.mapv Skeleton.eraseW
    (Diagram.whiteboards (snd (fst (Diagram.duplicateSelected rt d))))
  = Skeleton.mapv Skeleton.eraseW (Diagram.whiteboards d).
Proof.
  unfold Diagram.duplicateSelected.
  assert (H1 : let '(_, d1, _, _) :=
                 fold_left Diagram.duplicateNode (Diagram.selectedElementIds d)
                           (rt, d, [], []) in
               Diagram.whiteboards d1 = Diagram.whiteboards d).
  { apply fold_left_invariant
      with (P := fun st : Runtime.t * Diagram.t * JsMap.t Node.t * list string =>
                   let '(_, d1, _, _) := st in
                   Diagram.whiteboards d1 = Diagram.whiteboards d);
      [reflexivity|].
    intros [[[rt0 d0] m0] ids0] id _ H. unfold Diagram.duplicateNode.
    destruct (JsMap.get id (Diagram.nodes d0)); [|assumption].
    now destruct (Runtime.cloneNode rt0 t). }
  destruct (fold_left Diagram.duplicateNode _ _) as [[[rt1 d1] nodeIdMap] ids1].
  assert (H2 : let '(_, d2, _) :=
                 fold_left Diagram.duplicateLabel (Diagram.selectedElementIds d)
                           (rt1, d1, ids1) in
               Diagram.whiteboards d2 = Diagram.whiteboards d).
  { apply fold_left_invariant
      with (P := fun st : Runtime.t * Diagram.t * list string =>
                   let '(_, d2, _) := st in
                   Diagram.whiteboards d2 = Diagram.whiteboards d);
      [assumption|].
    intros [[rt0 d0] ids0] id _ H. unfold Diagram.duplicateLabel.
    destruct (JsMap.get id (Diagram.textLabels d0)); [|assumption].
    now destruct (Runtime.cloneTextLabel rt0 t). }
  destruct (fold_left Diagram.duplicateLabel _ _) as [[rt2 d2] ids2].
  assert (H3 : let '(_, d3, _) :=
                 fold_left (Diagram.duplicateArrow nodeIdMap)
                           (Diagram.selectedElementIds d) (rt2, d2, ids2) in
               Diagram.whiteboards d3 = Diagram.whiteboards d).
  { apply fold_left_invariant
      with (P := fun st : Runtime.t * Diagram.t * list string =>
                   let '(_, d3, _) := st in
                   Diagram.whiteboards d3 = Diagram.whiteboards d);
      [assumption|].
    intros [[rt0 d0] ids0] id _ H. unfold Diagram.duplicateArrow.
    destruct (JsMap.get id (Diagram.arrows d0)); [|assumption].
    destruct (JsMap.get _ nodeIdMap); [|assumption].
    destruct (JsMap.get _ nodeIdMap); assumption. }
  destruct (fold_left (Diagram.duplicateArrow nodeIdMap) _ _)
    as [[rt3 d3] newIds].
  pose proof (Skeleton.clearSelection_same rt3 d3) as [_ H4].
  destruct (Diagram.clearSelection rt3 d3) as [rt4 d4].
  pose proof (Skeleton.selectElements_same newIds false rt4 d4) as [_ H5].
  destruct (Diagram.selectElements newIds false rt4 d4) as [rt5 d5].
  simpl in *. destruct H4 as [_ _ _ H4], H5 as [_ _ _ H5]. congruence.
Qed.

Lemma apply_inhabited st op :
  Scene.isClearAllWhiteboards op = false ->
  inhabited (snd st) -> inhabited (snd (Scene.apply st op)).
Proof.
  destruct st as [rt d]. intros Hop H. simpl in H.
  destruct op; cbn [Scene.apply snd]; try discriminate;
    try (now apply (unchanged_inhabited d)).
  - apply set_inhabited, H.
  - now apply removeWhiteboard_inhabited.
  - unfold Diagram.whiteboard.
    destruct (JsMap.values (Diagram.whiteboards d)) eqn:E; [|assumption].
    apply set_inhabited, H.
  - unfold Diagram.duplicateWhiteboard.
    destruct (JsMap.get whiteboardId (Diagram.whiteboards d)); [|assumption].
    apply set_inhabited. cbn [Diagram.whiteboards Diagram.with_whiteboards].
    rewrite JsMapFacts.keys_update. apply H.
  - apply (same_inhabited d); [apply Skeleton.selectElements_same|assumption].
  - apply (same_inhabited d); [apply Skeleton.selectElement_same|assumption].
  - apply (same_inhabited d); [apply Skeleton.deselectElement_same|assumption].
  - apply (same_inhabited d); [apply Skeleton.clearSelection_same|assumption].
  - now apply deleteSelected_inhabited.
  - apply (same_inhabited d); [apply Skeleton.selectAll_same|assumption].
  - pose proof (duplicateSelected_whiteboards rt d) as Hw.
    destruct H as [Hnd Hlen]. unfold inhabited, inhabitedMap.
    now rewrite (Skeleton.mapv_keys _ _ _ Hw), (Skeleton.mapv_length _ _ _ Hw).
  - apply set_inhabited. constructor.
Qed.

Lemma run_inhabited ops st :
  forallb (fun op => negb (Scene.isClearAllWhiteboards op)) ops = true ->
  inhabited (snd st) -> inhabited (snd (Scene.run ops st)).
Proof.
  revert st. induction ops as [|op ops IH]; intros st Hops H; simpl.
  - assumption.
  - simpl in Hops. apply andb_true_iff in Hops as [H1 H2].
    apply IH; [assumption|]. apply apply_inhabited; [|assumption].
    now apply negb_true_iff.
Qed.
End WithNumber.
End LastWhiteboard.

(** ** C3 *)

Section C3.
Context {N : JSNumber}.

(** C3 (as amended).  A scene whose whiteboard Map has an entry keeps at
    least one whiteboard through every sequence of scene operations that
    does not call [clearAllWhiteboards], however often it tries
    [removeWhiteboard] and [deleteSelected].  With at most one whiteboard,
    [removeWhiteboard id] changes nothing and logs a warning; otherwise it
    deletes the entry [id] of the whiteboard Map, drops [id] from the
    selection and leaves nodes, arrows and labels as they are. *)
Theorem C3_last_whiteboard (rt : Runtime.t) (d : Diagram.t)
    (ops : list Scene.Op) (id : string) :
  (NoDup (JsMap.keys (Diagram.whiteboards d)) ->
   1 <= List.length (Diagram.getAllWhiteboards d) ->
   forallb (fun op => negb (Scene.isClearAllWhiteboards op)) ops = true ->
   1 <= List.length (Diagram.getAllWhiteboards (snd (Scene.run ops (rt, d)))))
  /\ (JsMap.size (Diagram.whiteboards d) <= 1 ->
      Diagram.removeWhiteboard id rt d
      = (Runtime.log rt Diagram.lastWhiteboardWarning, d))
  /\ (1 < JsMap.size (Diagram.whiteboards d) ->
      Diagram.removeWhiteboard id rt d
      = (rt,
         Diagram.mk (Diagram.nodes d) (Diagram.arrows d) (Diagram.textLabels d)
           (JsMap.delete id (Diagram.whiteboards d))
           (JsSet.delete id (Diagram.selectedElementIds d))))
  /\ (forall k, k <> id ->
        JsMap.get k (JsMap.delete id (Diagram.whiteboards d))
        = JsMap.get k (Diagram.whiteboards d)).
Proof.
  split; [|split; [|split]].
  - intros Hnd Hlen Hops. rewrite LastWhiteboard.inhabited_length in *.
    apply (LastWhiteboard.run_inhabited ops (rt, d) Hops). now split.
  - intros H. unfold Diagram.removeWhiteboard.
    apply Nat.leb_le in H. now rewrite H.
  - intros H. unfold Diagram.removeWhiteboard.
    apply Nat.leb_gt in H. now rewrite H.
  - intros k Hk. rewrite JsMapFacts.get_delete.
    destruct (String.eqb id k) eqn:E; [|reflexivity].
    apply String.eqb_eq in E. congruence.
Qed.
End C3.

(** Deleting the only whiteboard twice, directly and through the selection,
    leaves it in place. *)
Lemma C3_witness :
  1 <= List.length
         (Diagram.getAllWhiteboards
            (snd (Scene.run
                    [Scene.RemoveWhiteboard "whiteboard-0";
                     Scene.SelectElement "whiteboard-0" false;
                     Scene.DeleteSelected]
Example.sceneAXB))).
Proof.
  apply (proj1 (C3_last_whiteboard (fst Example.sceneAXB)
                  (snd Example.sceneAXB) _ "whiteboard-0")).
  - vm_compute. constructor; [tauto|constructor].
  - vm_compute. lia.
  - reflexivity.
Defined.

(** C3 as stated fails: [clearAllWhiteboards] is a public operation of the
    scene and leaves no whiteboard. *)
Lemma C3_counterexample :
  List.length
    (Diagram.getAllWhiteboards
       (snd (Scene.run [Scene.ClearAllWhiteboards] Example.fresh))) = 0.
Proof. vm_compute. reflexivity. Qed.

(** ** Plane geometry of the hit tests

    The tests in the words of the specification, written with the number
    operations alone: the distance between two points, the point of a
    circle that faces a target, the point of a segment closest to a
    point. *)

Module Geometry.
Section WithNumber.
Context {N : JSNumber}.
Local Open Scope js_scope.

Definition distance (a b : Point.t) : num :=
  nsqrt ((Point.x a - Point.x b) * (Point.x a - Point.x b)
         + (Point.y a - Point.y b) * (Point.y a - Point.y b)).

  (** Inside or on the circle around [c]. *)
Definition inCircle (c : Point.t) (r : num) (p : Point.t) : bool :=
  distance c p <=? r.

  (** Inside or on the axis-aligned box of the given width and height
      around [c]. *)
Definition inBox (c : Point.t) (w h : num) (p : Point.t) : bool :=
  (Point.x p >=? Point.x c - w / lit 2)
  && (Point.x p <=? Point.x c + w / lit 2)
  && (Point.y p >=? Point.y c - h / lit 2)
  && (Point.y p <=? Point.y c + h / lit 2).

  (** The point of the circle around [c] in the direction of [target]. *)
Definition facing (c : Point.t) (r : num) (target : Point.t) : Point.t :=
  let angle := natan2 (Point.y target - Point.y c)
                      (Point.x target - Point.x c) in
  Point.mk (Point.x c + ncos angle * r) (Point.y c + nsin angle * r).

  (** The point of the segment from [a] to [b] closest to [p]: the foot of
      the perpendicular from [p], or the nearer end when the foot falls
      outside the segment. *)
Definition closest (a b p : Point.t) : Point.t :=
  let t :=
    nmax (lit 0)
      (nmin (lit 1)
         (((Point.x p - Point.x a) * (Point.x b - Point.x a)
           + (Point.y p - Point.y a) * (Point.y b - Point.y a))
          / (distance a b * distance a b))) in
  Point.mk (Point.x a + t * (Point.x b - Point.x a))
           (Point.y a + t * (Point.y b - Point.y a)).

  (** Within [threshold] of the segment from [a] to [b]; a segment of
      length 0 has nothing near it. *)
Definition nearSegment (a b p : Point.t) (threshold : num) : bool :=
  if distance a b === lit 0 then false
  else distance p (closest a b p) <=? threshold.

  (** The two points are at the same finite place: the differences of
      their coordinates are 0. *)
Definition coincide (a b : Point.t) : Prop :=
  Point.x a - Point.x b = lit 0 /\ Point.y a - Point.y b = lit 0.

  (** The segment an arrow is drawn along: from the point of the source's
      circle facing the target's centre to the point of the target's
      circle facing the source's centre. *)
Definition segmentStart (s : Node.store) (a : Arrow.t) : Point.t :=
  facing (Node.position (Node.read s (Arrow.fromNode a)))
         (Node.radius (Node.read s (Arrow.fromNode a)))
         (Node.position (Node.read s (Arrow.toNode a))).

Definition segmentEnd (s : Node.store) (a : Arrow.t) : Point.t :=
  facing (Node.position (Node.read s (Arrow.toNode a)))
         (Node.radius (Node.read s (Arrow.toNode a)))
         (Node.position (Node.read s (Arrow.fromNode a))).
End WithNumber.
End Geometry.

(** ** Hit-testing *)

Module HitTest.
Section WithNumber.
Context {N : JSNumber}.

(** [x] is the first element of [l] that passes the test [P]. *)
Definition firstMatch [A : Type] (P : A -> bool) (l : list A) (x : A) : Prop :=
  exists l1 l2,
    l = l1 ++ x :: l2 /\ P x = true /\ forall y, In y l1 -> P y = false.

Definition noMatch [A : Type] (P : A -> bool) (l : list A) : Prop :=
  forall y, In y l -> P y = false.

Lemma find_firstMatch [A : Type] (P : A -> bool) l x :
  find P l = Some x <-> firstMatch P l x.
Proof.
  split.
  - induction l as [|y l IH]; simpl; [discriminate|].
    destruct (P y) eqn:E.
    + intros [= ->]. exists [], l. repeat split; auto. intros ? [].
    + intros H. destruct (IH H) as [l1 [l2 [-> [Hx Hl1]]]].
      exists (y :: l1), l2. repeat split; auto.
      intros z [<-|Hz]; auto.
  - intros [l1 [l2 [-> [Hx Hl1]]]].
    induction l1 as [|y l1 IH]; simpl.
    + now rewrite Hx.
    + rewrite (Hl1 y (or_introl eq_refl)). apply IH.
      intros z Hz. apply Hl1. now right.
Qed.

Lemma find_noMatch [A : Type] (P : A -> bool) l :
  find P l = None <-> noMatch P l.
Proof.
  split.
  - intros H y Hy. now apply (find_none P l H).
  - intros H. induction l as [|y l IH]; simpl; [reflexivity|].
    rewrite (H y (or_introl eq_refl)). apply IH.
    intros z Hz. apply H. now right.
Qed.

Lemma matching_found [A : Type] (P : A -> bool) l x :
  In x l -> P x = true -> exists x', find P l = Some x'.
Proof.
  intros Hin Hx. destruct (find P l) as [x'|] eqn:E; [now exists x'|].
  apply find_noMatch in E. rewrite (E x Hin) in Hx. discriminate.
Qed.

Definition nodeHit (s : Node.store) (p : Point.t) (n : Node.t) : bool :=
  Node.containsPoint s n p.
Definition labelHit (p : Point.t) (l : TextLabel.t) : bool :=
  TextLabel.containsPoint l p.
Definition arrowHit (s : Node.store) (p : Point.t) (a : Arrow.t) : bool :=
  Arrow.containsPoint s a p (lit 10).

Lemma findElementAtPoint_unfold s d p :
  Diagram.findElementAtPoint s d p
  = match find (nodeHit s p) (Diagram.getAllNodes d) with
    | Some node => Some (mkHit ElNode (Node.id node))
    | None =>
        match find (labelHit p) (Diagram.getAllTextLabels d) with
        | Some label => Some (mkHit ElText (TextLabel.id label))
        | None =>
            match find (arrowHit s p) (Diagram.getAllArrows d) with
            | Some arrow => Some (mkHit ElArrow (Arrow.id arrow))
            | None => None
            end
        end
    end.
Proof. reflexivity. Qed.

  (** The tests of the code are the tests of the geometry. *)
Local Open Scope js_scope.

Lemma distanceTo_distance (a b : Point.t) :
  Point.distanceTo a b = Geometry.distance a b.
Proof. reflexivity. Qed.

Lemma getStartPoint_segment s a :
  Arrow.getStartPoint s a = Geometry.segmentStart s a.
Proof. reflexivity. Qed.

Lemma getEndPoint_segment s a :
  Arrow.getEndPoint s a = Geometry.segmentEnd s a.
Proof. reflexivity. Qed.

Lemma nodeHit_inCircle s p n :
  nodeHit s p n
  = Geometry.inCircle (Node.position (Node.read s n))
      (Node.radius (Node.read s n)) p.
Proof. reflexivity. Qed.

Lemma labelHit_inBox p l :
  labelHit p l
  = Geometry.inBox (TextLabel.position l) (TextLabel.width l)
      (TextLabel.height l) p.
Proof. reflexivity. Qed.

Lemma arrowHit_nearSegment s p a :
  arrowHit s p a
  = Geometry.nearSegment (Geometry.segmentStart s a) (Geometry.segmentEnd s a)
      p (lit 10).
Proof. reflexivity. Qed.

Section Zero.
Hypothesis mul_zero : lit 0 * lit 0 = lit 0.
Hypothesis add_zero : lit 0 + lit 0 = lit 0.
Hypothesis sqrt_zero : nsqrt (lit 0) = lit 0.
Hypothesis zero_eq : (lit 0 === lit 0) = true.

Lemma coincide_distance a b :
  Geometry.coincide a b -> Geometry.distance a b = lit 0.
Proof.
  intros [Hx Hy]. unfold Geometry.distance.
  now rewrite Hx, Hy, mul_zero, add_zero, sqrt_zero.
Qed.

Lemma coincide_nearSegment a b p threshold :
  Geometry.coincide a b -> Geometry.nearSegment a b p threshold = false.
Proof.
  intros H. unfold Geometry.nearSegment.
  now rewrite (coincide_distance a b H), zero_eq.
Qed.
End Zero.

Lemma selfLoop_segment s a :
  Arrow.fromNode a = Arrow.toNode a ->
  Geometry.segmentEnd s a = Geometry.segmentStart s a.
Proof.
  intros H. unfold Geometry.segmentEnd, Geometry.segmentStart. now rewrite H.
Qed.
End WithNumber.
End HitTest.

(** ** C7 *)

Section C7.
Context {N : JSNumber}.
Local Open Scope js_scope.
Hypothesis mul_zero : lit 0 * lit 0 = lit 0.
Hypothesis add_zero : lit 0 + lit 0 = lit 0.
Hypothesis sqrt_zero : nsqrt (lit 0) = lit 0.
Hypothesis zero_eq : (lit 0 === lit 0) = true.

(** C7.  [findElementAtPoint] is total and returns at most one hit.  Nodes
    are tested first, then text labels, then arrows; within a collection
    the first match in insertion order wins, so a node under the point is
    always preferred to an arrow; the result is [None] exactly when
    nothing matches.  A node matches when the square root of the sum of
    the squared coordinate differences between its centre and the point
    is at most its radius; a label when the point is in the box of the
    label's width and height around its position; an arrow when the point
    is within 10 of the point closest to it on the segment between the
    points of the two circles that face the other node's centre.  An arrow
    whose two derived end points are at the same place (their coordinate
    differences are 0), as those of an arrow from a node to itself are,
    never matches.  The last statement uses that 0 * 0, 0 + 0 and the
    square root of 0 are 0 and that 0 === 0, which hold of JavaScript
    numbers. *)
Theorem C7_findElementAtPoint_contract (s : Node.store) (d : Diagram.t)
    (p : Point.t) :
  let result := Diagram.findElementAtPoint s d p in
  (forall n, HitTest.firstMatch (HitTest.nodeHit s p) (Diagram.getAllNodes d) n ->
     result = Some (mkHit ElNode (Node.id n)))
  /\ (HitTest.noMatch (HitTest.nodeHit s p) (Diagram.getAllNodes d) ->
      forall l,
        HitTest.firstMatch (HitTest.labelHit p) (Diagram.getAllTextLabels d) l ->
        result = Some (mkHit ElText (TextLabel.id l)))
  /\ (HitTest.noMatch (HitTest.nodeHit s p) (Diagram.getAllNodes d) ->
      HitTest.noMatch (HitTest.labelHit p) (Diagram.getAllTextLabels d) ->
      forall a,
        HitTest.firstMatch (HitTest.arrowHit s p) (Diagram.getAllArrows d) a ->
        result = Some (mkHit ElArrow (Arrow.id a)))
  /\ (result = None
      <-> HitTest.noMatch (HitTest.nodeHit s p) (Diagram.getAllNodes d)
          /\ HitTest.noMatch (HitTest.labelHit p) (Diagram.getAllTextLabels d)
          /\ HitTest.noMatch (HitTest.arrowHit s p) (Diagram.getAllArrows d))
  /\ (forall n, In n (Diagram.getAllNodes d) -> HitTest.nodeHit s p n = true ->
      exists n', In n' (Diagram.getAllNodes d)
                 /\ result = Some (mkHit ElNode (Node.id n')))
  /\ (forall n,
        HitTest.nodeHit s p n
        = (nsqrt ((Point.x (Node.position (Node.read s n)) - Point.x p)
                  * (Point.x (Node.position (Node.read s n)) - Point.x p)
                  + (Point.y (Node.position (Node.read s n)) - Point.y p)
                    * (Point.y (Node.position (Node.read s n)) - Point.y p))
           <=? Node.radius (Node.read s n)))
  /\ (forall l,
        HitTest.labelHit p l
        = ((Point.x p >=? Point.x (TextLabel.position l) - TextLabel.width l / lit 2)
           && (Point.x p <=? Point.x (TextLabel.position l) + TextLabel.width l / lit 2)
           && (Point.y p >=? Point.y (TextLabel.position l) - TextLabel.height l / lit 2)
           && (Point.y p <=? Point.y (TextLabel.position l) + TextLabel.height l / lit 2)))
  /\ (forall a,
        HitTest.arrowHit s p a
        = Geometry.nearSegment
            (Geometry.facing (Node.position (Node.read s (Arrow.fromNode a)))
               (Node.radius (Node.read s (Arrow.fromNode a)))
               (Node.position (Node.read s (Arrow.toNode a))))
            (Geometry.facing (Node.position (Node.read s (Arrow.toNode a)))
               (Node.radius (Node.read s (Arrow.toNode a)))
               (Node.position (Node.read s (Arrow.fromNode a))))
            p (lit 10))
  /\ (forall a,
        Geometry.coincide (Geometry.segmentStart s a) (Geometry.segmentEnd s a) ->
        HitTest.arrowHit s p a = false)
  /\ (forall a,
        Arrow.fromNode a = Arrow.toNode a ->
        Geometry.segmentEnd s a = Geometry.segmentStart s a).
Proof.
  intros result. subst result. rewrite HitTest.findElementAtPoint_unfold.
  repeat match goal with |- _ /\ _ => split end.
  - intros n Hn. apply HitTest.find_firstMatch in Hn. now rewrite Hn.
  - intros Hn l Hl. apply HitTest.find_noMatch in Hn.
    apply HitTest.find_firstMatch in Hl. now rewrite Hn, Hl.
  - intros Hn Hl a Ha. apply HitTest.find_noMatch in Hn, Hl.
    apply HitTest.find_firstMatch in Ha. now rewrite Hn, Hl, Ha.
  - split.
    + intros H.
      destruct (find (HitTest.nodeHit s p) _) eqn:E; [discriminate|].
      destruct (find (HitTest.labelHit p) _) eqn:E1; [discriminate|].
      destruct (find (HitTest.arrowHit s p) _) eqn:E2; [discriminate|].
      repeat split; now apply HitTest.find_noMatch.
    + intros [Hn [Hl Ha]]. apply HitTest.find_noMatch in Hn, Hl, Ha.
      now rewrite Hn, Hl, Ha.
  - intros n Hin Hn.
    destruct (HitTest.matching_found _ _ _ Hin Hn) as [n' E]. rewrite E.
    exists n'. split; [|reflexivity]. now apply find_some in E.
  - intros n. apply HitTest.nodeHit_inCircle.
  - intros l. apply HitTest.labelHit_inBox.
  - intros a. apply HitTest.arrowHit_nearSegment.
  - intros a H. rewrite HitTest.arrowHit_nearSegment.
    now apply HitTest.coincide_nearSegment.
  - intros a. apply HitTest.selfLoop_segment.
Qed.
End C7.

Module HitExample.
(** The node A at (0,0) with an arrow from A to itself. *)
Definition loop : Arrow.t :=
  Arrow.new 0 Example.nodeA Example.nodeA None None None.

Definition store : Node.store := Runtime.nodeStore (fst Example.withA).

Definition scene : Diagram.t :=
  Diagram.addArrow loop (Diagram.addNode Example.nodeA (snd Example.fresh)).
End HitExample.

(** C7 on the integer grid: both end points of the arrow from A to itself
    are at (60,0); the point (65,0), 5 away from them and outside A,
    matches nothing; the point (60,0) matches A. *)
Lemma C7_witness :
  Geometry.segmentStart HitExample.store HitExample.loop = Example.pt 60 0
  /\ Geometry.segmentEnd HitExample.store HitExample.loop = Example.pt 60 0
  /\ HitTest.arrowHit HitExample.store (Example.pt 65 0) HitExample.loop = false
  /\ Diagram.findElementAtPoint HitExample.store HitExample.scene
       (Example.pt 65 0) = None
  /\ Diagram.findElementAtPoint HitExample.store HitExample.scene
       (Example.pt 60 0) = Some (mkHit ElNode "node-0").
Proof.
  split; [reflexivity|]. split; [reflexivity|]. split.
  - apply (@C7_findElementAtPoint_contract ZNumber eq_refl eq_refl eq_refl
             eq_refl HitExample.store HitExample.scene (Example.pt 65 0)).
    split; reflexivity.
  - split; reflexivity.
Defined.

(** ** The Escape cascade *)

Module Escape.
Section WithNumber.
Context {N : JSNumber}.

(** What the cascade looks at: the tool, the mode and whether anything is
    selected. *)
Definition view (m : InteractionManager.t) : Tool * InteractionMode * bool :=
  (InteractionManager.currentTool m, InteractionManager.mode m,
   Nat.ltb 0 (List.length (Diagram.getSelectedIds (InteractionManager.diagram m)))).

Definition cancellable (mode : InteractionMode) : bool :=
  match mode with
  | CREATING_ARROW | EDITING_TEXT | BOX_SELECTING => true
  | _ => false
  end.

(** One level of the cascade. *)
Definition level (v : Tool * InteractionMode * bool)
    : Tool * InteractionMode * bool :=
  let '(tool, mode, selected) := v in
  if cancellable mode then (tool, IDLE, selected)
  else if selected then (tool, mode, false)
  else if negb (Tool_eqb tool SELECT) then (SELECT, IDLE, false)
  else (tool, mode, selected).

Definition baseline : Tool * InteractionMode * bool := (SELECT, IDLE, false).

(** The states Escape can bring back to the baseline: the mode is idle or
    one of the three it cancels, or the tool is not Select (so that the
    tool switch resets the mode). *)
Definition escapable (v : Tool * InteractionMode * bool) : bool :=
  let '(tool, mode, _) := v in
  cancellable mode || Mode_eqb mode IDLE || negb (Tool_eqb tool SELECT).

Definition press (st : Runtime.t * InteractionManager.t)
    : Runtime.t * InteractionManager.t :=
  Canvas.pressKey "Escape" st.

Lemma level_converges v :
  escapable v = true ->
  Nat.iter 3 level v = baseline
  /\ (v = baseline \/ level v = baseline \/ level (level v) = baseline
      \/ level (level (level v)) = baseline).
Proof.
  destruct v as [[tool mode] selected].
  destruct tool, mode, selected; simpl; intros H; try discriminate;
    split; auto.
Qed.

Lemma handleKeyDown_Escape rt m :
  InteractionManager.handleKeyDown "Escape" rt m
  = match InteractionManager.mode m with
    | CREATING_ARROW =>
        (rt,
         InteractionManager.onUpdate
           (InteractionManager.with_mode
              (InteractionManager.with_arrowStartNode m None) IDLE))
    | EDITING_TEXT =>
        (rt, InteractionManager.onUpdate (InteractionManager.with_mode m IDLE))
    | BOX_SELECTING =>
        (rt,
         InteractionManager.onUpdate
           (InteractionManager.with_mode
              (InteractionManager.with_selectionBox m None) IDLE))
    | _ =>
        if Nat.ltb 0 (List.length
                        (Diagram.getSelectedIds (InteractionManager.diagram m)))
        then
          let '(rt1, d1) :=
            Diagram.clearSelection rt (InteractionManager.diagram m) in
          (rt1, InteractionManager.onUpdate (InteractionManager.with_diagram m d1))
        else if negb (Tool_eqb (InteractionManager.currentTool m) SELECT)
        then (rt, InteractionManager.requestTool m SELECT)
        else (rt, m)
    end.
Proof. reflexivity. Qed.

Lemma press_level rt m :
  InteractionManager.onToolChange m = true ->
  view (snd (press (rt, m))) = level (view m)
  /\ InteractionManager.onToolChange (snd (press (rt, m))) = true.
Proof.
  intros Hcb. unfold press, Canvas.pressKey, view, level.
  cbn [fst snd]. rewrite handleKeyDown_Escape.
  destruct m as [d tool mode dsp dei asn mp po pso psp sb rh otc em].
  cbv [Canvas.clearEmitted].
  cbn [InteractionManager.mode InteractionManager.currentTool
       InteractionManager.diagram InteractionManager.onToolChange
       InteractionManager.dragStartPoint InteractionManager.draggedElementId
       InteractionManager.arrowStartNode InteractionManager.mousePosition
       InteractionManager.panOffset InteractionManager.panStartOffset
       InteractionManager.panStartScreenPoint InteractionManager.selectionBox
       InteractionManager.resizingHandle InteractionManager.emitted] in *.
  subst otc.
  destruct mode; cbn [cancellable]; try (now split).
  all: destruct (Nat.ltb 0 _) eqn:Es;
    [ pose proof (Skeleton.clearSelection_selection rt d) as Hsel;
      destruct (Diagram.clearSelection rt d) as [rt1 d1];
      cbn [snd] in Hsel; unfold Canvas.settle; cbn -[Nat.ltb];
      unfold Diagram.getSelectedIds; rewrite Hsel; now split
    | destruct tool; unfold Canvas.settle; cbn -[Nat.ltb]; rewrite ?Es;
      now split ].
Qed.

Lemma iter_press_level n rt m :
  InteractionManager.onToolChange m = true ->
  view (snd (Nat.iter n press (rt, m))) = Nat.iter n level (view m)
  /\ InteractionManager.onToolChange (snd (Nat.iter n press (rt, m))) = true.
Proof.
  intros Hcb. induction n as [|n [IH1 IH2]]; simpl; [now split|].
  destruct (Nat.iter n press (rt, m)) as [rt' m'] eqn:E. simpl in *.
  destruct (press_level rt' m' IH2) as [H1 H2].
  split; [|assumption]. now rewrite H1, IH1.
Qed.
End WithNumber.
End Escape.

(** Controllers on the example scene, wired to the page. *)
Module EscapeExample.
Definition manager : InteractionManager.t :=
  InteractionManager.setOnToolChange
    (InteractionManager.new (snd Example.sceneAXB)).

(** Select tool, pointer pressed on node A: dragging, with A selected. *)
Definition dragging : Runtime.t * InteractionManager.t :=
  InteractionManager.handleMouseDown (Example.pt 0 0) false
    (fst Example.sceneAXB) manager.

(** Arrow tool, B selected beforehand, pointer pressed on node A: an arrow
    is being created. *)
Definition creatingArrow : Runtime.t * InteractionManager.t :=
  let '(rt, d) :=
    Diagram.selectElement "node-1" false (fst Example.sceneAXB)
      (snd Example.sceneAXB) in
  InteractionManager.handleMouseDown (Example.pt 0 0) false rt
    (InteractionManager.setTool ARROW
       (InteractionManager.with_diagram manager d)).
End EscapeExample.

(** ** C5 *)

Section C5.
Context {N : JSNumber}.

(** C5 (as amended).  With the tool-change callback installed and wired
    as the page wires it, one press of Escape applies exactly one level of
    the cascade: it cancels CreatingArrow, EditingText or BoxSelecting;
    else it clears a non-empty selection; else it switches a tool other
    than Select to Select (which resets the mode).  From every state whose
    mode is Idle or one of those three, or whose tool is not Select, at
    most three presses reach tool = Select, empty selection, mode = Idle,
    and the state stays there. *)
Theorem C5_escape_convergence (rt : Runtime.t) (m : InteractionManager.t) :
  InteractionManager.onToolChange m = true ->
  Escape.view (snd (Escape.press (rt, m))) = Escape.level (Escape.view m)
  /\ (Escape.escapable (Escape.view m) = true ->
      Escape.view (snd (Nat.iter 3 Escape.press (rt, m))) = Escape.baseline
      /\ exists k, k <= 3
           /\ Escape.view (snd (Nat.iter k Escape.press (rt, m)))
              = Escape.baseline).
Proof.
  intros Hcb. split; [now apply Escape.press_level|].
  intros He. destruct (Escape.level_converges _ He) as [H3 Hk]. split.
  - now rewrite (proj1 (Escape.iter_press_level 3 rt m Hcb)).
  - destruct Hk as [H|[H|[H|H]]].
    + exists 0. split; [lia|exact H].
    + exists 1. split; [lia|].
      now rewrite (proj1 (Escape.iter_press_level 1 rt m Hcb)).
    + exists 2. split; [lia|].
      now rewrite (proj1 (Escape.iter_press_level 2 rt m Hcb)).
    + exists 3. split; [lia|].
      now rewrite (proj1 (Escape.iter_press_level 3 rt m Hcb)).
Qed.
End C5.

(** Arrow tool, an arrow in progress, something selected: three presses. *)
Lemma C5_witness :
  Escape.view (snd EscapeExample.creatingArrow) = (ARROW, CREATING_ARROW, true)
  /\ Escape.view
       (snd (Nat.iter 3 Escape.press
               (fst EscapeExample.creatingArrow,
                snd EscapeExample.creatingArrow)))
     = Escape.baseline.
Proof.
  split; [vm_compute; reflexivity|].
  apply (C5_escape_convergence (fst EscapeExample.creatingArrow)
           (snd EscapeExample.creatingArrow)).
  - vm_compute. reflexivity.
  - vm_compute. reflexivity.
Defined.

(** C5 as stated fails: Escape does not end a drag.  After pressing the
    pointer on a node with the Select tool, no number of presses up to
    three leaves the Dragging mode. *)
Lemma C5_counterexample :
  InteractionManager.currentTool (snd EscapeExample.dragging) = SELECT
  /\ InteractionManager.mode (snd EscapeExample.dragging) = DRAGGING
  /\ InteractionManager.mode
       (snd (Nat.iter 1 Escape.press EscapeExample.dragging)) = DRAGGING
  /\ InteractionManager.mode
       (snd (Nat.iter 2 Escape.press EscapeExample.dragging)) = DRAGGING
  /\ InteractionManager.mode
       (snd (Nat.iter 3 Escape.press EscapeExample.dragging)) = DRAGGING.
Proof. vm_compute. repeat split. Qed.

(** ** Releasing the pointer while an arrow is being drawn *)

Module PointerUp.
Section WithNumber.
Context {N : JSNumber}.
Local Open Scope js_scope.

Lemma mapv_set [V : Type] (e : V -> V) k v (m : JsMap.t V) :
  Skeleton.mapv e (JsMap.set k v m) = JsMap.set k (e v) (Skeleton.mapv e m).
Proof.
  induction m as [|[k0 v0] m IH]; simpl; [reflexivity|].
  destruct (String.eqb k k0); simpl; [reflexivity|now rewrite IH].
Qed.

Lemma selectElement_selection id rt d :
  Diagram.selectedElementIds (snd (Diagram.selectElement id false rt d)) = [id].
Proof.
  unfold Diagram.selectElement.
  pose proof (Skeleton.clearSelection_selection rt d) as H.
  destruct (Diagram.clearSelection rt d) as [rt0 d0].
  simpl in *. now rewrite H.
Qed.

Lemma sameRt_fields rt rt' a :
  Skeleton.sameRt rt rt' ->
  Node.position (Node.heap (Runtime.nodeStore rt') a)
  = Node.position (Node.heap (Runtime.nodeStore rt) a)
  /\ Node.text (Node.heap (Runtime.nodeStore rt') a)
     = Node.text (Node.heap (Runtime.nodeStore rt) a)
  /\ Node.radius (Node.heap (Runtime.nodeStore rt') a)
     = Node.radius (Node.heap (Runtime.nodeStore rt) a)
  /\ Node.style (Node.heap (Runtime.nodeStore rt') a)
     = Node.style (Node.heap (Runtime.nodeStore rt) a)
  /\ Node.fontFamily (Node.heap (Runtime.nodeStore rt') a)
     = Node.fontFamily (Node.heap (Runtime.nodeStore rt) a)
  /\ Node.isDragging (Node.heap (Runtime.nodeStore rt') a)
     = Node.isDragging (Node.heap (Runtime.nodeStore rt) a).
Proof.
  intros [H _ _ _ _ _ _]. specialize (H a).
  repeat split.
  - exact (f_equal Node.position H).
  - exact (f_equal Node.text H).
  - exact (f_equal Node.radius H).
  - exact (f_equal Node.style H).
  - exact (f_equal Node.fontFamily H).
  - exact (f_equal Node.isDragging H).
Qed.

(** What [clearDragging] leaves alone. *)
Lemma clearDragging_shape rt m :
  let r := InteractionManager.clearDragging rt m in
  Diagram.nodes (InteractionManager.diagram (snd r))
  = Diagram.nodes (InteractionManager.diagram m)
  /\ Diagram.arrows (InteractionManager.diagram (snd r))
     = Diagram.arrows (InteractionManager.diagram m)
  /\ Diagram.selectedElementIds (InteractionManager.diagram (snd r))
     = Diagram.selectedElementIds (InteractionManager.diagram m)
  /\ Diagram.whiteboards (InteractionManager.diagram (snd r))
     = Diagram.whiteboards (InteractionManager.diagram m)
  /\ InteractionManager.currentTool (snd r) = InteractionManager.currentTool m
  /\ InteractionManager.mode (snd r) = InteractionManager.mode m
  /\ InteractionManager.arrowStartNode (snd r)
     = InteractionManager.arrowStartNode m
  /\ InteractionManager.emitted (snd r) = InteractionManager.emitted m
  /\ Runtime.arrowNextId (fst r) = Runtime.arrowNextId rt
  /\ Node.nextId (Runtime.nodeStore (fst r)) = Node.nextId (Runtime.nodeStore rt)
  /\ forall a,
       Node.position (Node.heap (Runtime.nodeStore (fst r)) a)
       = Node.position (Node.heap (Runtime.nodeStore rt) a).
Proof.
  unfold InteractionManager.clearDragging.
  destruct (InteractionManager.truthy _) as [id|]; [|simpl; tauto].
  unfold InteractionManager.markDragging.
  destruct (Diagram.getNode id (InteractionManager.diagram m)) as [node|];
    simpl; repeat split; try reflexivity.
  intros a. destruct (Nat.eqb a (Node.addr node)) eqn:E; [|reflexivity].
  apply Nat.eqb_eq in E. now subst.
Qed.

(** The rest of [handleMouseUp] once [completeArrow] has not returned. *)
Lemma handleMouseUp_continues p rt m rt1 m1 :
  InteractionManager.completeArrow p rt
    (InteractionManager.with_mousePosition m p) = (rt1, m1, false) ->
  InteractionManager.mode m1 = CREATING_ARROW ->
  let r := InteractionManager.handleMouseUp p rt m in
  Diagram.nodes (InteractionManager.diagram (snd r))
  = Diagram.nodes (InteractionManager.diagram m1)
  /\ Diagram.arrows (InteractionManager.diagram (snd r))
     = Diagram.arrows (InteractionManager.diagram m1)
  /\ InteractionManager.currentTool (snd r) = InteractionManager.currentTool m1
  /\ InteractionManager.arrowStartNode (snd r)
     = InteractionManager.arrowStartNode m1
  /\ InteractionManager.mode (snd r) = IDLE
  /\ Runtime.arrowNextId (fst r) = Runtime.arrowNextId rt1
  /\ Node.nextId (Runtime.nodeStore (fst r)) = Node.nextId (Runtime.nodeStore rt1)
  /\ (forall n, In (ToolChange n) (InteractionManager.emitted (snd r)) ->
                In (ToolChange n) (InteractionManager.emitted m1)).
Proof.
  intros Hc Hm. unfold InteractionManager.handleMouseUp. rewrite Hc.
  unfold InteractionManager.completeBoxSelection. rewrite Hm.
  cbn [Mode_eqb]. rewrite Hm. cbn [Mode_eqb].
  pose proof (clearDragging_shape rt1 m1) as H. cbv zeta in H.
  destruct (InteractionManager.clearDragging rt1 m1) as [rt4 m4].
  cbn [fst snd] in *.
  destruct H as [H1 [H2 [_ [_ [H3 [H4 [H5 [H6 [H7 [H8 _]]]]]]]]]].
  rewrite Hm in H4. rewrite H4. cbn. rewrite H4. cbn.
  split; [assumption|]. split; [assumption|]. split; [assumption|].
  split; [assumption|]. split; [reflexivity|]. split; [assumption|].
  split; [assumption|].
  intros n Hin. apply in_app_or in Hin as [Hin|[Hin|[]]]; [|discriminate].
  now rewrite <- H6.
Qed.
End WithNumber.
End PointerUp.

(** ** C6 *)

Section C6.
Context {N : JSNumber}.
Local Open Scope js_scope.

(** C6.  In CreatingArrow with pending source [S]: a release that hits a
    node with another id inserts exactly one new arrow from [S] to that
    node; a release on empty space at distance at least [S.radius + 80]
    from [S] creates a node at the release point, makes it the selection,
    inserts exactly one new arrow from [S] to it, clears the pending source
    and neither changes the tool nor asks for a tool change; a release on
    empty space closer than that creates neither node nor arrow. *)
Theorem C6_arrow_pointer_up (rt : Runtime.t) (m : InteractionManager.t)
    (S : Node.t) (p : Point.t) :
  InteractionManager.mode m = CREATING_ARROW ->
  InteractionManager.arrowStartNode m = Some S ->
  let d := InteractionManager.diagram m in
  let s := Runtime.nodeStore rt in
  let r := InteractionManager.handleMouseUp p rt m in
  let d' := InteractionManager.diagram (snd r) in
  let far :=
    Point.distanceTo (Node.position (Node.read s S)) p
    >=? Node.radius (Node.read s S) + lit 80 in
  (forall e E,
     Diagram.findElementAtPoint s d p = Some (mkHit ElNode e) ->
     e <> Node.id S -> Diagram.getNode e d = Some E ->
     Diagram.arrows d'
     = JsMap.set (mint "arrow-" (Runtime.arrowNextId rt))
         (Arrow.new (Runtime.arrowNextId rt) S E None None None)
         (Diagram.arrows d)
     /\ Diagram.nodes d' = Diagram.nodes d
     /\ InteractionManager.arrowStartNode (snd r) = None
     /\ InteractionManager.currentTool (snd r)
        = InteractionManager.currentTool m)
  /\ (Diagram.findElementAtPoint s d p = None -> far = true ->
      let newNode := Node.mk (mint "node-" (Node.nextId s)) (Node.nextAddr s) in
      Diagram.nodes d' = JsMap.set (Node.id newNode) newNode (Diagram.nodes d)
      /\ Node.position (Node.read (Runtime.nodeStore (fst r)) newNode) = p
      /\ Diagram.selectedElementIds d' = [Node.id newNode]
      /\ Skeleton.mapv Skeleton.eraseA (Diagram.arrows d')
         = JsMap.set (mint "arrow-" (Runtime.arrowNextId rt))
             (Arrow.new (Runtime.arrowNextId rt) S newNode None None None)
             (Skeleton.mapv Skeleton.eraseA (Diagram.arrows d))
      /\ InteractionManager.arrowStartNode (snd r) = None
      /\ InteractionManager.currentTool (snd r)
         = InteractionManager.currentTool m
      /\ InteractionManager.emitted (snd r) = InteractionManager.emitted m)
  /\ (Diagram.findElementAtPoint s d p = None -> far = false ->
      Diagram.nodes d' = Diagram.nodes d
      /\ Diagram.arrows d' = Diagram.arrows d
      /\ Node.nextId (Runtime.nodeStore (fst r)) = Node.nextId s
      /\ Runtime.arrowNextId (fst r) = Runtime.arrowNextId rt).
Proof.
  intros Hm Hs d s r d' far. subst d s r d' far.
  split; [|split].
  - intros e E Hhit Hne HE.
    assert (Hc : InteractionManager.completeArrow p rt
                   (InteractionManager.with_mousePosition m p)
                 = (Runtime.bumpArrow rt,
                    InteractionManager.with_arrowStartNode
                      (InteractionManager.with_diagram
                         (InteractionManager.with_mousePosition m p)
                         (Diagram.addArrow
                            (Arrow.new (Runtime.arrowNextId rt) S E
                               None None None)
                            (InteractionManager.diagram m)))
                      None,
                    false)).
    { unfold InteractionManager.completeArrow.
      cbn [InteractionManager.with_mousePosition InteractionManager.mode
           InteractionManager.arrowStartNode InteractionManager.diagram].
      rewrite Hm, Hs, Hhit. cbn [hit_type hit_id].
      apply String.eqb_neq in Hne. rewrite Hne. cbn [negb]. rewrite HE.
      reflexivity. }
    destruct (PointerUp.handleMouseUp_continues p rt m _ _ Hc)
      as [H1 [H2 [H3 [H4 _]]]]; [exact Hm|].
    cbv zeta in *. rewrite H1, H2, H3, H4. cbn. auto.
  - intros Hhit Hfar.
    unfold InteractionManager.handleMouseUp, InteractionManager.completeArrow.
    cbn [InteractionManager.with_mousePosition InteractionManager.mode
         InteractionManager.arrowStartNode InteractionManager.diagram].
    rewrite Hm, Hs, Hhit, Hfar.
    unfold Runtime.newNode, Node.new. cbn [fst snd].
    match goal with |- context [Diagram.selectElement ?i false ?r ?dd] =>
      pose proof (PointerUp.selectElement_selection i r dd) as Hsel;
      pose proof (Skeleton.selectElement_same i false r dd) as [Hrt Hd];
      destruct (Diagram.selectElement i false r dd) as [rt2 d2] end.
    cbn [fst snd] in *. unfold Runtime.newArrow.
    cbn -[JsMap.set Skeleton.mapv mint].
    destruct Hd as [Hn Ha _ _]. cbn -[JsMap.set Skeleton.mapv mint] in Hn, Ha.
    split; [assumption|]. split.
    { destruct (PointerUp.sameRt_fields _ _ (Node.nextAddr (Runtime.nodeStore rt)) Hrt)
        as [Hp _].
      unfold Node.read. cbn [Node.addr]. rewrite Hp. cbn.
      now rewrite Nat.eqb_refl. }
    split; [assumption|]. split.
    { rewrite PointerUp.mapv_set, Ha.
      destruct Hrt as [_ _ _ Hc _ _ _]. cbn in Hc. now rewrite Hc. }
    auto.
  - intros Hhit Hfar.
    assert (Hc : InteractionManager.completeArrow p rt
                   (InteractionManager.with_mousePosition m p)
                 = (rt,
                    InteractionManager.with_arrowStartNode
                      (InteractionManager.with_mousePosition m p) None,
                    false)).
    { unfold InteractionManager.completeArrow.
      cbn [InteractionManager.with_mousePosition InteractionManager.mode
           InteractionManager.arrowStartNode InteractionManager.diagram].
      now rewrite Hm, Hs, Hhit, Hfar. }
    destruct (PointerUp.handleMouseUp_continues p rt m _ _ Hc)
      as [H1 [H2 [_ [_ [_ [H5 [H6 _]]]]]]]; [exact Hm|].
    cbv zeta in *. rewrite H1, H2, H5, H6. cbn. auto.
Qed.
End C6.

(** The specification's scenario: a single node at (0,0) with radius 60,
    the Arrow tool, the pointer pressed on the node. *)
Module ArrowExample.
Definition scene : Scene.state :=
  (fst Example.withA, Diagram.addNode Example.nodeA (snd Example.fresh)).

Definition pending : Runtime.t * InteractionManager.t :=
  InteractionManager.handleMouseDown (Example.pt 0 0) false (fst scene)
    (InteractionManager.setTool ARROW
       (InteractionManager.setOnToolChange
          (InteractionManager.new (snd scene)))).

Definition released : Runtime.t * InteractionManager.t :=
  InteractionManager.handleMouseUp (Example.pt 500 0) (fst pending)
    (snd pending).
End ArrowExample.

(** Dragging from the node to (500,0) and releasing: a second node at
    (500,0), selected, and the tool is still Arrow. *)
Lemma C6_witness :
  Diagram.selectedElementIds
    (InteractionManager.diagram (snd ArrowExample.released)) = ["node-1"]
  /\ Node.position
       (Node.read (Runtime.nodeStore (fst ArrowExample.released))
          (Node.mk "node-1" 1)) = Example.pt 500 0
  /\ InteractionManager.currentTool (snd ArrowExample.released) = ARROW.
Proof.
  destruct (C6_arrow_pointer_up (fst ArrowExample.pending)
              (snd ArrowExample.pending) Example.nodeA (Example.pt 500 0)
              eq_refl eq_refl) as [_ [H _]].
  specialize (H ltac:(vm_compute; reflexivity) ltac:(vm_compute; reflexivity)).
  cbv zeta in H. destruct H as [_ [Hp [Hsel [_ [_ [Ht _]]]]]].
  split; [exact Hsel|]. split; [exact Hp|].
  unfold ArrowExample.released. rewrite Ht. vm_compute. reflexivity.
Defined.

(** ** Self-loops *)

Module SelfLoop.
Section WithNumber.
Context {N : JSNumber}.
Local Open Scope js_scope.

Definition isLoop (a : Arrow.t) : bool :=
  String.eqb (Node.id (Arrow.fromNode a)) (Node.id (Arrow.toNode a)).

(** The entry was in [d] already, up to its [selected] flag. *)
Definition fromOld (d : Diagram.t) (kv : string * Arrow.t) : Prop :=
  exists v0, In (fst kv, v0) (Diagram.arrows d)
             /\ Skeleton.eraseA v0 = Skeleton.eraseA (snd kv).

Definition keyed (d : Diagram.t) : Prop :=
  forall k n, JsMap.get k (Diagram.nodes d) = Some n -> Node.id n = k.

Lemma fromOld_refl d kv : In kv (Diagram.arrows d) -> fromOld d kv.
Proof. intros H. exists (snd kv). split; [now destruct kv|reflexivity]. Qed.

Lemma fromOld_same d d' kv :
  Skeleton.mapv Skeleton.eraseA (Diagram.arrows d')
  = Skeleton.mapv Skeleton.eraseA (Diagram.arrows d) ->
  In kv (Diagram.arrows d') -> fromOld d kv.
Proof. intros H Hin. exact (Skeleton.mapv_in _ _ _ _ H Hin). Qed.

Lemma isLoop_erase a b :
  Skeleton.eraseA a = Skeleton.eraseA b -> isLoop a = isLoop b.
Proof.
  intros H. pose proof (f_equal Arrow.fromNode H) as Hf.
  pose proof (f_equal Arrow.toNode H) as Ht. cbn in Hf, Ht.
  unfold isLoop. now rewrite Hf, Ht.
Qed.

Lemma completeArrow_arrows p rt m :
  keyed (InteractionManager.diagram m) ->
  (forall S, InteractionManager.arrowStartNode m = Some S ->
             Node.id S <> mint "node-" (Node.nextId (Runtime.nodeStore rt))) ->
  forall kv,
    In kv (Diagram.arrows
             (InteractionManager.diagram
                (snd (fst (InteractionManager.completeArrow p rt m))))) ->
    fromOld (InteractionManager.diagram m) kv \/ isLoop (snd kv) = false.
Proof.
  intros Hk Hfresh kv. unfold InteractionManager.completeArrow.
  destruct (InteractionManager.mode m);
    try (cbn; intros Hin; left; now apply fromOld_refl).
  destruct (InteractionManager.arrowStartNode m) as [S|] eqn:Es;
    [|cbn; intros Hin; left; now apply fromOld_refl].
  specialize (Hfresh S eq_refl).
  destruct (Diagram.findElementAtPoint _ _ p) as [[ty e]|].
  - destruct ty; cbn [hit_type hit_id];
      try (cbn; intros Hin; left; now apply fromOld_refl).
    destruct (String.eqb e (Node.id S)) eqn:Ee; cbn [negb];
      [cbn; intros Hin; left; now apply fromOld_refl|].
    destruct (Diagram.getNode e (InteractionManager.diagram m)) as [E|] eqn:EE;
      [|cbn; intros Hin; left; now apply fromOld_refl].
    cbn. intros Hin. apply JsMapFacts.in_set in Hin as [->|Hin];
      [|left; now apply fromOld_refl].
    right. cbn. unfold isLoop. cbn. rewrite (Hk _ _ EE).
    now rewrite String.eqb_sym.
  - destruct (nle _ _);
      [|cbn; intros Hin; left; now apply fromOld_refl].
    unfold Runtime.newNode, Node.new. cbn [fst snd].
    match goal with |- context [Diagram.selectElement ?i false ?r ?dd] =>
      pose proof (Skeleton.selectElement_same i false r dd) as [_ Hd];
      destruct (Diagram.selectElement i false r dd) as [rt2 d2] end.
    cbn -[JsMap.set mint]. intros Hin.
    apply JsMapFacts.in_set in Hin as [->|Hin].
    + right. unfold isLoop. cbn -[mint]. now apply String.eqb_neq.
    + left. destruct Hd as [_ Ha _ _]. cbn in Ha.
      exact (Skeleton.mapv_in _ _ _ _ Ha Hin).
Qed.

Lemma completeBoxSelection_same rt m :
  Skeleton.same (InteractionManager.diagram m)
    (InteractionManager.diagram
       (snd (InteractionManager.completeBoxSelection rt m))).
Proof.
  unfold InteractionManager.completeBoxSelection.
  destruct (InteractionManager.mode m); try apply Skeleton.same_refl.
  destruct (InteractionManager.selectionBox m) as [box|];
    [|apply Skeleton.same_refl].
  destruct (SelectionBox.isSignificant box (lit 5)).
  - match goal with |- context [Diagram.selectElements ?i false ?r ?dd] =>
      pose proof (Skeleton.selectElements_same i false r dd) as [_ Hd];
      destruct (Diagram.selectElements i false r dd) as [rt2 d2] end.
    exact Hd.
  - apply Skeleton.same_refl.
Qed.

Lemma handleMouseUp_arrows p rt m :
  keyed (InteractionManager.diagram m) ->
  (forall S, InteractionManager.arrowStartNode m = Some S ->
             Node.id S <> mint "node-" (Node.nextId (Runtime.nodeStore rt))) ->
  forall kv,
    In kv (Diagram.arrows
             (InteractionManager.diagram
                (snd (InteractionManager.handleMouseUp p rt m)))) ->
    fromOld (InteractionManager.diagram m) kv \/ isLoop (snd kv) = false.
Proof.
  intros Hk Hfresh kv. unfold InteractionManager.handleMouseUp.
  pose proof (completeArrow_arrows p rt
                (InteractionManager.with_mousePosition m p) Hk Hfresh) as Hc.
  destruct (InteractionManager.completeArrow p rt
              (InteractionManager.with_mousePosition m p))
    as [[rt1 m1] returned].
  cbn [fst snd] in Hc. destruct returned; [apply Hc|].
  pose proof (completeBoxSelection_same rt1 m1) as Hb.
  destruct (InteractionManager.completeBoxSelection rt1 m1) as [rt2 m2].
  cbn [snd] in Hb.
  match goal with |- context [InteractionManager.clearDragging ?r ?mm] =>
    pose proof (PointerUp.clearDragging_shape r mm) as Hd;
    destruct (InteractionManager.clearDragging r mm) as [rt4 m4] eqn:E4 end.
  cbv zeta in Hd. cbn [fst snd] in Hd. destruct Hd as [_ [Ha _]].
  intros Hin.
  assert (Hin2 : In kv (Diagram.arrows (InteractionManager.diagram m4))).
  { revert Hin.
    destruct (Mode_eqb (InteractionManager.mode m4) RESIZING_WHITEBOARD);
      cbn;
      match goal with |- context [if ?c then _ else _] => destruct c end;
      cbn; auto. }
  rewrite Ha in Hin2.
  assert (Hin3 : exists v1,
             In (fst kv, v1) (Diagram.arrows (InteractionManager.diagram m1))
             /\ Skeleton.eraseA v1 = Skeleton.eraseA (snd kv)).
  { destruct Hb as [_ Hb _ _].
    apply (Skeleton.mapv_in _ _ _ _ Hb).
    revert Hin2. destruct (Mode_eqb (InteractionManager.mode m2) LASER_ACTIVE);
      cbn; auto. }
  destruct Hin3 as [v1 [Hin3 Ev]].
  destruct (Hc _ Hin3) as [[v0 [H0 E0]]|Hl].
  - left. exists v0. split; [exact H0|]. cbn in *. congruence.
  - right. cbn in Hl. now rewrite <- (isLoop_erase _ _ Ev).
Qed.
End WithNumber.
End SelfLoop.

(** ** C8 *)

Section C8.
Context {N : JSNumber}.

(** C8 (as amended).  The scene's [addArrow] has no precondition: it
    inserts whatever arrow it is given and never fails.  Self-loops are
    kept out by the controller: in a scene whose node Map is keyed by the
    nodes' ids, and as long as the id the [Node] counter mints next is not
    the pending source's, every arrow that a pointer release adds joins two
    nodes with different ids. *)
Theorem C8_self_loop_prevention (rt : Runtime.t) (m : InteractionManager.t)
    (p : Point.t) (a : Arrow.t) (d0 : Diagram.t) :
  SelfLoop.keyed (InteractionManager.diagram m) ->
  (forall S, InteractionManager.arrowStartNode m = Some S ->
             Node.id S <> mint "node-" (Node.nextId (Runtime.nodeStore rt))) ->
  Diagram.getArrow (Arrow.id a) (Diagram.addArrow a d0) = Some a
  /\ forall kv,
       In kv (Diagram.arrows
                (InteractionManager.diagram
                   (snd (InteractionManager.handleMouseUp p rt m)))) ->
       SelfLoop.fromOld (InteractionManager.diagram m) kv
       \/ SelfLoop.isLoop (snd kv) = false.
Proof.
  intros Hk Hfresh. split.
  - apply JsMapFacts.get_set_same.
  - now apply SelfLoop.handleMouseUp_arrows.
Qed.
End C8.

(** The arrow drawn in the scenario of [ArrowExample] is no loop. *)
Lemma C8_witness :
  let kv :=
    ("arrow-0",
     Arrow.new 0 Example.nodeA (Node.mk "node-1" 1) None None None) in
  SelfLoop.fromOld (InteractionManager.diagram (snd ArrowExample.pending)) kv
  \/ SelfLoop.isLoop (snd kv) = false.
Proof.
  intros kv.
  apply (C8_self_loop_prevention (fst ArrowExample.pending)
           (snd ArrowExample.pending) (Example.pt 500 0) (snd kv)
           (snd Example.fresh)).
  - intros k n H.
    assert (E : Diagram.nodes
                  (InteractionManager.diagram (snd ArrowExample.pending))
                = [("node-0", Node.mk "node-0" 0)])
      by (vm_compute; reflexivity).
    rewrite E in H. cbn [JsMap.get] in H.
    destruct (String.eqb k "node-0") eqn:Ek; [|discriminate].
    apply String.eqb_eq in Ek. injection H as <-. now subst.
  - intros S. vm_compute. intros [= <-]. discriminate.
  - vm_compute. now left.
Defined.

(** C8 as stated fails: the scene accepts a self-referential arrow. *)
Lemma C8_counterexample :
  existsb SelfLoop.isLoop
    (Diagram.getAllArrows
       (snd (Scene.run
               [Scene.AddArrow
                  (Arrow.new 1 Example.nodeA Example.nodeA None None None)]
Example.sceneAXB))) = true.
Proof. vm_compute. reflexivity. Qed.

(** ** Box selection *)

Module BoxSelect.
Section WithNumber.
Context {N : JSNumber}.
Local Open Scope js_scope.

Lemma in_fold_add ids s id :
  In id (fold_left (fun s id => JsSet.add id s) ids s) <-> In id s \/ In id ids.
Proof.
  revert s. induction ids as [|x ids IH]; intros s; simpl; [tauto|].
  rewrite IH, JsSetFacts.set_in_add. intuition congruence.
Qed.

Lemma selectElements_selection ids add rt d :
  Diagram.selectedElementIds (snd (Diagram.selectElements ids add rt d))
  = fold_left (fun s id => JsSet.add id s) ids
      (if add then Diagram.selectedElementIds d else []).
Proof.
  unfold Diagram.selectElements.
  assert (H : Diagram.selectedElementIds
                (snd (if add then (rt, d) else Diagram.clearSelection rt d))
              = if add then Diagram.selectedElementIds d else []).
  { destruct add; [reflexivity|apply Skeleton.clearSelection_selection]. }
  destruct (if add then (rt, d) else Diagram.clearSelection rt d) as [rt0 d0].
  rewrite <- H. clear H. cbn [snd]. revert rt0 d0.
  induction ids as [|x ids IH]; intros rt0 d0; [reflexivity|].
  cbn [fold_left]. rewrite IH. reflexivity.
Qed.

Lemma selectElements_exactly ids rt d id :
  In id (Diagram.selectedElementIds (snd (Diagram.selectElements ids false rt d)))
  <-> In id ids.
Proof.
  rewrite selectElements_selection, in_fold_add. simpl. tauto.
Qed.

(** The live preview of a pointer move. *)
Lemma handleBoxSelecting_selection q rt m box id :
  InteractionManager.selectionBox m = Some box ->
  In id (Diagram.selectedElementIds
           (InteractionManager.diagram
              (snd (InteractionManager.handleBoxSelecting q rt m))))
  <-> In id (Diagram.findElementsInBox (Runtime.nodeStore rt)
               (InteractionManager.diagram m)
               (SelectionBox.updateEndPoint box q)).
Proof.
  intros Hb. unfold InteractionManager.handleBoxSelecting. rewrite Hb.
  set (ids := Diagram.findElementsInBox _ _ _).
  pose proof (Skeleton.clearSelection_selection rt
                (InteractionManager.diagram m)) as Hc.
  pose proof (fun rt1 d1 => selectElements_exactly ids rt1 d1 id) as He.
  destruct (Diagram.clearSelection rt (InteractionManager.diagram m))
    as [rt1 d1].
  cbn [snd] in Hc. specialize (He rt1 d1).
  destruct ids as [|x ids'] eqn:E.
  - cbn. rewrite Hc. tauto.
  - cbn [List.length Nat.ltb Nat.leb].
    destruct (Diagram.selectElements (x :: ids') false rt1 d1) as [rt2 d2].
    cbn in *. exact He.
Qed.

(** The release. *)
Lemma handleMouseUp_box p rt m box :
  InteractionManager.mode m = BOX_SELECTING ->
  InteractionManager.selectionBox m = Some box ->
  let r := InteractionManager.handleMouseUp p rt m in
  Diagram.selectedElementIds (InteractionManager.diagram (snd r))
  = Diagram.selectedElementIds
      (InteractionManager.diagram
         (snd (InteractionManager.completeBoxSelection rt
                 (InteractionManager.with_mousePosition m p))))
  /\ InteractionManager.selectionBox (snd r) = None
  /\ InteractionManager.mode (snd r) = IDLE.
Proof.
  intros Hm Hb. unfold InteractionManager.handleMouseUp.
  unfold InteractionManager.completeArrow.
  cbn [InteractionManager.with_mousePosition InteractionManager.mode].
  rewrite Hm.
  fold (InteractionManager.with_mousePosition m p).
  assert (Hmode : InteractionManager.mode
                    (snd (InteractionManager.completeBoxSelection rt
                            (InteractionManager.with_mousePosition m p)))
                  = BOX_SELECTING
                  /\ InteractionManager.selectionBox
                       (snd (InteractionManager.completeBoxSelection rt
                               (InteractionManager.with_mousePosition m p)))
                     = None).
  { unfold InteractionManager.completeBoxSelection.
    cbn [InteractionManager.with_mousePosition InteractionManager.mode
         InteractionManager.selectionBox InteractionManager.diagram].
    rewrite Hm, Hb.
    destruct (SelectionBox.isSignificant box (lit 5)).
    - destruct (Diagram.selectElements _ _ _ _). cbn. now rewrite Hm.
    - cbn. now rewrite Hm. }
  destruct (InteractionManager.completeBoxSelection rt
              (InteractionManager.with_mousePosition m p)) as [rt2 m2].
  cbn [snd] in *. destruct Hmode as [Hm2 Hb2]. rewrite Hm2. cbn [Mode_eqb].
  pose proof (PointerUp.clearDragging_shape rt2 m2) as H. cbv zeta in H.
  assert (Hsb : InteractionManager.selectionBox
                  (snd (InteractionManager.clearDragging rt2 m2))
                = InteractionManager.selectionBox m2).
  { unfold InteractionManager.clearDragging.
    destruct (InteractionManager.truthy _); [|reflexivity].
    now destruct (InteractionManager.markDragging _ _ _ _). }
  destruct (InteractionManager.clearDragging rt2 m2) as [rt4 m4].
  cbn [fst snd] in *.
  destruct H as [_ [_ [H3 [_ [_ [H4 _]]]]]].
  rewrite Hm2 in H4. rewrite H4. cbn. rewrite H4. cbn.
  split; [assumption|]. split; [congruence|reflexivity].
Qed.
End WithNumber.
End BoxSelect.

Module BoxClick.
Section WithNumber.
Context {N : JSNumber}.
Local Open Scope js_scope.

(** Pressing the pointer with the Select tool, without Shift, where no
    element and no whiteboard lies, and with no whiteboard selected. *)
Lemma handleMouseDown_empty rt m p :
  InteractionManager.currentTool m = SELECT ->
  Diagram.getSelectedWhiteboard (InteractionManager.diagram m) = None ->
  Diagram.findElementAtPoint (Runtime.nodeStore rt)
    (InteractionManager.diagram m) p = None ->
  Diagram.findWhiteboardAtPoint (InteractionManager.diagram m) p = None ->
  let r := InteractionManager.handleMouseDown p false rt m in
  Diagram.selectedElementIds (InteractionManager.diagram (snd r)) = []
  /\ InteractionManager.mode (snd r) = BOX_SELECTING
  /\ InteractionManager.selectionBox (snd r) = Some (SelectionBox.new p).
Proof.
  intros Ht Hw He Hb. unfold InteractionManager.handleMouseDown.
  cbn [InteractionManager.with_mousePosition
       InteractionManager.with_dragStartPoint InteractionManager.diagram
       InteractionManager.currentTool].
  rewrite Ht, He. unfold InteractionManager.handleSelectMouseDown.
  cbn [InteractionManager.with_mousePosition
       InteractionManager.with_dragStartPoint InteractionManager.diagram].
  rewrite Hw, Hb. cbn [negb].
  match goal with |- context [Diagram.clearSelection ?r ?dd] =>
    pose proof (Skeleton.clearSelection_selection r dd) as Hc;
    destruct (Diagram.clearSelection r dd) as [rt2 d2] end.
  cbn in *. auto.
Qed.
End WithNumber.
End BoxClick.

(** ** C9 *)

Section C9.
Context {N : JSNumber}.
Local Open Scope js_scope.

(** C9 (what the code does).  At release in BoxSelecting, a box that
    spans less than 5 in both dimensions changes no selection: the
    selection stays what it was just before the release; a box that spans
    at least 5 in some dimension sets the selection to exactly the
    elements that intersect the box.  What the selection was just before
    the release is not the baseline of the press but the live preview:
    every pointer move in BoxSelecting has already replaced it by the
    elements intersecting the box so far, and the release of a box below
    the threshold does not take that back.  Only a gesture with no move
    keeps the baseline of the press, which for a press on empty space
    without Shift is the empty selection.  [isSignificant] is documented
    to prevent accidental selections from tiny drags, and [handleMouseUp]
    to finalize the selection only for a significant box; the preview
    defeats both. *)
Theorem C9_box_select_threshold (rt : Runtime.t) (m : InteractionManager.t)
    (box : SelectionBox.t) (p q : Point.t) :
  InteractionManager.mode m = BOX_SELECTING ->
  InteractionManager.selectionBox m = Some box ->
  let s := Runtime.nodeStore rt in
  let d := InteractionManager.diagram m in
  let released :=
    InteractionManager.diagram (snd (InteractionManager.handleMouseUp p rt m)) in
  let moved :=
    InteractionManager.diagram (snd (InteractionManager.handleMouseMove q rt m)) in
  SelectionBox.isSignificant box (lit 5)
  = ((SelectionBox.getWidth box >=? lit 5)
     || (SelectionBox.getHeight box >=? lit 5))
  /\ (SelectionBox.isSignificant box (lit 5) = false ->
      Diagram.selectedElementIds released = Diagram.selectedElementIds d)
  /\ (SelectionBox.isSignificant box (lit 5) = true ->
      forall id, In id (Diagram.selectedElementIds released)
                 <-> In id (Diagram.findElementsInBox s d box))
  /\ (InteractionManager.dragStartPoint m <> None ->
      forall id, In id (Diagram.selectedElementIds moved)
                 <-> In id (Diagram.findElementsInBox s d
                              (SelectionBox.updateEndPoint box q)))
  /\ (forall rt0 m0 p0,
        InteractionManager.currentTool m0 = SELECT ->
        Diagram.getSelectedWhiteboard (InteractionManager.diagram m0) = None ->
        Diagram.findElementAtPoint (Runtime.nodeStore rt0)
          (InteractionManager.diagram m0) p0 = None ->
        Diagram.findWhiteboardAtPoint (InteractionManager.diagram m0) p0 = None ->
        SelectionBox.isSignificant (SelectionBox.new p0) (lit 5) = false ->
        let pressed := InteractionManager.handleMouseDown p0 false rt0 m0 in
        Diagram.selectedElementIds
          (InteractionManager.diagram
             (snd (InteractionManager.handleMouseUp p0 (fst pressed)
                     (snd pressed)))) = []).
Proof.
  intros Hm Hb s d released moved. subst s d released moved.
  split; [reflexivity|].
  destruct (BoxSelect.handleMouseUp_box p rt m box Hm Hb) as [Hsel _].
  cbv zeta in Hsel. rewrite Hsel. clear Hsel.
  unfold InteractionManager.completeBoxSelection.
  cbn [InteractionManager.with_mousePosition InteractionManager.mode
       InteractionManager.selectionBox InteractionManager.diagram].
  rewrite Hm, Hb.
  split; [|split; [|split]].
  - intros Hs. rewrite Hs. reflexivity.
  - intros Hs id. rewrite Hs.
    pose proof (BoxSelect.selectElements_exactly
                  (Diagram.findElementsInBox (Runtime.nodeStore rt)
                     (InteractionManager.diagram m) box)
                  rt (InteractionManager.diagram m) id) as H.
    destruct (Diagram.selectElements _ false rt _) as [rt1 d1]. exact H.
  - intros Hd id. unfold InteractionManager.handleMouseMove.
    cbn [InteractionManager.with_mousePosition InteractionManager.mode
         InteractionManager.dragStartPoint].
    rewrite Hm. cbn [Mode_eqb].
    destruct (InteractionManager.dragStartPoint m) as [start|] eqn:Es;
      [|congruence].
    apply (BoxSelect.handleBoxSelecting_selection q rt
             (InteractionManager.with_mousePosition m q) box id).
    exact Hb.
  - intros rt0 m0 p0 Ht Hw He Hbd Hs.
    destruct (BoxClick.handleMouseDown_empty rt0 m0 p0 Ht Hw He Hbd)
      as [H1 [H2 H3]].
    set (pressed := InteractionManager.handleMouseDown p0 false rt0 m0) in *.
    destruct (BoxSelect.handleMouseUp_box p0 (fst pressed) (snd pressed) _ H2 H3)
      as [Hsel _].
    cbv zeta in Hsel. rewrite Hsel.
    unfold InteractionManager.completeBoxSelection.
    cbn [InteractionManager.with_mousePosition InteractionManager.mode
         InteractionManager.selectionBox InteractionManager.diagram].
    rewrite H2, H3, Hs. exact H1.
Qed.
End C9.

(** A node of radius 60 at (900,0), outside the default whiteboard; the
    pointer goes down at (961,0), one pixel off the node, moves two pixels
    to the left and is released there. *)
Module BoxExample.
Definition withC : Runtime.t * Node.t :=
  Runtime.newNode (fst Example.fresh) (Example.pt 900 0) "C" None.

Definition manager : InteractionManager.t :=
  InteractionManager.setOnToolChange
    (InteractionManager.new (Diagram.addNode (snd withC) (snd Example.fresh))).

Definition pressed : Runtime.t * InteractionManager.t :=
  InteractionManager.handleMouseDown (Example.pt 961 0) false (fst withC)
    manager.

Definition moved : Runtime.t * InteractionManager.t :=
  InteractionManager.handleMouseMove (Example.pt 959 0) (fst pressed)
    (snd pressed).

Definition released : Runtime.t * InteractionManager.t :=
  InteractionManager.handleMouseUp (Example.pt 959 0) (fst moved) (snd moved).

Definition box : SelectionBox.t :=
  SelectionBox.mk (Example.pt 961 0) (Example.pt 959 0).
End BoxExample.

(** The release of the example leaves the previewed selection as it is. *)
Lemma C9_witness :
  Diagram.selectedElementIds
    (InteractionManager.diagram (snd BoxExample.released))
  = Diagram.selectedElementIds
      (InteractionManager.diagram (snd BoxExample.moved)).
Proof.
  destruct (C9_box_select_threshold (fst BoxExample.moved)
              (snd BoxExample.moved) BoxExample.box (Example.pt 959 0)
              (Example.pt 959 0) eq_refl eq_refl) as [_ [H _]].
  exact (H eq_refl).
Defined.

(** C9 fails of the code: the 2-pixel gesture of the example, far below
    the threshold, starts with nothing selected and ends with the node
    selected, which the significance test is there to prevent. *)
Lemma C9_counterexample :
  Diagram.selectedElementIds (InteractionManager.diagram BoxExample.manager)
  = []
  /\ InteractionManager.mode (snd BoxExample.pressed) = BOX_SELECTING
  /\ InteractionManager.selectionBox (snd BoxExample.moved)
     = Some BoxExample.box
  /\ SelectionBox.getWidth BoxExample.box = 2%Z
  /\ SelectionBox.getHeight BoxExample.box = 0%Z
  /\ SelectionBox.isSignificant BoxExample.box 5%Z = false
  /\ Diagram.selectedElementIds
       (InteractionManager.diagram (snd BoxExample.released)) = ["node-0"].
Proof. vm_compute. repeat split. Qed.

(** ** Dragging *)

Module Drag.
Section WithNumber.
Context {N : JSNumber}.
Local Open Scope js_scope.

(** The position of the element with id [k]: of the node if [k] is a node,
    else of the text label. *)
Definition elemPos (rt : Runtime.t) (d : Diagram.t) (k : string)
    : option Point.t :=
  match JsMap.get k (Diagram.nodes d) with
  | Some n => Some (Node.position (Node.read (Runtime.nodeStore rt) n))
  | None => option_map TextLabel.position (JsMap.get k (Diagram.textLabels d))
  end.

Definition shift (delta : Point.t) (q : option Point.t) : option Point.t :=
  option_map (fun q => Point.add q delta) q.

Definition inside (wb : Whiteboard.t) (q : option Point.t) : bool :=
  match q with
  | Some q => Whiteboard.containsPoint wb q
  | None => false
  end.

(** What holds of the collections of every diagram: they are Maps, no id
    names both a node and a label, and different keys hold different
    [Node] objects. *)
Record wellFormed (d : Diagram.t) : Prop := mkWellFormed {
  wf_nodes : NoDup (JsMap.keys (Diagram.nodes d));
  wf_labels : NoDup (JsMap.keys (Diagram.textLabels d));
  wf_disjoint : forall k,
    JsMap.has k (Diagram.nodes d) = true ->
    JsMap.has k (Diagram.textLabels d) = false;
  wf_objects : forall k1 k2 n1 n2,
    JsMap.get k1 (Diagram.nodes d) = Some n1 ->
    JsMap.get k2 (Diagram.nodes d) = Some n2 ->
    Node.addr n1 = Node.addr n2 -> k1 = k2
}.

Lemma moveElement_shape delta rt d id :
  let r := InteractionManager.moveElement delta (rt, d) id in
  Diagram.nodes (snd r) = Diagram.nodes d
  /\ Diagram.whiteboards (snd r) = Diagram.whiteboards d
  /\ JsMap.keys (Diagram.textLabels (snd r)) = JsMap.keys (Diagram.textLabels d).
Proof.
  cbn. repeat split. apply JsMapFacts.keys_update.
Qed.

Lemma wellFormed_ext d d' :
  Diagram.nodes d' = Diagram.nodes d ->
  JsMap.keys (Diagram.textLabels d') = JsMap.keys (Diagram.textLabels d) ->
  wellFormed d -> wellFormed d'.
Proof.
  intros Hn Hl [H1 H2 H3 H4]. constructor.
  - now rewrite Hn.
  - now rewrite Hl.
  - intros k Hk. rewrite Hn in Hk. specialize (H3 k Hk).
    apply JsMapFacts.has_false_iff. apply JsMapFacts.has_false_iff in H3.
    now rewrite Hl.
  - rewrite Hn. exact H4.
Qed.

Lemma moveElement_elemPos delta rt d id k :
  wellFormed d ->
  let r := InteractionManager.moveElement delta (rt, d) id in
  elemPos (fst r) (snd r) k
  = if String.eqb id k then shift delta (elemPos rt d k) else elemPos rt d k.
Proof.
  intros Hwf. cbn [InteractionManager.moveElement fst snd].
  unfold elemPos. cbn [Diagram.nodes Diagram.with_textLabels Diagram.textLabels].
  unfold Diagram.getNode.
  destruct (JsMap.get k (Diagram.nodes d)) as [n|] eqn:Ek.
  - destruct (String.eqb id k) eqn:E.
    + apply String.eqb_eq in E. subst id. rewrite Ek. cbn.
      now rewrite Nat.eqb_refl.
    + destruct (JsMap.get id (Diagram.nodes d)) as [n'|] eqn:Ei;
        [|reflexivity].
      cbn. destruct (Nat.eqb (Node.addr n) (Node.addr n')) eqn:Ea;
        [|reflexivity].
      apply Nat.eqb_eq in Ea.
      pose proof (wf_objects d Hwf _ _ _ _ Ek Ei Ea) as ->.
      now rewrite String.eqb_refl in E.
  - rewrite JsMapFacts.get_update.
    destruct (String.eqb id k) eqn:E; [|reflexivity].
    unfold shift. now destruct (JsMap.get k (Diagram.textLabels d)).
Qed.

Lemma fold_moveElement delta ks rt d :
  wellFormed d ->
  let r := fold_left (InteractionManager.moveElement delta) ks (rt, d) in
  Diagram.nodes (snd r) = Diagram.nodes d
  /\ Diagram.whiteboards (snd r) = Diagram.whiteboards d
  /\ JsMap.keys (Diagram.textLabels (snd r)) = JsMap.keys (Diagram.textLabels d)
  /\ forall k,
       elemPos (fst r) (snd r) k
       = Nat.iter (count_occ string_dec ks k) (shift delta) (elemPos rt d k).
Proof.
  revert rt d. induction ks as [|id ks IH]; intros rt d Hwf.
  - cbn. auto.
  - cbn [fold_left].
    pose proof (moveElement_shape delta rt d id) as Hs. cbv zeta in Hs.
    pose proof (fun k => moveElement_elemPos delta rt d id k Hwf) as Hp.
    cbv zeta in Hp.
    destruct (InteractionManager.moveElement delta (rt, d) id) as [rt1 d1].
    cbn [fst snd] in Hs, Hp. destruct Hs as [Hn [Hw Hl]].
    assert (Hwf1 : wellFormed d1) by now apply (wellFormed_ext d).
    destruct (IH rt1 d1 Hwf1) as [In' [Iw [Il Ip]]].
    split; [congruence|]. split; [congruence|]. split; [congruence|].
    intros k. rewrite Ip, Hp. cbn [count_occ].
    destruct (string_dec id k) as [->|Hne].
    + rewrite String.eqb_refl. symmetry. apply Nat.iter_succ_r.
    + apply String.eqb_neq in Hne. now rewrite Hne.
Qed.

Lemma count_filtered [V : Type] (f : string * V -> bool) (m : JsMap.t V) k :
  NoDup (JsMap.keys m) ->
  count_occ string_dec (map fst (filter f m)) k
  = match JsMap.get k m with
    | Some v => if f (k, v) then 1 else 0
    | None => 0
    end.
Proof.
  induction m as [|[k0 v0] m IH]; intros Hnd; [reflexivity|].
  inversion Hnd as [|? ? Hnotin Hnd']; subst.
  cbn [filter JsMap.get]. destruct (String.eqb k k0) eqn:E.
  - apply String.eqb_eq in E. subst k0.
    assert (Hz : count_occ string_dec (map fst (filter f m)) k = 0).
    { apply count_occ_not_In. intros Hin. apply Hnotin.
      apply in_map_iff in Hin as [kv [<- Hin]].
      apply filter_In in Hin as [Hin _]. now apply in_map. }
    destruct (f (k, v0)); cbn [map fst count_occ]; [|exact Hz].
    destruct (string_dec k k); [|congruence]. now rewrite Hz.
  - rewrite <- (IH Hnd').
    destruct (f (k0, v0)); cbn [map fst count_occ]; [|reflexivity].
    destruct (string_dec k0 k) as [->|]; [|reflexivity].
    now rewrite String.eqb_refl in E.
Qed.

(** How often the id [k] occurs among the contents of whiteboard [w]. *)
Lemma count_contents rt d w wb k :
  wellFormed d ->
  JsMap.get w (Diagram.whiteboards d) = Some wb ->
  count_occ string_dec
    (Diagram.getElementsInWhiteboard (Runtime.nodeStore rt) w d) k
  = if inside wb (elemPos rt d k) then 1 else 0.
Proof.
  intros Hwf Hw. unfold Diagram.getElementsInWhiteboard. rewrite Hw.
  rewrite count_occ_app.
  rewrite (count_filtered _ _ k (wf_nodes d Hwf)).
  rewrite (count_filtered _ _ k (wf_labels d Hwf)).
  unfold elemPos. destruct (JsMap.get k (Diagram.nodes d)) as [n|] eqn:Ek.
  - assert (Hl : JsMap.get k (Diagram.textLabels d) = None).
    { pose proof (wf_disjoint d Hwf k) as H. unfold JsMap.has in H.
      rewrite Ek in H. specialize (H eq_refl).
      now destruct (JsMap.get k (Diagram.textLabels d)). }
    rewrite Hl. cbn. now destruct (Whiteboard.containsPoint wb _).
  - destruct (JsMap.get k (Diagram.textLabels d)) as [l|]; reflexivity.
Qed.

(** One selected id of a drag. *)
Lemma dragElement_spec delta rt d id :
  wellFormed d ->
  let r := InteractionManager.dragElement delta (rt, d) id in
  wellFormed (snd r)
  /\ (forall w,
        JsMap.get w (Diagram.whiteboards (snd r))
        = if String.eqb id w
          then option_map (fun wb => Whiteboard.translate wb delta)
                 (JsMap.get w (Diagram.whiteboards d))
          else JsMap.get w (Diagram.whiteboards d))
  /\ forall k,
       let own :=
         if String.eqb id k then shift delta (elemPos rt d k)
         else elemPos rt d k in
       elemPos (fst r) (snd r) k
       = match JsMap.get id (Diagram.whiteboards d) with
         | Some wb =>
             if inside (Whiteboard.translate wb delta) own
             then shift delta own else own
         | None => own
         end.
Proof.
  intros Hwf. unfold InteractionManager.dragElement.
  pose proof (moveElement_shape delta rt d id) as Hs. cbv zeta in Hs.
  pose proof (fun k => moveElement_elemPos delta rt d id k Hwf) as Hp.
  cbv zeta in Hp.
  destruct (InteractionManager.moveElement delta (rt, d) id) as [rt1 d1].
  cbn [fst snd] in Hs, Hp. destruct Hs as [Hn [Hw Hl]].
  assert (Hwf1 : wellFormed d1) by now apply (wellFormed_ext d).
  unfold Diagram.getWhiteboard. rewrite Hw.
  destruct (JsMap.get id (Diagram.whiteboards d)) as [wb|] eqn:Eid.
  - set (d2 := Diagram.with_whiteboards d1 _).
    assert (Hwf2 : wellFormed d2) by now apply (wellFormed_ext d1).
    assert (Hget : JsMap.get id (Diagram.whiteboards d2)
                   = Some (Whiteboard.translate wb delta)).
    { subst d2. cbn [Diagram.whiteboards Diagram.with_whiteboards].
      rewrite JsMapFacts.get_update, String.eqb_refl, ?Hw, Eid.
      reflexivity. }
    destruct (fold_moveElement delta
                (Diagram.getElementsInWhiteboard (Runtime.nodeStore rt1) id d2)
                rt1 d2 Hwf2) as [Fn [Fw [Fl Fp]]].
    cbv zeta in *. split; [|split].
    + now apply (wellFormed_ext d2).
    + intros w. rewrite Fw. subst d2.
      cbn [Diagram.whiteboards Diagram.with_whiteboards].
      rewrite JsMapFacts.get_update, ?Hw. reflexivity.
    + intros k. rewrite Fp.
      rewrite (count_contents rt1 d2 id _ k Hwf2 Hget).
      assert (E2 : elemPos rt1 d2 k = elemPos rt1 d1 k) by reflexivity.
      rewrite E2, Hp. now destruct (inside _ _).
  - split; [assumption|]. split.
    + intros w. cbn [snd]. rewrite Hw.
      destruct (String.eqb id w) eqn:E; [|reflexivity].
      apply String.eqb_eq in E. subst w. now rewrite Eid.
    + intros k. apply Hp.
Qed.
End WithNumber.
End Drag.

(** ** C10 *)

Section C10.
Context {N : JSNumber}.
Local Open Scope js_scope.

(** C10 (what the code does).  One pointer move in Dragging, by [delta],
    with the selection made of a whiteboard W and a node or text label E:
    W is shifted by [delta] first and its contents are looked up
    afterwards, so E moves by [delta] twice - once as a selected element,
    once as content of W - when its position lies inside the shifted
    bounds of W at the moment W is handled (its original position if W
    comes first in the selection, its position after its own move if E
    comes first).  An element that is not selected and lies outside the
    shifted bounds of W does not move.  The comment of [handleDragging]
    says that the whiteboard moves with all elements inside it; looking
    the contents up after the shift moves the elements inside the shifted
    bounds instead. *)
Theorem C10_double_drag (rt : Runtime.t) (m : InteractionManager.t)
    (point start : Point.t) (e w : string) (wb : Whiteboard.t) (p : Point.t) :
  let d := InteractionManager.diagram m in
  let delta := Point.subtract point start in
  let shifted := Whiteboard.translate wb delta in
  let r := InteractionManager.handleMouseMove point rt m in
  let d' := InteractionManager.diagram (snd r) in
  InteractionManager.mode m = DRAGGING ->
  InteractionManager.dragStartPoint m = Some start ->
  Drag.wellFormed d ->
  JsMap.get w (Diagram.whiteboards d) = Some wb ->
  JsMap.get e (Diagram.whiteboards d) = None ->
  Drag.elemPos rt d e = Some p ->
  (Diagram.getSelectedIds d = [e; w] ->
   Whiteboard.containsPoint shifted (Point.add p delta) = true ->
   Drag.elemPos (fst r) d' e = Some (Point.add (Point.add p delta) delta))
  /\ (Diagram.getSelectedIds d = [w; e] ->
      Whiteboard.containsPoint shifted p = true ->
      Drag.elemPos (fst r) d' e = Some (Point.add (Point.add p delta) delta))
  /\ (Diagram.getSelectedIds d = [e; w] \/ Diagram.getSelectedIds d = [w; e] ->
      JsMap.get w (Diagram.whiteboards d') = Some shifted
      /\ forall x px,
           x <> e -> x <> w -> Drag.elemPos rt d x = Some px ->
           Whiteboard.containsPoint shifted px = false ->
           Drag.elemPos (fst r) d' x = Some px).
Proof.
  intros d delta shifted r d' Hm Hs Hwf Hw He Hp.
  assert (Hne : e <> w) by (intros ->; congruence).
  assert (Hr : r = let '(rt1, d1) :=
                     fold_left (InteractionManager.dragElement delta)
                       (Diagram.getSelectedIds d) (rt, d) in
                   (rt1,
                    InteractionManager.onUpdate
                      (InteractionManager.with_dragStartPoint
                         (InteractionManager.with_diagram
                            (InteractionManager.with_mousePosition m point) d1)
                         (Some point)))).
  { subst r. unfold InteractionManager.handleMouseMove.
    cbn [InteractionManager.with_mousePosition InteractionManager.mode
         InteractionManager.dragStartPoint].
    rewrite Hm, Hs. cbn [Mode_eqb].
    unfold InteractionManager.handleDragging.
    cbn [InteractionManager.dragStartPoint InteractionManager.diagram
         InteractionManager.with_mousePosition].
    now rewrite Hs. }
  assert (Hew : forall rt0 d0,
            Drag.wellFormed d0 ->
            Diagram.whiteboards d0 = Diagram.whiteboards d ->
            let r1 := InteractionManager.dragElement delta (rt0, d0) e in
            let r2 := InteractionManager.dragElement delta r1 w in
            JsMap.get w (Diagram.whiteboards (snd r2)) = Some shifted
            /\ forall k,
                 Drag.elemPos (fst r2) (snd r2) k
                 = let own1 :=
                     if String.eqb e k
                     then Drag.shift delta (Drag.elemPos rt0 d0 k)
                     else Drag.elemPos rt0 d0 k in
                   let own2 :=
                     if String.eqb w k then Drag.shift delta own1 else own1 in
                   if Drag.inside shifted own2
                   then Drag.shift delta own2 else own2).
  { intros rt0 d0 Hwf0 Hwb0 r1 r2.
    destruct (Drag.dragElement_spec delta rt0 d0 e Hwf0) as [W1 [B1 P1]].
    fold r1 in W1, B1, P1. rewrite Hwb0, He in P1.
    destruct r1 as [rt1 d1]. cbn [fst snd] in *.
    destruct (Drag.dragElement_spec delta rt1 d1 w W1) as [W2 [B2 P2]].
    fold r2 in W2, B2, P2.
    assert (Hw1 : JsMap.get w (Diagram.whiteboards d1) = Some wb).
    { rewrite B1, Hwb0, Hw. apply String.eqb_neq in Hne. now rewrite Hne. }
    rewrite Hw1 in P2. split.
    - rewrite B2, String.eqb_refl, Hw1. reflexivity.
    - intros k. cbv zeta in *. rewrite P2, (P1 k). reflexivity. }
  assert (Hwe : forall rt0 d0,
            Drag.wellFormed d0 ->
            Diagram.whiteboards d0 = Diagram.whiteboards d ->
            let r1 := InteractionManager.dragElement delta (rt0, d0) w in
            let r2 := InteractionManager.dragElement delta r1 e in
            JsMap.get w (Diagram.whiteboards (snd r2)) = Some shifted
            /\ forall k,
                 Drag.elemPos (fst r2) (snd r2) k
                 = let own1 :=
                     if String.eqb w k
                     then Drag.shift delta (Drag.elemPos rt0 d0 k)
                     else Drag.elemPos rt0 d0 k in
                   let carried :=
                     if Drag.inside shifted own1
                     then Drag.shift delta own1 else own1 in
                   if String.eqb e k then Drag.shift delta carried
                   else carried).
  { intros rt0 d0 Hwf0 Hwb0 r1 r2.
    destruct (Drag.dragElement_spec delta rt0 d0 w Hwf0) as [W1 [B1 P1]].
    fold r1 in W1, B1, P1. rewrite Hwb0, Hw in P1.
    destruct r1 as [rt1 d1]. cbn [fst snd] in *.
    destruct (Drag.dragElement_spec delta rt1 d1 e W1) as [W2 [B2 P2]].
    fold r2 in W2, B2, P2.
    assert (He1 : JsMap.get e (Diagram.whiteboards d1) = None).
    { rewrite B1, Hwb0, He.
      assert (Hwe' : String.eqb w e = false)
        by (apply String.eqb_neq; congruence).
      now rewrite Hwe'. }
    rewrite He1 in P2. split.
    - rewrite B2, B1, Hwb0, Hw, String.eqb_refl.
      apply String.eqb_neq in Hne. now rewrite Hne.
    - intros k. cbv zeta in *. rewrite P2, (P1 k). reflexivity. }
  assert (Ee : String.eqb e e = true) by apply String.eqb_refl.
  assert (Ewe : String.eqb w e = false) by (apply String.eqb_neq; congruence).
  split; [|split].
  - intros Hsel Hin. subst d'. rewrite Hr, Hsel. cbn [fold_left].
    destruct (Hew rt d Hwf eq_refl) as [_ H]. cbv zeta in H.
    destruct (InteractionManager.dragElement delta
                (InteractionManager.dragElement delta (rt, d) e) w)
      as [rt2 d2].
    cbn [fst snd InteractionManager.diagram InteractionManager.onUpdate
         InteractionManager.emit InteractionManager.with_dragStartPoint
         InteractionManager.with_diagram] in *.
    rewrite (H e), Ee, Ewe, Hp. cbn [Drag.shift option_map Drag.inside].
    now rewrite Hin.
  - intros Hsel Hin. subst d'. rewrite Hr, Hsel. cbn [fold_left].
    destruct (Hwe rt d Hwf eq_refl) as [_ H]. cbv zeta in H.
    destruct (InteractionManager.dragElement delta
                (InteractionManager.dragElement delta (rt, d) w) e)
      as [rt2 d2].
    cbn [fst snd InteractionManager.diagram InteractionManager.onUpdate
         InteractionManager.emit InteractionManager.with_dragStartPoint
         InteractionManager.with_diagram] in *.
    rewrite (H e), Ee, Ewe, Hp. cbn [Drag.shift option_map Drag.inside].
    now rewrite Hin.
  - intros [Hsel|Hsel]; subst d'; rewrite Hr, Hsel; cbn [fold_left].
    + destruct (Hew rt d Hwf eq_refl) as [Hb H]. cbv zeta in H, Hb.
      destruct (InteractionManager.dragElement delta
                  (InteractionManager.dragElement delta (rt, d) e) w)
        as [rt2 d2].
      cbn [fst snd InteractionManager.diagram InteractionManager.onUpdate
           InteractionManager.emit InteractionManager.with_dragStartPoint
           InteractionManager.with_diagram] in *.
      split; [exact Hb|]. intros x px Hxe Hxw Hx Hout.
      rewrite (H x), Hx.
      assert (E1 : String.eqb e x = false)
        by (apply String.eqb_neq; congruence).
      assert (E2 : String.eqb w x = false)
        by (apply String.eqb_neq; congruence).
      rewrite E1, E2. cbn [Drag.inside]. now rewrite Hout.
    + destruct (Hwe rt d Hwf eq_refl) as [Hb H]. cbv zeta in H, Hb.
      destruct (InteractionManager.dragElement delta
                  (InteractionManager.dragElement delta (rt, d) w) e)
        as [rt2 d2].
      cbn [fst snd InteractionManager.diagram InteractionManager.onUpdate
           InteractionManager.emit InteractionManager.with_dragStartPoint
           InteractionManager.with_diagram] in *.
      split; [exact Hb|]. intros x px Hxe Hxw Hx Hout.
      rewrite (H x), Hx.
      assert (E1 : String.eqb e x = false)
        by (apply String.eqb_neq; congruence).
      assert (E2 : String.eqb w x = false)
        by (apply String.eqb_neq; congruence).
      rewrite E1, E2. cbn [Drag.inside]. now rewrite Hout.
Qed.
End C10.

(** The default whiteboard spans (-800,-600)-(800,600).  The whiteboard is
    selected by a click on its empty area; a Shift-press on a node then
    adds the node to the selection and starts a drag, and the pointer
    moves by (50,0). *)
Module DragExample.
Definition gesture (inner outer : Point.t) : Runtime.t * InteractionManager.t :=
  let '(rt1, n1) := Runtime.newNode (fst Example.fresh) inner "E" None in
  let '(rt2, n2) := Runtime.newNode rt1 outer "X" None in
  let m0 :=
    InteractionManager.new
      (Diagram.addNode n2 (Diagram.addNode n1 (snd Example.fresh))) in
  let '(rt3, m3) :=
    InteractionManager.handleMouseDown (Example.pt 0 300) false rt2 m0 in
  let '(rt4, m4) :=
    InteractionManager.handleMouseUp (Example.pt 0 300) rt3 m3 in
  InteractionManager.handleMouseDown inner true rt4 m4.

Definition dragged (inner outer : Point.t)
    : Runtime.t * InteractionManager.t :=
  InteractionManager.handleMouseMove
    (Point.add inner (Example.pt 50 0))
    (fst (gesture inner outer)) (snd (gesture inner outer)).

(** E well inside the whiteboard, X outside of it and of its shifted
    bounds. *)
Definition centred : Runtime.t * InteractionManager.t :=
  gesture (Example.pt 100 100) (Example.pt 900 900).

(** E just inside the left edge, X just outside the right edge. *)
Definition atTheEdges : Runtime.t * InteractionManager.t :=
  dragged (Example.pt (-790) 0) (Example.pt 820 0).
End DragExample.

Lemma DragExample_wellFormed :
  Drag.wellFormed (InteractionManager.diagram (snd DragExample.centred)).
Proof.
  assert (En : Diagram.nodes (InteractionManager.diagram (snd DragExample.centred))
               = [("node-0", Node.mk "node-0" 0); ("node-1", Node.mk "node-1" 1)])
    by (vm_compute; reflexivity).
  assert (El : Diagram.textLabels
                 (InteractionManager.diagram (snd DragExample.centred)) = [])
    by (vm_compute; reflexivity).
  constructor; rewrite ?En, ?El.
  - cbn. repeat constructor; cbn; intuition discriminate.
  - constructor.
  - reflexivity.
  - intros k1 k2 n1 n2. cbn [JsMap.get].
    destruct (String.eqb k1 "node-0") eqn:E10;
      [|destruct (String.eqb k1 "node-1") eqn:E11; [|discriminate]];
    (destruct (String.eqb k2 "node-0") eqn:E20;
      [|destruct (String.eqb k2 "node-1") eqn:E21; [|discriminate]]);
    intros [= <-] [= <-]; cbn; intros Ha; try discriminate;
    repeat match goal with H : String.eqb _ _ = true |- _ =>
      apply String.eqb_eq in H end; congruence.
Qed.

(** The node at (100,100), selected after the whiteboard, ends at
    (200,100) after a move by (50,0). *)
Lemma C10_witness :
  Drag.elemPos
    (fst (InteractionManager.handleMouseMove (Example.pt 150 100)
            (fst DragExample.centred) (snd DragExample.centred)))
    (InteractionManager.diagram
       (snd (InteractionManager.handleMouseMove (Example.pt 150 100)
               (fst DragExample.centred) (snd DragExample.centred))))
    "node-0"
  = Some (Example.pt 200 100).
Proof.
  destruct (C10_double_drag (fst DragExample.centred) (snd DragExample.centred)
              (Example.pt 150 100) (Example.pt 100 100) "node-0" "whiteboard-0"
              (Whiteboard.mk "whiteboard-0" (Example.pt (-800) (-600))
                 1600%Z 1200%Z "#ffffff" false)
              (Example.pt 100 100)
              eq_refl eq_refl DragExample_wellFormed eq_refl eq_refl eq_refl)
    as [_ [H _]].
  exact (H eq_refl eq_refl).
Defined.

(** C10 fails of the code at the edges of the whiteboard.  The node E at
    (-790,0) lies inside the selected whiteboard and is itself selected,
    yet moves by (50,0) once, to (-740,0): the whiteboard has moved away
    from under it before its contents are collected.  The node X at
    (820,0) is neither selected nor inside the whiteboard, yet it moves,
    to (870,0): the shifted whiteboard covers it. *)
Lemma C10_counterexample :
  Diagram.getSelectedIds
    (InteractionManager.diagram
       (snd (DragExample.gesture (Example.pt (-790) 0) (Example.pt 820 0))))
  = ["whiteboard-0"; "node-0"]
  /\ InteractionManager.mode
       (snd (DragExample.gesture (Example.pt (-790) 0) (Example.pt 820 0)))
     = DRAGGING
  /\ Whiteboard.containsPoint
       (Whiteboard.mk "whiteboard-0" (Example.pt (-800) (-600))
          1600%Z 1200%Z "#ffffff" false)
       (Example.pt (-790) 0) = true
  /\ Whiteboard.containsPoint
       (Whiteboard.mk "whiteboard-0" (Example.pt (-800) (-600))
          1600%Z 1200%Z "#ffffff" false)
       (Example.pt 820 0) = false
  /\ Drag.elemPos (fst DragExample.atTheEdges)
       (InteractionManager.diagram (snd DragExample.atTheEdges)) "node-0"
     = Some (Example.pt (-740) 0)
  /\ Drag.elemPos (fst DragExample.atTheEdges)
       (InteractionManager.diagram (snd DragExample.atTheEdges)) "node-1"
     = Some (Example.pt 870 0).
Proof. vm_compute. repeat split. Qed.

(** ** Serialization round trip *)

Module RoundTrip.
Section WithNumber.
Context {N : JSNumber}.

(** The entries of a Map are filed under the ids of their values. *)
Definition keyedBy [V : Type] (id : V -> string) (m : JsMap.t V) : Prop :=
  forall kv, In kv m -> id (snd kv) = fst kv.

(** What holds of the collections of every diagram: they are Maps, and
    every entity is filed under its own id. *)
Record wellKeyed (d : Diagram.t) : Prop := mkWellKeyed {
  wk_nodes : NoDup (JsMap.keys (Diagram.nodes d));
  wk_node_ids : keyedBy Node.id (Diagram.nodes d);
  wk_arrows : NoDup (JsMap.keys (Diagram.arrows d));
  wk_arrow_ids : keyedBy Arrow.id (Diagram.arrows d);
  wk_labels : NoDup (JsMap.keys (Diagram.textLabels d));
  wk_label_ids : keyedBy TextLabel.id (Diagram.textLabels d)
}.

Lemma keyedBy_ids [V : Type] (id : V -> string) (m : JsMap.t V) :
  keyedBy id m -> map id (JsMap.values m) = JsMap.keys m.
Proof.
  intros H. unfold JsMap.values, JsMap.keys. rewrite map_map.
  apply map_ext_in. intros kv Hin. now apply H.
Qed.

(** The node objects [fromJSON] allocates for a list of records, from the
    address [a] on, and the fields it gives them. *)
Fixpoint entries (a : nat) (js : list Node.JSON) : JsMap.t Node.t :=
  match js with
  | [] => []
  | j :: js => (Node.j_id j, Node.mk (Node.j_id j) a) :: entries (S a) js
  end.

Definition fieldsOf (j : Node.JSON) : Node.fields :=
  Node.mkFields
    (Point.mk (Point.x (Node.j_position j)) (Point.y (Node.j_position j)))
    (Node.j_text j) (Node.j_radius j) false false (Node.j_style j)
    (Node.j_fontFamily j).

Lemma keys_entries a js : JsMap.keys (entries a js) = map Node.j_id js.
Proof.
  revert a. induction js as [|j js IH]; intros a; [reflexivity|].
  unfold JsMap.keys in *. cbn. now rewrite (IH (S a)).
Qed.

Lemma entries_keyed a js : keyedBy Node.id (entries a js).
Proof.
  revert a. induction js as [|j js IH]; intros a kv; cbn; [tauto|].
  intros [<-|H]; [reflexivity|]. now apply (IH (S a)).
Qed.

Lemma entries_app a js1 js2 :
  entries a (js1 ++ js2) = entries a js1 ++ entries (a + List.length js1) js2.
Proof.
  revert a. induction js1 as [|j js1 IH]; intros a; cbn.
  - now rewrite Nat.add_0_r.
  - rewrite (IH (S a)). now rewrite Nat.add_succ_r.
Qed.

Lemma nodeFromJSON_spec rt j :
  let r := Runtime.nodeFromJSON rt j in
  let a := Node.nextAddr (Runtime.nodeStore rt) in
  snd r = Node.mk (Node.j_id j) a
  /\ Node.nextAddr (Runtime.nodeStore (fst r)) = S a
  /\ Node.heap (Runtime.nodeStore (fst r)) a = fieldsOf j
  /\ (forall a', a' <> a ->
        Node.heap (Runtime.nodeStore (fst r)) a'
        = Node.heap (Runtime.nodeStore rt) a')
  /\ Runtime.arrowNextId (fst r) = Runtime.arrowNextId rt
  /\ Runtime.console (fst r) = Runtime.console rt.
Proof.
  cbn. rewrite !Nat.eqb_refl. repeat split.
  intros a' Ha. apply Nat.eqb_neq in Ha. now rewrite Ha.
Qed.

Lemma restoreNode_step rt d nm j :
  Diagram.restoreNode (rt, d, nm) j
  = (fst (Runtime.nodeFromJSON rt j),
     Diagram.with_nodes d
       (JsMap.set (Node.j_id j)
          (Node.mk (Node.j_id j) (Node.nextAddr (Runtime.nodeStore rt)))
          (Diagram.nodes d)),
     JsMap.set (Node.j_id j)
       (Node.mk (Node.j_id j) (Node.nextAddr (Runtime.nodeStore rt))) nm).
Proof. reflexivity. Qed.

Lemma restoreNodes js :
  forall rt d nm,
    NoDup (map Node.j_id js) ->
    (forall j, In j js ->
       JsMap.has (Node.j_id j) (Diagram.nodes d) = false
       /\ JsMap.has (Node.j_id j) nm = false) ->
    let a := Node.nextAddr (Runtime.nodeStore rt) in
    let r := fold_left Diagram.restoreNode js (rt, d, nm) in
    snd (fst r) = Diagram.with_nodes d (Diagram.nodes d ++ entries a js)
    /\ snd r = nm ++ entries a js
    /\ (forall a', a' < a ->
          Node.heap (Runtime.nodeStore (fst (fst r))) a'
          = Node.heap (Runtime.nodeStore rt) a')
    /\ (forall i j, nth_error js i = Some j ->
          Node.heap (Runtime.nodeStore (fst (fst r))) (a + i) = fieldsOf j)
    /\ Runtime.arrowNextId (fst (fst r)) = Runtime.arrowNextId rt
    /\ Runtime.console (fst (fst r)) = Runtime.console rt.
Proof.
  induction js as [|j js IH]; intros rt d nm Hnd Hfresh a r.
  - subst r. cbn. rewrite !app_nil_r. repeat split; try now destruct d.
    intros [|i] j0; discriminate.
  - subst r. cbn [fold_left]. rewrite restoreNode_step. fold a.
    destruct (nodeFromJSON_spec rt j) as [_ [Ha [Hh [Ho [Hc1 Hc2]]]]].
    fold a in Ha, Hh, Ho.
    set (rt1 := fst (Runtime.nodeFromJSON rt j)) in *. clearbody rt1.
    inversion Hnd as [|? ? Hnotin Hnd']; subst.
    destruct (Hfresh j (or_introl eq_refl)) as [Hf1 Hf2].
    rewrite (JsMapFacts.set_fresh _ _ _ Hf1), (JsMapFacts.set_fresh _ _ _ Hf2).
    match goal with |- context [fold_left _ js (rt1, ?d1, ?nm1)] =>
      specialize (IH rt1 d1 nm1 Hnd') end.
    cbv zeta in IH. rewrite Ha in IH.
    destruct IH as [I1 [I2 [I3 [I4 [I5 I6]]]]].
    { intros j' Hin. destruct (Hfresh j' (or_intror Hin)) as [G1 G2].
      cbn [Diagram.nodes Diagram.with_nodes].
      assert (Hne : Node.j_id j' <> Node.j_id j).
      { intros E. apply Hnotin. rewrite <- E. now apply in_map. }
      apply String.eqb_neq in Hne.
      rewrite <- (JsMapFacts.set_fresh _ _ _ Hf1).
      rewrite <- (JsMapFacts.set_fresh _ _ _ Hf2).
      rewrite !JsMapFacts.has_set, G1, G2, Hne. auto. }
    rewrite I1, I2. cbn [Diagram.nodes Diagram.with_nodes entries].
    rewrite <- !app_assoc. cbn [app].
    split; [reflexivity|]. split; [reflexivity|]. split; [|split; [|split]].
    + intros a' Hlt. rewrite I3 by lia. apply Ho. lia.
    + intros [|i] j0 Hnth.
      * injection Hnth as <-. rewrite Nat.add_0_r, I3 by lia. exact Hh.
      * cbn in Hnth. rewrite <- (I4 i j0 Hnth). f_equal. lia.
    + congruence.
    + congruence.
Qed.

Lemma node_roundtrip s a j :
  Node.heap s a = fieldsOf j ->
  Node.toJSON s (Node.mk (Node.j_id j) a) = j.
Proof.
  intros H. unfold Node.toJSON, Node.read. cbn [Node.addr Node.id].
  rewrite H. destruct j as [id [x y] t r st f]. reflexivity.
Qed.

Lemma entries_toJSON s a js :
  (forall i j, nth_error js i = Some j -> Node.heap s (a + i) = fieldsOf j) ->
  map (Node.toJSON s) (JsMap.values (entries a js)) = js.
Proof.
  revert a. induction js as [|j js IH]; intros a H; [reflexivity|].
  cbn. f_equal.
  - apply node_roundtrip. specialize (H 0 j eq_refl).
    now rewrite Nat.add_0_r in H.
  - apply IH. intros i j0 Hnth. specialize (H (S i) j0 Hnth).
    now rewrite Nat.add_succ_r in H.
Qed.

(** Arrows: every record whose two node ids are keys of [nodeMap] comes
    back as an arrow that serializes to the same record. *)
Definition restored (nodeMap : JsMap.t Node.t) (a : Arrow.t) : option Arrow.t :=
  match JsMap.get (Node.id (Arrow.fromNode a)) nodeMap,
        JsMap.get (Node.id (Arrow.toNode a)) nodeMap with
  | Some nf, Some nt =>
      Some (Arrow.mk (Arrow.id a) nf nt false (Arrow.strokeColor a)
              (Arrow.strokeWidth a) (Arrow.lineStyle a))
  | _, _ => None
  end.

Lemma restoreArrow_step nodeMap rt d a :
  Diagram.restoreArrow nodeMap (rt, d) (Arrow.toJSON a)
  = match restored nodeMap a with
    | Some a' =>
        (Runtime.bumpArrow rt,
         Diagram.with_arrows d (JsMap.set (Arrow.id a) a' (Diagram.arrows d)))
    | None => (Runtime.log rt Diagram.skippedArrowWarning, d)
    end.
Proof.
  unfold Diagram.restoreArrow, Runtime.arrowFromJSON, Arrow.fromJSON, restored.
  cbn [Arrow.toJSON Arrow.j_fromNodeId Arrow.j_toNodeId Arrow.j_id
       Arrow.j_strokeColor Arrow.j_strokeWidth Arrow.j_lineStyle].
  destruct (JsMap.get (Node.id (Arrow.fromNode a)) nodeMap);
    destruct (JsMap.get (Node.id (Arrow.toNode a)) nodeMap); reflexivity.
Qed.

Lemma restored_resolves nodeMap a :
  keyedBy Node.id nodeMap ->
  JsMap.has (Node.id (Arrow.fromNode a)) nodeMap = true ->
  JsMap.has (Node.id (Arrow.toNode a)) nodeMap = true ->
  exists a', restored nodeMap a = Some a'
             /\ Arrow.id a' = Arrow.id a
             /\ Arrow.toJSON a' = Arrow.toJSON a.
Proof.
  intros Hk Hf Ht. unfold restored, JsMap.has in *.
  destruct (JsMap.get (Node.id (Arrow.fromNode a)) nodeMap) as [nf|] eqn:Ef;
    [|discriminate].
  destruct (JsMap.get (Node.id (Arrow.toNode a)) nodeMap) as [nt|] eqn:Et;
    [|discriminate].
  apply JsMapFacts.get_in in Ef, Et. apply Hk in Ef, Et. cbn in Ef, Et.
  eexists. split; [reflexivity|]. split; [reflexivity|].
  unfold Arrow.toJSON. cbn. now rewrite Ef, Et.
Qed.

Lemma restoreArrows nodeMap (arrows : list Arrow.t) :
  keyedBy Node.id nodeMap ->
  forall rt d,
    NoDup (map Arrow.id arrows) ->
    (forall a, In a arrows ->
       JsMap.has (Arrow.id a) (Diagram.arrows d) = false
       /\ JsMap.has (Node.id (Arrow.fromNode a)) nodeMap = true
       /\ JsMap.has (Node.id (Arrow.toNode a)) nodeMap = true) ->
    let r := fold_left (Diagram.restoreArrow nodeMap)
               (map Arrow.toJSON arrows) (rt, d) in
    map Arrow.toJSON (JsMap.values (Diagram.arrows (snd r)))
    = map Arrow.toJSON (JsMap.values (Diagram.arrows d))
      ++ map Arrow.toJSON arrows
    /\ JsMap.keys (Diagram.arrows (snd r))
       = JsMap.keys (Diagram.arrows d) ++ map Arrow.id arrows
    /\ Diagram.nodes (snd r) = Diagram.nodes d
    /\ Diagram.textLabels (snd r) = Diagram.textLabels d
    /\ Runtime.nodeStore (fst r) = Runtime.nodeStore rt
    /\ Runtime.console (fst r) = Runtime.console rt.
Proof.
  intros Hk. induction arrows as [|a arrows IH]; intros rt d Hnd Hpre r.
  - subst r. cbn. rewrite !app_nil_r. repeat split.
  - subst r. cbn [map fold_left]. rewrite restoreArrow_step.
    destruct (Hpre a (or_introl eq_refl)) as [Hfresh [Hf Ht]].
    destruct (restored_resolves nodeMap a Hk Hf Ht) as [a' [-> [Hid Hjs]]].
    inversion Hnd as [|? ? Hnotin Hnd']; subst.
    match goal with |- context [fold_left _ _ (?rt1, ?d1)] =>
      specialize (IH rt1 d1 Hnd') end.
    cbv zeta in IH.
    destruct IH as [I1 [I2 [I3 [I4 [I5 I6]]]]].
    { intros b Hin. destruct (Hpre b (or_intror Hin)) as [G1 G2].
      split; [|exact G2].
      cbn [Diagram.arrows Diagram.with_arrows].
      rewrite JsMapFacts.has_set, G1, orb_false_r.
      apply String.eqb_neq. intros E. apply Hnotin. rewrite <- E.
      now apply in_map. }
    rewrite I1, I2, I3, I4, I5, I6.
    cbn [Diagram.arrows Diagram.with_arrows Diagram.nodes Diagram.textLabels
         Runtime.bumpArrow Runtime.nodeStore Runtime.console].
    rewrite (JsMapFacts.set_fresh _ _ _ Hfresh).
    unfold JsMap.values, JsMap.keys. rewrite !map_app, <- !app_assoc.
    cbn [map app fst snd]. rewrite Hjs. repeat split.
Qed.

Lemma label_roundtrip (l : TextLabel.t) :
  TextLabel.toJSON (TextLabel.fromJSON (TextLabel.toJSON l))
  = TextLabel.toJSON l.
Proof. reflexivity. Qed.

Lemma restoreLabel_step rt d j :
  Diagram.restoreLabel (rt, d) j
  = (Runtime.bumpTextLabel rt,
     Diagram.with_textLabels d
       (JsMap.set (TextLabel.j_id j) (TextLabel.fromJSON j)
          (Diagram.textLabels d))).
Proof. reflexivity. Qed.

Lemma restoreLabels (labels : list TextLabel.t) :
  forall rt d,
    NoDup (map TextLabel.id labels) ->
    (forall l, In l labels ->
       JsMap.has (TextLabel.id l) (Diagram.textLabels d) = false) ->
    let r := fold_left Diagram.restoreLabel (map TextLabel.toJSON labels)
               (rt, d) in
    map TextLabel.toJSON (JsMap.values (Diagram.textLabels (snd r)))
    = map TextLabel.toJSON (JsMap.values (Diagram.textLabels d))
      ++ map TextLabel.toJSON labels
    /\ JsMap.keys (Diagram.textLabels (snd r))
       = JsMap.keys (Diagram.textLabels d) ++ map TextLabel.id labels
    /\ Diagram.nodes (snd r) = Diagram.nodes d
    /\ Diagram.arrows (snd r) = Diagram.arrows d
    /\ Runtime.nodeStore (fst r) = Runtime.nodeStore rt
    /\ Runtime.console (fst r) = Runtime.console rt.
Proof.
  induction labels as [|l labels IH]; intros rt d Hnd Hpre r.
  - subst r. cbn. rewrite !app_nil_r. repeat split.
  - subst r. cbn [map fold_left]. rewrite restoreLabel_step.
    change (TextLabel.j_id (TextLabel.toJSON l)) with (TextLabel.id l).
    pose proof (Hpre l (or_introl eq_refl)) as Hfresh.
    inversion Hnd as [|? ? Hnotin Hnd']; subst.
    match goal with |- context [fold_left _ _ (?rt1, ?d1)] =>
      specialize (IH rt1 d1 Hnd') end.
    cbv zeta in IH.
    destruct IH as [I1 [I2 [I3 [I4 [I5 I6]]]]].
    { intros l' Hin. pose proof (Hpre l' (or_intror Hin)) as G1.
      cbn [Diagram.textLabels Diagram.with_textLabels].
      rewrite JsMapFacts.has_set, G1, orb_false_r.
      apply String.eqb_neq. intros E. apply Hnotin.
      rewrite <- E. now apply in_map. }
    rewrite I1, I2, I3, I4, I5, I6.
    cbn [Diagram.arrows Diagram.with_textLabels Diagram.nodes
         Diagram.textLabels Runtime.bumpTextLabel Runtime.nodeStore
         Runtime.console].
    rewrite (JsMapFacts.set_fresh _ _ _ Hfresh).
    unfold JsMap.values, JsMap.keys. rewrite !map_app, <- !app_assoc.
    cbn [map app fst snd]. rewrite label_roundtrip. repeat split.
Qed.

(** The whiteboard phase leaves the three entity collections empty and
    the node objects and the console alone. *)
Lemma restoreWhiteboards wbs rt d :
  let r := fold_left Diagram.restoreWhiteboard wbs (rt, d) in
  Diagram.nodes (snd r) = Diagram.nodes d
  /\ Diagram.arrows (snd r) = Diagram.arrows d
  /\ Diagram.textLabels (snd r) = Diagram.textLabels d
  /\ Runtime.console (fst r) = Runtime.console rt.
Proof.
  revert rt d. induction wbs as [|w wbs IH]; intros rt d; [cbn; auto|].
  cbn [fold_left].
  change (Diagram.restoreWhiteboard (rt, d) w)
    with (Runtime.bumpWhiteboard rt,
          Diagram.with_whiteboards d
            (Diagram.whiteboards (snd (Diagram.restoreWhiteboard (rt, d) w)))).
  match goal with |- context [fold_left _ wbs (?rt1, ?d1)] =>
    specialize (IH rt1 d1) end.
  cbv zeta in *. destruct IH as [I1 [I2 [I3 I4]]].
  rewrite I1, I2, I3, I4. cbn. auto.
Qed.

(** [fromJSON] as its three entity phases, run from a diagram that holds
    whiteboards only. *)
Lemma fromJSON_phases rt data :
  exists rtA dA,
    Diagram.nodes dA = [] /\ Diagram.arrows dA = []
    /\ Diagram.textLabels dA = []
    /\ Runtime.console rtA = Runtime.console rt
    /\ Diagram.fromJSON rt data
       = let p2 := fold_left Diagram.restoreNode (Diagram.j_nodes data)
                     (rtA, dA, []) in
         let p3 := fold_left (Diagram.restoreArrow (snd p2))
                     (Diagram.j_arrows data) (fst (fst p2), snd (fst p2)) in
         fold_left Diagram.restoreLabel (Diagram.j_textLabels data)
           (fst p3, snd p3).
Proof.
  unfold Diagram.fromJSON.
  cbn [Diagram.new Diagram.defaultWhiteboard Runtime.newWhiteboard].
  match goal with
  | |- context [match Diagram.j_whiteboards data with
                | [] => ?e | _ :: _ => ?f end] =>
      set (p1 := match Diagram.j_whiteboards data with
                 | [] => e | _ :: _ => f end)
  end.
  assert (H : Diagram.nodes (snd p1) = [] /\ Diagram.arrows (snd p1) = []
              /\ Diagram.textLabels (snd p1) = []
              /\ Runtime.console (fst p1) = Runtime.console rt).
  { subst p1. destruct (Diagram.j_whiteboards data) as [|w wbs].
    - cbn. auto.
    - match goal with |- context [fold_left _ ?l (?r0, ?d0)] =>
        pose proof (restoreWhiteboards l r0 d0) as Hw end.
      cbv zeta in Hw. destruct Hw as [W1 [W2 [W3 W4]]].
      rewrite W1, W2, W3, W4. cbn. auto. }
  clearbody p1. destruct p1 as [rtA dA]. cbn [fst snd] in H.
  exists rtA, dA. destruct H as [H1 [H2 [H3 H4]]].
  repeat (split; [assumption|]). cbv zeta.
  destruct (fold_left Diagram.restoreNode (Diagram.j_nodes data) (rtA, dA, []))
    as [[rt2 d2] nm].
  cbn [fst snd].
  destruct (fold_left (Diagram.restoreArrow nm) (Diagram.j_arrows data)
              (rt2, d2)) as [rt3 d3].
  reflexivity.
Qed.

Lemma integrity_resolves d :
  Scene.integrity d = true ->
  forall a, In a (JsMap.values (Diagram.arrows d)) ->
    JsMap.has (Node.id (Arrow.fromNode a)) (Diagram.nodes d) = true
    /\ JsMap.has (Node.id (Arrow.toNode a)) (Diagram.nodes d) = true.
Proof.
  unfold Scene.integrity. rewrite forallb_forall. intros H a Hin.
  apply H in Hin. unfold Scene.resolves in Hin.
  now apply andb_true_iff in Hin.
Qed.

Lemma has_same_keys [V W : Type] k (m : JsMap.t V) (m' : JsMap.t W) :
  JsMap.keys m = JsMap.keys m' -> JsMap.has k m = JsMap.has k m'.
Proof.
  intros E. destruct (JsMap.has k m') eqn:H.
  - apply JsMapFacts.has_true_iff. rewrite E.
    now apply JsMapFacts.has_true_iff.
  - apply JsMapFacts.has_false_iff. rewrite E.
    now apply JsMapFacts.has_false_iff.
Qed.

End WithNumber.
End RoundTrip.

(** ** C2 *)

Section C2.
Context {N : JSNumber}.

(** C2 (as amended).  For a scene every arrow of which has both endpoint
    ids among the keys of the node collection, serializing the scene and
    reading the result back with [fromJSON], in the same run or in another
    one, gives a scene that serializes to the same node, arrow and label
    records in the same order: the same ids, positions, texts, radii,
    styles and fonts of the nodes, the same ids, endpoint ids and stroke
    attributes of the arrows, the same records of the labels.  The three
    collections are filed under the same ids as before, and no arrow is
    skipped, so nothing is written to the console. *)
Theorem C2_round_trip (rt : Runtime.t) (d : Diagram.t) (rt' : Runtime.t) :
  RoundTrip.wellKeyed d ->
  Scene.integrity d = true ->
  let data := Diagram.toJSON rt d in
  let r := Diagram.fromJSON rt' data in
  Diagram.j_nodes (Diagram.toJSON (fst r) (snd r)) = Diagram.j_nodes data
  /\ Diagram.j_arrows (Diagram.toJSON (fst r) (snd r)) = Diagram.j_arrows data
  /\ Diagram.j_textLabels (Diagram.toJSON (fst r) (snd r))
     = Diagram.j_textLabels data
  /\ JsMap.keys (Diagram.nodes (snd r)) = JsMap.keys (Diagram.nodes d)
  /\ JsMap.keys (Diagram.arrows (snd r)) = JsMap.keys (Diagram.arrows d)
  /\ JsMap.keys (Diagram.textLabels (snd r))
     = JsMap.keys (Diagram.textLabels d)
  /\ Runtime.console (fst r) = Runtime.console rt'.
Proof.
  intros [Wn Wni Wa Wai Wl Wli] Hint data r.
  destruct (RoundTrip.fromJSON_phases rt' data)
    as (rtA & dA & Hn & Ha & Hl & Hc & E).
  subst r. rewrite E. clear E. cbv zeta.
  set (js := Diagram.j_nodes data).
  assert (Hids : map Node.j_id js = JsMap.keys (Diagram.nodes d)).
  { subst js data. cbn [Diagram.toJSON Diagram.j_nodes]. rewrite map_map.
    change (fun x => Node.j_id (Node.toJSON (Runtime.nodeStore rt) x))
      with Node.id.
    now apply RoundTrip.keyedBy_ids. }
  assert (Hnd : NoDup (map Node.j_id js)) by now rewrite Hids.
  set (p2 := fold_left Diagram.restoreNode js (rtA, dA, [])).
  pose proof (RoundTrip.restoreNodes js rtA dA [] Hnd) as P2. cbv zeta in P2.
  rewrite Hn in P2.
  set (a := Node.nextAddr (Runtime.nodeStore rtA)) in *.
  change (fold_left Diagram.restoreNode js (rtA, dA, [])) with p2 in P2.
  destruct P2 as [N1 [N2 [_ [N4 [_ N6]]]]]; [intros; split; reflexivity|].
  cbn [app] in N1, N2.
  assert (Hkeys : JsMap.keys (snd p2) = JsMap.keys (Diagram.nodes d)).
  { rewrite N2, RoundTrip.keys_entries. exact Hids. }
  pose proof (RoundTrip.restoreArrows (snd p2) (JsMap.values (Diagram.arrows d))) as P3.
  specialize (P3 ltac:(rewrite N2; apply RoundTrip.entries_keyed)
                 (fst (fst p2)) (snd (fst p2))).
  rewrite (RoundTrip.keyedBy_ids Arrow.id _ Wai) in P3. specialize (P3 Wa).
  cbv zeta in P3.
  change (map Arrow.toJSON (JsMap.values (Diagram.arrows d)))
    with (Diagram.j_arrows data) in P3.
  set (p3 := fold_left (Diagram.restoreArrow (snd p2)) (Diagram.j_arrows data)
               (fst (fst p2), snd (fst p2))).
  change (fold_left (Diagram.restoreArrow (snd p2)) (Diagram.j_arrows data)
            (fst (fst p2), snd (fst p2))) with p3 in P3.
  rewrite N1 in P3. cbn [Diagram.arrows Diagram.with_nodes Diagram.nodes
                         Diagram.textLabels] in P3.
  rewrite Ha, Hl in P3. cbn [map JsMap.values JsMap.keys app] in P3.
  destruct P3 as [A1 [A2 [A3 [A4 [A5 A6]]]]].
  { intros x Hin. split; [reflexivity|].
    destruct (RoundTrip.integrity_resolves d Hint x Hin) as [G1 G2].
    now rewrite !(RoundTrip.has_same_keys _ _ _ Hkeys). }
  pose proof (RoundTrip.restoreLabels (JsMap.values (Diagram.textLabels d))
                (fst p3) (snd p3)) as P4.
  rewrite (RoundTrip.keyedBy_ids TextLabel.id _ Wli) in P4. specialize (P4 Wl).
  cbv zeta in P4.
  change (map TextLabel.toJSON (JsMap.values (Diagram.textLabels d)))
    with (Diagram.j_textLabels data) in P4.
  set (r := fold_left Diagram.restoreLabel (Diagram.j_textLabels data)
              (fst p3, snd p3)).
  change (fold_left Diagram.restoreLabel (Diagram.j_textLabels data)
            (fst p3, snd p3)) with r in P4.
  rewrite A4 in P4. cbn [map JsMap.values JsMap.keys app] in P4.
  destruct P4 as [L1 [L2 [L3 [L4 [L5 L6]]]]]; [intros; reflexivity|].
  cbn [Diagram.toJSON Diagram.j_nodes Diagram.j_arrows Diagram.j_textLabels].
  rewrite L1, L2, L3, L4, L5, L6, A1, A2, A3, A5, A6, N6.
  repeat split.
  - apply RoundTrip.entries_toJSON. exact N4.
  - now rewrite RoundTrip.keys_entries.
  - exact Hc.
Qed.
End C2.

Module RoundTripExample.
(** A, B and the arrow X between them, with a text label beside them. *)
Definition withLabel : Runtime.t * TextLabel.t :=
  Runtime.newTextLabel (fst Example.sceneAXB) (Example.pt 40 120) "note".

Definition scene : Scene.state :=
  (fst withLabel, Diagram.addTextLabel (snd withLabel) (snd Example.sceneAXB)).

(** The arrow X added to a diagram that holds A but not B. *)
Definition dangling : Scene.state :=
  (fst Example.withX,
   Diagram.addArrow Example.arrowX
     (Diagram.addNode Example.nodeA (snd Example.fresh))).

Lemma scene_wellKeyed : RoundTrip.wellKeyed (snd scene).
Proof.
  constructor;
    try (vm_compute; repeat constructor; simpl; intuition discriminate);
    intros kv Hin; vm_compute in Hin;
    repeat (destruct Hin as [<-|Hin]; [reflexivity|]); destruct Hin.
Qed.

Lemma dangling_wellKeyed : RoundTrip.wellKeyed (snd dangling).
Proof.
  constructor;
    try (vm_compute; repeat constructor; simpl; intuition discriminate);
    intros kv Hin; vm_compute in Hin;
    repeat (destruct Hin as [<-|Hin]; [reflexivity|]); destruct Hin.
Qed.
End RoundTripExample.

(** C2 at the scene of A, B, the arrow X and a label, read back in a run
    of its own. *)
Lemma C2_witness :
  let data := Diagram.toJSON (fst RoundTripExample.scene)
                (snd RoundTripExample.scene) in
  let r := Diagram.fromJSON (@Runtime.initial ZNumber) data in
  Diagram.j_nodes (Diagram.toJSON (fst r) (snd r)) = Diagram.j_nodes data
  /\ Diagram.j_arrows (Diagram.toJSON (fst r) (snd r)) = Diagram.j_arrows data
  /\ Diagram.j_textLabels (Diagram.toJSON (fst r) (snd r))
     = Diagram.j_textLabels data
  /\ JsMap.keys (Diagram.nodes (snd r))
     = JsMap.keys (Diagram.nodes (snd RoundTripExample.scene))
  /\ JsMap.keys (Diagram.arrows (snd r))
     = JsMap.keys (Diagram.arrows (snd RoundTripExample.scene))
  /\ JsMap.keys (Diagram.textLabels (snd r))
     = JsMap.keys (Diagram.textLabels (snd RoundTripExample.scene))
  /\ Runtime.console (fst r) = Runtime.console (@Runtime.initial ZNumber).
Proof.
  apply (C2_round_trip (fst RoundTripExample.scene)
           (snd RoundTripExample.scene) (@Runtime.initial ZNumber)).
  - exact RoundTripExample.scene_wellKeyed.
  - reflexivity.
Defined.

(** The claim as it stands fails.  The scene holds the node A and the
    arrow X from A to B, B itself never added; its collections are filed
    as those of every scene are.  The arrow is serialized, [fromJSON]
    skips its record with a warning, and the scene read back has no
    arrow. *)
Lemma C2_counterexample :
  let S := RoundTripExample.dangling in
  let data := Diagram.toJSON (fst S) (snd S) in
  let r := Diagram.fromJSON (fst S) data in
  RoundTrip.wellKeyed (snd S)
  /\ JsMap.keys (Diagram.arrows (snd S)) = ["arrow-0"]
  /\ map Arrow.j_id (Diagram.j_arrows data) = ["arrow-0"]
  /\ JsMap.keys (Diagram.arrows (snd r)) = []
  /\ Diagram.j_arrows (Diagram.toJSON (fst r) (snd r)) = []
  /\ Runtime.console (fst r) = [Diagram.skippedArrowWarning].
Proof.
  split; [exact RoundTripExample.dangling_wellKeyed|].
  cbv zeta. repeat apply conj; vm_compute; reflexivity.
Qed.

(** ** Identifiers are minted injectively *)

Lemma decimal_inj a b : decimal a = decimal b -> a = b.
Proof.
  unfold decimal. intros H.
  apply (f_equal NilEmpty.uint_of_string) in H.
  rewrite !NilEmpty.usu in H. injection H as H.
  now apply DecimalNat.Unsigned.to_uint_inj.
Qed.

Lemma mint_inj prefix a b : mint prefix a = mint prefix b -> a = b.
Proof.
  unfold mint. intros H. apply decimal_inj.
  induction prefix as [|ch prefix IH]; cbn in H; [assumption|].
  injection H as H. now apply IH.
Qed.

(** ** Duplication *)

Module Duplicate.
Section WithNumber.
Context {N : JSNumber}.

(** The entities of a Map that a selection names, in the order of the
    selection. *)
Definition selectedOf [V : Type] (m : JsMap.t V) (sel : list string) : list V :=
  flat_map (fun id => match JsMap.get id m with Some v => [v] | None => [] end)
    sel.

Definition selectedIn [V : Type] (m : JsMap.t V) (sel : list string)
    : list string :=
  filter (fun id => JsMap.has id m) sel.

Lemma selectedOf_ext [V : Type] (m m' : JsMap.t V) sel :
  (forall id, In id sel -> JsMap.get id m' = JsMap.get id m) ->
  selectedOf m' sel = selectedOf m sel.
Proof.
  induction sel as [|id sel IH]; intros H; [reflexivity|].
  cbn. rewrite (H id (or_introl eq_refl)). f_equal.
  apply IH. intros id' Hin. apply H. now right.
Qed.

Lemma selectedIn_ext [V : Type] (m m' : JsMap.t V) sel :
  (forall id, In id sel -> JsMap.get id m' = JsMap.get id m) ->
  selectedIn m' sel = selectedIn m sel.
Proof.
  intros H. unfold selectedIn. apply filter_ext_in. intros id Hin.
  unfold JsMap.has. now rewrite (H id Hin).
Qed.

Lemma selectedIn_length [V : Type] (m : JsMap.t V) sel :
  List.length (selectedIn m sel) = List.length (selectedOf m sel).
Proof.
  induction sel as [|id sel IH]; [reflexivity|].
  unfold selectedIn, selectedOf, JsMap.has in *. cbn.
  destruct (JsMap.get id m); cbn; now rewrite IH.
Qed.

(** The fields [duplicateSelected] leaves in the copy of a node with the
    fields [f]. *)
Definition copyFields (f : Node.fields) : Node.fields :=
  Node.mkFields
    (Point.mk (nadd (Point.x (Node.position f)) Diagram.offset)
              (nadd (Point.y (Node.position f)) Diagram.offset))
    (Node.text f) (Node.radius f) false (Node.isDragging f) (Node.style f)
    (Node.fontFamily f).

(** [n] node objects with consecutive ids and addresses. *)
Fixpoint copies (c a n : nat) : list Node.t :=
  match n with
  | 0 => []
  | S n => Node.mk (mint "node-" c) a :: copies (S c) (S a) n
  end.

Definition filedBy [V : Type] (id : V -> string) (l : list V) : JsMap.t V :=
  map (fun v => (id v, v)) l.

(** The parts of the runtime that copying nodes leaves alone. *)
Definition sameCounters (rt rt' : Runtime.t) : Prop :=
  Runtime.arrowNextId rt' = Runtime.arrowNextId rt
  /\ Runtime.textLabelNextId rt' = Runtime.textLabelNextId rt
  /\ Runtime.whiteboardNextId rt' = Runtime.whiteboardNextId rt
  /\ Runtime.console rt' = Runtime.console rt.

Lemma duplicateNode_found rt d nm ids id node :
  JsMap.get id (Diagram.nodes d) = Some node ->
  Node.addr node <> Node.nextAddr (Runtime.nodeStore rt) ->
  let c := Node.nextId (Runtime.nodeStore rt) in
  let a := Node.nextAddr (Runtime.nodeStore rt) in
  let copy := Node.mk (mint "node-" c) a in
  let r := Diagram.duplicateNode (rt, d, nm, ids) id in
  snd (fst (fst r)) = Diagram.addNode copy d
  /\ snd (fst r) = JsMap.set id copy nm
  /\ snd r = ids ++ [mint "node-" c]
  /\ Node.nextAddr (Runtime.nodeStore (fst (fst (fst r)))) = S a
  /\ Node.nextId (Runtime.nodeStore (fst (fst (fst r)))) = S c
  /\ Node.heap (Runtime.nodeStore (fst (fst (fst r)))) a
     = copyFields (Node.heap (Runtime.nodeStore rt) (Node.addr node))
  /\ (forall a', a' <> a ->
        Node.heap (Runtime.nodeStore (fst (fst (fst r)))) a'
        = Node.heap (Runtime.nodeStore rt) a')
  /\ sameCounters rt (fst (fst (fst r))).
Proof.
  intros Hget Hne c a copy r. subst r c a copy. unfold Diagram.duplicateNode.
  rewrite Hget. apply Nat.eqb_neq in Hne.
  unfold Runtime.cloneNode, Node.clone, Node.moveTo, Node.setSelected,
    Node.write, Node.read, Node.new, copyFields.
  cbn -[mint]. rewrite !Nat.eqb_refl. cbn -[mint]. rewrite Hne.
  repeat split.
  intros a' Ha. apply Nat.eqb_neq in Ha. now rewrite Ha.
Qed.

Lemma duplicateNode_missing st id :
  JsMap.get id (Diagram.nodes (snd (fst (fst st)))) = None ->
  Diagram.duplicateNode st id = st.
Proof.
  destruct st as [[[rt d] nm] ids]. cbn [fst snd]. intros H.
  unfold Diagram.duplicateNode. now rewrite H.
Qed.

Lemma sameCounters_trans r1 r2 r3 :
  sameCounters r1 r2 -> sameCounters r2 r3 -> sameCounters r1 r3.
Proof. unfold sameCounters. intuition congruence. Qed.

Lemma nodePass sel :
  forall rt d nm ids,
    NoDup sel ->
    (forall node, In node (selectedOf (Diagram.nodes d) sel) ->
       Node.addr node < Node.nextAddr (Runtime.nodeStore rt)) ->
    (forall k, Node.nextId (Runtime.nodeStore rt) <= k ->
       JsMap.has (mint "node-" k) (Diagram.nodes d) = false
       /\ ~ In (mint "node-" k) sel) ->
    (forall id, In id sel -> JsMap.has id nm = false) ->
    let c := Node.nextId (Runtime.nodeStore rt) in
    let a := Node.nextAddr (Runtime.nodeStore rt) in
    let ns := selectedOf (Diagram.nodes d) sel in
    let n := List.length ns in
    let r := fold_left Diagram.duplicateNode sel (rt, d, nm, ids) in
    let rt' := fst (fst (fst r)) in
    snd (fst (fst r))
    = Diagram.with_nodes d (Diagram.nodes d ++ filedBy Node.id (copies c a n))
    /\ snd (fst r)
       = nm ++ combine (selectedIn (Diagram.nodes d) sel) (copies c a n)
    /\ snd r = ids ++ map Node.id (copies c a n)
    /\ Node.nextAddr (Runtime.nodeStore rt') = a + n
    /\ Node.nextId (Runtime.nodeStore rt') = c + n
    /\ (forall i node, nth_error ns i = Some node ->
          Node.heap (Runtime.nodeStore rt') (a + i)
          = copyFields (Node.heap (Runtime.nodeStore rt) (Node.addr node)))
    /\ (forall a', a' < a ->
          Node.heap (Runtime.nodeStore rt') a'
          = Node.heap (Runtime.nodeStore rt) a')
    /\ sameCounters rt rt'.
Proof.
  induction sel as [|id sel IH]; intros rt d nm ids Hnd Halloc Hfresh Hnm.
  - cbn. rewrite !app_nil_r, !Nat.add_0_r.
    repeat split; try now destruct d.
    intros [|i] node; discriminate.
  - inversion Hnd as [|? ? Hnotin Hnd']; subst.
    cbn [fold_left].
    destruct (JsMap.get id (Diagram.nodes d)) as [node|] eqn:Hget.
    + (* the id names a node: it is copied *)
      assert (Hlt : Node.addr node < Node.nextAddr (Runtime.nodeStore rt)).
      { apply Halloc. unfold selectedOf. cbn. rewrite Hget. now left. }
      pose proof (duplicateNode_found rt d nm ids id node Hget
                    ltac:(lia)) as Hstep.
      cbv zeta in Hstep.
      destruct (Diagram.duplicateNode (rt, d, nm, ids) id)
        as [[[rt1 d1] nm1] ids1].
      cbn [fst snd] in Hstep.
      destruct Hstep as [-> [-> [-> [Ha [Hc [Hh [Ho Hs]]]]]]].
      set (c := Node.nextId (Runtime.nodeStore rt)) in *.
      set (a := Node.nextAddr (Runtime.nodeStore rt)) in *.
      set (copy := Node.mk (mint "node-" c) a) in *.
      destruct (Hfresh c (le_n _)) as [Hfc Hfs].
      assert (Hext : forall id', In id' sel ->
                JsMap.get id' (Diagram.nodes (Diagram.addNode copy d))
                = JsMap.get id' (Diagram.nodes d)).
      { intros id' Hin. unfold Diagram.addNode.
        cbn [Diagram.nodes Diagram.with_nodes Node.id copy].
        apply JsMapFacts.get_set_other. intros E. apply Hfs.
        right. now rewrite E. }
      assert (Hsel : selectedOf (Diagram.nodes (Diagram.addNode copy d)) sel
                     = selectedOf (Diagram.nodes d) sel)
        by now apply selectedOf_ext.
      assert (HselI : selectedIn (Diagram.nodes (Diagram.addNode copy d)) sel
                      = selectedIn (Diagram.nodes d) sel)
        by now apply selectedIn_ext.
      specialize (IH rt1 (Diagram.addNode copy d) (JsMap.set id copy nm)
                    (ids ++ [mint "node-" c]) Hnd').
      cbv zeta in IH. rewrite Ha, Hc, Hsel, HselI in IH.
      destruct IH as [I1 [I2 [I3 [I4 [I5 [I6 [I7 I8]]]]]]].
      { intros node' Hin. assert (Node.addr node' < a); [|lia].
        apply Halloc. unfold selectedOf. cbn. rewrite Hget. now right. }
      { intros k Hk. destruct (Hfresh k ltac:(lia)) as [G1 G2]. split.
        - unfold Diagram.addNode.
          cbn [Diagram.nodes Diagram.with_nodes Node.id copy].
          rewrite JsMapFacts.has_set, G1, orb_false_r.
          apply String.eqb_neq. intros E. apply mint_inj in E. lia.
        - intros Hin. apply G2. now right. }
      { intros id' Hin. rewrite JsMapFacts.has_set.
        rewrite (Hnm id' (or_intror Hin)), orb_false_r.
        apply String.eqb_neq. intros E. apply Hnotin. now rewrite <- E. }
      cbv zeta.
      assert (Ens : selectedOf (Diagram.nodes d) (id :: sel)
                    = node :: selectedOf (Diagram.nodes d) sel).
      { unfold selectedOf. cbn. now rewrite Hget. }
      assert (EnsI : selectedIn (Diagram.nodes d) (id :: sel)
                     = id :: selectedIn (Diagram.nodes d) sel).
      { unfold selectedIn, JsMap.has. cbn. now rewrite Hget. }
      rewrite Ens, EnsI. cbn [List.length copies combine map filedBy].
      fold copy.
      set (r1 := fold_left Diagram.duplicateNode sel _) in *.
      rewrite I1, I2, I3, I4, I5.
      unfold Diagram.addNode.
      cbn [Diagram.nodes Diagram.with_nodes Node.id copy].
      rewrite (JsMapFacts.set_fresh _ _ _ Hfc).
      rewrite (JsMapFacts.set_fresh _ _ _ (Hnm id (or_introl eq_refl))).
      rewrite <- !app_assoc. cbn [app].
      split; [reflexivity|]. split; [reflexivity|]. split; [reflexivity|].
      split; [lia|]. split; [lia|]. split; [|split].
      * intros [|i] node' Hnth.
        -- injection Hnth as <-. rewrite Nat.add_0_r, I7 by lia. exact Hh.
        -- cbn in Hnth. replace (a + S i) with (S a + i) by lia.
           rewrite (I6 i node' Hnth). f_equal. apply Ho.
           apply nth_error_In in Hnth.
           assert (Node.addr node' < a); [|lia].
           apply Halloc. rewrite Ens. now right.
      * intros a' Hlt'. rewrite I7 by lia. apply Ho. lia.
      * eapply sameCounters_trans; eassumption.
    + (* the id names no node *)
      rewrite (duplicateNode_missing (rt, d, nm, ids) id Hget).
      assert (Ens : selectedOf (Diagram.nodes d) (id :: sel)
                    = selectedOf (Diagram.nodes d) sel).
      { unfold selectedOf. cbn. now rewrite Hget. }
      assert (EnsI : selectedIn (Diagram.nodes d) (id :: sel)
                     = selectedIn (Diagram.nodes d) sel).
      { unfold selectedIn, JsMap.has. cbn. now rewrite Hget. }
      rewrite Ens, EnsI. apply IH; try assumption.
      * intros node Hin. apply Halloc. now rewrite Ens.
      * intros k Hk. destruct (Hfresh k Hk) as [G1 G2]. split; [assumption|].
        intros Hin. apply G2. now right.
      * intros id' Hin. apply Hnm. now right.
Qed.

(** The copy [duplicateSelected] files for a label, minted from the
    counter [k]. *)
Definition labelCopy (k : nat) (l : TextLabel.t) : TextLabel.t :=
  TextLabel.mk (mint "text-" k)
    (Point.mk (nadd (Point.x (TextLabel.position l)) Diagram.offset)
              (nadd (Point.y (TextLabel.position l)) Diagram.offset))
    (TextLabel.text l) (TextLabel.fontSize l) false (TextLabel.isDragging l)
    (TextLabel.width l) (TextLabel.height l) (TextLabel.color l)
    (TextLabel.fontFamily l) (TextLabel.showBorder l)
    (TextLabel.borderStyle l) (TextLabel.borderColor l)
    (TextLabel.borderWidth l) (TextLabel.padding l).

Fixpoint labelCopies (c : nat) (ls : list TextLabel.t) : list TextLabel.t :=
  match ls with
  | [] => []
  | l :: ls => labelCopy c l :: labelCopies (S c) ls
  end.

Lemma iter_bump_r [A : Type] (f : A -> A) n x :
  Nat.iter n f (f x) = Nat.iter (S n) f x.
Proof. symmetry. apply Nat.iter_succ_r. Qed.

Lemma duplicateLabel_step rt d ids id :
  Diagram.duplicateLabel (rt, d, ids) id
  = match JsMap.get id (Diagram.textLabels d) with
    | Some l =>
        (Runtime.bumpTextLabel rt,
         Diagram.addTextLabel (labelCopy (Runtime.textLabelNextId rt) l) d,
         ids ++ [mint "text-" (Runtime.textLabelNextId rt)])
    | None => (rt, d, ids)
    end.
Proof.
  unfold Diagram.duplicateLabel.
  now destruct (JsMap.get id (Diagram.textLabels d)).
Qed.

Lemma labelPass sel :
  forall rt d ids,
    (forall k, Runtime.textLabelNextId rt <= k ->
       JsMap.has (mint "text-" k) (Diagram.textLabels d) = false
       /\ ~ In (mint "text-" k) sel) ->
    let c := Runtime.textLabelNextId rt in
    let ls := selectedOf (Diagram.textLabels d) sel in
    let r := fold_left Diagram.duplicateLabel sel (rt, d, ids) in
    snd (fst r)
    = Diagram.with_textLabels d
        (Diagram.textLabels d ++ filedBy TextLabel.id (labelCopies c ls))
    /\ snd r = ids ++ map TextLabel.id (labelCopies c ls)
    /\ fst (fst r) = Nat.iter (List.length ls) Runtime.bumpTextLabel rt.
Proof.
  induction sel as [|id sel IH]; intros rt d ids Hfresh.
  - cbn. rewrite !app_nil_r. repeat split; now destruct d.
  - cbn [fold_left]. unfold selectedOf. cbn [flat_map].
    fold (selectedOf (Diagram.textLabels d) sel).
    rewrite duplicateLabel_step.
    destruct (JsMap.get id (Diagram.textLabels d)) as [l|] eqn:Hget.
    + set (c := Runtime.textLabelNextId rt) in *.
      destruct (Hfresh c (le_n _)) as [Hfc Hfs].
      assert (Hext : forall id', In id' sel ->
                JsMap.get id'
                  (Diagram.textLabels (Diagram.addTextLabel (labelCopy c l) d))
                = JsMap.get id' (Diagram.textLabels d)).
      { intros id' Hin. unfold Diagram.addTextLabel.
        cbn [Diagram.textLabels Diagram.with_textLabels TextLabel.id labelCopy].
        apply JsMapFacts.get_set_other. intros E. apply Hfs.
        right. now rewrite E. }
      specialize (IH (Runtime.bumpTextLabel rt)
                    (Diagram.addTextLabel (labelCopy c l) d)
                    (ids ++ [mint "text-" c])).
      cbv zeta in IH. rewrite (selectedOf_ext _ _ _ Hext) in IH.
      change (Runtime.textLabelNextId (Runtime.bumpTextLabel rt))
        with (S c) in IH.
      destruct IH as [I1 [I2 I3]].
      { intros k Hk. destruct (Hfresh k ltac:(lia)) as [G1 G2]. split.
        - unfold Diagram.addTextLabel.
          cbn [Diagram.textLabels Diagram.with_textLabels TextLabel.id
               labelCopy].
          rewrite JsMapFacts.has_set, G1, orb_false_r.
          apply String.eqb_neq. intros E. apply mint_inj in E. lia.
        - intros Hin. apply G2. now right. }
      cbv zeta. cbn [app List.length labelCopies map filedBy].
      set (r1 := fold_left Diagram.duplicateLabel sel _) in *.
      rewrite I1, I2, I3, iter_bump_r. unfold Diagram.addTextLabel.
      cbn [Diagram.textLabels Diagram.with_textLabels TextLabel.id labelCopy].
      rewrite (JsMapFacts.set_fresh _ _ _ Hfc).
      rewrite <- !app_assoc. repeat split.
    + cbn [app]. apply IH. intros k Hk.
      destruct (Hfresh k Hk) as [G1 G2]. split; [assumption|].
      intros Hin. apply G2. now right.
Qed.

(** The copy of an arrow, between the copies of its endpoints. *)
Definition arrowCopy (k : nat) (a : Arrow.t) (newFrom newTo : Node.t)
    : Arrow.t :=
  Arrow.mk (mint "arrow-" k) newFrom newTo false (Arrow.strokeColor a)
    (Arrow.strokeWidth a) (Arrow.lineStyle a).

Fixpoint arrowCopies (nodeIdMap : JsMap.t Node.t) (c : nat)
    (arrows : list Arrow.t) : list Arrow.t :=
  match arrows with
  | [] => []
  | a :: arrows =>
      match JsMap.get (Node.id (Arrow.fromNode a)) nodeIdMap,
            JsMap.get (Node.id (Arrow.toNode a)) nodeIdMap with
      | Some newFrom, Some newTo =>
          arrowCopy c a newFrom newTo :: arrowCopies nodeIdMap (S c) arrows
      | _, _ => arrowCopies nodeIdMap c arrows
      end
  end.

Lemma duplicateArrow_step nodeIdMap rt d ids id :
  Diagram.duplicateArrow nodeIdMap (rt, d, ids) id
  = match JsMap.get id (Diagram.arrows d) with
    | Some x =>
        match JsMap.get (Node.id (Arrow.fromNode x)) nodeIdMap,
              JsMap.get (Node.id (Arrow.toNode x)) nodeIdMap with
        | Some newFrom, Some newTo =>
            (Runtime.bumpArrow rt,
             Diagram.addArrow
               (arrowCopy (Runtime.arrowNextId rt) x newFrom newTo) d,
             ids ++ [mint "arrow-" (Runtime.arrowNextId rt)])
        | _, _ => (rt, d, ids)
        end
    | None => (rt, d, ids)
    end.
Proof.
  unfold Diagram.duplicateArrow.
  destruct (JsMap.get id (Diagram.arrows d)) as [x|]; [|reflexivity].
  destruct (JsMap.get (Node.id (Arrow.fromNode x)) nodeIdMap);
    [|reflexivity].
  now destruct (JsMap.get (Node.id (Arrow.toNode x)) nodeIdMap).
Qed.

Lemma arrowPass nodeIdMap sel :
  forall rt d ids,
    (forall k, Runtime.arrowNextId rt <= k ->
       JsMap.has (mint "arrow-" k) (Diagram.arrows d) = false
       /\ ~ In (mint "arrow-" k) sel) ->
    let c := Runtime.arrowNextId rt in
    let copied := arrowCopies nodeIdMap c (selectedOf (Diagram.arrows d) sel) in
    let r := fold_left (Diagram.duplicateArrow nodeIdMap) sel (rt, d, ids) in
    snd (fst r)
    = Diagram.with_arrows d (Diagram.arrows d ++ filedBy Arrow.id copied)
    /\ snd r = ids ++ map Arrow.id copied
    /\ fst (fst r) = Nat.iter (List.length copied) Runtime.bumpArrow rt.
Proof.
  induction sel as [|id sel IH]; intros rt d ids Hfresh.
  - cbn. rewrite !app_nil_r. repeat split; now destruct d.
  - assert (Htail : forall k, Runtime.arrowNextId rt <= k ->
              JsMap.has (mint "arrow-" k) (Diagram.arrows d) = false
              /\ ~ In (mint "arrow-" k) sel).
    { intros k Hk. destruct (Hfresh k Hk) as [G1 G2]. split; [assumption|].
      intros Hin. apply G2. now right. }
    cbn [fold_left]. unfold selectedOf. cbn [flat_map].
    fold (selectedOf (Diagram.arrows d) sel).
    rewrite duplicateArrow_step.
    destruct (JsMap.get id (Diagram.arrows d)) as [x|] eqn:Hget;
      [|cbn [app]; now apply IH].
    cbn [app arrowCopies].
    destruct (JsMap.get (Node.id (Arrow.fromNode x)) nodeIdMap) as [nf|];
      [|now apply IH].
    destruct (JsMap.get (Node.id (Arrow.toNode x)) nodeIdMap) as [nt|];
      [|now apply IH].
    set (c := Runtime.arrowNextId rt) in *.
    destruct (Hfresh c (le_n _)) as [Hfc Hfs].
    assert (Hext : forall id', In id' sel ->
              JsMap.get id'
                (Diagram.arrows (Diagram.addArrow (arrowCopy c x nf nt) d))
              = JsMap.get id' (Diagram.arrows d)).
    { intros id' Hin. unfold Diagram.addArrow.
      cbn [Diagram.arrows Diagram.with_arrows Arrow.id arrowCopy].
      apply JsMapFacts.get_set_other. intros E. apply Hfs.
      right. now rewrite E. }
    specialize (IH (Runtime.bumpArrow rt)
                  (Diagram.addArrow (arrowCopy c x nf nt) d)
                  (ids ++ [mint "arrow-" c])).
    cbv zeta in IH. rewrite (selectedOf_ext _ _ _ Hext) in IH.
    change (Runtime.arrowNextId (Runtime.bumpArrow rt)) with (S c) in IH.
    destruct IH as [I1 [I2 I3]].
    { intros k Hk. destruct (Hfresh k ltac:(lia)) as [G1 G2]. split.
      - unfold Diagram.addArrow.
        cbn [Diagram.arrows Diagram.with_arrows Arrow.id arrowCopy].
        rewrite JsMapFacts.has_set, G1, orb_false_r.
        apply String.eqb_neq. intros E. apply mint_inj in E. lia.
      - intros Hin. apply G2. now right. }
    cbv zeta. cbn [app List.length map filedBy].
    set (r1 := fold_left (Diagram.duplicateArrow nodeIdMap) sel _) in *.
    rewrite I1, I2, I3, iter_bump_r. unfold Diagram.addArrow.
    cbn [Diagram.arrows Diagram.with_arrows Arrow.id arrowCopy].
    rewrite (JsMapFacts.set_fresh _ _ _ Hfc).
    rewrite <- !app_assoc. repeat split.
Qed.

(** *** The copies as serialized records *)

Definition nodeRecord (k : nat) (j : Node.JSON) : Node.JSON :=
  Node.mkJSON (mint "node-" k)
    (Point.mk (nadd (Point.x (Node.j_position j)) Diagram.offset)
              (nadd (Point.y (Node.j_position j)) Diagram.offset))
    (Node.j_text j) (Node.j_radius j) (Node.j_style j) (Node.j_fontFamily j).

Fixpoint nodeRecords (c : nat) (js : list Node.JSON) : list Node.JSON :=
  match js with
  | [] => []
  | j :: js => nodeRecord c j :: nodeRecords (S c) js
  end.

Definition labelRecord (k : nat) (j : TextLabel.JSON) : TextLabel.JSON :=
  TextLabel.mkJSON (mint "text-" k)
    (Point.mk (nadd (Point.x (TextLabel.j_position j)) Diagram.offset)
              (nadd (Point.y (TextLabel.j_position j)) Diagram.offset))
    (TextLabel.j_text j) (TextLabel.j_fontSize j) (TextLabel.j_width j)
    (TextLabel.j_height j) (TextLabel.j_color j) (TextLabel.j_fontFamily j)
    (TextLabel.j_showBorder j) (TextLabel.j_borderStyle j)
    (TextLabel.j_borderColor j) (TextLabel.j_borderWidth j)
    (TextLabel.j_padding j).

Fixpoint labelRecords (c : nat) (js : list TextLabel.JSON)
    : list TextLabel.JSON :=
  match js with
  | [] => []
  | j :: js => labelRecord c j :: labelRecords (S c) js
  end.

(** The id of the copy of every selected node: the selected ids that name
    a node, in the order of the selection, against consecutive fresh ids. *)
Definition renaming (d : Diagram.t) (c : nat) (sel : list string)
    : JsMap.t string :=
  combine (selectedIn (Diagram.nodes d) sel)
    (map (mint "node-")
       (seq c (List.length (selectedIn (Diagram.nodes d) sel)))).

(** An arrow record is copied when both of its endpoint ids are renamed,
    and dropped otherwise. *)
Fixpoint arrowRecords (ren : JsMap.t string) (c : nat) (js : list Arrow.JSON)
    : list Arrow.JSON :=
  match js with
  | [] => []
  | j :: js =>
      match JsMap.get (Arrow.j_fromNodeId j) ren,
            JsMap.get (Arrow.j_toNodeId j) ren with
      | Some newFrom, Some newTo =>
          Arrow.mkJSON (mint "arrow-" c) newFrom newTo (Arrow.j_strokeColor j)
            (Arrow.j_strokeWidth j) (Arrow.j_lineStyle j)
          :: arrowRecords ren (S c) js
      | _, _ => arrowRecords ren c js
      end
  end.

Lemma copies_ids c a n : map Node.id (copies c a n) = map (mint "node-") (seq c n).
Proof.
  revert c a. induction n as [|n IH]; intros c a; [reflexivity|].
  cbn [copies map seq Node.id]. now rewrite IH.
Qed.

Lemma copies_length c a n : List.length (copies c a n) = n.
Proof.
  revert c a. induction n as [|n IH]; intros c a; [reflexivity|].
  cbn [copies List.length]. now rewrite IH.
Qed.

Lemma copies_records s s' c a ns :
  (forall i node, nth_error ns i = Some node ->
     Node.heap s' (a + i) = copyFields (Node.heap s (Node.addr node))) ->
  map (Node.toJSON s') (copies c a (List.length ns))
  = nodeRecords c (map (Node.toJSON s) ns).
Proof.
  revert c a. induction ns as [|node ns IH]; intros c a H; [reflexivity|].
  cbn [List.length copies map nodeRecords]. f_equal.
  - specialize (H 0 node eq_refl). rewrite Nat.add_0_r in H.
    unfold Node.toJSON, Node.read, nodeRecord. cbn [Node.addr Node.id].
    rewrite H. reflexivity.
  - apply IH. intros i node' Hnth. specialize (H (S i) node' Hnth).
    now rewrite Nat.add_succ_r in H.
Qed.

Lemma labelCopies_records c ls :
  map TextLabel.toJSON (labelCopies c ls)
  = labelRecords c (map TextLabel.toJSON ls).
Proof.
  revert c. induction ls as [|l ls IH]; intros c; [reflexivity|].
  cbn [labelCopies map labelRecords]. now rewrite IH.
Qed.

Lemma get_combine_ids k (ids : list string) (ns : list Node.t) :
  JsMap.get k (combine ids (map Node.id ns))
  = option_map Node.id (JsMap.get k (combine ids ns)).
Proof.
  revert ns. induction ids as [|id ids IH]; intros [|n ns]; cbn;
    try reflexivity.
  destruct (String.eqb k id); [reflexivity|apply IH].
Qed.

Lemma arrowCopies_records ids ns c arrows :
  map Arrow.toJSON (arrowCopies (combine ids ns) c arrows)
  = arrowRecords (combine ids (map Node.id ns)) c (map Arrow.toJSON arrows).
Proof.
  revert c. induction arrows as [|x arrows IH]; intros c; [reflexivity|].
  cbn [arrowCopies map arrowRecords Arrow.toJSON Arrow.j_fromNodeId
       Arrow.j_toNodeId Arrow.j_strokeColor Arrow.j_strokeWidth
       Arrow.j_lineStyle].
  rewrite !get_combine_ids.
  destruct (JsMap.get (Node.id (Arrow.fromNode x)) (combine ids ns));
    cbn [option_map]; [|apply IH].
  destruct (JsMap.get (Node.id (Arrow.toNode x)) (combine ids ns));
    cbn [option_map map]; [|apply IH].
  now rewrite IH.
Qed.

Lemma nodeRecords_ids c js :
  map Node.j_id (nodeRecords c js) = map (mint "node-") (seq c (List.length js)).
Proof.
  revert c. induction js as [|j js IH]; intros c; [reflexivity|].
  cbn [nodeRecords map List.length seq nodeRecord Node.j_id]. now rewrite IH.
Qed.

(** *** Flags are not serialized *)

Lemma toJSON_same rt d rt' d' :
  Skeleton.sameRt rt rt' -> Skeleton.same d d' ->
  Diagram.j_nodes (Diagram.toJSON rt' d') = Diagram.j_nodes (Diagram.toJSON rt d)
  /\ Diagram.j_arrows (Diagram.toJSON rt' d')
     = Diagram.j_arrows (Diagram.toJSON rt d)
  /\ Diagram.j_textLabels (Diagram.toJSON rt' d')
     = Diagram.j_textLabels (Diagram.toJSON rt d)
  /\ JsMap.keys (Diagram.nodes d') = JsMap.keys (Diagram.nodes d)
  /\ JsMap.keys (Diagram.arrows d') = JsMap.keys (Diagram.arrows d)
  /\ JsMap.keys (Diagram.textLabels d') = JsMap.keys (Diagram.textLabels d).
Proof.
  intros [Hh _ _ _ _ _ _] [Hn Ha Hl _].
  cbn [Diagram.toJSON Diagram.j_nodes Diagram.j_arrows Diagram.j_textLabels].
  rewrite Hn. repeat split.
  - apply map_ext. intros n. unfold Node.toJSON, Node.read.
    specialize (Hh (Node.addr n)).
    pose proof (f_equal Node.position Hh) as E1.
    pose proof (f_equal Node.text Hh) as E2.
    pose proof (f_equal Node.radius Hh) as E3.
    pose proof (f_equal Node.style Hh) as E4.
    pose proof (f_equal Node.fontFamily Hh) as E5.
    cbn in E1, E2, E3, E4, E5. now rewrite E1, E2, E3, E4, E5.
  - assert (E : forall m : JsMap.t Arrow.t,
              map Arrow.toJSON (JsMap.values (Skeleton.mapv Skeleton.eraseA m))
              = map Arrow.toJSON (JsMap.values m)).
    { intros m. unfold JsMap.values, Skeleton.mapv. rewrite !map_map.
      now apply map_ext. }
    now rewrite <- (E (Diagram.arrows d')), Ha, E.
  - assert (E : forall m : JsMap.t TextLabel.t,
              map TextLabel.toJSON
                (JsMap.values (Skeleton.mapv Skeleton.eraseL m))
              = map TextLabel.toJSON (JsMap.values m)).
    { intros m. unfold JsMap.values, Skeleton.mapv. rewrite !map_map.
      now apply map_ext. }
    now rewrite <- (E (Diagram.textLabels d')), Hl, E.
  - now apply (Skeleton.mapv_keys Skeleton.eraseA).
  - now apply (Skeleton.mapv_keys Skeleton.eraseL).
Qed.

Lemma iter_bumpTextLabel n rt :
  Runtime.nodeStore (Nat.iter n Runtime.bumpTextLabel rt) = Runtime.nodeStore rt
  /\ Runtime.arrowNextId (Nat.iter n Runtime.bumpTextLabel rt)
     = Runtime.arrowNextId rt.
Proof. induction n as [|n IH]; [now split|]. cbn. exact IH. Qed.

Lemma iter_bumpArrow n rt :
  Runtime.nodeStore (Nat.iter n Runtime.bumpArrow rt) = Runtime.nodeStore rt.
Proof. induction n as [|n IH]; [reflexivity|]. cbn. exact IH. Qed.

Lemma duplicateSelected_phases rt d :
  Diagram.duplicateSelected rt d
  = let sel := Diagram.selectedElementIds d in
    let p1 := fold_left Diagram.duplicateNode sel (rt, d, [], []) in
    let p2 := fold_left Diagram.duplicateLabel sel
                (fst (fst (fst p1)), snd (fst (fst p1)), snd p1) in
    let p3 := fold_left (Diagram.duplicateArrow (snd (fst p1))) sel
                (fst (fst p2), snd (fst p2), snd p2) in
    let p4 := Diagram.clearSelection (fst (fst p3)) (snd (fst p3)) in
    let p5 := Diagram.selectElements (snd p3) false (fst p4) (snd p4) in
    (fst p5, snd p5, snd p3).
Proof.
  unfold Diagram.duplicateSelected. cbv zeta.
  destruct (fold_left Diagram.duplicateNode _ _) as [[[rt1 d1] nm] ids1].
  cbn [fst snd].
  destruct (fold_left Diagram.duplicateLabel _ _) as [[rt2 d2] ids2].
  cbn [fst snd].
  destruct (fold_left (Diagram.duplicateArrow nm) _ _) as [[rt3 d3] ids3].
  cbn [fst snd].
  destruct (Diagram.clearSelection rt3 d3) as [rt4 d4]. cbn [fst snd].
  now destruct (Diagram.selectElements ids3 false rt4 d4).
Qed.

Lemma selectedIn_iff [V : Type] (m : JsMap.t V) sel k :
  In k (selectedIn m sel) <-> In k sel /\ JsMap.has k m = true.
Proof. unfold selectedIn. apply filter_In. Qed.

Lemma has_combine [V : Type] k (ids : list string) (vs : list V) :
  List.length vs = List.length ids ->
  (JsMap.has k (combine ids vs) = true <-> In k ids).
Proof.
  revert vs. induction ids as [|id ids IH]; intros [|v vs] Hlen;
    try discriminate; unfold JsMap.has in *; cbn.
  - split; [discriminate|tauto].
  - destruct (String.eqb k id) eqn:E.
    + apply String.eqb_eq in E. subst. tauto.
    + apply String.eqb_neq in E. rewrite IH by (cbn in Hlen; lia).
      split; [tauto|]. intros [H|H]; [congruence|assumption].
Qed.

Lemma selectedOf_in [V : Type] (m : JsMap.t V) sel v :
  In v (selectedOf m sel) -> In v (JsMap.values m).
Proof.
  unfold selectedOf. rewrite in_flat_map. intros [id [_ H]].
  destruct (JsMap.get id m) as [v'|] eqn:E; [|destruct H].
  destruct H as [<-|[]]. apply JsMapFacts.get_in in E.
  unfold JsMap.values. apply in_map_iff. now exists (id, v').
Qed.
End WithNumber.
End Duplicate.

(** ** C4 *)

Section C4.
Context {N : JSNumber}.

End C4.

Module DuplicateExample.
(** A, B and the arrow X from A to B, with A alone selected. *)
Definition onlyA : Scene.state :=
  Diagram.selectElement "node-0" false (fst Example.sceneAXB)
    (snd Example.sceneAXB).

(** The scene that holds B alone, A never added, as a later run reads it
    back from its serialized form, and then with B selected. *)
Definition stored : Diagram.JSON :=
  Diagram.toJSON (fst Example.withB)
    (Diagram.addNode Example.nodeB (snd Example.fresh)).

Definition loaded : Scene.state :=
  Diagram.fromJSON (@Runtime.initial ZNumber) stored.

Definition loadedB : Scene.state :=
  Diagram.selectElement "node-1" false (fst loaded) (snd loaded).

Lemma onlyA_allocated node :
  In node (JsMap.values (Diagram.nodes (snd onlyA))) ->
  Node.addr node < Node.nextAddr (Runtime.nodeStore (fst onlyA)).
Proof.
  vm_compute. intros [<-|[<-|[]]]; repeat constructor.
Qed.

Lemma onlyA_nodes k :
  Node.nextId (Runtime.nodeStore (fst onlyA)) <= k ->
  JsMap.has (mint "node-" k) (Diagram.nodes (snd onlyA)) = false
  /\ ~ In (mint "node-" k) (Diagram.selectedElementIds (snd onlyA)).
Proof.
  assert (E1 : Node.nextId (Runtime.nodeStore (fst onlyA)) = 2)
    by (vm_compute; reflexivity).
  assert (E2 : JsMap.keys (Diagram.nodes (snd onlyA))
               = [mint "node-" 0; mint "node-" 1])
    by (vm_compute; reflexivity).
  assert (E3 : Diagram.selectedElementIds (snd onlyA) = [mint "node-" 0])
    by (vm_compute; reflexivity).
  rewrite E1, E3. intros Hk. split.
  - apply JsMapFacts.has_false_iff. rewrite E2.
    intros [E|[E|[]]]; apply mint_inj in E; lia.
  - intros [E|[]]. apply mint_inj in E. lia.
Qed.

Lemma onlyA_labels k :
  Runtime.textLabelNextId (fst onlyA) <= k ->
  JsMap.has (mint "text-" k) (Diagram.textLabels (snd onlyA)) = false
  /\ ~ In (mint "text-" k) (Diagram.selectedElementIds (snd onlyA)).
Proof.
  assert (E3 : Diagram.selectedElementIds (snd onlyA) = ["node-0"])
    by (vm_compute; reflexivity).
  rewrite E3. intros _. split; [reflexivity|].
  intros [E|[]]. unfold mint in E. cbn in E. discriminate.
Qed.

Lemma onlyA_arrows k :
  Runtime.arrowNextId (fst onlyA) <= k ->
  JsMap.has (mint "arrow-" k) (Diagram.arrows (snd onlyA)) = false
  /\ ~ In (mint "arrow-" k) (Diagram.selectedElementIds (snd onlyA)).
Proof.
  assert (E1 : Runtime.arrowNextId (fst onlyA) = 1)
    by (vm_compute; reflexivity).
  assert (E2 : JsMap.keys (Diagram.arrows (snd onlyA)) = [mint "arrow-" 0])
    by (vm_compute; reflexivity).
  assert (E3 : Diagram.selectedElementIds (snd onlyA) = ["node-0"])
    by (vm_compute; reflexivity).
  rewrite E1, E3. intros Hk. split.
  - apply JsMapFacts.has_false_iff. rewrite E2.
    intros [E|[]]. apply mint_inj in E. lia.
  - intros [E|[]]. unfold mint in E. cbn in E. discriminate.
Qed.
End DuplicateExample.



(** * Further properties of the model classes *)

(** ** FontFamily.ts: display names *)

Definition FONT_FAMILY_NAMES (f : FontFamily) : string :=
  match f with
  | HAND_DRAWN => "Hand Drawn"
  | NORMAL => "Normal"
  | CODE => "Code"
  end.

Definition getFontFamily (name : string) : FontFamily :=
  if String.eqb name "Hand Drawn" then HAND_DRAWN
  else if String.eqb name "Code" then CODE
  else NORMAL.

(** X5.  [getFontFamily] reads back the display name of every font family,
    and takes every string that is not the display name of the hand-drawn
    or of the code family to the normal one. *)
Theorem X5_font_family_names (f : FontFamily) (name : string) :
  getFontFamily (FONT_FAMILY_NAMES f) = f
  /\ (name <> FONT_FAMILY_NAMES HAND_DRAWN ->
      name <> FONT_FAMILY_NAMES CODE ->
      getFontFamily name = NORMAL)
  /\ (getFontFamily name = HAND_DRAWN <-> name = FONT_FAMILY_NAMES HAND_DRAWN)
  /\ (getFontFamily name = CODE <-> name = FONT_FAMILY_NAMES CODE).
Proof.
  unfold getFontFamily. cbn [FONT_FAMILY_NAMES].
  split; [now destruct f|].
  destruct (String.eqb name "Hand Drawn") eqn:E1;
    [apply String.eqb_eq in E1|apply String.eqb_neq in E1];
    (destruct (String.eqb name "Code") eqn:E2;
       [apply String.eqb_eq in E2|apply String.eqb_neq in E2]);
    subst; repeat split; intros; try congruence; try discriminate.
Qed.

(** ** Whiteboard.ts: resizing on integer coordinates

    [resize] only adds, subtracts and compares.  A double holds every
    integer of magnitude at most 2^53 exactly, so sums and differences of
    such integers that stay in that range are computed without rounding
    and comparisons between them are those of the integers.  Under these
    laws, on coordinates of magnitude at most 2^50, the whiteboard that
    [resize] leaves holds the integers that the integer grid computes,
    and these are described below.  Beyond that range a double rounds and
    the description fails: at x = 2^53 a drag of the left handle by 1
    leaves x where it is and makes the whiteboard narrower, so that the
    right edge moves. *)

Module WhiteboardResize.
Section WithNumber.
Context {N : JSNumber}.
Local Open Scope js_scope.

Definition isRightHandle (h : ResizeHandle) : bool :=
  match h with RIGHT | TOP_RIGHT | BOTTOM_RIGHT => true | _ => false end.

Definition isBottomHandle (h : ResizeHandle) : bool :=
  match h with BOTTOM | BOTTOM_LEFT | BOTTOM_RIGHT => true | _ => false end.

  (** What [resize] does along one axis to the origin [p] and the extent
      [len] of the whiteboard, for a drag by [d]: [near] says that the
      handle is on the side of the origin (left, top), [far] that it is
      on the other side (right, bottom). *)
Definition axis (near far : bool) (minimum p len d : num) : num * num :=
  let '(p1, len1) :=
    if near then (p + d, len - d)
    else if far then (p, len + d)
    else (p, len) in
  if len1 <? minimum
  then ((if near then p1 - (minimum - len1) else p1), minimum)
  else (p1, len1).

Lemma resize_axes (wb : Whiteboard.t) (h : ResizeHandle) (delta : Point.t) :
  let ax :=
    axis (Whiteboard.isLeftHandle h) (isRightHandle h) (lit 400)
      (Point.x (Whiteboard.position wb)) (Whiteboard.width wb)
      (Point.x delta) in
  let ay :=
    axis (Whiteboard.isTopHandle h) (isBottomHandle h) (lit 300)
      (Point.y (Whiteboard.position wb)) (Whiteboard.height wb)
      (Point.y delta) in
  Whiteboard.resize wb h delta
  = Whiteboard.with_geometry wb (fst ax) (fst ay) (snd ax) (snd ay).
Proof.
  destruct wb as [i [x y] w hh bg sl], delta as [dx dy].
  unfold Whiteboard.resize, axis.
  destruct h; cbn;
    repeat match goal with
           | |- context [nlt ?a ?b] => destruct (nlt a b)
           end; reflexivity.
Qed.
End WithNumber.

Local Open Scope Z_scope.

  (** On the integers. *)
Lemma axis_grid (near far : bool) (minimum p len d : Z) :
  let r := @axis ZNumber near far minimum p len d in
  minimum <= snd r
  /\ (if near then fst r + snd r = p + len else fst r = p)
  /\ (near = true -> minimum <= len - d -> fst r = p + d)
  /\ (Z.abs minimum <= 2 ^ 50 -> Z.abs p <= 2 ^ 50 -> Z.abs len <= 2 ^ 50 ->
      Z.abs d <= 2 ^ 50 ->
      Z.abs (fst r) <= 2 ^ 52 /\ Z.abs (snd r) <= 2 ^ 52).
Proof.
  unfold axis. cbn [nlt nsub nadd ZNumber].
  change (2 ^ 50) with 1125899906842624.
  change (2 ^ 52) with 4503599627370496.
  destruct near, far;
    repeat match goal with
           | |- context [Z.ltb ?a ?b] => destruct (Z.ltb_spec a b)
           end;
    cbn [fst snd]; repeat split; intros; try discriminate; lia.
Qed.

Section Exact.
Context {N : JSNumber}.

  (** [holds a z]: the number [a] is the integer [z]. *)
Variable holds : num -> Z -> Prop.

Definition safe (z : Z) : Prop := Z.abs z <= 2 ^ 53.

Hypothesis add_exact : forall a b x y,
  holds a x -> holds b y -> safe (x + y) -> holds (nadd a b) (x + y).
Hypothesis sub_exact : forall a b x y,
  holds a x -> holds b y -> safe (x - y) -> holds (nsub a b) (x - y).
Hypothesis lt_exact : forall a b x y,
  holds a x -> holds b y -> nlt a b = Z.ltb x y.

Lemma axis_exact (near far : bool) (m p len d : num) (M P L D : Z) :
  holds m M -> holds p P -> holds len L -> holds d D ->
  Z.abs M <= 2 ^ 50 -> Z.abs P <= 2 ^ 50 -> Z.abs L <= 2 ^ 50 ->
  Z.abs D <= 2 ^ 50 ->
  holds (fst (axis near far m p len d)) (fst (@axis ZNumber near far M P L D))
  /\ holds (snd (axis near far m p len d))
       (snd (@axis ZNumber near far M P L D)).
Proof.
  intros Hm Hp Hl Hd BM BP BL BD.
  assert (S : forall z, Z.abs z <= 2 ^ 52 -> safe z).
  { unfold safe. intros z. change (2 ^ 52) with 4503599627370496.
    change (2 ^ 53) with 9007199254740992. lia. }
  change (2 ^ 50) with 1125899906842624 in *.
  change (2 ^ 52) with 4503599627370496 in *.
  unfold axis. cbn [nlt nsub nadd ZNumber].
  destruct near; [|destruct far].
  - assert (H1 : holds (nadd p d) (P + D)) by (apply add_exact; auto; apply S; lia).
    assert (H2 : holds (nsub len d) (L - D)) by (apply sub_exact; auto; apply S; lia).
    rewrite (lt_exact _ _ _ _ H2 Hm).
    destruct (Z.ltb_spec (L - D) M); cbn [fst snd]; [|now split].
    split; [|assumption].
    apply sub_exact; [assumption| |apply S; lia].
    apply sub_exact; [assumption|assumption|apply S; lia].
  - assert (H2 : holds (nadd len d) (L + D)) by (apply add_exact; auto; apply S; lia).
    rewrite (lt_exact _ _ _ _ H2 Hm).
    destruct (Z.ltb_spec (L + D) M); cbn [fst snd]; now split.
  - rewrite (lt_exact _ _ _ _ Hl Hm).
    destruct (Z.ltb_spec L M); cbn [fst snd]; now split.
Qed.

  (** The geometry of a whiteboard, and a point, in integers. *)
Definition holdsPoint (p : Point.t) (q : @Point.t ZNumber) : Prop :=
  holds (Point.x p) (Point.x q) /\ holds (Point.y p) (Point.y q).

Definition holdsBoard (wb : Whiteboard.t) (zb : @Whiteboard.t ZNumber)
    : Prop :=
  holdsPoint (Whiteboard.position wb) (Whiteboard.position zb)
  /\ holds (Whiteboard.width wb) (Whiteboard.width zb)
  /\ holds (Whiteboard.height wb) (Whiteboard.height zb).
End Exact.

Definition right (zb : @Whiteboard.t ZNumber) : Z :=
  Point.x (Whiteboard.position zb) + Whiteboard.width zb.

Definition bottom (zb : @Whiteboard.t ZNumber) : Z :=
  Point.y (Whiteboard.position zb) + Whiteboard.height zb.

Definition small (z : Z) : Prop := Z.abs z <= 2 ^ 50.

  (** The coordinates of the whiteboard and of the drag are small. *)
Definition inRange (zb : @Whiteboard.t ZNumber) (dz : @Point.t ZNumber)
    : Prop :=
  small (Point.x (Whiteboard.position zb))
  /\ small (Point.y (Whiteboard.position zb))
  /\ small (Whiteboard.width zb) /\ small (Whiteboard.height zb)
  /\ small (Point.x dz) /\ small (Point.y dz).
End WhiteboardResize.

Section X1.
Context {N : JSNumber}.
Variable holds : num -> Z -> Prop.
Hypothesis lit_400 : holds (lit 400) 400%Z.
Hypothesis lit_300 : holds (lit 300) 300%Z.
Hypothesis add_exact : forall a b x y,
  holds a x -> holds b y -> WhiteboardResize.safe (x + y) ->
  holds (nadd a b) (x + y)%Z.
Hypothesis sub_exact : forall a b x y,
  holds a x -> holds b y -> WhiteboardResize.safe (x - y) ->
  holds (nsub a b) (x - y)%Z.
Hypothesis lt_exact : forall a b x y,
  holds a x -> holds b y -> nlt a b = Z.ltb x y.

End X1.


(** ** SelectionBox.ts *)

Section BoxDirection.
Context {N : JSNumber}.
Hypothesis min_comm : forall a b : num, nmin a b = nmin b a.
Hypothesis max_comm : forall a b : num, nmax a b = nmax b a.
Hypothesis abs_sub : forall a b : num, nabs (nsub a b) = nabs (nsub b a).

(** X2.  Where [Math.min] and [Math.max] do not depend on the order of
    their arguments and [|a - b| = |b - a|] (all three hold of JavaScript
    numbers), a selection box dragged from [a] to [b] and one dragged from
    [b] to [a] have the same corners, the same width and height, and are
    significant together, contain the same points, meet the same circles
    and rectangles, and [findElementsInBox] returns the same ids for
    both. *)
Theorem X2_box_direction (s : Node.store) (d : Diagram.t) (a b p : Point.t)
    (w h r m : num) :
  let box := SelectionBox.mk a b in
  let back := SelectionBox.mk b a in
  SelectionBox.getTopLeft back = SelectionBox.getTopLeft box
  /\ SelectionBox.getBottomRight back = SelectionBox.getBottomRight box
  /\ SelectionBox.getWidth back = SelectionBox.getWidth box
  /\ SelectionBox.getHeight back = SelectionBox.getHeight box
  /\ SelectionBox.isSignificant back m = SelectionBox.isSignificant box m
  /\ SelectionBox.containsPoint back p = SelectionBox.containsPoint box p
  /\ SelectionBox.intersectsCircle back p r
     = SelectionBox.intersectsCircle box p r
  /\ SelectionBox.intersectsRect back p w h
     = SelectionBox.intersectsRect box p w h
  /\ Diagram.findElementsInBox s d back = Diagram.findElementsInBox s d box.
Proof.
  intros box back.
  assert (TL : SelectionBox.getTopLeft back = SelectionBox.getTopLeft box).
  { unfold SelectionBox.getTopLeft. cbn.
    now rewrite (min_comm (Point.x b)), (min_comm (Point.y b)). }
  assert (BR : SelectionBox.getBottomRight back
               = SelectionBox.getBottomRight box).
  { unfold SelectionBox.getBottomRight. cbn.
    now rewrite (max_comm (Point.x b)), (max_comm (Point.y b)). }
  assert (W : SelectionBox.getWidth back = SelectionBox.getWidth box).
  { unfold SelectionBox.getWidth. cbn. apply abs_sub. }
  assert (H : SelectionBox.getHeight back = SelectionBox.getHeight box).
  { unfold SelectionBox.getHeight. cbn. apply abs_sub. }
  assert (C : forall q, SelectionBox.containsPoint back q
                        = SelectionBox.containsPoint box q).
  { intros q. unfold SelectionBox.containsPoint. now rewrite TL, BR. }
  assert (IC : forall q r', SelectionBox.intersectsCircle back q r'
                            = SelectionBox.intersectsCircle box q r').
  { intros q r'. unfold SelectionBox.intersectsCircle. now rewrite TL, BR. }
  assert (IR : forall q w' h', SelectionBox.intersectsRect back q w' h'
                               = SelectionBox.intersectsRect box q w' h').
  { intros q w' h'. unfold SelectionBox.intersectsRect. now rewrite TL, BR. }
  refine (conj TL (conj BR (conj W (conj H (conj _ (conj (C p)
            (conj (IC p r) (conj (IR p w h) _)))))))).
  - unfold SelectionBox.isSignificant. now rewrite W, H.
  - unfold Diagram.findElementsInBox. f_equal; [|f_equal]; f_equal.
    + apply filter_ext. intros n. apply IC.
    + apply filter_ext. intros l. apply IR.
    + apply filter_ext. intros x. unfold Diagram.arrowInBox.
      now rewrite !C.
Qed.
End BoxDirection.

(** X2 on the integer grid, at the scene of A, B and X. *)
Lemma X2_witness :
  Diagram.findElementsInBox (Runtime.nodeStore (fst Example.sceneAXB))
    (snd Example.sceneAXB)
    (SelectionBox.mk (Example.pt 400 100) (Example.pt (-100) (-100)))
  = Diagram.findElementsInBox (Runtime.nodeStore (fst Example.sceneAXB))
      (snd Example.sceneAXB)
      (SelectionBox.mk (Example.pt (-100) (-100)) (Example.pt 400 100)).
Proof.
  assert (A : forall a b : Z, Z.abs (a - b) = Z.abs (b - a)) by (intros; lia).
  apply (@X2_box_direction ZNumber Z.min_comm Z.max_comm A
           (Runtime.nodeStore (fst Example.sceneAXB)) (snd Example.sceneAXB)
           (Example.pt (-100) (-100)) (Example.pt 400 100)
           (Example.pt 0 0) 0%Z 0%Z 0%Z 0%Z).
Defined.

(** X3.  On integer coordinates, a selection box contains the point the
    drag started at and the point it has reached; it meets every circle of
    radius at least 0 whose centre it contains, so [findElementsInBox]
    returns every node whose centre lies in the box; and a box that has not
    left its starting point is significant for no positive size. *)
Theorem X3_box_contents (box : @SelectionBox.t ZNumber)
    (p : @Point.t ZNumber) (r m : Z) (s : @Node.store ZNumber)
    (d : @Diagram.t ZNumber) (node : Node.t) :
  SelectionBox.containsPoint box (SelectionBox.startPoint box) = true
  /\ SelectionBox.containsPoint box (SelectionBox.endPoint box) = true
  /\ (SelectionBox.containsPoint box p = true -> (0 <= r)%Z ->
      SelectionBox.intersectsCircle box p r = true)
  /\ (In node (Diagram.getAllNodes d) ->
      SelectionBox.containsPoint box (Node.position (Node.read s node)) = true ->
      (0 <= Node.radius (Node.read s node))%Z ->
      In (Node.id node) (Diagram.findElementsInBox s d box))
  /\ ((0 < m)%Z -> SelectionBox.isSignificant (SelectionBox.new p) m = false).
Proof.
  assert (IC : forall q r', SelectionBox.containsPoint box q = true ->
                 (0 <= r')%Z -> SelectionBox.intersectsCircle box q r' = true).
  { intros [qx qy] r'. destruct box as [[ax ay] [bx by_]].
    unfold SelectionBox.containsPoint, SelectionBox.intersectsCircle,
      SelectionBox.getTopLeft, SelectionBox.getBottomRight, Point.distanceTo.
    cbn. rewrite !andb_true_iff, !Z.leb_le. intros [[[H1 H2] H3] H4] Hr.
    replace (Z.max (Z.min ax bx) (Z.min qx (Z.max ax bx))) with qx by lia.
    replace (Z.max (Z.min ay by_) (Z.min qy (Z.max ay by_))) with qy by lia.
    rewrite !Z.sub_diag. cbn. lia. }
  split; [|split; [|split; [|split]]].
  - destruct box as [[ax ay] [bx by_]]. unfold SelectionBox.containsPoint.
    cbn. rewrite !andb_true_iff, !Z.leb_le. lia.
  - destruct box as [[ax ay] [bx by_]]. unfold SelectionBox.containsPoint.
    cbn. rewrite !andb_true_iff, !Z.leb_le. lia.
  - apply IC.
  - intros Hin Hc Hr. unfold Diagram.findElementsInBox.
    apply in_or_app. left. apply in_map. apply filter_In.
    split; [exact Hin|]. now apply IC.
  - intros Hm. destruct p as [px py].
    unfold SelectionBox.isSignificant, SelectionBox.getWidth,
      SelectionBox.getHeight. cbn. rewrite !Z.sub_diag. cbn.
    apply orb_false_iff. split; apply Z.leb_gt; lia.
Qed.

(** ** Whiteboard.ts: resize handles *)

Module ResizeHandles.
Section WithNumber.
Context {N : JSNumber}.

(** The eight handles in the order [getResizeHandleAtPoint] tries them,
    and the point of the outline each one sits at. *)
Definition priority : list ResizeHandle :=
  [TOP_LEFT; TOP_RIGHT; BOTTOM_RIGHT; BOTTOM_LEFT; TOP; RIGHT; BOTTOM; LEFT].

Definition isCorner (h : ResizeHandle) : bool :=
  match h with
  | TOP_LEFT | TOP_RIGHT | BOTTOM_RIGHT | BOTTOM_LEFT => true
  | _ => false
  end.

Definition anchor (wb : Whiteboard.t) (h : ResizeHandle) : Point.t :=
  let x := Point.x (Whiteboard.position wb) in
  let y := Point.y (Whiteboard.position wb) in
  let w := Whiteboard.width wb in
  let h' := Whiteboard.height wb in
  match h with
  | TOP_LEFT => Point.mk x y
  | TOP_RIGHT => Point.mk (nadd x w) y
  | BOTTOM_RIGHT => Point.mk (nadd x w) (nadd y h')
  | BOTTOM_LEFT => Point.mk x (nadd y h')
  | TOP => Point.mk (nadd x (ndiv w (lit 2))) y
  | RIGHT => Point.mk (nadd x w) (nadd y (ndiv h' (lit 2)))
  | BOTTOM => Point.mk (nadd x (ndiv w (lit 2))) (nadd y h')
  | LEFT => Point.mk x (nadd y (ndiv h' (lit 2)))
  end.

Definition grabs (wb : Whiteboard.t) (point : Point.t) (handleSize : num)
    (h : ResizeHandle) : bool :=
  Whiteboard.isNearPoint point (anchor wb h) (ndiv handleSize (lit 2)).

Lemma getResizeHandleAtPoint_find wb point handleSize :
  Whiteboard.getResizeHandleAtPoint wb point handleSize
  = find (grabs wb point handleSize) priority.
Proof.
  unfold Whiteboard.getResizeHandleAtPoint, grabs, priority, anchor.
  cbn [find].
  repeat match goal with
         | |- context [if ?b then _ else _] => destruct b; [reflexivity|]
         end.
  reflexivity.
Qed.
End WithNumber.
End ResizeHandles.

Section X4.
Context {N : JSNumber}.

(** X4.  [getResizeHandleAtPoint] returns a handle only if the point is
    within half the handle size, in both coordinates, of the place of that
    handle on the outline, and then no handle tried before it is that
    near; it returns nothing only if the point is that near to none of the
    eight handles.  The four corners are tried before the four edge
    midpoints: when the point is near a corner the handle returned is a
    corner. *)
Theorem X4_resize_handle_at_point (wb : Whiteboard.t) (point : Point.t)
    (handleSize : num) (h c : ResizeHandle) :
  (Whiteboard.getResizeHandleAtPoint wb point handleSize = Some h ->
   HitTest.firstMatch (ResizeHandles.grabs wb point handleSize)
     ResizeHandles.priority h)
  /\ (Whiteboard.getResizeHandleAtPoint wb point handleSize = None ->
      ResizeHandles.grabs wb point handleSize h = false)
  /\ (ResizeHandles.isCorner c = true ->
      ResizeHandles.grabs wb point handleSize c = true ->
      exists c', Whiteboard.getResizeHandleAtPoint wb point handleSize = Some c'
                 /\ ResizeHandles.isCorner c' = true).
Proof.
  rewrite ResizeHandles.getResizeHandleAtPoint_find.
  split; [|split].
  - intros Hs. now apply HitTest.find_firstMatch.
  - intros Hn. apply HitTest.find_noMatch in Hn. apply Hn.
    unfold ResizeHandles.priority. destruct h; simpl; tauto.
  - intros Hc Hg. unfold ResizeHandles.priority. cbn [find].
    destruct c; try discriminate;
      repeat match goal with
             | |- context [if ?b then _ else _] =>
                 destruct b eqn:?; [eexists; split; reflexivity|]
             end;
      congruence.
Qed.
End X4.

(** * Further properties of the scene *)

Section X6.
Context {N : JSNumber}.

(** X6.  [findWhiteboardAtPoint] returns the whiteboard added last among
    those that contain the point: the whiteboard returned contains the
    point and no whiteboard after it in the order of insertion does; it
    returns nothing exactly when no whiteboard contains the point. *)
Theorem X6_topmost_whiteboard (d : Diagram.t) (point : Point.t)
    (wb : Whiteboard.t) :
  (Diagram.findWhiteboardAtPoint d point = Some wb ->
   exists below above,
     Diagram.getAllWhiteboards d = below ++ wb :: above
     /\ Whiteboard.containsPoint wb point = true
     /\ forall w, In w above -> Whiteboard.containsPoint w point = false)
  /\ (Diagram.findWhiteboardAtPoint d point = None <->
      forall w, In w (Diagram.getAllWhiteboards d) ->
                Whiteboard.containsPoint w point = false).
Proof.
  unfold Diagram.findWhiteboardAtPoint, Diagram.getAllWhiteboards. split.
  - intros H. apply HitTest.find_firstMatch in H.
    destruct H as [l1 [l2 [E [Hc Hl1]]]].
    exists (rev l2), (rev l1). split; [|split].
    + apply (f_equal (@rev _)) in E. rewrite rev_involutive in E.
      rewrite E, rev_app_distr. cbn [rev]. now rewrite <- app_assoc.
    + exact Hc.
    + intros w Hw. apply Hl1. now apply in_rev.
  - rewrite HitTest.find_noMatch. unfold HitTest.noMatch. split.
    + intros H w Hw. apply H. now apply in_rev in Hw.
    + intros H w Hw. apply H. now apply in_rev.
Qed.
End X6.

Section X7.
Context {N : JSNumber}.

(** X7.  [duplicateWhiteboard] on an id that names no whiteboard returns
    nothing and changes nothing.  On the id of a whiteboard, with the next
    whiteboard id not in use, it adds one whiteboard under that new id,
    50 to the right of the original's right edge at the same height, with
    the original's size and background, flagged selected; the original
    stays in place and loses its flag; the selection loses the id of the
    original and gains the new id, which is returned; nodes, arrows and
    labels are not touched, so the contents of the whiteboard are not
    duplicated. *)
Theorem X7_duplicateWhiteboard (rt : Runtime.t) (d : Diagram.t)
    (whiteboardId : string) :
  JsMap.has (mint "whiteboard-" (Runtime.whiteboardNextId rt))
    (Diagram.whiteboards d) = false ->
  let r := Diagram.duplicateWhiteboard whiteboardId rt d in
  match JsMap.get whiteboardId (Diagram.whiteboards d) with
  | None => r = (rt, d, None)
  | Some original =>
      let newId := mint "whiteboard-" (Runtime.whiteboardNextId rt) in
      let d' := snd (fst r) in
      snd r = Some newId
      /\ JsMap.get newId (Diagram.whiteboards d')
         = Some (Whiteboard.mk newId
                   (Point.mk
                      (nadd (nadd (Point.x (Whiteboard.position original))
                               (Whiteboard.width original)) (lit 50))
                      (Point.y (Whiteboard.position original)))
                   (Whiteboard.width original) (Whiteboard.height original)
                   (Whiteboard.backgroundColor original) true)
      /\ JsMap.get whiteboardId (Diagram.whiteboards d')
         = Some (Whiteboard.setSelected original false)
      /\ (forall k, k <> whiteboardId -> k <> newId ->
            JsMap.get k (Diagram.whiteboards d')
            = JsMap.get k (Diagram.whiteboards d))
      /\ JsMap.keys (Diagram.whiteboards d')
         = JsMap.keys (Diagram.whiteboards d) ++ [newId]
      /\ Diagram.selectedElementIds d'
         = JsSet.add newId
             (JsSet.delete whiteboardId (Diagram.selectedElementIds d))
      /\ Diagram.nodes d' = Diagram.nodes d
      /\ Diagram.arrows d' = Diagram.arrows d
      /\ Diagram.textLabels d' = Diagram.textLabels d
      /\ Runtime.whiteboardNextId (fst (fst r))
         = S (Runtime.whiteboardNextId rt)
      /\ Runtime.nodeStore (fst (fst r)) = Runtime.nodeStore rt
  end.
Proof.
  intros Hfresh r. subst r. unfold Diagram.duplicateWhiteboard.
  destruct (JsMap.get whiteboardId (Diagram.whiteboards d)) as [original|]
    eqn:Hget; [|reflexivity].
  set (newId := mint "whiteboard-" (Runtime.whiteboardNextId rt)) in *.
  assert (Hne : whiteboardId <> newId).
  { intros E. unfold JsMap.has in Hfresh. rewrite <- E, Hget in Hfresh.
    discriminate. }
  cbn -[mint JsMap.set JsMap.update JsSet.add JsSet.delete JsMap.keys].
  fold newId.
  assert (Hfresh' : JsMap.has newId
            (JsMap.update whiteboardId
               (fun wb => Whiteboard.setSelected wb false)
               (Diagram.whiteboards d)) = false).
  { now rewrite JsMapFacts.has_update. }
  refine (conj eq_refl (conj _ (conj _ (conj _ (conj _ (conj eq_refl
            (conj eq_refl (conj eq_refl (conj eq_refl (conj eq_refl
              eq_refl)))))))))).
  - apply JsMapFacts.get_set_same.
  - rewrite (JsMapFacts.get_set_other _ _ (not_eq_sym Hne)).
    rewrite JsMapFacts.get_update, String.eqb_refl, Hget. reflexivity.
  - intros k Hk1 Hk2.
    rewrite (JsMapFacts.get_set_other _ _ (not_eq_sym Hk2)).
    rewrite JsMapFacts.get_update.
    apply String.eqb_neq in Hk1. rewrite String.eqb_sym in Hk1.
    now rewrite Hk1.
  - rewrite JsMapFacts.keys_set, Hfresh'.
    now rewrite JsMapFacts.keys_update.
Qed.
End X7.

(** X7 at a fresh diagram: its default whiteboard is duplicated as
    [whiteboard-1]. *)
Lemma X7_witness :
  snd (Diagram.duplicateWhiteboard "whiteboard-0" (fst Example.fresh)
         (snd Example.fresh)) = Some "whiteboard-1".
Proof.
  pose proof (X7_duplicateWhiteboard (fst Example.fresh) (snd Example.fresh)
                "whiteboard-0" eq_refl) as H.
  vm_compute in H. vm_compute. exact (proj1 H).
Defined.

(** ** deleteSelected *)

Module DeleteSelected.
Section WithNumber.
Context {N : JSNumber}.

(** The body of the loop of [deleteSelected]. *)
Definition step (st : Runtime.t * Diagram.t) (id : string)
    : Runtime.t * Diagram.t :=
  let '(rt0, d0) := st in
  if JsMap.has id (Diagram.nodes d0) then (rt0, Diagram.removeNode id d0)
  else if JsMap.has id (Diagram.arrows d0)
  then (rt0, Diagram.removeArrow id d0)
  else if JsMap.has id (Diagram.textLabels d0)
  then (rt0, Diagram.removeTextLabel id d0)
  else if JsMap.has id (Diagram.whiteboards d0)
  then Diagram.removeWhiteboard id rt0 d0
  else (rt0, d0).

Lemma deleteSelected_fold rt d :
  Diagram.deleteSelected rt d
  = (fst (fold_left step (Diagram.selectedElementIds d) (rt, d)),
     Diagram.with_selectedElementIds
       (snd (fold_left step (Diagram.selectedElementIds d) (rt, d))) []).
Proof.
  unfold Diagram.deleteSelected. fold step.
  now destruct (fold_left step (Diagram.selectedElementIds d) (rt, d)).
Qed.

Lemma absent_key [V : Type] (m : JsMap.t V) k kv :
  JsMap.has k m = false -> In kv m -> fst kv <> k.
Proof.
  intros H Hin E. apply JsMapFacts.has_false_iff in H. apply H.
  unfold JsMap.keys. rewrite <- E. now apply in_map.
Qed.

Lemma has_subset [V : Type] (m1 m : JsMap.t V) k :
  (forall kv, In kv m1 -> In kv m) ->
  JsMap.has k m = false -> JsMap.has k m1 = false.
Proof.
  intros Hsub H. apply JsMapFacts.has_false_iff. intros Hin.
  apply in_map_iff in Hin as [kv [E Hkv]].
  apply (absent_key m k kv H (Hsub kv Hkv) E).
Qed.

(** What one round of the loop removes. *)
Record removed (id : string) (d d1 : Diagram.t) : Prop := mkRemoved {
  rm_nodes : forall kv,
    In kv (Diagram.nodes d1) <-> In kv (Diagram.nodes d) /\ fst kv <> id;
  rm_arrows : forall kv,
    In kv (Diagram.arrows d1) ->
    In kv (Diagram.arrows d)
    /\ (JsMap.has id (Diagram.nodes d) = false -> fst kv <> id)
    /\ (JsMap.has id (Diagram.nodes d) = true ->
        Diagram.touches id (snd kv) = false);
  rm_labels : forall kv,
    In kv (Diagram.textLabels d1) ->
    In kv (Diagram.textLabels d)
    /\ (JsMap.has id (Diagram.nodes d) = false ->
        JsMap.has id (Diagram.arrows d) = false -> fst kv <> id);
  rm_labels_kept : forall kv,
    In kv (Diagram.textLabels d) -> fst kv <> id ->
    In kv (Diagram.textLabels d1)
}.

Lemma step_removed rt d id :
  removed id d (snd (step (rt, d) id))
  /\ Runtime.nodeStore (fst (step (rt, d) id)) = Runtime.nodeStore rt.
Proof.
  unfold step.
  destruct (JsMap.has id (Diagram.nodes d)) eqn:Hn.
  { split; [|reflexivity]. cbn [snd]. constructor.
    - intros kv. unfold Diagram.removeNode. cbn [Diagram.nodes].
      apply JsMapFacts.in_delete.
    - intros kv Hin. apply Integrity.removeNode_arrows in Hin as [H1 H2].
      split; [assumption|]. split; [intros; congruence|]. now intros _.
    - intros kv Hin. split; [exact Hin|]. intros; congruence.
    - intros kv Hin _. exact Hin. }
  destruct (JsMap.has id (Diagram.arrows d)) eqn:Ha.
  { split; [|reflexivity]. cbn [snd]. constructor.
    - intros kv. unfold Diagram.removeArrow. cbn [Diagram.nodes].
      split; [|tauto]. intros Hin. split; [assumption|].
      now apply (absent_key _ _ _ Hn).
    - intros kv Hin. unfold Diagram.removeArrow in Hin.
      cbn [Diagram.arrows] in Hin.
      apply JsMapFacts.in_delete in Hin as [H1 H2].
      split; [assumption|]. split; [now intros _|intros; congruence].
    - intros kv Hin. split; [exact Hin|]. intros; congruence.
    - intros kv Hin _. exact Hin. }
  destruct (JsMap.has id (Diagram.textLabels d)) eqn:Hl.
  { split; [|reflexivity]. cbn [snd]. constructor.
    - intros kv. unfold Diagram.removeTextLabel. cbn [Diagram.nodes].
      split; [|tauto]. intros Hin. split; [assumption|].
      now apply (absent_key _ _ _ Hn).
    - intros kv Hin. unfold Diagram.removeTextLabel in Hin.
      cbn [Diagram.arrows] in Hin. split; [assumption|].
      split; [|intros; congruence]. intros _. now apply (absent_key _ _ _ Ha).
    - intros kv Hin. unfold Diagram.removeTextLabel in Hin.
      cbn [Diagram.textLabels] in Hin.
      apply JsMapFacts.in_delete in Hin as [H1 H2]. split; auto.
    - intros kv Hin Hne. unfold Diagram.removeTextLabel.
      cbn [Diagram.textLabels]. apply JsMapFacts.in_delete. now split. }
  assert (Hsame : forall d1 : Diagram.t,
            Diagram.nodes d1 = Diagram.nodes d ->
            Diagram.arrows d1 = Diagram.arrows d ->
            Diagram.textLabels d1 = Diagram.textLabels d ->
            removed id d d1).
  { intros d1 E1 E2 E3. constructor; rewrite ?E1, ?E2, ?E3.
    - intros kv. split; [|tauto]. intros Hin. split; [assumption|].
      now apply (absent_key _ _ _ Hn).
    - intros kv Hin. split; [assumption|].
      split; [|congruence]. intros _. now apply (absent_key _ _ _ Ha).
    - intros kv Hin. split; [assumption|]. intros _ _.
      now apply (absent_key _ _ _ Hl).
    - intros kv Hin _. exact Hin. }
  destruct (JsMap.has id (Diagram.whiteboards d)).
  - destruct (Integrity.removeWhiteboard_shape id rt d) as [E1 [E2 E3]].
    split; [now apply Hsame|].
    unfold Diagram.removeWhiteboard. now destruct (Nat.leb _ 1).
  - split; [now apply Hsame|reflexivity].
Qed.

Lemma fold_removed sel :
  forall rt d,
    let r := fold_left step sel (rt, d) in
    (forall kv, In kv (Diagram.nodes (snd r))
                <-> In kv (Diagram.nodes d) /\ ~ In (fst kv) sel)
    /\ (forall kv, In kv (Diagram.arrows (snd r)) ->
          In kv (Diagram.arrows d)
          /\ (forall id, In id sel ->
                JsMap.has id (Diagram.nodes d) = false -> fst kv <> id)
          /\ (forall id, In id sel ->
                JsMap.has id (Diagram.nodes d) = true ->
                Diagram.touches id (snd kv) = false))
    /\ (forall kv, In kv (Diagram.textLabels (snd r)) ->
          In kv (Diagram.textLabels d)
          /\ (forall id, In id sel ->
                JsMap.has id (Diagram.nodes d) = false ->
                JsMap.has id (Diagram.arrows d) = false -> fst kv <> id))
    /\ (forall kv, In kv (Diagram.textLabels d) -> ~ In (fst kv) sel ->
          In kv (Diagram.textLabels (snd r)))
    /\ Runtime.nodeStore (fst r) = Runtime.nodeStore rt.
Proof.
  induction sel as [|id sel IH]; intros rt d r.
  - subst r. cbn. repeat split; try tauto; intros; tauto.
  - subst r. cbn [fold_left].
    destruct (step_removed rt d id) as [[SN SA SL SK] SS].
    destruct (step (rt, d) id) as [rt1 d1]. cbn [fst snd] in *.
    specialize (IH rt1 d1). cbv zeta in IH.
    destruct IH as [IN [IA [IL [IK IS]]]].
    assert (Hnodes : forall k, JsMap.has k (Diagram.nodes d) = false ->
                       JsMap.has k (Diagram.nodes d1) = false).
    { intros k. apply has_subset. intros kv Hin. now apply SN in Hin. }
    assert (Harrows : forall k, JsMap.has k (Diagram.arrows d) = false ->
                        JsMap.has k (Diagram.arrows d1) = false).
    { intros k. apply has_subset. intros kv Hin. now apply SA in Hin. }
    assert (Hnodes' : forall k, k <> id ->
                        JsMap.has k (Diagram.nodes d) = true ->
                        JsMap.has k (Diagram.nodes d1) = true).
    { intros k Hk H. apply JsMapFacts.has_true_iff in H.
      apply in_map_iff in H as [kv [E Hin]].
      apply JsMapFacts.has_true_iff. unfold JsMap.keys. rewrite <- E.
      apply in_map. apply SN. split; [assumption|]. now rewrite E. }
    split; [|split; [|split; [|split]]].
    + intros kv. rewrite IN, SN. cbn [In]. split.
      * intros [[H1 H2] H3]. split; [assumption|].
        intros [E|H]; [now symmetry in E|tauto].
      * intros [H1 H2]. repeat split; auto.
    + intros kv Hin. destruct (IA kv Hin) as [A1 [A2 A3]].
      destruct (SA kv A1) as [B1 [B2 B3]].
      split; [assumption|]. split.
      * intros id' [<-|Hid] Hh; [now apply B2|].
        apply A2; [assumption|now apply Hnodes].
      * intros id' Hid Hh.
        destruct (String.eqb id' id) eqn:E.
        -- apply String.eqb_eq in E. subst id'. now apply B3.
        -- apply String.eqb_neq in E. destruct Hid as [->|Hid]; [congruence|].
           apply A3; [assumption|now apply Hnodes'].
    + intros kv Hin. destruct (IL kv Hin) as [A1 A2].
      destruct (SL kv A1) as [B1 B2]. split; [assumption|].
      intros id' [<-|Hid] H1 H2; [now apply B2|].
      apply A2; [assumption|now apply Hnodes|now apply Harrows].
    + intros kv Hin Hnot. apply IK.
      * apply SK; [assumption|]. intros E. apply Hnot. now left.
      * intros H. apply Hnot. now right.
    + congruence.
Qed.
End WithNumber.
End DeleteSelected.

Section X8.
Context {N : JSNumber}.

(** X8.  After [deleteSelected] the selection is empty; the nodes are
    exactly the nodes whose id was not selected; every arrow left was
    there before, has neither endpoint at a selected node, and is not
    filed under a selected id that names no node; every label left was
    there before and is not filed under a selected id that names neither
    a node nor an arrow; every label whose id was not selected is still
    there; and no node object is modified. *)
Theorem X8_deleteSelected (rt : Runtime.t) (d : Diagram.t) :
  let sel := Diagram.selectedElementIds d in
  let r := Diagram.deleteSelected rt d in
  Diagram.selectedElementIds (snd r) = []
  /\ (forall kv, In kv (Diagram.nodes (snd r))
                 <-> In kv (Diagram.nodes d) /\ ~ In (fst kv) sel)
  /\ (forall kv, In kv (Diagram.arrows (snd r)) ->
        In kv (Diagram.arrows d)
        /\ (forall id, In id sel ->
              JsMap.has id (Diagram.nodes d) = false -> fst kv <> id)
        /\ (forall id, In id sel ->
              JsMap.has id (Diagram.nodes d) = true ->
              Node.id (Arrow.fromNode (snd kv)) <> id
              /\ Node.id (Arrow.toNode (snd kv)) <> id))
  /\ (forall kv, In kv (Diagram.textLabels (snd r)) ->
        In kv (Diagram.textLabels d)
        /\ (forall id, In id sel ->
              JsMap.has id (Diagram.nodes d) = false ->
              JsMap.has id (Diagram.arrows d) = false -> fst kv <> id))
  /\ (forall kv, In kv (Diagram.textLabels d) -> ~ In (fst kv) sel ->
        In kv (Diagram.textLabels (snd r)))
  /\ Runtime.nodeStore (fst r) = Runtime.nodeStore rt.
Proof.
  intros sel r. subst r. rewrite DeleteSelected.deleteSelected_fold.
  cbn [fst snd Diagram.with_selectedElementIds Diagram.selectedElementIds
       Diagram.nodes Diagram.arrows Diagram.textLabels].
  destruct (DeleteSelected.fold_removed sel rt d) as [HN [HA [HL [HK HS]]]].
  split; [reflexivity|]. split; [exact HN|]. split; [|split; [exact HL|]].
  - intros kv Hin. destruct (HA kv Hin) as [A1 [A2 A3]].
    split; [assumption|]. split; [assumption|].
    intros id Hid Hh. apply Integrity.touches_false. now apply A3.
  - split; [exact HK|exact HS].
Qed.
End X8.

(** ** Selection flags *)

Module Flags.
Section WithNumber.
Context {N : JSNumber}.

Definition mem (k : string) (sel : list string) : bool :=
  existsb (String.eqb k) sel.

Lemma mem_In k sel : mem k sel = true <-> In k sel.
Proof.
  unfold mem. rewrite existsb_exists. split.
  - intros [x [Hin E]]. apply String.eqb_eq in E. now subst.
  - intros H. exists k. split; [assumption|apply String.eqb_refl].
Qed.

(** Updating the entries of the keys [sel] with an idempotent [f]. *)
Lemma get_fold_update [V : Type] (f : V -> V) (sel : list string) :
  (forall v, f (f v) = f v) ->
  forall (m : JsMap.t V) k,
    JsMap.get k (fold_left (fun m id => JsMap.update id f m) sel m)
    = if mem k sel then option_map f (JsMap.get k m) else JsMap.get k m.
Proof.
  intros Hf. induction sel as [|id sel IH]; intros m k; [reflexivity|].
  cbn [fold_left mem existsb]. rewrite IH. fold (mem k sel).
  rewrite JsMapFacts.get_update, (String.eqb_sym k id).
  destruct (String.eqb id k), (mem k sel), (JsMap.get k m); cbn;
    rewrite ?Hf; reflexivity.
Qed.

Definition clearStep (st : Runtime.t * Diagram.t) (id : string)
    : Runtime.t * Diagram.t :=
  (Diagram.flagNode id false (fst st) (snd st),
   Diagram.flagWhiteboard id false
     (Diagram.flagLabel id false (Diagram.flagArrow id false (snd st)))).

Lemma clearSelection_fold rt d :
  Diagram.clearSelection rt d
  = (fst (fold_left clearStep (Diagram.selectedElementIds d) (rt, d)),
     Diagram.with_selectedElementIds
       (snd (fold_left clearStep (Diagram.selectedElementIds d) (rt, d))) []).
Proof.
  unfold Diagram.clearSelection.
  assert (E : forall l st,
            fold_left
              (fun (st : Runtime.t * Diagram.t) id =>
                 let '(rt0, d0) := st in
                 (Diagram.flagNode id false rt0 d0,
                  Diagram.flagWhiteboard id false
                    (Diagram.flagLabel id false
                       (Diagram.flagArrow id false d0)))) l st
            = fold_left clearStep l st).
  { induction l as [|x l IH]; intros [rt0 d0]; [reflexivity|].
    cbn [fold_left]. now rewrite IH. }
  rewrite E. now destruct (fold_left clearStep _ _).
Qed.

Lemma clear_maps sel :
  forall rt d,
    let r := fold_left clearStep sel (rt, d) in
    Diagram.nodes (snd r) = Diagram.nodes d
    /\ Diagram.arrows (snd r)
       = fold_left (fun m id =>
                      JsMap.update id (fun a => Arrow.setSelected a false) m)
           sel (Diagram.arrows d)
    /\ Diagram.textLabels (snd r)
       = fold_left (fun m id =>
                      JsMap.update id (fun l => TextLabel.setSelected l false) m)
           sel (Diagram.textLabels d)
    /\ Diagram.whiteboards (snd r)
       = fold_left (fun m id =>
                      JsMap.update id (fun w => Whiteboard.setSelected w false) m)
           sel (Diagram.whiteboards d)
    /\ Diagram.selectedElementIds (snd r) = Diagram.selectedElementIds d.
Proof.
  induction sel as [|id sel IH]; intros rt d; [cbn; auto|].
  cbn [fold_left].
  change (clearStep (rt, d) id)
    with (Diagram.flagNode id false rt d,
          Diagram.flagWhiteboard id false
            (Diagram.flagLabel id false (Diagram.flagArrow id false d))).
  match goal with |- context [fold_left clearStep sel (?rt1, ?d1)] =>
    specialize (IH rt1 d1) end.
  cbv zeta in IH. destruct IH as [I1 [I2 [I3 [I4 I5]]]].
  cbv zeta. rewrite I1, I2, I3, I4, I5. cbn. auto.
Qed.

(** The node objects: flags of selected nodes are cleared, and no flag is
    raised. *)
Lemma clear_nodes sel :
  forall rt d d0,
    Diagram.nodes d = Diagram.nodes d0 ->
    let r := fold_left clearStep sel (rt, d) in
    (forall id node, In id sel ->
       JsMap.get id (Diagram.nodes d0) = Some node ->
       Node.isSelected (Node.read (Runtime.nodeStore (fst r)) node) = false)
    /\ (forall a,
          Node.isSelected (Node.heap (Runtime.nodeStore (fst r)) a) = true ->
          Node.isSelected (Node.heap (Runtime.nodeStore rt) a) = true).
Proof.
  induction sel as [|id sel IH]; intros rt d d0 Hd.
  - cbn. split; [intros ? ? []|auto].
  - cbn [fold_left].
    change (clearStep (rt, d) id)
      with (Diagram.flagNode id false rt d,
            Diagram.flagWhiteboard id false
              (Diagram.flagLabel id false (Diagram.flagArrow id false d))).
    match goal with |- context [fold_left clearStep sel (?rt1, ?d1)] =>
      specialize (IH rt1 d1 d0) end.
    cbv zeta in IH. destruct IH as [I1 I2].
    { cbn. exact Hd. }
    cbv zeta.
    assert (Hdown : forall a,
              Node.isSelected
                (Node.heap (Runtime.nodeStore (Diagram.flagNode id false rt d)) a)
              = true ->
              Node.isSelected (Node.heap (Runtime.nodeStore rt) a) = true).
    { intros a. unfold Diagram.flagNode.
      destruct (JsMap.get id (Diagram.nodes d)) as [n|]; [|auto].
      cbn. destruct (Nat.eqb a (Node.addr n)); [discriminate|auto]. }
    split.
    + intros id' node [<-|Hin] Hget; [|now apply (I1 id' node)].
      destruct (Node.isSelected _) eqn:E; [|reflexivity].
      apply I2 in E. unfold Diagram.flagNode in E.
      rewrite Hd, Hget in E. cbn in E.
      rewrite Nat.eqb_refl in E. discriminate.
    + intros a H. apply Hdown. now apply I2.
Qed.
End WithNumber.
End Flags.

Section X10.
Context {N : JSNumber}.

(** X10.  [clearSelection] empties the selection and lowers the selected
    flag of the arrow, the label and the whiteboard filed under each
    selected id and of the node object filed under it; an arrow, label or
    whiteboard under an id that is not selected is left as it is, flagged
    or not; no flag of a node object is raised; and nothing but selected
    flags changes. *)
Theorem X10_clearSelection (rt : Runtime.t) (d : Diagram.t) (k : string) :
  let sel := Diagram.selectedElementIds d in
  let r := Diagram.clearSelection rt d in
  Diagram.selectedElementIds (snd r) = []
  /\ Diagram.nodes (snd r) = Diagram.nodes d
  /\ JsMap.get k (Diagram.arrows (snd r))
     = (if Flags.mem k sel
        then option_map (fun a => Arrow.setSelected a false)
               (JsMap.get k (Diagram.arrows d))
        else JsMap.get k (Diagram.arrows d))
  /\ JsMap.get k (Diagram.textLabels (snd r))
     = (if Flags.mem k sel
        then option_map (fun l => TextLabel.setSelected l false)
               (JsMap.get k (Diagram.textLabels d))
        else JsMap.get k (Diagram.textLabels d))
  /\ JsMap.get k (Diagram.whiteboards (snd r))
     = (if Flags.mem k sel
        then option_map (fun w => Whiteboard.setSelected w false)
               (JsMap.get k (Diagram.whiteboards d))
        else JsMap.get k (Diagram.whiteboards d))
  /\ (forall node, In k sel -> JsMap.get k (Diagram.nodes d) = Some node ->
        Node.isSelected (Node.read (Runtime.nodeStore (fst r)) node) = false)
  /\ (forall a,
        Node.isSelected (Node.heap (Runtime.nodeStore (fst r)) a) = true ->
        Node.isSelected (Node.heap (Runtime.nodeStore rt) a) = true)
  /\ Skeleton.sameRt rt (fst r)
  /\ Skeleton.same d (snd r).
Proof.
  intros sel r.
  pose proof (Skeleton.clearSelection_same rt d) as [S1 S2]. fold r in S1, S2.
  subst r. rewrite Flags.clearSelection_fold in *.
  cbn [fst snd Diagram.with_selectedElementIds Diagram.selectedElementIds
       Diagram.nodes Diagram.arrows Diagram.textLabels Diagram.whiteboards].
  fold sel. fold sel in S1, S2.
  destruct (Flags.clear_maps sel rt d) as [M1 [M2 [M3 [M4 _]]]].
  destruct (Flags.clear_nodes sel rt d d eq_refl) as [N1 N2].
  rewrite M1, M2, M3, M4.
  rewrite !Flags.get_fold_update by (intros []; reflexivity).
  refine (conj eq_refl (conj eq_refl (conj eq_refl (conj eq_refl
            (conj eq_refl (conj _ (conj N2 (conj S1 S2)))))))).
  intros node Hin Hget. now apply (N1 k node).
Qed.
End X10.

Module SelectAll.
Section WithNumber.
Context {N : JSNumber}.

Definition raise (rt0 : Runtime.t) (node : Node.t) : Runtime.t :=
  Runtime.with_nodeStore rt0
    (Node.setSelected (Runtime.nodeStore rt0) node true).

Lemma raise_all (l : list Node.t) :
  forall rt,
    (forall node, In node l ->
       Node.isSelected
         (Node.read (Runtime.nodeStore (fold_left raise l rt)) node) = true)
    /\ (forall a,
          Node.isSelected (Node.heap (Runtime.nodeStore rt) a) = true ->
          Node.isSelected
            (Node.heap (Runtime.nodeStore (fold_left raise l rt)) a) = true).
Proof.
  induction l as [|n l IH]; intros rt; [split; [intros ? []|auto]|].
  cbn [fold_left]. destruct (IH (raise rt n)) as [I1 I2].
  assert (Hup : forall a,
            Node.isSelected (Node.heap (Runtime.nodeStore rt) a) = true ->
            Node.isSelected (Node.heap (Runtime.nodeStore (raise rt n)) a)
            = true).
  { intros a H. cbn. destruct (Nat.eqb a (Node.addr n)); [reflexivity|auto]. }
  split.
  - intros node [<-|Hin]; [|now apply I1].
    apply I2. cbn. now rewrite Nat.eqb_refl.
  - intros a H. apply I2. now apply Hup.
Qed.

Lemma arrow_ids (m m' : JsMap.t Arrow.t) :
  Skeleton.mapv Skeleton.eraseA m' = Skeleton.mapv Skeleton.eraseA m ->
  map Arrow.id (JsMap.values m') = map Arrow.id (JsMap.values m).
Proof.
  intros H.
  assert (E : forall x : JsMap.t Arrow.t,
            map Arrow.id (JsMap.values (Skeleton.mapv Skeleton.eraseA x))
            = map Arrow.id (JsMap.values x)).
  { intros x. unfold JsMap.values, Skeleton.mapv. rewrite !map_map.
    now apply map_ext. }
  now rewrite <- (E m'), H, E.
Qed.

Lemma label_ids (m m' : JsMap.t TextLabel.t) :
  Skeleton.mapv Skeleton.eraseL m' = Skeleton.mapv Skeleton.eraseL m ->
  map TextLabel.id (JsMap.values m') = map TextLabel.id (JsMap.values m).
Proof.
  intros H.
  assert (E : forall x : JsMap.t TextLabel.t,
            map TextLabel.id (JsMap.values (Skeleton.mapv Skeleton.eraseL x))
            = map TextLabel.id (JsMap.values x)).
  { intros x. unfold JsMap.values, Skeleton.mapv. rewrite !map_map.
    now apply map_ext. }
  now rewrite <- (E m'), H, E.
Qed.
End WithNumber.
End SelectAll.

Section X9.
Context {N : JSNumber}.

(** X9.  After [selectAll] the selection consists of exactly the ids of
    all nodes, arrows and labels, and every node object, arrow and label
    is flagged selected.  No whiteboard is added to the selection, and a
    whiteboard that was selected before loses its flag; whiteboards that
    were not selected are left as they are.  Nothing but selected flags
    and the selection changes. *)
Theorem X9_selectAll (rt : Runtime.t) (d : Diagram.t) (id : string) :
  let r := Diagram.selectAll rt d in
  (In id (Diagram.selectedElementIds (snd r))
   <-> In id (map Node.id (Diagram.getAllNodes d))
       \/ In id (map Arrow.id (Diagram.getAllArrows d))
       \/ In id (map TextLabel.id (Diagram.getAllTextLabels d)))
  /\ (forall node, In node (Diagram.getAllNodes d) ->
        Node.isSelected (Node.read (Runtime.nodeStore (fst r)) node) = true)
  /\ (forall a, In a (Diagram.getAllArrows (snd r)) ->
        Arrow.isSelected a = true)
  /\ (forall l, In l (Diagram.getAllTextLabels (snd r)) ->
        TextLabel.isSelected l = true)
  /\ JsMap.get id (Diagram.whiteboards (snd r))
     = (if Flags.mem id (Diagram.selectedElementIds d)
        then option_map (fun w => Whiteboard.setSelected w false)
               (JsMap.get id (Diagram.whiteboards d))
        else JsMap.get id (Diagram.whiteboards d))
  /\ Skeleton.sameRt rt (fst r)
  /\ Skeleton.same d (snd r).
Proof.
  intros r.
  pose proof (Skeleton.selectAll_same rt d) as [S1 S2]. fold r in S1, S2.
  refine (conj _ (conj _ (conj _ (conj _ (conj _ (conj S1 S2)))))).
  all: clear S1 S2; subst r; unfold Diagram.selectAll;
    rewrite Flags.clearSelection_fold;
    pose proof (Skeleton.clearSelection_same rt d) as [_ [_ CA CL _]];
    rewrite Flags.clearSelection_fold in CA, CL;
    set (sel := Diagram.selectedElementIds d) in *;
    destruct (Flags.clear_maps sel rt d) as [M1 [M2 [M3 [M4 _]]]];
    set (p := fold_left Flags.clearStep sel (rt, d)) in *;
    cbn [fst snd Diagram.with_selectedElementIds Diagram.selectedElementIds
         Diagram.nodes Diagram.arrows Diagram.textLabels Diagram.whiteboards]
      in *.
  - rewrite M1, (SelectAll.arrow_ids _ _ CA), (SelectAll.label_ids _ _ CL).
    rewrite BoxSelect.in_fold_add. cbn [In]. rewrite !in_app_iff.
    unfold Diagram.getAllNodes, Diagram.getAllArrows,
      Diagram.getAllTextLabels. tauto.
  - intros node Hin. rewrite M1.
    apply (proj1 (SelectAll.raise_all (JsMap.values (Diagram.nodes d))
                    (fst p))).
    exact Hin.
  - intros a Hin. unfold Diagram.getAllArrows, JsMap.values in Hin.
    cbn [Diagram.arrows] in Hin. rewrite map_map in Hin.
    apply in_map_iff in Hin as [kv [<- _]]. reflexivity.
  - intros l Hin. unfold Diagram.getAllTextLabels, JsMap.values in Hin.
    cbn [Diagram.textLabels] in Hin. rewrite map_map in Hin.
    apply in_map_iff in Hin as [kv [<- _]]. reflexivity.
  - rewrite M4. apply Flags.get_fold_update. intros []; reflexivity.
Qed.
End X9.

(** * Further properties of the controller *)

Module Gesture.
Section WithNumber.
Context {N : JSNumber}.

(** The controller without its scene and without the notifications it
    has sent: tool, mode and the state of the gesture in progress. *)
Record view : Type := mkView {
  v_tool : Tool;
  v_mode : InteractionMode;
  v_dragStartPoint : option Point.t;
  v_draggedElementId : option string;
  v_arrowStartNode : option Node.t;
  v_mousePosition : Point.t;
  v_panOffset : Point.t;
  v_panStartOffset : Point.t;
  v_panStartScreenPoint : option Point.t;
  v_selectionBox : option SelectionBox.t;
  v_resizingHandle : option ResizeHandle;
  v_onToolChange : bool
}.

Definition view_of (m : InteractionManager.t) : view :=
  mkView (InteractionManager.currentTool m) (InteractionManager.mode m)
    (InteractionManager.dragStartPoint m)
    (InteractionManager.draggedElementId m)
    (InteractionManager.arrowStartNode m)
    (InteractionManager.mousePosition m) (InteractionManager.panOffset m)
    (InteractionManager.panStartOffset m)
    (InteractionManager.panStartScreenPoint m)
    (InteractionManager.selectionBox m) (InteractionManager.resizingHandle m)
    (InteractionManager.onToolChange m).
End WithNumber.
End Gesture.

Module Release.
Section WithNumber.
Context {N : JSNumber}.

(** The release of an arrow being created on empty space, at least the
    radius of the start node plus 80 away from its centre: the case in
    which [handleMouseUp] creates a node and returns at once. *)
Definition dropsNode (point : Point.t) (rt : Runtime.t)
    (m : InteractionManager.t) : bool :=
  match InteractionManager.mode m, InteractionManager.arrowStartNode m with
  | CREATING_ARROW, Some start =>
      match Diagram.findElementAtPoint (Runtime.nodeStore rt)
              (InteractionManager.diagram m) point with
      | Some _ => false
      | None =>
          nle (nadd (Node.radius (Node.read (Runtime.nodeStore rt) start))
                 (lit 80))
            (Point.distanceTo
               (Node.position (Node.read (Runtime.nodeStore rt) start)) point)
      end
  | _, _ => false
  end.

(** Where every other release leaves tool, mode and gesture state.  (An
    empty string is no id: [if (this.draggedElementId)] skips it.) *)
Definition rest (point : Point.t) (m : InteractionManager.t) : Gesture.view :=
  Gesture.mkView (InteractionManager.currentTool m)
    (if Mode_eqb (InteractionManager.mode m) EDITING_TEXT
     then EDITING_TEXT else IDLE)
    None
    (match InteractionManager.draggedElementId m with
     | Some EmptyString => Some EmptyString
     | _ => None
     end)
    (if Mode_eqb (InteractionManager.mode m) CREATING_ARROW
     then None else InteractionManager.arrowStartNode m)
    point (InteractionManager.panOffset m)
    (InteractionManager.panStartOffset m)
    (InteractionManager.panStartScreenPoint m)
    (if Mode_eqb (InteractionManager.mode m) BOX_SELECTING
     then None else InteractionManager.selectionBox m)
    (if Mode_eqb (InteractionManager.mode m) RESIZING_WHITEBOARD
     then None else InteractionManager.resizingHandle m)
    (InteractionManager.onToolChange m).
End WithNumber.
End Release.

Section X11.
Context {N : JSNumber}.

Ltac release_step :=
  match goal with
  | |- context [match Diagram.findElementAtPoint ?s ?d ?p with _ => _ end] =>
      destruct (Diagram.findElementAtPoint s d p) as [[[] ?]|]
  | |- context [if negb (String.eqb ?a ?b) then _ else _] =>
      destruct (String.eqb a b)
  | |- context [match Diagram.getNode ?i ?d with _ => _ end] =>
      destruct (Diagram.getNode i d)
  | |- context [if nle ?a ?b then _ else _] => destruct (nle a b)
  | |- context [let '(_, _) := Diagram.selectElement ?i ?b ?r ?d in _] =>
      destruct (Diagram.selectElement i b r d)
  | |- context [if SelectionBox.isSignificant ?b ?n then _ else _] =>
      destruct (SelectionBox.isSignificant b n)
  | |- context [let '(_, _) := Diagram.selectElements ?i ?b ?r ?d in _] =>
      destruct (Diagram.selectElements i b r d)
  end.


(** X11.  A pointer release that does not drop a new node ends the
    gesture: the drag start point and the dragged element are forgotten,
    the mode becomes idle unless text is being edited, the tool, the pan
    state and the callback stay, the pointer position is recorded and one
    update is notified.  What else is forgotten depends on the mode the
    release finds: the selection box only in box-selecting mode, the
    resize handle only in resizing mode, the arrow start node only in
    arrow-creating mode; in every other mode each of them is kept as it
    is.  So a selection box survives the release when the tool was
    changed between press and release, as in the example below.  The
    release that drops a new node at the end of an arrow returns before
    any of that: it forgets the arrow start node and records the pointer
    position, but leaves the mode at arrow-creating, keeps the drag start
    point and notifies nothing. *)
Theorem X11_pointer_release (point : Point.t) (rt : Runtime.t)
    (m : InteractionManager.t) :
  let r := InteractionManager.handleMouseUp point rt m in
  if Release.dropsNode point rt m
  then Gesture.view_of (snd r)
       = Gesture.view_of
           (InteractionManager.with_arrowStartNode
              (InteractionManager.with_mousePosition m point) None)
       /\ InteractionManager.mode (snd r) = CREATING_ARROW
       /\ InteractionManager.emitted (snd r) = InteractionManager.emitted m
  else Gesture.view_of (snd r) = Release.rest point m
       /\ InteractionManager.emitted (snd r)
          = InteractionManager.emitted m ++ [Update].
Proof.
  intros r. subst r.
  unfold InteractionManager.handleMouseUp, Release.dropsNode, Release.rest,
    InteractionManager.completeArrow, InteractionManager.completeBoxSelection,
    InteractionManager.clearDragging, InteractionManager.markDragging,
    InteractionManager.truthy.
  destruct m as [d tool mode dsp dragged start mp po pso pssp box rh cb em].
  cbn [InteractionManager.with_mousePosition InteractionManager.mode
       InteractionManager.arrowStartNode InteractionManager.diagram
       InteractionManager.currentTool InteractionManager.dragStartPoint
       InteractionManager.draggedElementId InteractionManager.mousePosition
       InteractionManager.panOffset InteractionManager.panStartOffset
       InteractionManager.panStartScreenPoint InteractionManager.selectionBox
       InteractionManager.resizingHandle InteractionManager.onToolChange
       InteractionManager.emitted].
  destruct mode, start as [st|], box as [bx|], dragged as [[|c dr]|];
    repeat release_step;
    cbn; repeat release_step; cbn; repeat split.
Qed.
End X11.

Module ReleaseExample.
(** A press with the select tool on empty space outside the whiteboard
    starts a selection box; the tool is then changed to the pan tool,
    which makes the mode idle and leaves the box where it is. *)
Definition pressed : Runtime.t * InteractionManager.t :=
  InteractionManager.handleMouseDown (Example.pt 2000 2000) false
    (fst Example.fresh) (InteractionManager.new (snd Example.fresh)).

Definition switched : InteractionManager.t :=
  InteractionManager.setTool PAN (snd pressed).
End ReleaseExample.

(** X11 on the integer grid: the release after the change of tool finds
    the idle mode and keeps the selection box. *)
Lemma X11_witness :
  InteractionManager.mode (snd ReleaseExample.pressed) = BOX_SELECTING
  /\ InteractionManager.mode ReleaseExample.switched = IDLE
  /\ InteractionManager.selectionBox ReleaseExample.switched
     = Some (SelectionBox.new (Example.pt 2000 2000))
  /\ InteractionManager.selectionBox
       (snd (InteractionManager.handleMouseUp (Example.pt 2000 2000)
               (fst ReleaseExample.pressed) ReleaseExample.switched))
     = Some (SelectionBox.new (Example.pt 2000 2000)).
Proof.
  split; [reflexivity|]. split; [reflexivity|]. split; [reflexivity|].
  pose proof (@X11_pointer_release ZNumber (Example.pt 2000 2000)
                (fst ReleaseExample.pressed) ReleaseExample.switched) as H.
  cbv zeta in H.
  change (Release.dropsNode (Example.pt 2000 2000)
            (fst ReleaseExample.pressed) ReleaseExample.switched)
    with false in H.
  destruct H as [H _].
  exact (f_equal Gesture.v_selectionBox H).
Defined.

(** ** Panning *)

Module Panning.
Section WithNumber.
Context {N : JSNumber}.

Definition handlePanningWithScreenCoords (screenPoint : Point.t)
    (this : InteractionManager.t) : InteractionManager.t :=
  match InteractionManager.panStartScreenPoint this with
  | None =>
      InteractionManager.with_panStartScreenPoint this (Some screenPoint)
  | Some start =>
      let delta := Point.subtract screenPoint start in
      InteractionManager.onUpdate
        (InteractionManager.with_panOffset this
           (Point.add (InteractionManager.panStartOffset this) delta))
  end.

Definition getPanOffset (this : InteractionManager.t) : Point.t :=
  InteractionManager.panOffset this.

Definition setInitialPan (panX panY : num) (this : InteractionManager.t)
    : InteractionManager.t :=
  InteractionManager.with_panStartOffset
    (InteractionManager.with_panOffset this (Point.mk panX panY))
    (Point.clone (Point.mk panX panY)).

(** The screen points of one pan gesture, fed in order. *)
Definition feed (screenPoints : list Point.t) (m : InteractionManager.t)
    : InteractionManager.t :=
  fold_left (fun m s => handlePanningWithScreenCoords s m) screenPoints m.

Lemma handleMouseDown_pan point shiftKey rt m :
  InteractionManager.currentTool m = PAN ->
  InteractionManager.handleMouseDown point shiftKey rt m
  = (rt,
     InteractionManager.onUpdate
       (InteractionManager.with_panStartScreenPoint
          (InteractionManager.with_panStartOffset
             (InteractionManager.with_mode
                (InteractionManager.with_mousePosition
                   (InteractionManager.with_dragStartPoint m (Some point))
                   point)
                PANNING)
             (Point.clone (InteractionManager.panOffset m)))
          None)).
Proof.
  intros H. unfold InteractionManager.handleMouseDown.
  cbn [InteractionManager.currentTool InteractionManager.with_mousePosition
       InteractionManager.with_dragStartPoint].
  now rewrite H.
Qed.

Lemma pan_step s s0 m :
  InteractionManager.panStartScreenPoint m = Some s0 ->
  handlePanningWithScreenCoords s m
  = InteractionManager.onUpdate
      (InteractionManager.with_panOffset m
         (Point.add (InteractionManager.panStartOffset m)
            (Point.subtract s s0))).
Proof. intros H. unfold handlePanningWithScreenCoords. now rewrite H. Qed.

Lemma pan_first s m :
  InteractionManager.panStartScreenPoint m = None ->
  handlePanningWithScreenCoords s m
  = InteractionManager.with_panStartScreenPoint m (Some s).
Proof. intros H. unfold handlePanningWithScreenCoords. now rewrite H. Qed.

Lemma feed_cons s pts m :
  feed (s :: pts) m = feed pts (handlePanningWithScreenCoords s m).
Proof. reflexivity. Qed.

Lemma feed_started pts :
  forall m s0,
    InteractionManager.panStartScreenPoint m = Some s0 ->
    pts <> [] ->
    let m' := feed pts m in
    InteractionManager.panOffset m'
    = Point.add (InteractionManager.panStartOffset m)
        (Point.subtract (last pts s0) s0)
    /\ InteractionManager.panStartOffset m'
       = InteractionManager.panStartOffset m
    /\ InteractionManager.panStartScreenPoint m' = Some s0
    /\ InteractionManager.mode m' = InteractionManager.mode m
    /\ InteractionManager.currentTool m' = InteractionManager.currentTool m
    /\ InteractionManager.diagram m' = InteractionManager.diagram m
    /\ InteractionManager.emitted m'
       = InteractionManager.emitted m ++ repeat Update (List.length pts).
Proof.
  induction pts as [|s pts IH]; intros m s0 Hs Hne; [congruence|].
  rewrite feed_cons, (pan_step s s0 m Hs).
  set (m1 := InteractionManager.onUpdate _).
  destruct pts as [|s' pts].
  - cbn. repeat split. exact Hs.
  - specialize (IH m1 s0 Hs ltac:(discriminate)). cbv zeta in IH.
    destruct IH as [I1 [I2 [I3 [I4 [I5 [I6 I7]]]]]].
    cbv zeta. rewrite I1, I2, I3, I4, I5, I6, I7.
    subst m1. cbn -[last repeat List.length].
    rewrite <- app_assoc. repeat split.
Qed.
End WithNumber.
End Panning.

Section X15.
Context {N : JSNumber}.

(** X15.  A pan gesture: the pointer goes down with the pan tool, then
    the screen points of the drag are fed to
    [handlePanningWithScreenCoords].  The first screen point only marks
    where the drag starts.  From the second on, the pan offset is the
    offset before the gesture plus the difference between the latest
    screen point and the first: it does not depend on the points in
    between nor on the canvas point of the press.  The mode is panning,
    the scene is not touched, and one update is notified for the press
    and one for every screen point after the first. *)
Theorem X15_pan_gesture (point : Point.t) (shiftKey : bool) (rt : Runtime.t)
    (m : InteractionManager.t) (s0 : Point.t) (rest : list Point.t) :
  InteractionManager.currentTool m = PAN ->
  let pressed := InteractionManager.handleMouseDown point shiftKey rt m in
  let m' := Panning.feed (s0 :: rest) (snd pressed) in
  Panning.getPanOffset m'
  = match rest with
    | [] => InteractionManager.panOffset m
    | _ :: _ =>
        Point.add (InteractionManager.panOffset m)
          (Point.subtract (last rest s0) s0)
    end
  /\ InteractionManager.mode m' = PANNING
  /\ InteractionManager.diagram m' = InteractionManager.diagram m
  /\ fst pressed = rt
  /\ InteractionManager.emitted m'
     = InteractionManager.emitted m
       ++ Update :: repeat Update (List.length rest).
Proof.
  intros Htool pressed m'. subst m' pressed.
  rewrite (Panning.handleMouseDown_pan point shiftKey rt m Htool).
  cbn [fst snd].
  set (m1 := InteractionManager.onUpdate _).
  assert (Hclone : Point.clone (InteractionManager.panOffset m)
                   = InteractionManager.panOffset m).
  { now destruct (InteractionManager.panOffset m). }
  assert (F : InteractionManager.panStartScreenPoint m1 = None
              /\ InteractionManager.panOffset m1
                 = InteractionManager.panOffset m
              /\ InteractionManager.panStartOffset m1
                 = InteractionManager.panOffset m
              /\ InteractionManager.mode m1 = PANNING
              /\ InteractionManager.diagram m1 = InteractionManager.diagram m
              /\ InteractionManager.emitted m1
                 = InteractionManager.emitted m ++ [Update]).
  { subst m1. cbn. rewrite Hclone. repeat split. }
  clearbody m1. destruct F as [F0 [F1 [F2 [F3 [F4 F5]]]]].
  rewrite Panning.feed_cons, (Panning.pan_first s0 m1 F0).
  destruct rest as [|s rest].
  - unfold Panning.feed, Panning.getPanOffset.
    cbn [fold_left repeat List.length].
    destruct m1. cbn in *. subst. repeat split.
  - pose proof (Panning.feed_started (s :: rest)
                  (InteractionManager.with_panStartScreenPoint m1 (Some s0))
                  s0 eq_refl ltac:(discriminate)) as H.
    cbv zeta in H. destruct H as [H1 [_ [_ [H4 [_ [H6 H7]]]]]].
    unfold Panning.getPanOffset. rewrite H1, H4, H6, H7.
    destruct m1. cbn in F0, F1, F2, F3, F4, F5. subst.
    cbn -[last repeat List.length]. rewrite <- app_assoc. repeat split.
Qed.
End X15.

(** X15 on the integer grid: the pan tool, pressed anywhere, then dragged
    over three screen points. *)
Lemma X15_witness :
  Panning.getPanOffset
    (Panning.feed [Example.pt 10 10; Example.pt 500 7; Example.pt 40 25]
       (snd (InteractionManager.handleMouseDown (Example.pt 3 4) false
               (fst Example.fresh)
               (InteractionManager.setTool PAN
                  (InteractionManager.new (snd Example.fresh))))))
  = Example.pt 30 15.
Proof.
  exact (proj1 (X15_pan_gesture (Example.pt 3 4) false (fst Example.fresh)
                  (InteractionManager.setTool PAN
                     (InteractionManager.new (snd Example.fresh)))
                  (Example.pt 10 10) [Example.pt 500 7; Example.pt 40 25]
                  eq_refl)).
Defined.

(** ** The node and text tools *)

Module Creation.
Section WithNumber.
Context {N : JSNumber}.

Lemma selectElement_shape id rt d :
  let r := Diagram.selectElement id false rt d in
  Diagram.nodes (snd r) = Diagram.nodes d
  /\ Diagram.selectedElementIds (snd r) = [id]
  /\ Skeleton.sameRt rt (fst r)
  /\ Skeleton.same d (snd r)
  /\ (forall node, JsMap.get id (Diagram.nodes d) = Some node ->
        Node.isSelected (Node.read (Runtime.nodeStore (fst r)) node) = true)
  /\ JsMap.get id (Diagram.textLabels (snd r))
     = option_map (fun l => TextLabel.setSelected l true)
         (JsMap.get id (Diagram.textLabels d)).
Proof.
  intros r.
  pose proof (Skeleton.selectElement_same id false rt d) as [S1 S2].
  pose proof (PointerUp.selectElement_selection id rt d) as S3.
  fold r in S1, S2, S3.
  refine (conj _ (conj S3 (conj S1 (conj S2 _)))).
  { now destruct S2. }
  clear S1 S2 S3. subst r. unfold Diagram.selectElement.
  rewrite Flags.clearSelection_fold.
  destruct (Flags.clear_maps (Diagram.selectedElementIds d) rt d)
    as [M1 [_ [M3 _]]].
  set (p := fold_left Flags.clearStep (Diagram.selectedElementIds d) (rt, d))
    in *.
  cbn [fst snd]. split.
  - intros node Hget. unfold Diagram.flagNode.
    cbn [Diagram.nodes Diagram.with_selectedElementIds].
    rewrite M1, Hget. cbn. now rewrite Nat.eqb_refl.
  - unfold Diagram.flagLabel, Diagram.flagWhiteboard, Diagram.flagArrow.
    cbn [Diagram.textLabels Diagram.with_textLabels Diagram.with_arrows
         Diagram.with_whiteboards Diagram.with_selectedElementIds].
    rewrite JsMapFacts.get_update, String.eqb_refl, M3.
    rewrite Flags.get_fold_update by (intros []; reflexivity).
    destruct (Flags.mem id (Diagram.selectedElementIds d));
      destruct (JsMap.get id (Diagram.textLabels d)); reflexivity.
Qed.
End WithNumber.
End Creation.

Section X14.
Context {N : JSNumber}.

(** X14.  A press with the node tool creates one node, filed under the
    next node id, centred at the pointer, with the text [New Node], radius
    60, the default style and the hand-drawn font; it becomes the whole
    selection and is flagged selected; the host is asked for the arrow
    tool if a tool callback is installed, and one update is notified.  A
    press with the text tool creates in the same way one label with the
    text [Text] and the defaults of a new label, selected alone, and asks
    for the select tool.  In both cases the mode is left as it was and
    the only other thing that changes in the scene is selected flags. *)
Theorem X14_creation_tools (point : Point.t) (shiftKey : bool)
    (rt : Runtime.t) (m : InteractionManager.t) :
  let r := InteractionManager.handleMouseDown point shiftKey rt m in
  let d := InteractionManager.diagram m in
  let d' := InteractionManager.diagram (snd r) in
  (InteractionManager.currentTool m = NODE ->
   let id := mint "node-" (Node.nextId (Runtime.nodeStore rt)) in
   let node := Node.mk id (Node.nextAddr (Runtime.nodeStore rt)) in
   Diagram.nodes d' = JsMap.set id node (Diagram.nodes d)
   /\ Node.toJSON (Runtime.nodeStore (fst r)) node
      = Node.mkJSON id (Point.mk (Point.x point) (Point.y point)) "New Node"
          (lit 60) Style.DEFAULT_STYLE HAND_DRAWN
   /\ Node.isSelected (Node.read (Runtime.nodeStore (fst r)) node) = true
   /\ Diagram.selectedElementIds d' = [id]
   /\ Skeleton.same (Diagram.addNode node d) d'
   /\ InteractionManager.mode (snd r) = InteractionManager.mode m
   /\ InteractionManager.emitted (snd r)
      = InteractionManager.emitted m
        ++ (if InteractionManager.onToolChange m then [ToolChange ARROW]
            else [])
        ++ [Update])
  /\ (InteractionManager.currentTool m = TEXT ->
      let id := mint "text-" (Runtime.textLabelNextId rt) in
      JsMap.get id (Diagram.textLabels d')
      = Some (TextLabel.setSelected
                (TextLabel.new (Runtime.textLabelNextId rt) point "Text") true)
      /\ JsMap.keys (Diagram.textLabels d')
         = JsMap.keys
             (JsMap.set id
                (TextLabel.new (Runtime.textLabelNextId rt) point "Text")
                (Diagram.textLabels d))
      /\ Diagram.selectedElementIds d' = [id]
      /\ Skeleton.same
           (Diagram.addTextLabel
              (TextLabel.new (Runtime.textLabelNextId rt) point "Text") d) d'
      /\ InteractionManager.mode (snd r) = InteractionManager.mode m
      /\ InteractionManager.emitted (snd r)
         = InteractionManager.emitted m
           ++ (if InteractionManager.onToolChange m then [ToolChange SELECT]
               else [])
           ++ [Update]).
Proof.
  intros r d d'. subst r d d'. unfold InteractionManager.handleMouseDown.
  cbn [InteractionManager.currentTool InteractionManager.with_mousePosition
       InteractionManager.with_dragStartPoint InteractionManager.diagram].
  split; intros Htool; rewrite Htool.
  - unfold InteractionManager.handleNodeCreation, Runtime.newNode, Node.new.
    cbn [InteractionManager.diagram fst snd].
    set (id := mint "node-" (Node.nextId (Runtime.nodeStore rt))).
    set (node := Node.mk id (Node.nextAddr (Runtime.nodeStore rt))).
    set (rt1 := Runtime.with_nodeStore rt _).
    pose proof (Creation.selectElement_shape id rt1
                  (Diagram.addNode node (InteractionManager.diagram m))) as H.
    cbv zeta in H. change (Node.id node) with id.
    destruct (Diagram.selectElement id false rt1 _) as [rt2 d2].
    cbn [fst snd] in H. destruct H as [H1 [H2 [H3 [H4 [H5 _]]]]].
    assert (A2 : Node.toJSON (Runtime.nodeStore rt2) node
                 = Node.mkJSON id (Point.mk (Point.x point) (Point.y point))
                     "New Node" (lit 60) Style.DEFAULT_STYLE HAND_DRAWN).
    { destruct (PointerUp.sameRt_fields rt1 rt2 (Node.addr node) H3)
        as [E1 [E2 [E3 [E4 [E5 _]]]]].
      unfold Node.toJSON, Node.read. rewrite E1, E2, E3, E4, E5.
      subst rt1. cbn. rewrite Nat.eqb_refl. reflexivity. }
    assert (A3 : Node.isSelected (Node.read (Runtime.nodeStore rt2) node)
                 = true).
    { apply H5. unfold Diagram.addNode. cbn [Diagram.nodes Diagram.with_nodes].
      apply JsMapFacts.get_set_same. }
    unfold InteractionManager.requestTool.
    cbn [InteractionManager.with_diagram InteractionManager.onToolChange
         InteractionManager.with_mousePosition
         InteractionManager.with_dragStartPoint].
    destruct (InteractionManager.onToolChange m); cbn;
      rewrite <- ?app_assoc;
      exact (conj H1 (conj A2 (conj A3 (conj H2 (conj H4
               (conj eq_refl eq_refl)))))).
  - unfold InteractionManager.handleTextCreation, Runtime.newTextLabel.
    cbn [InteractionManager.diagram fst snd].
    set (label := TextLabel.new (Runtime.textLabelNextId rt) point "Text").
    set (id := mint "text-" (Runtime.textLabelNextId rt)).
    change (TextLabel.id label) with id.
    pose proof (Creation.selectElement_shape id (Runtime.bumpTextLabel rt)
                  (Diagram.addTextLabel label (InteractionManager.diagram m)))
      as H.
    cbv zeta in H.
    destruct (Diagram.selectElement id false _ _) as [rt2 d2].
    cbn [fst snd] in H. destruct H as [_ [H2 [_ [H4 [_ H6]]]]].
    assert (A1 : JsMap.get id (Diagram.textLabels d2)
                 = Some (TextLabel.setSelected label true)).
    { rewrite H6. unfold Diagram.addTextLabel.
      cbn [Diagram.textLabels Diagram.with_textLabels].
      change (TextLabel.id label) with id.
      now rewrite JsMapFacts.get_set_same. }
    assert (A2 : JsMap.keys (Diagram.textLabels d2)
                 = JsMap.keys (JsMap.set id label
                     (Diagram.textLabels (InteractionManager.diagram m)))).
    { destruct H4 as [_ _ HL _].
      apply (Skeleton.mapv_keys Skeleton.eraseL) in HL. rewrite HL.
      reflexivity. }
    unfold InteractionManager.requestTool.
    cbn [InteractionManager.with_diagram InteractionManager.onToolChange
         InteractionManager.with_mousePosition
         InteractionManager.with_dragStartPoint].
    destruct (InteractionManager.onToolChange m); cbn;
      rewrite <- ?app_assoc;
      exact (conj A1 (conj A2 (conj H2 (conj H4 (conj eq_refl eq_refl))))).
Qed.
End X14.

(** * Committing a text edit (InteractionManager.updateElementText) *)

Module TextEditing.
Section WithNumber.
Context {N : JSNumber}.

  (** [String.prototype.trim], which the model of strings does not fix. *)
Variable trim : string -> string.

  (* !text || text.trim() === '' *)
Definition blank (text : string) : bool :=
    String.eqb text "" || String.eqb (trim text) "".

Definition updateElementText (elementId text : string) (rt : Runtime.t)
      (this : InteractionManager.t) : Runtime.t * InteractionManager.t :=
    let d := InteractionManager.diagram this in
    let rt1 :=
      match Diagram.getNode elementId d with
      | Some node =>
          Runtime.with_nodeStore rt
            (Node.setText (Runtime.nodeStore rt) node text)
      | None => rt
      end in
    let d1 :=
      match Diagram.getTextLabel elementId d with
      | Some _ =>
          if blank text then Diagram.removeTextLabel elementId d
          else
            Diagram.with_textLabels d
              (JsMap.update elementId (fun l => TextLabel.setText l text)
                 (Diagram.textLabels d))
      | None => d
      end in
    (rt1,
     InteractionManager.onUpdate
       (InteractionManager.with_mode
          (InteractionManager.with_diagram this d1) IDLE)).
End WithNumber.

Lemma set_has_delete (k k' : string) (s : JsSet.t) :
    JsSet.has k' (JsSet.delete k s)
    = negb (String.eqb k k') && JsSet.has k' s.
Proof.
  unfold JsSet.has, JsSet.delete. induction s as [|x s IH]; cbn.
  - now rewrite andb_false_r.
  - destruct (String.eqb k x) eqn:E; cbn; rewrite IH.
    + apply String.eqb_eq in E. subst x.
      rewrite (String.eqb_sym k' k).
      destruct (String.eqb k k'); reflexivity.
    + destruct (String.eqb k' x) eqn:E'; cbn.
      * apply String.eqb_eq in E'. subst x. now rewrite E.
      * reflexivity.
  Qed.
End TextEditing.

Section X16.
Context {N : JSNumber}.
Variable trim : string -> string.

(** X16.  Committing a text for an element always returns the manager to
    the idle mode and notifies one update.  A node takes the text as it
    is, even an empty one: its record is the one from before with the new
    text, every other node object keeps its record, and the counters and
    the console are untouched; without a node under the id the runtime is
    unchanged.  A text label takes a text that is not blank: it becomes
    the label from before with the new text and a width of 10 for every
    UTF-16 code unit of the text, at least 100.  A blank text, empty or
    trimmed to nothing, deletes the label and takes its id out of the
    selection.  The collections of nodes, arrows and whiteboards and every
    other label stay as they are. *)
Theorem X16_updateElementText (id text : string) (rt : Runtime.t)
    (m : InteractionManager.t) :
  let r := TextEditing.updateElementText trim id text rt m in
  let d := InteractionManager.diagram m in
  let d' := InteractionManager.diagram (snd r) in
  let s := Runtime.nodeStore rt in
  let s' := Runtime.nodeStore (fst r) in
  InteractionManager.mode (snd r) = IDLE
  /\ InteractionManager.emitted (snd r)
     = InteractionManager.emitted m ++ [Update]
  /\ Diagram.nodes d' = Diagram.nodes d
  /\ Diagram.arrows d' = Diagram.arrows d
  /\ Diagram.whiteboards d' = Diagram.whiteboards d
  /\ match Diagram.getNode id d with
     | Some node =>
         Node.read s' node = Node.with_text (Node.read s node) text
         /\ (forall other, Node.addr other <> Node.addr node ->
               Node.read s' other = Node.read s other)
         /\ Node.nextAddr s' = Node.nextAddr s
         /\ Node.nextId s' = Node.nextId s
         /\ Runtime.arrowNextId (fst r) = Runtime.arrowNextId rt
         /\ Runtime.textLabelNextId (fst r) = Runtime.textLabelNextId rt
         /\ Runtime.whiteboardNextId (fst r) = Runtime.whiteboardNextId rt
         /\ Runtime.console (fst r) = Runtime.console rt
     | None => fst r = rt
     end
  /\ (forall k, k <> id ->
        Diagram.getTextLabel k d' = Diagram.getTextLabel k d)
  /\ match Diagram.getTextLabel id d with
     | Some label =>
         if TextEditing.blank trim text
         then Diagram.getTextLabel id d' = None
              /\ JsSet.has id (Diagram.selectedElementIds d') = false
              /\ (forall k, k <> id ->
                    JsSet.has k (Diagram.selectedElementIds d')
                    = JsSet.has k (Diagram.selectedElementIds d))
         else Diagram.getTextLabel id d' = Some (TextLabel.setText label text)
              /\ TextLabel.text (TextLabel.setText label text) = text
              /\ TextLabel.width (TextLabel.setText label text)
                 = nmax (lit 100)
                     (nmul (lit (Z.of_nat (JsString.length text))) (lit 10))
              /\ Diagram.selectedElementIds d' = Diagram.selectedElementIds d
     | None => Diagram.textLabels d' = Diagram.textLabels d
               /\ Diagram.selectedElementIds d'
                  = Diagram.selectedElementIds d
     end.
Proof.
  intros r d d' s s'. subst r d' s'. unfold TextEditing.updateElementText.
  fold d.
  cbn [fst snd InteractionManager.mode InteractionManager.emitted
       InteractionManager.diagram InteractionManager.onUpdate
       InteractionManager.emit InteractionManager.with_mode
       InteractionManager.with_diagram].
  split; [reflexivity|]. split; [reflexivity|].
  split; [|split; [|split; [|split; [|split]]]].
  - destruct (Diagram.getTextLabel id d);
      [destruct (TextEditing.blank trim text)|]; reflexivity.
  - destruct (Diagram.getTextLabel id d);
      [destruct (TextEditing.blank trim text)|]; reflexivity.
  - destruct (Diagram.getTextLabel id d);
      [destruct (TextEditing.blank trim text)|]; reflexivity.
  - destruct (Diagram.getNode id d) as [node|]; [|reflexivity].
    cbn [Runtime.with_nodeStore Runtime.nodeStore Runtime.arrowNextId
         Runtime.textLabelNextId Runtime.whiteboardNextId Runtime.console].
    fold s. unfold Node.setText, Node.read, Node.write.
    cbn [Node.heap Node.nextAddr Node.nextId Node.addr].
    split; [now rewrite Nat.eqb_refl|]. split; [|now repeat split].
    intros other Ho. apply Nat.eqb_neq in Ho. now rewrite Ho.
  - intros k Hk. unfold Diagram.getTextLabel.
    destruct (JsMap.get id (Diagram.textLabels d));
      [destruct (TextEditing.blank trim text)|]; cbn; try reflexivity.
    + rewrite JsMapFacts.get_delete.
      destruct (String.eqb id k) eqn:E; [|reflexivity].
      apply String.eqb_eq in E. congruence.
    + rewrite JsMapFacts.get_update.
      destruct (String.eqb id k) eqn:E; [|reflexivity].
      apply String.eqb_eq in E. congruence.
  - destruct (Diagram.getTextLabel id d) as [label|] eqn:Hl;
      [|split; reflexivity].
    unfold Diagram.getTextLabel in *.
    destruct (TextEditing.blank trim text);
      cbn [Diagram.textLabels Diagram.selectedElementIds
           Diagram.removeTextLabel Diagram.with_textLabels].
    + rewrite JsMapFacts.get_delete, String.eqb_refl.
      split; [reflexivity|]. split.
      * now rewrite TextEditing.set_has_delete, String.eqb_refl.
      * intros k Hk. rewrite TextEditing.set_has_delete.
        destruct (String.eqb id k) eqn:E; [|reflexivity].
        apply String.eqb_eq in E. congruence.
    + rewrite JsMapFacts.get_update, String.eqb_refl, Hl.
      repeat split.
Qed.
End X16.

Module TextExample.
(** A fresh diagram with one label, and the manager on it. *)
Definition withT : Runtime.t * TextLabel.t :=
  Runtime.newTextLabel (fst Example.fresh) (Example.pt 10 10) "Text".

Definition manager : InteractionManager.t :=
  InteractionManager.new (Diagram.addTextLabel (snd withT) (snd Example.fresh)).

  (** Eleven letters of two bytes each. *)
Definition accented : string := "ééééééééééé".
End TextExample.

(** X16 on the integer grid: a text of eleven accented letters, 22 bytes
    in UTF-8 and 11 code units in UTF-16, makes the label 110 wide. *)
Lemma X16_witness :
  String.length TextExample.accented = 22
  /\ JsString.length TextExample.accented = 11
  /\ option_map TextLabel.width
       (Diagram.getTextLabel "text-0"
          (InteractionManager.diagram
             (snd (TextEditing.updateElementText (fun t => t) "text-0"
                     TextExample.accented (fst TextExample.withT)
                     TextExample.manager))))
     = Some 110%Z.
Proof.
  split; [reflexivity|]. split; [reflexivity|].
  pose proof (@X16_updateElementText ZNumber (fun t => t) "text-0"
                TextExample.accented (fst TextExample.withT)
                TextExample.manager) as H.
  cbv zeta in H. destruct H as [_ [_ [_ [_ [_ [_ [_ H]]]]]]].
  change (Diagram.getTextLabel "text-0"
            (InteractionManager.diagram TextExample.manager))
    with (Some (snd TextExample.withT)) in H.
  change (TextEditing.blank (fun t => t) TextExample.accented) with false in H.
  destruct H as [H [_ [W _]]]. rewrite H. cbn [option_map]. now rewrite W.
Defined.

(** * Keyboard shortcuts (KeyboardShortcutManager) *)

Module KeyboardShortcutManager.
Section WithAction.

  (** What a shortcut runs, and [String.prototype.toLowerCase]. *)
Variable Action : Type.
Variable toLowerCase : string -> string.

  (* interface ShortcutAction; an optional modifier is [None] when left out *)
Record ShortcutAction : Type := mkShortcut {
    key : string;
    ctrl : option bool;
    meta : option bool;
    shift : option bool;
    alt : option bool;
    description : string;
    action : Action
  }.

Record Modifiers : Type := mkModifiers {
    m_ctrl : option bool;
    m_meta : option bool;
    m_shift : option bool;
    m_alt : option bool
  }.

  (* the part of a KeyboardEvent that the manager reads *)
Record KeyboardEvent : Type := mkEvent {
    e_key : string;
    ctrlKey : bool;
    metaKey : bool;
    shiftKey : bool;
    altKey : bool;
    tagName : string;
    isContentEditable : bool
  }.

Inductive Effect : Type :=
  | PreventDefault
  | StopPropagation
  | Run (a : Action).

Record t : Type := mk {
    shortcuts : JsMap.t ShortcutAction;
    enabled : bool
  }.

Definition new : t := mk [] true.

Definition isTrue (o : option bool) : bool :=
    match o with Some b => b | None => false end.

  (* parts.join('+') *)
Fixpoint join (parts : list string) : string :=
    match parts with
    | [] => ""
    | [p] => p
    | p :: rest => p ++ "+" ++ join rest
    end.

Definition createKey (key : string) (modifiers : option Modifiers) : string :=
    let on (f : Modifiers -> option bool) :=
      match modifiers with Some ms => isTrue (f ms) | None => false end in
    let parts :=
      (if on m_ctrl then ["ctrl"] else [])
      ++ (if on m_meta then ["meta"] else [])
      ++ (if on m_shift then ["shift"] else [])
      ++ (if on m_alt then ["alt"] else [])
      ++ [toLowerCase key] in
    join parts.

  (* the object literal passed on has no alt member *)
Definition getShortcutKey (shortcut : ShortcutAction) : string :=
    createKey (key shortcut)
      (Some (mkModifiers (ctrl shortcut) (meta shortcut) (shift shortcut) None)).

Definition createKeyFromEvent (event : KeyboardEvent) : string :=
    createKey (e_key event)
      (Some (mkModifiers (Some (ctrlKey event)) (Some (metaKey event))
               (Some (shiftKey event)) (Some (altKey event)))).

Definition register (shortcut : ShortcutAction) (this : t) : t :=
    mk (JsMap.set (getShortcutKey shortcut) shortcut (shortcuts this))
       (enabled this).

Definition unregister (key : string) (modifiers : option Modifiers)
      (this : t) : t :=
    mk (JsMap.delete (createKey key modifiers) (shortcuts this))
       (enabled this).

Definition typing (event : KeyboardEvent) : bool :=
    String.eqb (tagName event) "INPUT"
    || String.eqb (tagName event) "TEXTAREA"
    || isContentEditable event.

  (* the returned flag and what was done to the event and run *)
Definition handleKeyDown (event : KeyboardEvent) (this : t)
      : bool * list Effect :=
    if negb (enabled this) then (false, [])
    else if typing event then (false, [])
    else
      match JsMap.get (createKeyFromEvent event) (shortcuts this) with
      | Some shortcut =>
          (true, [PreventDefault; StopPropagation; Run (action shortcut)])
      | None => (false, [])
      end.

Definition setEnabled (enabled : bool) (this : t) : t :=
    mk (shortcuts this) enabled.

Definition isEnabled (this : t) : bool := enabled this.

Definition getAllShortcuts (this : t) : list ShortcutAction :=
    JsMap.values (shortcuts this).

Definition clear (this : t) : t := mk (JsMap.clear (shortcuts this)) (enabled this).

  (** The event that a shortcut is stored for: its key in any case, its
      control, meta and shift modifiers, and no alt. *)
Definition stored (shortcut : ShortcutAction) (event : KeyboardEvent) : Prop :=
    toLowerCase (e_key event) = toLowerCase (key shortcut)
    /\ ctrlKey event = isTrue (ctrl shortcut)
    /\ metaKey event = isTrue (meta shortcut)
    /\ shiftKey event = isTrue (shift shortcut)
    /\ altKey event = false.

Lemma stored_key shortcut event :
    stored shortcut event ->
    createKeyFromEvent event = getShortcutKey shortcut.
Proof.
  intros [Hk [Hc [Hm [Hs Ha]]]].
  unfold createKeyFromEvent, getShortcutKey, createKey.
  cbn [m_ctrl m_meta m_shift m_alt isTrue].
  now rewrite Hk, Hc, Hm, Hs, Ha.
Qed.
End WithAction.

Arguments mkShortcut {Action}.
Arguments key {Action}.
Arguments ctrl {Action}.
Arguments meta {Action}.
Arguments shift {Action}.
Arguments alt {Action}.
Arguments description {Action}.
Arguments action {Action}.
Arguments PreventDefault {Action}.
Arguments StopPropagation {Action}.
Arguments Run {Action}.
Arguments mk {Action}.
Arguments shortcuts {Action}.
Arguments enabled {Action}.
Arguments new {Action}.
Arguments getShortcutKey {Action}.
Arguments register {Action}.
Arguments unregister {Action}.
Arguments handleKeyDown {Action}.
Arguments setEnabled {Action}.
Arguments isEnabled {Action}.
Arguments getAllShortcuts {Action}.
Arguments clear {Action}.
Arguments stored {Action}.
Arguments stored_key {Action}.
End KeyboardShortcutManager.

Section X17.
Variable Action : Type.
Variable toLowerCase : string -> string.

Let K := KeyboardShortcutManager.t Action.

(** X17.  A disabled manager, and any manager for an event whose target
    is an input, a text area or editable content, handles nothing: it
    returns false and touches neither the event nor any action.
    Otherwise a shortcut that was just registered is run, after the
    event's default and propagation are stopped, by every event with the
    same key in any letter case and the same control, meta and shift
    modifiers while alt is up; the alt member of the registered shortcut
    plays no part, so a shortcut registered with alt fires without it.
    Registering again under the same key and modifiers replaces the
    earlier action, and unregistering with the key and these three
    modifiers makes the same event unhandled again. *)
Theorem X17_shortcut_dispatch
    (sc : KeyboardShortcutManager.ShortcutAction Action)
    (ev : KeyboardShortcutManager.KeyboardEvent) (this : K) :
  let fired (s : KeyboardShortcutManager.ShortcutAction Action) :=
    (true,
     [KeyboardShortcutManager.PreventDefault;
      KeyboardShortcutManager.StopPropagation;
      KeyboardShortcutManager.Run (KeyboardShortcutManager.action s)]) in
  (KeyboardShortcutManager.enabled this = false
   \/ KeyboardShortcutManager.typing ev = true ->
   KeyboardShortcutManager.handleKeyDown toLowerCase ev this = (false, []))
  /\ (KeyboardShortcutManager.enabled this = true ->
      KeyboardShortcutManager.typing ev = false ->
      KeyboardShortcutManager.stored toLowerCase sc ev ->
      KeyboardShortcutManager.handleKeyDown toLowerCase ev
        (KeyboardShortcutManager.register toLowerCase sc this)
      = fired sc
      /\ (forall sc' : KeyboardShortcutManager.ShortcutAction Action,
            KeyboardShortcutManager.stored toLowerCase sc' ev ->
            KeyboardShortcutManager.handleKeyDown toLowerCase ev
              (KeyboardShortcutManager.register toLowerCase sc'
                 (KeyboardShortcutManager.register toLowerCase sc this))
            = fired sc')
      /\ KeyboardShortcutManager.handleKeyDown toLowerCase ev
           (KeyboardShortcutManager.unregister toLowerCase
              (KeyboardShortcutManager.key sc)
              (Some (KeyboardShortcutManager.mkModifiers
                       (KeyboardShortcutManager.ctrl sc)
                       (KeyboardShortcutManager.meta sc)
                       (KeyboardShortcutManager.shift sc) None))
              (KeyboardShortcutManager.register toLowerCase sc this))
         = (false, [])).
Proof.
  intros fired. subst fired. split.
  - unfold KeyboardShortcutManager.handleKeyDown. intros [H|H]; rewrite H.
    + reflexivity.
    + now destruct (negb _).
  - intros He Ht Hs.
    pose proof (KeyboardShortcutManager.stored_key _ _ _ Hs) as Hk.
    unfold KeyboardShortcutManager.handleKeyDown,
      KeyboardShortcutManager.register, KeyboardShortcutManager.unregister.
    cbn [KeyboardShortcutManager.enabled KeyboardShortcutManager.shortcuts].
    rewrite He, Ht. cbn [negb]. rewrite Hk. split; [|split].
    + now rewrite JsMapFacts.get_set_same.
    + intros sc' Hs'.
      pose proof (KeyboardShortcutManager.stored_key _ _ _ Hs') as Hk'.
      rewrite <- Hk', Hk. now rewrite JsMapFacts.get_set_same.
    + change (KeyboardShortcutManager.createKey toLowerCase
                (KeyboardShortcutManager.key sc) _)
        with (KeyboardShortcutManager.getShortcutKey toLowerCase sc).
      now rewrite JsMapFacts.get_delete, String.eqb_refl.
Qed.
End X17.

(** * The laser trail (LaserTrail) *)

Module LaserTrail.
Section WithNumber.
Context {N : JSNumber}.
Local Open Scope js_scope.

Record TrailPoint : Type := mkTrailPoint {
    point : Point.t;
    timestamp : num
  }.

Record t : Type := mk {
    trail : list TrailPoint;
    maxAge : num;
    maxPoints : num
  }.

  (* constructor(maxAge = 800, maxPoints = 100) *)
Definition new (maxAge maxPoints : option num) : t :=
    mk []
       (match maxAge with Some a => a | None => lit 800 end)
       (match maxPoints with Some n => n | None => lit 100 end).

  (** Every operation that reads the clock takes the reading, [now]. *)
Definition addPoint (now : num) (p : Point.t) (this : t) : t :=
    let pushed := trail this ++ [mkTrailPoint p now] in
    mk (if lit (Z.of_nat (List.length pushed)) >? maxPoints this
        then tl pushed else pushed)
       (maxAge this) (maxPoints this).

Definition cleanup (now : num) (this : t) : t :=
    mk (filter (fun tp => now - timestamp tp <? maxAge this) (trail this))
       (maxAge this) (maxPoints this).

Definition getTrailPoints (now : num) (this : t) : list (Point.t * num) :=
    map (fun tp =>
           let age := now - timestamp tp in
           (point tp, nmax (lit 0) (lit 1 - age / maxAge this)))
        (trail this).

Definition clear (this : t) : t := mk [] (maxAge this) (maxPoints this).

Definition isEmpty (this : t) : bool :=
    Nat.eqb (List.length (trail this)) 0.

Definition getCurrentPoint (this : t) : option Point.t :=
    match trail this with
    | [] => None
    | tp :: rest => Some (point (last rest tp))
    end.

  (** A run of [addPoint], each with the clock reading of its call. *)
Definition feed (ps : list (num * Point.t)) (this : t) : t :=
    fold_left (fun t np => addPoint (fst np) (snd np) t) ps this.

Definition entry (np : num * Point.t) : TrailPoint :=
    mkTrailPoint (snd np) (fst np).
End WithNumber.

  (** The last [n] members of a list. *)
Definition lastn [A : Type] (n : nat) (l : list A) : list A :=
    skipn (List.length l - n) l.

Lemma skipn_snoc [A : Type] (x : A) (l : list A) (k : nat) :
    (k <= List.length l)%nat ->
    skipn (S k) (l ++ [x]) = tl (skipn k l ++ [x]).
Proof.
  revert k. induction l as [|y l IH]; intros k Hk.
  - destruct k; [reflexivity|cbn in Hk; lia].
  - destruct k as [|k]; [reflexivity|].
    cbn in Hk. apply (IH k). lia.
Qed.

Lemma lastn_snoc [A : Type] (n : nat) (l : list A) (x : A) :
    lastn n (l ++ [x])
    = if Nat.ltb (List.length l) n then l ++ [x]
      else tl (lastn n l ++ [x]).
Proof.
  unfold lastn. rewrite length_app. cbn [List.length].
  destruct (Nat.ltb (List.length l) n) eqn:E.
  - apply Nat.ltb_lt in E.
    replace (List.length l + 1 - n)%nat with 0%nat by lia. reflexivity.
  - apply Nat.ltb_ge in E.
    replace (List.length l + 1 - n)%nat with (S (List.length l - n)) by lia.
    apply skipn_snoc. lia.
Qed.

Lemma lastn_length [A : Type] (n : nat) (l : list A) :
    List.length (lastn n l) = Nat.min n (List.length l).
Proof. unfold lastn. rewrite length_skipn. lia. Qed.
End LaserTrail.

Module LaserTrailFacts.
Lemma feed_snoc (ps : list (@num ZNumber * @Point.t ZNumber)) (np : @num ZNumber * @Point.t ZNumber)
      (t : @LaserTrail.t ZNumber) :
    @LaserTrail.feed ZNumber (ps ++ [np]) t
    = @LaserTrail.addPoint ZNumber (fst np) (snd np) (@LaserTrail.feed ZNumber ps t).
Proof. unfold LaserTrail.feed. now rewrite fold_left_app. Qed.

Lemma feed_maxPoints (ps : list (@num ZNumber * @Point.t ZNumber))
      (t : @LaserTrail.t ZNumber) :
    LaserTrail.maxPoints (@LaserTrail.feed ZNumber ps t) = LaserTrail.maxPoints t.
Proof.
  induction ps as [|np ps IH] using rev_ind; [reflexivity|].
  now rewrite feed_snoc.
Qed.

Lemma feed_trail (ps : list (@num ZNumber * @Point.t ZNumber))
      (t : @LaserTrail.t ZNumber) :
    LaserTrail.trail (@LaserTrail.feed ZNumber ps (LaserTrail.clear t))
    = LaserTrail.lastn (Z.to_nat (LaserTrail.maxPoints t))
        (map (@LaserTrail.entry ZNumber) ps).
Proof.
  induction ps as [|np ps IH] using rev_ind; [reflexivity|].
  rewrite feed_snoc, map_app. cbn [map].
  rewrite LaserTrail.lastn_snoc. unfold LaserTrail.addPoint.
  cbn [LaserTrail.trail]. rewrite feed_maxPoints, IH.
  cbn [LaserTrail.clear LaserTrail.maxPoints].
  change (LaserTrail.mkTrailPoint (snd np) (fst np))
    with (@LaserTrail.entry ZNumber np).
  rewrite length_app, LaserTrail.lastn_length. cbn [List.length].
  set (n := Z.to_nat (LaserTrail.maxPoints t)).
  set (E := map (@LaserTrail.entry ZNumber) ps).
  cbn [nlt lit ZNumber].
  destruct (Nat.ltb (List.length E) n) eqn:C.
  - apply Nat.ltb_lt in C.
    replace (LaserTrail.maxPoints t <? _)%Z with false
      by (symmetry; apply Z.ltb_ge; subst n; lia).
    unfold LaserTrail.lastn.
    replace (List.length E - n)%nat with 0%nat by lia. reflexivity.
  - apply Nat.ltb_ge in C.
    replace (LaserTrail.maxPoints t <? _)%Z with true
      by (symmetry; apply Z.ltb_lt; subst n; lia).
    reflexivity.
Qed.

Lemma current_snoc (r : list (@LaserTrail.TrailPoint ZNumber))
      (e : LaserTrail.TrailPoint) (a b : Z) :
    LaserTrail.getCurrentPoint (LaserTrail.mk (r ++ [e]) a b)
    = Some (LaserTrail.point e).
Proof.
  unfold LaserTrail.getCurrentPoint. cbn [LaserTrail.trail].
  destruct r as [|x r]; [reflexivity|].
  cbn [app]. now rewrite last_last.
Qed.
End LaserTrailFacts.

(** X18.  On integer clock readings and an integer capacity: after the
    trail is emptied, any run of added points leaves in it exactly the
    most recent ones, as many as the capacity [maxPoints] allows (none for
    a capacity of zero or less), oldest first and each with the clock
    reading of its own call.  So the trail never holds more points than
    the capacity, and the current point is the last one added as soon as
    the capacity is positive. *)
Theorem X18_laser_trail_window (t0 : @LaserTrail.t ZNumber)
    (ps : list (@num ZNumber * @Point.t ZNumber)) :
  let n := Z.to_nat (LaserTrail.maxPoints t0) in
  let t := @LaserTrail.feed ZNumber ps (LaserTrail.clear t0) in
  LaserTrail.trail t = LaserTrail.lastn n (map (@LaserTrail.entry ZNumber) ps)
  /\ (List.length (LaserTrail.trail t) <= n)%nat
  /\ LaserTrail.isEmpty t = (Nat.eqb n 0 || Nat.eqb (List.length ps) 0)
  /\ LaserTrail.getCurrentPoint t
     = match rev ps with
       | np :: _ =>
           if (0 <? LaserTrail.maxPoints t0)%Z then Some (snd np) else None
       | [] => None
       end.
Proof.
  intros n t. pose proof (LaserTrailFacts.feed_trail ps t0) as H.
  fold n t in H. split; [exact H|]. split; [|split].
  - rewrite H, LaserTrail.lastn_length. lia.
  - unfold LaserTrail.isEmpty.
    rewrite H, LaserTrail.lastn_length, length_map.
    destruct n, (List.length ps); reflexivity.
  - destruct ps as [|np ps] using rev_ind; [reflexivity|].
    rewrite rev_app_distr. cbn [rev app].
    destruct t as [tr a b]. cbn [LaserTrail.trail] in H. rewrite H.
    rewrite map_app. cbn [map]. rewrite LaserTrail.lastn_snoc.
    destruct (0 <? LaserTrail.maxPoints t0)%Z eqn:C.
    + apply Z.ltb_lt in C.
      destruct (Nat.ltb _ n) eqn:D; [apply LaserTrailFacts.current_snoc|].
      apply Nat.ltb_ge in D.
      pose proof (LaserTrail.lastn_length n (map (@LaserTrail.entry ZNumber) ps)) as L.
      destruct (LaserTrail.lastn n (map (@LaserTrail.entry ZNumber) ps)) as [|x r].
      * cbn [List.length] in L. subst n. lia.
      * cbn [app tl]. apply LaserTrailFacts.current_snoc.
    + apply Z.ltb_ge in C.
      assert (n = 0%nat) as -> by (subst n; lia).
      cbn [Nat.ltb Nat.leb]. unfold LaserTrail.lastn.
      rewrite Nat.sub_0_r, skipn_all. reflexivity.
Qed.

(** * The clipboard (Diagram.copySelectedToClipboard, pasteFromClipboard) *)

Module Clipboard.
Section WithNumber.
Context {N : JSNumber}.
Local Open Scope js_scope.

  (** What [copySelectedToClipboard] writes for a label and for an arrow.
      A node entry has the members of [Node.JSON].  [pasteFromClipboard]
      also reads [lineStyle] from an arrow entry. *)
Record LabelData : Type := mkLabelData {
    l_id : string;
    l_position : Point.t;
    l_text : string;
    l_fontSize : num;
    l_color : Color;
    l_fontFamily : FontFamily
  }.

Record ArrowData : Type := mkArrowData {
    a_id : string;
    a_fromNodeId : string;
    a_toNodeId : string;
    a_strokeColor : Color;
    a_strokeWidth : StrokeWidth;
    a_lineStyle : option LineStyle
  }.

  (* an array that is read with [?.] is [None] when the member is missing *)
Record t : Type := mk {
    nodes : option (list Node.JSON);
    arrows : option (list ArrowData);
    textLabels : option (list LabelData)
  }.

  (** [JSON.stringify] and [JSON.parse] on clipboard data; [parse] gives
      [None] where [JSON.parse] throws.  Text that parses to a value of
      another shape, on which a loop of [pasteFromClipboard] would throw
      half way, has no counterpart in [t]. *)
Variable stringify : t -> string.
Variable parse : string -> option t.

Definition copyElement (s : Node.store) (d : Diagram.t) (selectedData : t)
      (id : string) : t :=
    let push [A : Type] (o : option (list A)) (x : A) : option (list A) :=
      match o with Some l => Some (l ++ [x]) | None => None end in
    let ns :=
      match JsMap.get id (Diagram.nodes d) with
      | Some node =>
          let f := Node.read s node in
          push (nodes selectedData)
            (Node.mkJSON (Node.id node)
               (Point.mk (Point.x (Node.position f))
                         (Point.y (Node.position f)))
               (Node.text f) (Node.radius f) (Node.style f)
               (Node.fontFamily f))
      | None => nodes selectedData
      end in
    let ls :=
      match JsMap.get id (Diagram.textLabels d) with
      | Some label =>
          push (textLabels selectedData)
            (mkLabelData (TextLabel.id label)
               (Point.mk (Point.x (TextLabel.position label))
                         (Point.y (TextLabel.position label)))
               (TextLabel.text label) (TextLabel.fontSize label)
               (TextLabel.color label) (TextLabel.fontFamily label))
      | None => textLabels selectedData
      end in
    let ars :=
      match JsMap.get id (Diagram.arrows d) with
      | Some arrow =>
          push (arrows selectedData)
            (mkArrowData (Arrow.id arrow) (Node.id (Arrow.fromNode arrow))
               (Node.id (Arrow.toNode arrow)) (Arrow.strokeColor arrow)
               (Arrow.strokeWidth arrow) None)
      | None => arrows selectedData
      end in
    mk ns ars ls.

Definition selectedData (rt : Runtime.t) (this : Diagram.t) : t :=
    fold_left (copyElement (Runtime.nodeStore rt) this)
      (Diagram.selectedElementIds this) (mk (Some []) (Some []) (Some [])).

Definition copySelectedToClipboard (rt : Runtime.t) (this : Diagram.t)
      : string :=
    stringify (selectedData rt this).

Definition items [A : Type] (o : option (list A)) : list A :=
    match o with Some l => l | None => [] end.

Definition pasteNode (offset : Point.t)
      (st : Runtime.t * Diagram.t * JsMap.t Node.t * list string)
      (nodeData : Node.JSON)
      : Runtime.t * Diagram.t * JsMap.t Node.t * list string :=
    let '(rt, d, nodeIdMap, newIds) := st in
    let '(rt1, node) :=
      Runtime.newNode rt
        (Point.mk (Point.x (Node.j_position nodeData) + Point.x offset)
                  (Point.y (Node.j_position nodeData) + Point.y offset))
        (Node.j_text nodeData) (Some (Node.j_style nodeData)) in
    let s1 := Runtime.nodeStore rt1 in
    let s2 :=
      Node.write s1 node
        (Node.with_radius (Node.read s1 node) (Node.j_radius nodeData)) in
    let s3 :=
      Node.write s2 node
        (Node.with_fontFamily (Node.read s2 node)
           (Node.j_fontFamily nodeData)) in
    (Runtime.with_nodeStore rt1 s3, Diagram.addNode node d,
     JsMap.set (Node.j_id nodeData) node nodeIdMap,
     newIds ++ [Node.id node]).

Definition pasteLabel (offset : Point.t)
      (st : Runtime.t * Diagram.t * list string) (labelData : LabelData)
      : Runtime.t * Diagram.t * list string :=
    let '(rt, d, newIds) := st in
    let '(rt1, l) :=
      Runtime.newTextLabel rt
        (Point.mk (Point.x (l_position labelData) + Point.x offset)
                  (Point.y (l_position labelData) + Point.y offset))
        (l_text labelData) in
    let label :=
      TextLabel.mk (TextLabel.id l) (TextLabel.position l) (TextLabel.text l)
        (l_fontSize labelData) (TextLabel.isSelected l)
        (TextLabel.isDragging l) (TextLabel.width l) (TextLabel.height l)
        (l_color labelData) (l_fontFamily labelData)
        (TextLabel.showBorder l) (TextLabel.borderStyle l)
        (TextLabel.borderColor l) (TextLabel.borderWidth l)
        (TextLabel.padding l) in
    (rt1, Diagram.addTextLabel label d, newIds ++ [TextLabel.id label]).

Definition pasteArrow (nodeIdMap : JsMap.t Node.t)
      (st : Runtime.t * Diagram.t * list string) (arrowData : ArrowData)
      : Runtime.t * Diagram.t * list string :=
    let '(rt, d, newIds) := st in
    match JsMap.get (a_fromNodeId arrowData) nodeIdMap,
          JsMap.get (a_toNodeId arrowData) nodeIdMap with
    | Some fromNode, Some toNode =>
        let '(rt1, arrow) :=
          Runtime.newArrow rt fromNode toNode
            (Some (a_strokeColor arrowData)) (Some (a_strokeWidth arrowData))
            (a_lineStyle arrowData) in
        (rt1, Diagram.addArrow arrow d, newIds ++ [Arrow.id arrow])
    | _, _ => st
    end.

Definition pasteError : string := "Failed to paste from clipboard:".

  (* pasteFromClipboard(clipboardData, offset = new Point(20, 20)) *)
Definition pasteFromClipboard (clipboardData : string)
      (offset : option Point.t) (rt : Runtime.t) (this : Diagram.t)
      : Runtime.t * Diagram.t * list string :=
    let off :=
      match offset with Some p => p | None => Point.mk (lit 20) (lit 20) end in
    match parse clipboardData with
    | Some data =>
        let '(rt1, d1, nodeIdMap, ids1) :=
          fold_left (pasteNode off) (items (nodes data)) (rt, this, [], []) in
        let '(rt2, d2, ids2) :=
          fold_left (pasteLabel off) (items (textLabels data))
            (rt1, d1, ids1) in
        let '(rt3, d3, newIds) :=
          fold_left (pasteArrow nodeIdMap) (items (arrows data))
            (rt2, d2, ids2) in
        let '(rt4, d4) := Diagram.clearSelection rt3 d3 in
        let '(rt5, d5) := Diagram.selectElements newIds false rt4 d4 in
        (rt5, d5, newIds)
    | None => (Runtime.log rt pasteError, this, [])
    end.

  (** The arrow entries that are pasted: both end ids name node entries. *)
Definition carried (ns : list Node.JSON) (a : ArrowData) : bool :=
    existsb (String.eqb (a_fromNodeId a)) (map Node.j_id ns)
    && existsb (String.eqb (a_toNodeId a)) (map Node.j_id ns).
End WithNumber.
End Clipboard.

Module ClipboardFacts.
Section WithNumber.
Context {N : JSNumber}.

  (** The size and border of a label that only ran through the
      constructor. *)
Definition labelDefaults (l : TextLabel.t) : Prop :=
  TextLabel.width l = lit 100 /\ TextLabel.height l = lit 30
  /\ TextLabel.showBorder l = false /\ TextLabel.borderStyle l = BORDER_SOLID
  /\ TextLabel.borderColor l = BLACK /\ TextLabel.borderWidth l = THIN
  /\ TextLabel.padding l = lit 8.

  (** A label pasted from the entry [ld]. *)
Definition labelFrom (off : Point.t) (ld : Clipboard.LabelData)
    (l : TextLabel.t) : Prop :=
  TextLabel.position l
  = Point.mk (nadd (Point.x (Clipboard.l_position ld)) (Point.x off))
             (nadd (Point.y (Clipboard.l_position ld)) (Point.y off))
  /\ TextLabel.text l = Clipboard.l_text ld
  /\ TextLabel.fontSize l = Clipboard.l_fontSize ld
  /\ TextLabel.color l = Clipboard.l_color ld
  /\ TextLabel.fontFamily l = Clipboard.l_fontFamily ld
  /\ labelDefaults l.

Definition lineStyleOf (ad : Clipboard.ArrowData) : LineStyle :=
  match Clipboard.a_lineStyle ad with Some l => l | None => LINE_SOLID end.

  (** An arrow pasted from the entry [ad], between the nodes that [m] has
      for the entry's end ids. *)
Definition arrowFrom (m : JsMap.t Node.t) (ad : Clipboard.ArrowData)
    (x : Arrow.t) : Prop :=
  JsMap.get (Clipboard.a_fromNodeId ad) m = Some (Arrow.fromNode x)
  /\ JsMap.get (Clipboard.a_toNodeId ad) m = Some (Arrow.toNode x)
  /\ Arrow.strokeColor x = Clipboard.a_strokeColor ad
  /\ Arrow.strokeWidth x = Clipboard.a_strokeWidth ad
  /\ Arrow.lineStyle x = lineStyleOf ad.

Lemma some_inj [A : Type] (x y : A) : Some x = Some y -> x = y.
Proof. now intros [= ->]. Qed.

Lemma labelFrom_erase off ld l l' :
  Skeleton.eraseL l' = Skeleton.eraseL l -> labelFrom off ld l ->
  labelFrom off ld l'.
Proof.
  intros E [H1 [H2 [H3 [H4 [H5 [H6 [H7 [H8 [H9 [H10 [H11 H12]]]]]]]]]]].
  unfold labelFrom, labelDefaults.
  rewrite <- H1, <- H2, <- H3, <- H4, <- H5, <- H6, <- H7, <- H8, <- H9,
    <- H10, <- H11, <- H12.
  repeat apply conj.
  - exact (f_equal TextLabel.position E).
  - exact (f_equal TextLabel.text E).
  - exact (f_equal TextLabel.fontSize E).
  - exact (f_equal TextLabel.color E).
  - exact (f_equal TextLabel.fontFamily E).
  - exact (f_equal TextLabel.width E).
  - exact (f_equal TextLabel.height E).
  - exact (f_equal TextLabel.showBorder E).
  - exact (f_equal TextLabel.borderStyle E).
  - exact (f_equal TextLabel.borderColor E).
  - exact (f_equal TextLabel.borderWidth E).
  - exact (f_equal TextLabel.padding E).
Qed.

Lemma arrowFrom_erase m ad x x' :
  Skeleton.eraseA x' = Skeleton.eraseA x -> arrowFrom m ad x ->
  arrowFrom m ad x'.
Proof.
  intros E [H1 [H2 [H3 [H4 H5]]]]. unfold arrowFrom.
  rewrite H1, H2, <- H3, <- H4, <- H5. repeat apply conj.
  - exact (f_equal (fun a => Some (Arrow.fromNode a)) (eq_sym E)).
  - exact (f_equal (fun a => Some (Arrow.toNode a)) (eq_sym E)).
  - exact (f_equal Arrow.strokeColor E).
  - exact (f_equal Arrow.strokeWidth E).
  - exact (f_equal Arrow.lineStyle E).
Qed.

Lemma pasteNode_step off rt d m ids nd :
  let r := Clipboard.pasteNode off (rt, d, m, ids) nd in
  let rt1 := fst (fst (fst r)) in
  let c := Node.nextId (Runtime.nodeStore rt) in
  let node := Node.mk (mint "node-" c) (Node.nextAddr (Runtime.nodeStore rt)) in
  snd r = ids ++ [mint "node-" c]
  /\ snd (fst r) = JsMap.set (Node.j_id nd) node m
  /\ snd (fst (fst r)) = Diagram.addNode node d
  /\ Node.nextId (Runtime.nodeStore rt1) = S c
  /\ Runtime.arrowNextId rt1 = Runtime.arrowNextId rt
  /\ Runtime.textLabelNextId rt1 = Runtime.textLabelNextId rt
  /\ Runtime.whiteboardNextId rt1 = Runtime.whiteboardNextId rt
  /\ Runtime.console rt1 = Runtime.console rt.
Proof. cbv zeta. repeat apply conj; reflexivity. Qed.

Lemma pasteNodes off ns : forall rt d m ids,
  let r := fold_left (Clipboard.pasteNode off) ns (rt, d, m, ids) in
  let rt1 := fst (fst (fst r)) in
  let d1 := snd (fst (fst r)) in
  let m1 := snd (fst r) in
  let c := Node.nextId (Runtime.nodeStore rt) in
  snd r = ids ++ map (mint "node-") (seq c (List.length ns))
  /\ Node.nextId (Runtime.nodeStore rt1) = c + List.length ns
  /\ Runtime.arrowNextId rt1 = Runtime.arrowNextId rt
  /\ Runtime.textLabelNextId rt1 = Runtime.textLabelNextId rt
  /\ Runtime.whiteboardNextId rt1 = Runtime.whiteboardNextId rt
  /\ Runtime.console rt1 = Runtime.console rt
  /\ Diagram.arrows d1 = Diagram.arrows d
  /\ Diagram.textLabels d1 = Diagram.textLabels d
  /\ Diagram.whiteboards d1 = Diagram.whiteboards d
  /\ Diagram.selectedElementIds d1 = Diagram.selectedElementIds d
  /\ (Scene.integrity d = true -> Scene.integrity d1 = true)
  /\ (Integrity.clonesPresent d m -> Integrity.clonesPresent d1 m1)
  /\ (forall k, JsMap.has k m1
                = JsMap.has k m
                  || existsb (String.eqb k) (map Node.j_id ns)).
Proof.
  induction ns as [|nd ns IH]; intros rt d m ids.
  - cbn. rewrite app_nil_r, Nat.add_0_r.
    repeat (split; [reflexivity|]). split; [tauto|]. split; [tauto|].
    intros k. now rewrite orb_false_r.
  - cbn [fold_left].
    pose proof (pasteNode_step off rt d m ids nd) as S.
    destruct (Clipboard.pasteNode off (rt, d, m, ids) nd)
      as [[[rt0 d0] m0] ids0].
    cbv zeta in S. cbn [fst snd] in S.
    destruct S as [S1 [S2 [S3 [S4 [S5 [S6 [S7 S8]]]]]]].
    specialize (IH rt0 d0 m0 ids0). cbv zeta in IH |- *.
    destruct IH as [I1 [I2 [I3 [I4 [I5 [I6 [I7 [I8 [I9 [I10 [I11 [I12 I13]]]]]]]]]]]].
    rewrite S4 in I1, I2. cbn [List.length seq map].
    refine (conj _ (conj _ (conj _ (conj _ (conj _ (conj _
              (conj _ (conj _ (conj _ (conj _ (conj _ (conj _ _)))))))))))).
    + rewrite I1, S1, <- app_assoc. reflexivity.
    + rewrite I2. lia.
    + congruence.
    + congruence.
    + congruence.
    + congruence.
    + rewrite I7, S3. reflexivity.
    + rewrite I8, S3. reflexivity.
    + rewrite I9, S3. reflexivity.
    + rewrite I10, S3. reflexivity.
    + intros H. apply I11. rewrite S3. now apply Integrity.addNode_integrity.
    + intros H. apply I12. intros kv Hin. rewrite S3. rewrite S2 in Hin.
      unfold Diagram.addNode. cbn [Diagram.nodes Diagram.with_nodes].
      rewrite JsMapFacts.has_set.
      apply JsMapFacts.in_set in Hin as [->|Hin]; cbn [snd Node.id].
      * now rewrite String.eqb_refl.
      * rewrite (H kv Hin). apply orb_true_r.
    + intros k. rewrite I13, S2, JsMapFacts.has_set. cbn [map existsb].
      destruct (String.eqb k (Node.j_id nd)), (JsMap.has k m); reflexivity.
Qed.

Lemma pasteLabel_step off rt d ids ld :
  let r := Clipboard.pasteLabel off (rt, d, ids) ld in
  let rt1 := fst (fst r) in
  let t := Runtime.textLabelNextId rt in
  exists label,
    snd r = ids ++ [mint "text-" t]
    /\ snd (fst r) = Diagram.addTextLabel label d
    /\ TextLabel.id label = mint "text-" t
    /\ labelFrom off ld label
    /\ Runtime.textLabelNextId rt1 = S t
    /\ Runtime.nodeStore rt1 = Runtime.nodeStore rt
    /\ Runtime.arrowNextId rt1 = Runtime.arrowNextId rt
    /\ Runtime.whiteboardNextId rt1 = Runtime.whiteboardNextId rt
    /\ Runtime.console rt1 = Runtime.console rt.
Proof.
  cbv zeta. unfold Clipboard.pasteLabel, Runtime.newTextLabel.
  eexists. unfold labelFrom, labelDefaults. cbn.
  repeat apply conj; reflexivity.
Qed.

Lemma pasteLabels off ls : forall rt d ids,
  let r := fold_left (Clipboard.pasteLabel off) ls (rt, d, ids) in
  let rt1 := fst (fst r) in
  let d1 := snd (fst r) in
  let t := Runtime.textLabelNextId rt in
  snd r = ids ++ map (mint "text-") (seq t (List.length ls))
  /\ Runtime.textLabelNextId rt1 = t + List.length ls
  /\ Runtime.nodeStore rt1 = Runtime.nodeStore rt
  /\ Runtime.arrowNextId rt1 = Runtime.arrowNextId rt
  /\ Runtime.whiteboardNextId rt1 = Runtime.whiteboardNextId rt
  /\ Runtime.console rt1 = Runtime.console rt
  /\ Diagram.nodes d1 = Diagram.nodes d
  /\ Diagram.arrows d1 = Diagram.arrows d
  /\ Diagram.whiteboards d1 = Diagram.whiteboards d
  /\ Diagram.selectedElementIds d1 = Diagram.selectedElementIds d
  /\ (forall k l, JsMap.get k (Diagram.textLabels d1) = Some l ->
        JsMap.get k (Diagram.textLabels d) = Some l
        \/ exists ld, In ld ls /\ labelFrom off ld l).
Proof.
  induction ls as [|ld ls IH]; intros rt d ids.
  - cbn. rewrite app_nil_r, Nat.add_0_r.
    repeat (split; [reflexivity|]). intros k l H. now left.
  - cbn [fold_left].
    pose proof (pasteLabel_step off rt d ids ld) as S.
    destruct (Clipboard.pasteLabel off (rt, d, ids) ld) as [[rt0 d0] ids0].
    cbv zeta in S. cbn [fst snd] in S.
    destruct S as [label [S1 [S2 [S3 [S4 [S5 [S6 [S7 [S8 S9]]]]]]]]].
    specialize (IH rt0 d0 ids0). cbv zeta in IH |- *.
    destruct IH as [I1 [I2 [I3 [I4 [I5 [I6 [I7 [I8 [I9 [I10 I11]]]]]]]]]].
    rewrite S5 in I1, I2. cbn [List.length seq map].
    refine (conj _ (conj _ (conj _ (conj _ (conj _ (conj _
              (conj _ (conj _ (conj _ (conj _ _)))))))))).
    + rewrite I1, S1, <- app_assoc. reflexivity.
    + rewrite I2. lia.
    + congruence.
    + congruence.
    + congruence.
    + congruence.
    + rewrite I7, S2. reflexivity.
    + rewrite I8, S2. reflexivity.
    + rewrite I9, S2. reflexivity.
    + rewrite I10, S2. reflexivity.
    + intros k l H. apply I11 in H as [H|[ld' [H1 H2]]];
        [|right; exists ld'; split; [now right|assumption]].
      rewrite S2 in H. unfold Diagram.addTextLabel in H.
      cbn [Diagram.textLabels Diagram.with_textLabels] in H.
      destruct (String.eqb (TextLabel.id label) k) eqn:E.
      * apply String.eqb_eq in E. subst k.
        rewrite JsMapFacts.get_set_same in H. injection H as <-.
        right. exists ld. split; [now left|assumption].
      * rewrite JsMapFacts.get_set_other in H; [now left|].
        intros Heq. rewrite Heq, String.eqb_refl in E. discriminate.
Qed.

Definition linked (m : JsMap.t Node.t) (ad : Clipboard.ArrowData) : bool :=
  JsMap.has (Clipboard.a_fromNodeId ad) m
  && JsMap.has (Clipboard.a_toNodeId ad) m.

Lemma pasteArrow_step m rt d ids ad :
  if linked m ad
  then exists fromNode toNode,
         JsMap.get (Clipboard.a_fromNodeId ad) m = Some fromNode
         /\ JsMap.get (Clipboard.a_toNodeId ad) m = Some toNode
         /\ Clipboard.pasteArrow m (rt, d, ids) ad
            = (Runtime.bumpArrow rt,
               Diagram.addArrow
                 (Arrow.new (Runtime.arrowNextId rt) fromNode toNode
                    (Some (Clipboard.a_strokeColor ad))
                    (Some (Clipboard.a_strokeWidth ad))
                    (Clipboard.a_lineStyle ad)) d,
               ids ++ [mint "arrow-" (Runtime.arrowNextId rt)])
  else Clipboard.pasteArrow m (rt, d, ids) ad = (rt, d, ids).
Proof.
  unfold linked, JsMap.has, Clipboard.pasteArrow.
  destruct (JsMap.get (Clipboard.a_fromNodeId ad) m) as [fromNode|];
    [destruct (JsMap.get (Clipboard.a_toNodeId ad) m) as [toNode|]|];
    cbn [andb]; try reflexivity.
  exists fromNode, toNode. repeat split.
Qed.

Lemma pasteArrows m ads : forall rt d ids,
  let r := fold_left (Clipboard.pasteArrow m) ads (rt, d, ids) in
  let rt1 := fst (fst r) in
  let d1 := snd (fst r) in
  let a := Runtime.arrowNextId rt in
  let n := List.length (filter (linked m) ads) in
  snd r = ids ++ map (mint "arrow-") (seq a n)
  /\ Runtime.arrowNextId rt1 = a + n
  /\ Runtime.nodeStore rt1 = Runtime.nodeStore rt
  /\ Runtime.textLabelNextId rt1 = Runtime.textLabelNextId rt
  /\ Runtime.whiteboardNextId rt1 = Runtime.whiteboardNextId rt
  /\ Runtime.console rt1 = Runtime.console rt
  /\ Diagram.nodes d1 = Diagram.nodes d
  /\ Diagram.textLabels d1 = Diagram.textLabels d
  /\ Diagram.whiteboards d1 = Diagram.whiteboards d
  /\ Diagram.selectedElementIds d1 = Diagram.selectedElementIds d
  /\ (Integrity.clonesPresent d m -> Scene.integrity d = true ->
      Scene.integrity d1 = true)
  /\ (forall k x, JsMap.get k (Diagram.arrows d1) = Some x ->
        JsMap.get k (Diagram.arrows d) = Some x
        \/ exists ad, In ad ads /\ arrowFrom m ad x).
Proof.
  induction ads as [|ad ads IH]; intros rt d ids.
  - cbn. rewrite app_nil_r, Nat.add_0_r.
    repeat (split; [reflexivity|]). split; [tauto|]. intros k x H. now left.
  - cbn [fold_left filter].
    pose proof (pasteArrow_step m rt d ids ad) as S.
    destruct (linked m ad).
    2: { rewrite S. specialize (IH rt d ids). cbv zeta in IH |- *.
         destruct IH as [I1 [I2 [I3 [I4 [I5 [I6 [I7 [I8 [I9 [I10 [I11 I12]]]]]]]]]]].
         repeat (split; [assumption|]).
         intros k x H. apply I12 in H as [H|[ad' [H1 H2]]];
           [now left|right; exists ad'; split; [now right|assumption]]. }
    destruct S as [fromNode [toNode [Ef [Et S]]]]. rewrite S.
    set (arrow := Arrow.new (Runtime.arrowNextId rt) fromNode toNode _ _ _).
    specialize (IH (Runtime.bumpArrow rt) (Diagram.addArrow arrow d)
                  (ids ++ [mint "arrow-" (Runtime.arrowNextId rt)])).
    cbv zeta in IH |- *.
    destruct IH as [I1 [I2 [I3 [I4 [I5 [I6 [I7 [I8 [I9 [I10 [I11 I12]]]]]]]]]]].
    cbn [Runtime.bumpArrow Runtime.arrowNextId Runtime.nodeStore
         Runtime.textLabelNextId Runtime.whiteboardNextId Runtime.console]
      in I1, I2, I3, I4, I5, I6.
    cbn [List.length seq map].
    refine (conj _ (conj _ (conj I3 (conj I4 (conj I5 (conj I6
              (conj I7 (conj I8 (conj I9 (conj I10 (conj _ _))))))))))).
    + rewrite I1, <- app_assoc. reflexivity.
    + rewrite I2. lia.
    + intros Hc Hi. apply I11.
      * intros kv Hin. apply (Hc kv Hin).
      * apply Integrity.addArrow_integrity; [|assumption].
        apply JsMapFacts.get_in in Ef, Et. apply Hc in Ef, Et.
        cbn [snd] in Ef, Et. unfold Scene.resolves.
        subst arrow. cbn [Arrow.new Arrow.fromNode Arrow.toNode].
        now rewrite Ef, Et.
    + intros k x H. apply I12 in H as [H|[ad' [H1 H2]]].
      * unfold Diagram.addArrow in H.
        cbn [Diagram.arrows Diagram.with_arrows] in H.
        destruct (String.eqb (Arrow.id arrow) k) eqn:E.
        -- apply String.eqb_eq in E. subst k.
           rewrite JsMapFacts.get_set_same in H. injection H as <-.
           right. exists ad. split; [now left|].
           unfold arrowFrom. subst arrow. cbn. now rewrite Ef, Et.
        -- rewrite JsMapFacts.get_set_other in H; [now left|].
           intros Heq. rewrite Heq, String.eqb_refl in E. discriminate.
      * right. exists ad'. split; [now right|assumption].
Qed.
End WithNumber.
End ClipboardFacts.

Module Paste.
Section WithNumber.
Context {N : JSNumber}.
Variable parse : string -> option Clipboard.t.

Lemma parsed (clipboardData : string) (offset : option Point.t)
    (rt : Runtime.t) (d : Diagram.t) (data : Clipboard.t) :
  parse clipboardData = Some data ->
  let r := Clipboard.pasteFromClipboard parse clipboardData offset rt d in
  let rt' := fst (fst r) in
  let d' := snd (fst r) in
  let off :=
    match offset with Some p => p | None => Point.mk (lit 20) (lit 20) end in
  let ns := Clipboard.items (Clipboard.nodes data) in
  let ls := Clipboard.items (Clipboard.textLabels data) in
  let ads :=
    filter (Clipboard.carried ns)
      (Clipboard.items (Clipboard.arrows data)) in
  let c := Node.nextId (Runtime.nodeStore rt) in
  let t := Runtime.textLabelNextId rt in
  let a := Runtime.arrowNextId rt in
  snd r = map (mint "node-") (seq c (List.length ns))
          ++ map (mint "text-") (seq t (List.length ls))
          ++ map (mint "arrow-") (seq a (List.length ads))
  /\ (forall id, In id (Diagram.selectedElementIds d') <-> In id (snd r))
  /\ Node.nextId (Runtime.nodeStore rt') = c + List.length ns
  /\ Runtime.textLabelNextId rt' = t + List.length ls
  /\ Runtime.arrowNextId rt' = a + List.length ads
  /\ Runtime.console rt' = Runtime.console rt
  /\ (forall k l, JsMap.get k (Diagram.textLabels d') = Some l ->
        (exists l0, JsMap.get k (Diagram.textLabels d) = Some l0
                    /\ Skeleton.eraseL l = Skeleton.eraseL l0)
        \/ exists ld, In ld ls /\ ClipboardFacts.labelFrom off ld l)
  /\ (forall k x, JsMap.get k (Diagram.arrows d') = Some x ->
        (exists x0, JsMap.get k (Diagram.arrows d) = Some x0
                    /\ Skeleton.eraseA x = Skeleton.eraseA x0)
        \/ exists ad, In ad ads
                      /\ Arrow.strokeColor x = Clipboard.a_strokeColor ad
                      /\ Arrow.strokeWidth x = Clipboard.a_strokeWidth ad
                      /\ Arrow.lineStyle x = ClipboardFacts.lineStyleOf ad)
  /\ (Scene.integrity d = true -> Scene.integrity d' = true)
  /\ Skeleton.mapv Skeleton.eraseW (Diagram.whiteboards d')
     = Skeleton.mapv Skeleton.eraseW (Diagram.whiteboards d).
Proof.
  intros Hp r rt' d' off. subst r rt' d'.
  unfold Clipboard.pasteFromClipboard. fold off. rewrite Hp.
  set (ns := Clipboard.items (Clipboard.nodes data)).
  set (ls := Clipboard.items (Clipboard.textLabels data)).
  set (ads := filter (Clipboard.carried ns) _).
  set (c := Node.nextId (Runtime.nodeStore rt)).
  set (t := Runtime.textLabelNextId rt).
  set (a := Runtime.arrowNextId rt).
  pose proof (ClipboardFacts.pasteNodes off ns rt d [] []) as P1.
  cbv zeta in P1.
  set (p1 := fold_left (Clipboard.pasteNode off) ns (rt, d, [], [])).
  change (fold_left (Clipboard.pasteNode off) ns (rt, d, [], []))
    with p1 in P1.
  clearbody p1. destruct p1 as [[[rt1 d1] m1] ids1].
  cbn [fst snd app] in P1. fold c in P1.
  destruct P1 as [N1 [N2 [N3 [N4 [N5 [N6 [N7 [N8 [N9 [N10 [N11 [N12 N13]]]]]]]]]]]].
  pose proof (ClipboardFacts.pasteLabels off ls rt1 d1 ids1) as P2.
  destruct (fold_left (Clipboard.pasteLabel off) ls (rt1, d1, ids1))
    as [[rt2 d2] ids2].
  cbv zeta in P2. cbn [fst snd] in P2.
  destruct P2 as [L1 [L2 [L3 [L4 [L5 [L6 [L7 [L8 [L9 [L10 L11]]]]]]]]]].
  pose proof (ClipboardFacts.pasteArrows m1
                (Clipboard.items (Clipboard.arrows data)) rt2 d2 ids2) as P3.
  destruct (fold_left (Clipboard.pasteArrow m1) _ (rt2, d2, ids2))
    as [[rt3 d3] newIds].
  cbv zeta in P3. cbn [fst snd] in P3.
  assert (F : filter (ClipboardFacts.linked m1)
                (Clipboard.items (Clipboard.arrows data)) = ads).
  { subst ads. apply filter_ext. intros ad.
    unfold ClipboardFacts.linked, Clipboard.carried.
    now rewrite !N13. }
  rewrite F in P3.
  destruct P3 as [A1 [A2 [A3 [A4 [A5 [A6 [A7 [A8 [A9 [A10 [A11 A12]]]]]]]]]]].
  pose proof (Skeleton.clearSelection_same rt3 d3) as [C1 C2].
  destruct (Diagram.clearSelection rt3 d3) as [rt4 d4]. cbn [fst snd] in C1, C2.
  pose proof (Skeleton.selectElements_same newIds false rt4 d4) as [E1 E2].
  pose proof (fun id => BoxSelect.selectElements_exactly newIds rt4 d4 id) as E3.
  destruct (Diagram.selectElements newIds false rt4 d4) as [rt5 d5].
  cbn [fst snd] in E1, E2, E3 |- *.
  pose proof (Skeleton.sameRt_trans _ _ _ C1 E1) as R.
  pose proof (Skeleton.same_trans _ _ _ C2 E2) as D.
  destruct R as [_ _ R3 R4 R5 _ R7]. destruct D as [D1 D2 D3 D4].
  refine (conj _ (conj E3 (conj _ (conj _ (conj _ (conj _
            (conj _ (conj _ (conj _ _))))))))).
  - rewrite A1, L1, N1, N4, L4, N3. now rewrite <- app_assoc.
  - rewrite R3, A3, L3. exact N2.
  - rewrite R5, A4, L2, N4. reflexivity.
  - rewrite R4, A2, L4, N3. reflexivity.
  - rewrite R7, A6, L6. exact N6.
  - intros k l H.
    pose proof (Skeleton.mapv_get Skeleton.eraseL _ _ k D3) as G.
    rewrite H, A8 in G. cbn [option_map] in G.
    destruct (JsMap.get k (Diagram.textLabels d2)) as [l2|] eqn:E;
      [|discriminate].
    apply ClipboardFacts.some_inj in G.
    apply L11 in E as [E|[ld [E1' E2']]].
    + left. exists l2. rewrite <- N8. now split.
    + right. exists ld. split; [assumption|].
      now apply (ClipboardFacts.labelFrom_erase off ld l2).
  - intros k x H.
    pose proof (Skeleton.mapv_get Skeleton.eraseA _ _ k D2) as G.
    rewrite H in G. cbn [option_map] in G.
    destruct (JsMap.get k (Diagram.arrows d3)) as [x3|] eqn:E;
      [|discriminate].
    apply ClipboardFacts.some_inj in G.
    apply A12 in E as [E|[ad [E1' E2']]].
    + left. exists x3. rewrite <- N7, <- L8. now split.
    + right. exists ad.
      apply (ClipboardFacts.arrowFrom_erase m1 ad x3 x G) in E2'.
      destruct E2' as [H1 [H2 [H3 [H4 H5]]]].
      assert (Hin : In ad ads).
      { rewrite <- F. apply filter_In. split; [assumption|].
        unfold ClipboardFacts.linked, JsMap.has. now rewrite H1, H2. }
      now repeat split.
  - intros Hi. apply (Integrity.same_integrity d3).
    + now split.
    + apply A11.
      * intros kv Hin. rewrite L7. apply N12; [|assumption]. intros ? [].
      * apply (Integrity.unchanged_integrity d1); [| |now apply N11];
          congruence.
  - rewrite D4, A9, L9, N9. reflexivity.
Qed.
End WithNumber.
End Paste.

(** What a paste adds: every entry's element under its new id, and
    everything filed under another id as before. *)

Module Pasted.
Section WithNumber.
Context {N : JSNumber}.

  (** The node object made for the node entry at position [i]: the id
      minted from the counter [c], the next free place [a0] of the store. *)
Definition handle (c a0 i : nat) : Node.t :=
  Node.mk (mint "node-" (c + i)) (a0 + i).

  (** The fields of the node pasted from the entry [nd]. *)
Definition fieldsOf (off : Point.t) (nd : Node.JSON) : Node.fields :=
  Node.mkFields
    (Point.mk (nadd (Point.x (Node.j_position nd)) (Point.x off))
              (nadd (Point.y (Node.j_position nd)) (Point.y off)))
    (Node.j_text nd) (Node.j_radius nd) false false (Node.j_style nd)
    (Node.j_fontFamily nd).

  (** Its serialized record: the entry under the id [id], moved by the
      offset. *)
Definition nodeRecord (off : Point.t) (id : string) (nd : Node.JSON)
    : Node.JSON :=
  Node.mkJSON id
    (Point.mk (nadd (Point.x (Node.j_position nd)) (Point.x off))
              (nadd (Point.y (Node.j_position nd)) (Point.y off)))
    (Node.j_text nd) (Node.j_radius nd) (Node.j_style nd)
    (Node.j_fontFamily nd).

Lemma last_entry [A : Type] (l : list A) (x y : A) i :
  nth_error (l ++ [x]) i = Some y ->
  (i < List.length l /\ nth_error l i = Some y)
  \/ (i = List.length l /\ y = x).
Proof.
  intros H. destruct (Nat.lt_ge_cases i (List.length l)) as [Hi|Hi].
  - left. rewrite nth_error_app1 in H by assumption. now split.
  - right. rewrite nth_error_app2 in H by assumption.
    destruct (i - List.length l) as [|j] eqn:Ej; cbn in H;
      [|destruct j; discriminate].
    injection H as <-. split; [lia|reflexivity].
Qed.

Lemma not_minted prefix c n k :
  ~ In k (map (mint prefix) (seq c (S n))) ->
  ~ In k (map (mint prefix) (seq c n)) /\ k <> mint prefix (c + n).
Proof.
  intros H. rewrite seq_S, map_app, in_app_iff in H. cbn in H. split.
  - tauto.
  - intros ->. tauto.
Qed.

Lemma minted_other prefix c i n : i < n -> mint prefix (c + n) <> mint prefix (c + i).
Proof. intros Hi E. apply mint_inj in E. lia. Qed.

Lemma node_step off rt d m ids nd :
  let r := Clipboard.pasteNode off (rt, d, m, ids) nd in
  let s := Runtime.nodeStore rt in
  let s1 := Runtime.nodeStore (fst (fst (fst r))) in
  let node := Node.mk (mint "node-" (Node.nextId s)) (Node.nextAddr s) in
  snd (fst r) = JsMap.set (Node.j_id nd) node m
  /\ snd (fst (fst r)) = Diagram.addNode node d
  /\ Node.nextId s1 = S (Node.nextId s)
  /\ Node.nextAddr s1 = S (Node.nextAddr s)
  /\ Node.heap s1 (Node.nextAddr s) = fieldsOf off nd
  /\ (forall a, a <> Node.nextAddr s -> Node.heap s1 a = Node.heap s a).
Proof.
  cbv zeta. do 4 (split; [reflexivity|]). split.
  - cbn. now rewrite !Nat.eqb_refl.
  - intros a Ha. apply Nat.eqb_neq in Ha. cbn. now rewrite !Ha.
Qed.

Lemma nodes off ns rt d :
  let r := fold_left (Clipboard.pasteNode off) ns (rt, d, [], []) in
  let s := Runtime.nodeStore rt in
  let s1 := Runtime.nodeStore (fst (fst (fst r))) in
  let d1 := snd (fst (fst r)) in
  let m1 := snd (fst r) in
  let c := Node.nextId s in
  let a0 := Node.nextAddr s in
  Node.nextId s1 = c + List.length ns
  /\ Node.nextAddr s1 = a0 + List.length ns
  /\ (forall i nd, nth_error ns i = Some nd ->
        JsMap.get (mint "node-" (c + i)) (Diagram.nodes d1)
        = Some (handle c a0 i))
  /\ (forall k, ~ In k (map (mint "node-") (seq c (List.length ns))) ->
        JsMap.get k (Diagram.nodes d1) = JsMap.get k (Diagram.nodes d))
  /\ (forall i nd, nth_error ns i = Some nd ->
        Node.heap s1 (a0 + i) = fieldsOf off nd)
  /\ (forall a, a < a0 -> Node.heap s1 a = Node.heap s a)
  /\ (forall k h, JsMap.get k m1 = Some h ->
        exists j nd, nth_error ns j = Some nd /\ Node.j_id nd = k
                     /\ h = handle c a0 j).
Proof.
  induction ns as [|nd ns IH] using rev_ind.
  - cbn. rewrite !Nat.add_0_r. do 2 (split; [reflexivity|]).
    split; [intros [|i] nd H; discriminate|]. split; [reflexivity|].
    split; [intros [|i] nd H; discriminate|]. split; [reflexivity|].
    intros k h H. discriminate.
  - cbv zeta in IH |- *. rewrite fold_left_app. cbn [fold_left].
    destruct (fold_left (Clipboard.pasteNode off) ns (rt, d, [], []))
      as [[[rt1 d1] m1] ids1].
    cbn [fst snd] in IH.
    destruct IH as [I1 [I2 [I3 [I4 [I5 [I6 I7]]]]]].
    pose proof (node_step off rt1 d1 m1 ids1 nd) as St.
    destruct (Clipboard.pasteNode off (rt1, d1, m1, ids1) nd)
      as [[[rt2 d2] m2] ids2].
    cbv zeta in St. cbn [fst snd] in St |- *.
    destruct St as [S1 [S2 [S3 [S4 [S5 S6]]]]].
    rewrite length_app. cbn [List.length].
    set (c := Node.nextId (Runtime.nodeStore rt)) in *.
    set (a0 := Node.nextAddr (Runtime.nodeStore rt)) in *.
    assert (E : Node.mk (mint "node-" (Node.nextId (Runtime.nodeStore rt1)))
                        (Node.nextAddr (Runtime.nodeStore rt1))
                = handle c a0 (List.length ns)).
    { unfold handle. now rewrite I1, I2. }
    rewrite E in S1, S2.
    assert (G : forall k,
              JsMap.get k (Diagram.nodes d2)
              = if String.eqb k (mint "node-" (c + List.length ns))
                then Some (handle c a0 (List.length ns))
                else JsMap.get k (Diagram.nodes d1)).
    { intros k. rewrite S2. unfold Diagram.addNode.
      cbn [Diagram.nodes Diagram.with_nodes handle Node.id].
      destruct (String.eqb k (mint "node-" (c + List.length ns))) eqn:Ek.
      - apply String.eqb_eq in Ek. subst k.
        apply JsMapFacts.get_set_same.
      - apply JsMapFacts.get_set_other. intros Heq.
        rewrite Heq, String.eqb_refl in Ek. discriminate. }
    replace (List.length ns + 1) with (S (List.length ns)) by lia.
    refine (conj _ (conj _ (conj _ (conj _ (conj _ (conj _ _)))))).
    + rewrite S3, I1. lia.
    + rewrite S4, I2. lia.
    + intros i x Hx. rewrite G.
      apply last_entry in Hx as [[Hi Hx]|[-> ->]].
      * destruct (String.eqb _ _) eqn:Ek; [|now apply (I3 i x)].
        apply String.eqb_eq, mint_inj in Ek. lia.
      * now rewrite String.eqb_refl.
    + intros k Hk. apply not_minted in Hk as [Hk1 Hk2]. rewrite G.
      apply String.eqb_neq in Hk2. rewrite Hk2. now apply I4.
    + intros i x Hx. apply last_entry in Hx as [[Hi Hx]|[-> ->]].
      * rewrite S6 by (rewrite I2; lia). now apply (I5 i x).
      * rewrite <- I2. exact S5.
    + intros a Ha. rewrite S6 by (rewrite I2; lia). now apply I6.
    + intros k h H. rewrite S1 in H.
      destruct (String.eqb (Node.j_id nd) k) eqn:Ek.
      * apply String.eqb_eq in Ek. subst k.
        rewrite JsMapFacts.get_set_same in H. injection H as <-.
        exists (List.length ns), nd. split; [|now split].
        rewrite nth_error_app2 by lia. now rewrite Nat.sub_diag.
      * rewrite JsMapFacts.get_set_other in H
          by (intros Heq; rewrite Heq, String.eqb_refl in Ek; discriminate).
        destruct (I7 k h H) as [j [x [H1 [H2 H3]]]].
        exists j, x. split; [|now split].
        rewrite nth_error_app1; [assumption|].
        apply nth_error_Some. congruence.
Qed.

Lemma labels off ls rt d ids :
  let r := fold_left (Clipboard.pasteLabel off) ls (rt, d, ids) in
  let d1 := snd (fst r) in
  let t := Runtime.textLabelNextId rt in
  (forall i ld, nth_error ls i = Some ld ->
     exists l, JsMap.get (mint "text-" (t + i)) (Diagram.textLabels d1) = Some l
               /\ TextLabel.id l = mint "text-" (t + i)
               /\ ClipboardFacts.labelFrom off ld l)
  /\ (forall k, ~ In k (map (mint "text-") (seq t (List.length ls))) ->
        JsMap.get k (Diagram.textLabels d1)
        = JsMap.get k (Diagram.textLabels d)).
Proof.
  induction ls as [|ld ls IH] using rev_ind.
  - cbn. split; [intros [|i] x H; discriminate|reflexivity].
  - cbv zeta in IH |- *. rewrite fold_left_app. cbn [fold_left].
    pose proof (ClipboardFacts.pasteLabels off ls rt d ids) as P.
    destruct (fold_left (Clipboard.pasteLabel off) ls (rt, d, ids))
      as [[rt1 d1] ids1].
    cbv zeta in P. cbn [fst snd] in IH, P.
    destruct IH as [I1 I2]. destruct P as [_ [P2 _]].
    pose proof (ClipboardFacts.pasteLabel_step off rt1 d1 ids1 ld) as St.
    destruct (Clipboard.pasteLabel off (rt1, d1, ids1) ld) as [[rt2 d2] ids2].
    cbv zeta in St. cbn [fst snd] in St |- *.
    destruct St as [label [_ [S2 [S3 [S4 _]]]]].
    rewrite P2 in S3.
    set (t := Runtime.textLabelNextId rt) in *.
    rewrite length_app. cbn [List.length].
    replace (List.length ls + 1) with (S (List.length ls)) by lia.
    assert (G : forall k,
              JsMap.get k (Diagram.textLabels d2)
              = if String.eqb k (mint "text-" (t + List.length ls))
                then Some label
                else JsMap.get k (Diagram.textLabels d1)).
    { intros k. rewrite S2. unfold Diagram.addTextLabel.
      cbn [Diagram.textLabels Diagram.with_textLabels]. rewrite S3.
      destruct (String.eqb k (mint "text-" (t + List.length ls))) eqn:Ek.
      - apply String.eqb_eq in Ek. subst k.
        apply JsMapFacts.get_set_same.
      - apply JsMapFacts.get_set_other. intros Heq.
        rewrite Heq, String.eqb_refl in Ek. discriminate. }
    split.
    + intros i x Hx. rewrite G.
      apply last_entry in Hx as [[Hi Hx]|[-> ->]].
      * destruct (String.eqb _ _) eqn:Ek; [|now apply (I1 i x)].
        apply String.eqb_eq, mint_inj in Ek. lia.
      * rewrite String.eqb_refl. exists label.
        split; [reflexivity|]. split; [exact S3|exact S4].
    + intros k Hk. apply not_minted in Hk as [Hk1 Hk2]. rewrite G.
      apply String.eqb_neq in Hk2. rewrite Hk2. now apply I2.
Qed.

Lemma arrows m ads rt d ids :
  let r := fold_left (Clipboard.pasteArrow m) ads (rt, d, ids) in
  let d1 := snd (fst r) in
  let a := Runtime.arrowNextId rt in
  let kept := filter (ClipboardFacts.linked m) ads in
  (forall i ad, nth_error kept i = Some ad ->
     exists x, JsMap.get (mint "arrow-" (a + i)) (Diagram.arrows d1) = Some x
               /\ Arrow.id x = mint "arrow-" (a + i)
               /\ ClipboardFacts.arrowFrom m ad x)
  /\ (forall k, ~ In k (map (mint "arrow-") (seq a (List.length kept))) ->
        JsMap.get k (Diagram.arrows d1) = JsMap.get k (Diagram.arrows d)).
Proof.
  induction ads as [|ad ads IH] using rev_ind.
  - cbn. split; [intros [|i] x H; discriminate|reflexivity].
  - cbv zeta in IH |- *. rewrite fold_left_app, filter_app.
    cbn [fold_left filter].
    pose proof (ClipboardFacts.pasteArrows m ads rt d ids) as P.
    destruct (fold_left (Clipboard.pasteArrow m) ads (rt, d, ids))
      as [[rt1 d1] ids1].
    cbv zeta in P. cbn [fst snd] in IH, P.
    destruct IH as [I1 I2]. destruct P as [_ [P2 _]].
    pose proof (ClipboardFacts.pasteArrow_step m rt1 d1 ids1 ad) as St.
    destruct (ClipboardFacts.linked m ad) eqn:El.
    2: { rewrite St, app_nil_r. cbn [fst snd]. now split. }
    destruct St as [fromNode [toNode [Ef [Et St]]]]. rewrite St.
    cbn [fst snd]. rewrite P2.
    set (a := Runtime.arrowNextId rt) in *.
    set (kept := filter (ClipboardFacts.linked m) ads) in *.
    set (arrow := Arrow.new (a + List.length kept) fromNode toNode _ _ _).
    rewrite length_app. cbn [List.length].
    replace (List.length kept + 1) with (S (List.length kept)) by lia.
    assert (G : forall k,
              JsMap.get k (Diagram.arrows (Diagram.addArrow arrow d1))
              = if String.eqb k (mint "arrow-" (a + List.length kept))
                then Some arrow
                else JsMap.get k (Diagram.arrows d1)).
    { intros k. unfold Diagram.addArrow.
      cbn [Diagram.arrows Diagram.with_arrows].
      change (Arrow.id arrow) with (mint "arrow-" (a + List.length kept)).
      destruct (String.eqb k (mint "arrow-" (a + List.length kept))) eqn:Ek.
      - apply String.eqb_eq in Ek. subst k.
        apply JsMapFacts.get_set_same.
      - apply JsMapFacts.get_set_other. intros Heq.
        rewrite Heq, String.eqb_refl in Ek. discriminate. }
    split.
    + intros i x Hx. rewrite G.
      apply last_entry in Hx as [[Hi Hx]|[-> ->]].
      * destruct (String.eqb _ _) eqn:Ek; [|now apply (I1 i x)].
        apply String.eqb_eq, mint_inj in Ek. lia.
      * rewrite String.eqb_refl. exists arrow. split; [reflexivity|].
        split; [reflexivity|].
        unfold ClipboardFacts.arrowFrom. subst arrow. cbn.
        now rewrite Ef, Et.
    + intros k Hk. apply not_minted in Hk as [Hk1 Hk2]. rewrite G.
      apply String.eqb_neq in Hk2. rewrite Hk2. now apply I2.
Qed.
End WithNumber.

Section WithParse.
Context {N : JSNumber}.
Variable parse : string -> option Clipboard.t.

Lemma toJSON_flags (s s' : Node.store) (node : Node.t) :
  Node.with_isSelected (Node.heap s' (Node.addr node)) false
  = Node.with_isSelected (Node.heap s (Node.addr node)) false ->
  Node.toJSON s' node = Node.toJSON s node.
Proof.
  unfold Node.toJSON, Node.read, Node.with_isSelected.
  destruct (Node.heap s' (Node.addr node)), (Node.heap s (Node.addr node)).
  cbn. intros [= -> -> -> _ -> ->]. reflexivity.
Qed.

Lemma added (clipboardData : string) (offset : option Point.t)
    (rt : Runtime.t) (d : Diagram.t) (data : Clipboard.t) :
  parse clipboardData = Some data ->
  let r := Clipboard.pasteFromClipboard parse clipboardData offset rt d in
  let s := Runtime.nodeStore rt in
  let s' := Runtime.nodeStore (fst (fst r)) in
  let d' := snd (fst r) in
  let off :=
    match offset with Some p => p | None => Point.mk (lit 20) (lit 20) end in
  let ns := Clipboard.items (Clipboard.nodes data) in
  let ls := Clipboard.items (Clipboard.textLabels data) in
  let ads :=
    filter (Clipboard.carried ns)
      (Clipboard.items (Clipboard.arrows data)) in
  let c := Node.nextId s in
  let a0 := Node.nextAddr s in
  let t := Runtime.textLabelNextId rt in
  let a := Runtime.arrowNextId rt in
  Node.nextAddr s' = a0 + List.length ns
  /\ (forall i nd, nth_error ns i = Some nd ->
        JsMap.get (mint "node-" (c + i)) (Diagram.nodes d')
        = Some (Pasted.handle c a0 i)
        /\ Node.toJSON s' (Pasted.handle c a0 i)
           = Pasted.nodeRecord off (mint "node-" (c + i)) nd)
  /\ (forall k, ~ In k (map (mint "node-") (seq c (List.length ns))) ->
        JsMap.get k (Diagram.nodes d') = JsMap.get k (Diagram.nodes d))
  /\ (forall node, Node.addr node < a0 ->
        Node.toJSON s' node = Node.toJSON s node)
  /\ (forall i ld, nth_error ls i = Some ld ->
        exists l,
          JsMap.get (mint "text-" (t + i)) (Diagram.textLabels d') = Some l
          /\ TextLabel.id l = mint "text-" (t + i)
          /\ ClipboardFacts.labelFrom off ld l)
  /\ (forall k, ~ In k (map (mint "text-") (seq t (List.length ls))) ->
        option_map Skeleton.eraseL (JsMap.get k (Diagram.textLabels d'))
        = option_map Skeleton.eraseL (JsMap.get k (Diagram.textLabels d)))
  /\ (forall i ad, nth_error ads i = Some ad ->
        exists x j1 j2 nd1 nd2,
          JsMap.get (mint "arrow-" (a + i)) (Diagram.arrows d') = Some x
          /\ Arrow.id x = mint "arrow-" (a + i)
          /\ nth_error ns j1 = Some nd1
          /\ Node.j_id nd1 = Clipboard.a_fromNodeId ad
          /\ Arrow.fromNode x = Pasted.handle c a0 j1
          /\ nth_error ns j2 = Some nd2
          /\ Node.j_id nd2 = Clipboard.a_toNodeId ad
          /\ Arrow.toNode x = Pasted.handle c a0 j2
          /\ Arrow.strokeColor x = Clipboard.a_strokeColor ad
          /\ Arrow.strokeWidth x = Clipboard.a_strokeWidth ad
          /\ Arrow.lineStyle x = ClipboardFacts.lineStyleOf ad)
  /\ (forall k, ~ In k (map (mint "arrow-") (seq a (List.length ads))) ->
        option_map Skeleton.eraseA (JsMap.get k (Diagram.arrows d'))
        = option_map Skeleton.eraseA (JsMap.get k (Diagram.arrows d))).
Proof.
  intros Hp r s s' d' off. subst r s' d'.
  unfold Clipboard.pasteFromClipboard. fold off. rewrite Hp.
  set (ns := Clipboard.items (Clipboard.nodes data)).
  set (ls := Clipboard.items (Clipboard.textLabels data)).
  set (ads := filter (Clipboard.carried ns) _).
  set (c := Node.nextId s). set (a0 := Node.nextAddr s).
  set (t := Runtime.textLabelNextId rt).
  set (a := Runtime.arrowNextId rt).
  pose proof (ClipboardFacts.pasteNodes off ns rt d [] []) as P1.
  pose proof (Pasted.nodes off ns rt d) as Q1.
  cbv zeta in P1, Q1.
  set (p1 := fold_left (Clipboard.pasteNode off) ns (rt, d, [], [])).
  change (fold_left (Clipboard.pasteNode off) ns (rt, d, [], []))
    with p1 in P1, Q1.
  clearbody p1. destruct p1 as [[[rt1 d1] m1] ids1].
  cbn [fst snd app] in P1, Q1. fold s c a0 in P1, Q1.
  destruct P1 as [_ [_ [N3 [N4 [_ [_ [N7 [N8 [_ [_ [_ [_ N13]]]]]]]]]]]].
  destruct Q1 as [_ [Q2 [Q3 [Q4 [Q5 [Q6 Q7]]]]]].
  pose proof (ClipboardFacts.pasteLabels off ls rt1 d1 ids1) as P2.
  pose proof (Pasted.labels off ls rt1 d1 ids1) as Q.
  destruct (fold_left (Clipboard.pasteLabel off) ls (rt1, d1, ids1))
    as [[rt2 d2] ids2].
  cbv zeta in P2, Q. cbn [fst snd] in P2, Q.
  destruct P2 as [_ [_ [L3 [L4 [_ [_ [L7 [L8 _]]]]]]]].
  destruct Q as [QL1 QL2]. rewrite N4 in QL1, QL2. fold t in QL1, QL2.
  pose proof (ClipboardFacts.pasteArrows m1
                (Clipboard.items (Clipboard.arrows data)) rt2 d2 ids2) as P3.
  pose proof (Pasted.arrows m1 (Clipboard.items (Clipboard.arrows data))
                rt2 d2 ids2) as Q.
  destruct (fold_left (Clipboard.pasteArrow m1) _ (rt2, d2, ids2))
    as [[rt3 d3] newIds].
  cbv zeta in P3, Q. cbn [fst snd] in P3, Q.
  assert (F : filter (ClipboardFacts.linked m1)
                (Clipboard.items (Clipboard.arrows data)) = ads).
  { subst ads. apply filter_ext. intros ad.
    unfold ClipboardFacts.linked, Clipboard.carried.
    now rewrite !N13. }
  rewrite F in P3, Q.
  destruct P3 as [_ [_ [A3 [_ [_ [_ [A7 [A8 _]]]]]]]].
  destruct Q as [QA1 QA2]. rewrite L4, N3 in QA1, QA2. fold a in QA1, QA2.
  pose proof (Skeleton.clearSelection_same rt3 d3) as [C1 C2].
  destruct (Diagram.clearSelection rt3 d3) as [rt4 d4]. cbn [fst snd] in C1, C2.
  pose proof (Skeleton.selectElements_same newIds false rt4 d4) as [E1 E2].
  destruct (Diagram.selectElements newIds false rt4 d4) as [rt5 d5].
  cbn [fst snd] in E1, E2 |- *.
  pose proof (Skeleton.sameRt_trans _ _ _ C1 E1) as R.
  pose proof (Skeleton.same_trans _ _ _ C2 E2) as D.
  destruct R as [R1 R2 _ _ _ _ _]. destruct D as [D1 D2 D3 _].
  rewrite A3, L3 in R1, R2.
  assert (GL : forall k,
            option_map Skeleton.eraseL (JsMap.get k (Diagram.textLabels d5))
            = option_map Skeleton.eraseL (JsMap.get k (Diagram.textLabels d2))).
  { intros k. rewrite <- A8. now apply Skeleton.mapv_get. }
  assert (GA : forall k,
            option_map Skeleton.eraseA (JsMap.get k (Diagram.arrows d5))
            = option_map Skeleton.eraseA (JsMap.get k (Diagram.arrows d3))).
  { intros k. now apply Skeleton.mapv_get. }
  refine (conj _ (conj _ (conj _ (conj _ (conj _ (conj _ (conj _ _))))))).
  - rewrite R2. exact Q2.
  - intros i nd Hi. split.
    + rewrite D1, A7, L7. now apply (Q3 i nd).
    + rewrite (toJSON_flags (Runtime.nodeStore rt1)) by apply R1.
      unfold Node.toJSON, Node.read, Pasted.handle.
      cbn [Node.addr Node.id]. now rewrite (Q5 i nd Hi).
  - intros k Hk. rewrite D1, A7, L7. now apply Q4.
  - intros node Ha.
    rewrite (toJSON_flags (Runtime.nodeStore rt1)) by apply R1.
    unfold Node.toJSON, Node.read. now rewrite (Q6 _ Ha).
  - intros i ld Hi. destruct (QL1 i ld Hi) as [l2 [G1 [G2 G3]]].
    specialize (GL (mint "text-" (t + i))). rewrite G1 in GL.
    destruct (JsMap.get (mint "text-" (t + i)) (Diagram.textLabels d5))
      as [l|]; [|discriminate].
    cbn [option_map] in GL. apply ClipboardFacts.some_inj in GL.
    exists l. split; [reflexivity|]. split.
    + rewrite <- G2. exact (f_equal TextLabel.id GL).
    + now apply (ClipboardFacts.labelFrom_erase off ld l2).
  - intros k Hk. rewrite GL, (QL2 k Hk), N8. reflexivity.
  - intros i ad Hi. destruct (QA1 i ad Hi) as [x3 [G1 [G2 G3]]].
    specialize (GA (mint "arrow-" (a + i))). rewrite G1 in GA.
    destruct (JsMap.get (mint "arrow-" (a + i)) (Diagram.arrows d5))
      as [x|]; [|discriminate].
    cbn [option_map] in GA. apply ClipboardFacts.some_inj in GA.
    apply (ClipboardFacts.arrowFrom_erase m1 ad x3 x GA) in G3.
    destruct G3 as [H1 [H2 [H3 [H4 H5]]]].
    destruct (Q7 _ _ H1) as [j1 [nd1 [J1 [J2 J3]]]].
    destruct (Q7 _ _ H2) as [j2 [nd2 [K1 [K2 K3]]]].
    exists x, j1, j2, nd1, nd2.
    split; [reflexivity|]. split.
    { rewrite <- G2. exact (f_equal Arrow.id GA). }
    now repeat split.
  - intros k Hk. rewrite GA, (QA2 k Hk), L8, N7. reflexivity.
Qed.
End WithParse.
End Pasted.

Section X19.
Context {N : JSNumber}.
Variable parse : string -> option Clipboard.t.

(** X19.  Pasting text that does not parse changes nothing in the scene,
    logs one error and returns no ids.  Pasting parsed data adds one node
    per node entry, one label per label entry and one arrow per arrow
    entry both of whose end ids name node entries; an arrow entry with
    another end id is dropped.  The new elements take the next ids of the
    three counters, which advance by as many; the ids are returned, nodes
    first, then labels, then arrows, and afterwards the selection is
    exactly the returned ids.

    What is added.  The node of the [i]-th node entry is filed under its
    new id; it is a new object, the [i]-th after those of the store, and
    its record is the entry's, moved by the offset.  The label of the
    [i]-th label entry is filed under its new id: moved by the offset,
    with the entry's text, font size, colour and font family and the size
    and border of a new label.  The arrow of the [i]-th carried arrow
    entry is filed under its new id; it joins the pasted nodes of two node
    entries that have the entry's end ids, with the entry's stroke colour
    and width, and its line style or a solid line if it has none.

    What stays.  Under every id other than the new ones the scene holds
    the node, label or arrow it held before, labels and arrows up to
    their selected flag; the objects of the store from before keep their
    records; every label and arrow afterwards is one from before or one
    of the pasted ones.  A scene in which every arrow's end ids name
    nodes is still such a scene afterwards, and whiteboards change in
    their selected flag at most. *)
Theorem X19_pasteFromClipboard (clipboardData : string)
    (offset : option Point.t) (rt : Runtime.t) (d : Diagram.t) :
  let r := Clipboard.pasteFromClipboard parse clipboardData offset rt d in
  let rt' := fst (fst r) in
  let d' := snd (fst r) in
  let s := Runtime.nodeStore rt in
  let s' := Runtime.nodeStore rt' in
  let off :=
    match offset with Some p => p | None => Point.mk (lit 20) (lit 20) end in
  match parse clipboardData with
  | None => r = (Runtime.log rt Clipboard.pasteError, d, [])
  | Some data =>
      let ns := Clipboard.items (Clipboard.nodes data) in
      let ls := Clipboard.items (Clipboard.textLabels data) in
      let ads :=
        filter (Clipboard.carried ns)
          (Clipboard.items (Clipboard.arrows data)) in
      let c := Node.nextId s in
      let a0 := Node.nextAddr s in
      let t := Runtime.textLabelNextId rt in
      let a := Runtime.arrowNextId rt in
      snd r = map (mint "node-") (seq c (List.length ns))
              ++ map (mint "text-") (seq t (List.length ls))
              ++ map (mint "arrow-") (seq a (List.length ads))
      /\ (forall id, In id (Diagram.selectedElementIds d') <-> In id (snd r))
      /\ Node.nextId s' = c + List.length ns
      /\ Runtime.textLabelNextId rt' = t + List.length ls
      /\ Runtime.arrowNextId rt' = a + List.length ads
      /\ Runtime.console rt' = Runtime.console rt
      /\ (forall k l, JsMap.get k (Diagram.textLabels d') = Some l ->
            (exists l0, JsMap.get k (Diagram.textLabels d) = Some l0
                        /\ Skeleton.eraseL l = Skeleton.eraseL l0)
            \/ exists ld, In ld ls /\ ClipboardFacts.labelFrom off ld l)
      /\ (forall k x, JsMap.get k (Diagram.arrows d') = Some x ->
            (exists x0, JsMap.get k (Diagram.arrows d) = Some x0
                        /\ Skeleton.eraseA x = Skeleton.eraseA x0)
            \/ exists ad, In ad ads
                          /\ Arrow.strokeColor x = Clipboard.a_strokeColor ad
                          /\ Arrow.strokeWidth x = Clipboard.a_strokeWidth ad
                          /\ Arrow.lineStyle x = ClipboardFacts.lineStyleOf ad)
      /\ (Scene.integrity d = true -> Scene.integrity d' = true)
      /\ Skeleton.mapv Skeleton.eraseW (Diagram.whiteboards d')
         = Skeleton.mapv Skeleton.eraseW (Diagram.whiteboards d)
      /\ Node.nextAddr s' = a0 + List.length ns
      /\ (forall i nd, nth_error ns i = Some nd ->
            JsMap.get (mint "node-" (c + i)) (Diagram.nodes d')
            = Some (Pasted.handle c a0 i)
            /\ Node.toJSON s' (Pasted.handle c a0 i)
               = Pasted.nodeRecord off (mint "node-" (c + i)) nd)
      /\ (forall k, ~ In k (map (mint "node-") (seq c (List.length ns))) ->
            JsMap.get k (Diagram.nodes d') = JsMap.get k (Diagram.nodes d))
      /\ (forall node, Node.addr node < a0 ->
            Node.toJSON s' node = Node.toJSON s node)
      /\ (forall i ld, nth_error ls i = Some ld ->
            exists l,
              JsMap.get (mint "text-" (t + i)) (Diagram.textLabels d') = Some l
              /\ TextLabel.id l = mint "text-" (t + i)
              /\ ClipboardFacts.labelFrom off ld l)
      /\ (forall k, ~ In k (map (mint "text-") (seq t (List.length ls))) ->
            option_map Skeleton.eraseL (JsMap.get k (Diagram.textLabels d'))
            = option_map Skeleton.eraseL (JsMap.get k (Diagram.textLabels d)))
      /\ (forall i ad, nth_error ads i = Some ad ->
            exists x j1 j2 nd1 nd2,
              JsMap.get (mint "arrow-" (a + i)) (Diagram.arrows d') = Some x
              /\ Arrow.id x = mint "arrow-" (a + i)
              /\ nth_error ns j1 = Some nd1
              /\ Node.j_id nd1 = Clipboard.a_fromNodeId ad
              /\ Arrow.fromNode x = Pasted.handle c a0 j1
              /\ nth_error ns j2 = Some nd2
              /\ Node.j_id nd2 = Clipboard.a_toNodeId ad
              /\ Arrow.toNode x = Pasted.handle c a0 j2
              /\ Arrow.strokeColor x = Clipboard.a_strokeColor ad
              /\ Arrow.strokeWidth x = Clipboard.a_strokeWidth ad
              /\ Arrow.lineStyle x = ClipboardFacts.lineStyleOf ad)
      /\ (forall k, ~ In k (map (mint "arrow-") (seq a (List.length ads))) ->
            option_map Skeleton.eraseA (JsMap.get k (Diagram.arrows d'))
            = option_map Skeleton.eraseA (JsMap.get k (Diagram.arrows d)))
  end.
Proof.
  intros r rt' d' s s' off.
  destruct (parse clipboardData) as [data|] eqn:Hp.
  - pose proof (Paste.parsed parse clipboardData offset rt d data Hp)
      as [H1 [H2 [H3 [H4 [H5 [H6 [H7 [H8 [H9 H10]]]]]]]]].
    pose proof (Pasted.added parse clipboardData offset rt d data Hp) as H.
    exact (conj H1 (conj H2 (conj H3 (conj H4 (conj H5 (conj H6 (conj H7
             (conj H8 (conj H9 (conj H10 H)))))))))).
  - subst r. unfold Clipboard.pasteFromClipboard. now rewrite Hp.
Qed.
End X19.

Module Copy.
Section WithNumber.
Context {N : JSNumber}.

  (** The clipboard entries of an arrow and of a label. *)
Definition arrowEntry (a : Arrow.t) : Clipboard.ArrowData :=
  Clipboard.mkArrowData (Arrow.id a) (Node.id (Arrow.fromNode a))
    (Node.id (Arrow.toNode a)) (Arrow.strokeColor a) (Arrow.strokeWidth a)
    None.

Definition labelEntry (l : TextLabel.t) : Clipboard.LabelData :=
  Clipboard.mkLabelData (TextLabel.id l)
    (Point.mk (Point.x (TextLabel.position l)) (Point.y (TextLabel.position l)))
    (TextLabel.text l) (TextLabel.fontSize l) (TextLabel.color l)
    (TextLabel.fontFamily l).

Lemma copyElement_fold s d sel : forall ns ads ls,
  fold_left (Clipboard.copyElement s d) sel
    (Clipboard.mk (Some ns) (Some ads) (Some ls))
  = Clipboard.mk
      (Some (ns ++ map (Node.toJSON s)
                     (Duplicate.selectedOf (Diagram.nodes d) sel)))
      (Some (ads ++ map arrowEntry
                      (Duplicate.selectedOf (Diagram.arrows d) sel)))
      (Some (ls ++ map labelEntry
                     (Duplicate.selectedOf (Diagram.textLabels d) sel))).
Proof.
  induction sel as [|id sel IH]; intros ns ads ls.
  - cbn. now rewrite !app_nil_r.
  - cbn [fold_left]. unfold Duplicate.selectedOf. cbn [flat_map].
    fold (Duplicate.selectedOf (Diagram.nodes d) sel).
    fold (Duplicate.selectedOf (Diagram.arrows d) sel).
    fold (Duplicate.selectedOf (Diagram.textLabels d) sel).
    assert (S : Clipboard.copyElement s d
                  (Clipboard.mk (Some ns) (Some ads) (Some ls)) id
                = Clipboard.mk
                    (Some (ns ++ map (Node.toJSON s)
                             match JsMap.get id (Diagram.nodes d) with
                             | Some v => [v] | None => [] end))
                    (Some (ads ++ map arrowEntry
                             match JsMap.get id (Diagram.arrows d) with
                             | Some v => [v] | None => [] end))
                    (Some (ls ++ map labelEntry
                             match JsMap.get id (Diagram.textLabels d) with
                             | Some v => [v] | None => [] end))).
    { unfold Clipboard.copyElement.
      cbn [Clipboard.nodes Clipboard.arrows Clipboard.textLabels].
      destruct (JsMap.get id (Diagram.nodes d)),
               (JsMap.get id (Diagram.arrows d)),
               (JsMap.get id (Diagram.textLabels d));
        cbn [map]; rewrite ?app_nil_r; reflexivity. }
    rewrite S, IH, !map_app, !app_assoc. reflexivity.
Qed.

Lemma selectedData_eq rt d :
  Clipboard.selectedData rt d
  = Clipboard.mk
      (Some (map (Node.toJSON (Runtime.nodeStore rt))
               (Duplicate.selectedOf (Diagram.nodes d)
                  (Diagram.selectedElementIds d))))
      (Some (map arrowEntry
               (Duplicate.selectedOf (Diagram.arrows d)
                  (Diagram.selectedElementIds d))))
      (Some (map labelEntry
               (Duplicate.selectedOf (Diagram.textLabels d)
                  (Diagram.selectedElementIds d)))).
Proof. unfold Clipboard.selectedData. now rewrite copyElement_fold. Qed.
End WithNumber.
End Copy.

Section X20.
Context {N : JSNumber}.
Variable stringify : Clipboard.t -> string.
Variable parse : string -> option Clipboard.t.

(** X20.  Copying writes, in the order of the selection, one entry per
    selected node with its serialized record, one per selected arrow with
    its end ids, stroke colour and stroke width but no line style, and one
    per selected label with its position, text, font size, colour and
    font family but neither its size nor its border.  When the copied
    text parses back to these entries, pasting it returns one id per
    selected node and label and per selected arrow whose two ends are
    selected nodes; every arrow afterwards is an arrow from before, up to
    its selected flag, or has the stroke colour and width of a selected
    arrow and a solid line, whatever the line style of the original;
    every label afterwards is a label from before, up to its selected
    flag, or a selected label moved by the offset with its text, font
    size, colour and font family, but with the size and border of a new
    label. *)
Theorem X20_copy_paste (offset : option Point.t) (rt : Runtime.t)
    (d : Diagram.t) :
  parse (Clipboard.copySelectedToClipboard stringify rt d)
  = Some (Clipboard.selectedData rt d) ->
  let sel := Diagram.selectedElementIds d in
  let ns :=
    map (Node.toJSON (Runtime.nodeStore rt))
      (Duplicate.selectedOf (Diagram.nodes d) sel) in
  let ads := map Copy.arrowEntry (Duplicate.selectedOf (Diagram.arrows d) sel) in
  let ls :=
    map Copy.labelEntry (Duplicate.selectedOf (Diagram.textLabels d) sel) in
  let r :=
    Clipboard.pasteFromClipboard parse
      (Clipboard.copySelectedToClipboard stringify rt d) offset rt d in
  let d' := snd (fst r) in
  let off :=
    match offset with Some p => p | None => Point.mk (lit 20) (lit 20) end in
  Clipboard.selectedData rt d = Clipboard.mk (Some ns) (Some ads) (Some ls)
  /\ snd r
     = map (mint "node-")
         (seq (Node.nextId (Runtime.nodeStore rt)) (List.length ns))
       ++ map (mint "text-")
            (seq (Runtime.textLabelNextId rt) (List.length ls))
       ++ map (mint "arrow-")
            (seq (Runtime.arrowNextId rt)
               (List.length (filter (Clipboard.carried ns) ads)))
  /\ (forall k x, JsMap.get k (Diagram.arrows d') = Some x ->
        (exists x0, JsMap.get k (Diagram.arrows d) = Some x0
                    /\ Skeleton.eraseA x = Skeleton.eraseA x0)
        \/ exists x0, In x0 (Duplicate.selectedOf (Diagram.arrows d) sel)
                      /\ Arrow.strokeColor x = Arrow.strokeColor x0
                      /\ Arrow.strokeWidth x = Arrow.strokeWidth x0
                      /\ Arrow.lineStyle x = LINE_SOLID)
  /\ (forall k l, JsMap.get k (Diagram.textLabels d') = Some l ->
        (exists l0, JsMap.get k (Diagram.textLabels d) = Some l0
                    /\ Skeleton.eraseL l = Skeleton.eraseL l0)
        \/ exists l0, In l0 (Duplicate.selectedOf (Diagram.textLabels d) sel)
                      /\ TextLabel.position l
                         = Point.mk
                             (nadd (Point.x (TextLabel.position l0))
                                   (Point.x off))
                             (nadd (Point.y (TextLabel.position l0))
                                   (Point.y off))
                      /\ TextLabel.text l = TextLabel.text l0
                      /\ TextLabel.fontSize l = TextLabel.fontSize l0
                      /\ TextLabel.color l = TextLabel.color l0
                      /\ TextLabel.fontFamily l = TextLabel.fontFamily l0
                      /\ ClipboardFacts.labelDefaults l).
Proof.
  intros Hp sel ns ads ls r d' off.
  pose proof (Copy.selectedData_eq rt d) as Hc. fold sel ns ads ls in Hc.
  split; [exact Hc|].
  pose proof (Paste.parsed parse _ offset rt d _ Hp) as P.
  cbv zeta in P. fold r d' off in P. rewrite Hc in P.
  cbn [Clipboard.items Clipboard.nodes Clipboard.arrows Clipboard.textLabels]
    in P.
  destruct P as [P1 [_ [_ [_ [_ [_ [P7 [P8 _]]]]]]]].
  split; [exact P1|]. split.
  - intros k x H. apply P8 in H as [H|[ad [H1 [H2 [H3 H4]]]]]; [now left|].
    right. apply filter_In in H1 as [H1 _]. subst ads.
    apply in_map_iff in H1 as [x0 [<- H1]]. exists x0.
    exact (conj H1 (conj H2 (conj H3 H4))).
  - intros k l H. apply P7 in H as [H|[ld [H1 H2]]]; [now left|].
    right. subst ls. apply in_map_iff in H1 as [l0 [<- H1]]. exists l0.
    destruct H2 as [H2 [H3 [H4 [H5 [H6 H7]]]]].
    exact (conj H1 (conj H2 (conj H3 (conj H4 (conj H5 (conj H6 H7)))))).
Qed.
End X20.

Module ClipboardExample.
(** A and B joined by a thick red dashed arrow, and a label whose text
    made it 190 wide, all selected. *)
Definition withX : Runtime.t * Arrow.t :=
  Runtime.newArrow (fst Example.withB) Example.nodeA Example.nodeB
    (Some RED) (Some THICK) (Some LINE_DASHED).

Definition withT : Runtime.t * TextLabel.t :=
  Runtime.newTextLabel (fst withX) (Example.pt 50 50) "Text".

Definition caption : TextLabel.t :=
  TextLabel.setText (snd withT) "a caption of 19 ch.".

Definition scene : Scene.state :=
  Diagram.selectAll (fst withT)
    (Diagram.addTextLabel caption
       (Diagram.addArrow (snd withX)
          (Diagram.addNode Example.nodeB
             (Diagram.addNode Example.nodeA (snd Example.fresh))))).

Definition stringify (_ : @Clipboard.t ZNumber) : string := "clipboard".

Definition parse (text : string) : option (@Clipboard.t ZNumber) :=
  if String.eqb text "clipboard"
  then Some (Clipboard.selectedData (fst scene) (snd scene))
  else None.

Definition pasted : Runtime.t * Diagram.t * list string :=
  Clipboard.pasteFromClipboard parse
    (Clipboard.copySelectedToClipboard stringify (fst scene) (snd scene))
    None (fst scene) (snd scene).
End ClipboardExample.

Lemma X20_witness :
  ClipboardExample.parse
    (Clipboard.copySelectedToClipboard ClipboardExample.stringify
       (fst ClipboardExample.scene) (snd ClipboardExample.scene))
  = Some (Clipboard.selectedData (fst ClipboardExample.scene)
            (snd ClipboardExample.scene))
  /\ snd ClipboardExample.pasted = ["node-2"; "node-3"; "text-1"; "arrow-1"].
Proof.
  split; [reflexivity|].
  pose proof (@X20_copy_paste ZNumber ClipboardExample.stringify
                ClipboardExample.parse None (fst ClipboardExample.scene)
                (snd ClipboardExample.scene) eq_refl) as H.
  destruct H as [_ [H _]]. exact H.
Defined.

(** * Local storage (utils/storage.ts) *)

Module Storage.
Section WithNumber.
Context {N : JSNumber}.
Local Open Scope js_scope.

Definition STORAGE_VERSION : string := "1.0".

  (** A stored label: no size, and border members that older data lack.
      A stored node has the members of [Node.JSON], a stored arrow those
      of [Arrow.JSON]. *)
Record LabelData : Type := mkLabelData {
    l_id : string;
    l_position : Point.t;
    l_text : string;
    l_fontSize : num;
    l_color : Color;
    l_fontFamily : FontFamily;
    l_showBorder : option bool;
    l_borderStyle : option BorderStyle;
    l_borderColor : option Color;
    l_borderWidth : option StrokeWidth;
    l_padding : option num
  }.

  (* Whiteboard.toJSON *)
Record WhiteboardData : Type := mkWhiteboardData {
    w_id : string;
    w_position : Point.t;
    w_width : num;
    w_height : num;
    w_backgroundColor : string
  }.

  (* interface StorageData, and the single [whiteboard] of the old format *)
Record StorageData : Type := mkStorageData {
    version : string;
    timestamp : num;
    nodes : option (list Node.JSON);
    arrows : option (list Arrow.JSON);
    textLabels : option (list LabelData);
    whiteboards : option (list WhiteboardData);
    whiteboard : option WhiteboardData
  }.

  (** [JSON.stringify] and [JSON.parse] on stored data; [parse] gives
      [None] where [JSON.parse] throws.  Text that parses to a value of
      another shape, on which a loop of [loadDiagram] would throw half
      way, has no counterpart in [StorageData]; neither has a
      [localStorage] that throws. *)
Variable stringify : StorageData -> string.
Variable parse : string -> option StorageData.

Definition whiteboardToJSON (wb : Whiteboard.t) : WhiteboardData :=
    mkWhiteboardData (Whiteboard.id wb)
      (Point.mk (Point.x (Whiteboard.position wb))
                (Point.y (Whiteboard.position wb)))
      (Whiteboard.width wb) (Whiteboard.height wb)
      (Whiteboard.backgroundColor wb).

Definition whiteboardFromJSON (rt : Runtime.t) (data : WhiteboardData)
      : Runtime.t * Whiteboard.t :=
    (Runtime.bumpWhiteboard rt,
     Whiteboard.new (Runtime.whiteboardNextId rt)
       (Point.mk (Point.x (w_position data)) (Point.y (w_position data)))
       (w_width data) (w_height data) (w_backgroundColor data)).

  (** What [saveDiagram] stores under the diagram's key; [now] is the
      reading of the clock. *)
Definition savedData (now : num) (rt : Runtime.t) (diagram : Diagram.t)
      : StorageData :=
    let s := Runtime.nodeStore rt in
    mkStorageData STORAGE_VERSION now
      (Some
         (map (fun node =>
                 let f := Node.read s node in
                 Node.mkJSON (Node.id node)
                   (Point.mk (Point.x (Node.position f))
                             (Point.y (Node.position f)))
                   (Node.text f) (Node.radius f) (Node.style f)
                   (Node.fontFamily f))
              (Diagram.getAllNodes diagram)))
      (Some
         (map (fun arrow =>
                 Arrow.mkJSON (Arrow.id arrow) (Node.id (Arrow.fromNode arrow))
                   (Node.id (Arrow.toNode arrow)) (Arrow.strokeColor arrow)
                   (Arrow.strokeWidth arrow) (Arrow.lineStyle arrow))
              (Diagram.getAllArrows diagram)))
      (Some
         (map (fun label =>
                 mkLabelData (TextLabel.id label)
                   (Point.mk (Point.x (TextLabel.position label))
                             (Point.y (TextLabel.position label)))
                   (TextLabel.text label) (TextLabel.fontSize label)
                   (TextLabel.color label) (TextLabel.fontFamily label)
                   (Some (TextLabel.showBorder label))
                   (Some (TextLabel.borderStyle label))
                   (Some (TextLabel.borderColor label))
                   (Some (TextLabel.borderWidth label))
                   (Some (TextLabel.padding label)))
              (Diagram.getAllTextLabels diagram)))
      (Some (map whiteboardToJSON (Diagram.getAllWhiteboards diagram)))
      None.

Definition saveDiagram (now : num) (rt : Runtime.t) (diagram : Diagram.t)
      : string :=
    stringify (savedData now rt diagram).

Definition restoreWhiteboard (st : Runtime.t * Diagram.t)
      (wbData : WhiteboardData) : Runtime.t * Diagram.t :=
    let '(rt, d) := st in
    let '(rt1, wb) := whiteboardFromJSON rt wbData in
    (rt1, Diagram.addWhiteboard wb d).

Definition restoreNode (st : Runtime.t * Diagram.t * JsMap.t Node.t)
      (nodeData : Node.JSON) : Runtime.t * Diagram.t * JsMap.t Node.t :=
    let '(rt, d, nodeMap) := st in
    let '(rt1, node) :=
      Runtime.newNode rt
        (Point.mk (Point.x (Node.j_position nodeData))
                  (Point.y (Node.j_position nodeData)))
        (Node.j_text nodeData) (Some (Node.j_style nodeData)) in
    let s1 := Runtime.nodeStore rt1 in
    let s2 :=
      Node.write s1 node
        (Node.with_radius (Node.read s1 node) (Node.j_radius nodeData)) in
    let s3 :=
      Node.write s2 node
        (Node.with_fontFamily (Node.read s2 node)
           (Node.j_fontFamily nodeData)) in
    (Runtime.with_nodeStore rt1 s3, Diagram.addNode node d,
     JsMap.set (Node.j_id nodeData) node nodeMap).

Definition restoreLabel (st : Runtime.t * Diagram.t) (labelData : LabelData)
      : Runtime.t * Diagram.t :=
    let '(rt, d) := st in
    let '(rt1, l) :=
      Runtime.newTextLabel rt
        (Point.mk (Point.x (l_position labelData))
                  (Point.y (l_position labelData)))
        (l_text labelData) in
    let or [A : Type] (o : option A) (x : A) : A :=
      match o with Some v => v | None => x end in
    let label :=
      TextLabel.mk (TextLabel.id l) (TextLabel.position l) (TextLabel.text l)
        (l_fontSize labelData) (TextLabel.isSelected l)
        (TextLabel.isDragging l) (TextLabel.width l) (TextLabel.height l)
        (l_color labelData) (l_fontFamily labelData)
        (or (l_showBorder labelData) (TextLabel.showBorder l))
        (or (l_borderStyle labelData) (TextLabel.borderStyle l))
        (or (l_borderColor labelData) (TextLabel.borderColor l))
        (or (l_borderWidth labelData) (TextLabel.borderWidth l))
        (or (l_padding labelData) (TextLabel.padding l)) in
    (rt1, Diagram.addTextLabel label d).

Definition restoreArrow (nodeMap : JsMap.t Node.t)
      (st : Runtime.t * Diagram.t) (arrowData : Arrow.JSON)
      : Runtime.t * Diagram.t :=
    let '(rt, d) := st in
    match JsMap.get (Arrow.j_fromNodeId arrowData) nodeMap,
          JsMap.get (Arrow.j_toNodeId arrowData) nodeMap with
    | Some fromNode, Some toNode =>
        let '(rt1, arrow) :=
          Runtime.newArrow rt fromNode toNode
            (Some (Arrow.j_strokeColor arrowData))
            (Some (Arrow.j_strokeWidth arrowData))
            (Some (Arrow.j_lineStyle arrowData)) in
        (rt1, Diagram.addArrow arrow d)
    | _, _ => st
    end.

Definition versionWarning : string :=
    "Storage version mismatch, starting fresh".
Definition loadError : string :=
    "Failed to load diagram from localStorage:".

Definition items [A : Type] (o : option (list A)) : list A :=
    match o with Some l => l | None => [] end.

  (** [stored] is what [localStorage.getItem] returns for the diagram's
      key, [None] for null. *)
Definition loadDiagram (stored : option string) (rt : Runtime.t)
      : Runtime.t * option Diagram.t :=
    match stored with
    | None => (rt, None)
    | Some text =>
        if String.eqb text "" then (rt, None)
        else
          match parse text with
          | None => (Runtime.log rt loadError, None)
          | Some data =>
              if negb (String.eqb (version data) STORAGE_VERSION)
              then (Runtime.log rt versionWarning, None)
              else
                let '(rt0, diagram0) := Diagram.new rt in
                let diagram := Diagram.clearAllWhiteboards diagram0 in
                let '(rt1, d1) :=
                  match whiteboards data with
                  | Some (wbData :: rest) =>
                      fold_left restoreWhiteboard (wbData :: rest)
                        (rt0, diagram)
                  | _ =>
                      match whiteboard data with
                      | Some wbData => restoreWhiteboard (rt0, diagram) wbData
                      | None => (rt0, diagram)
                      end
                  end in
                let '(rt2, d2, nodeMap) :=
                  fold_left restoreNode (items (nodes data)) (rt1, d1, []) in
                let '(rt3, d3) :=
                  fold_left restoreLabel (items (textLabels data))
                    (rt2, d2) in
                let '(rt4, d4) :=
                  fold_left (restoreArrow nodeMap) (items (arrows data))
                    (rt3, d3) in
                (rt4, Some d4)
          end
    end.

  (** The whiteboard entries that are restored: the stored list, or the
      single whiteboard of the old format when the list is missing or
      empty. *)
Definition storedWhiteboards (data : StorageData) : list WhiteboardData :=
    match whiteboards data with
    | Some (wbData :: rest) => wbData :: rest
    | _ => match whiteboard data with Some wbData => [wbData] | None => [] end
    end.

  (** The arrow entries that are restored: both end ids name node entries. *)
Definition linked (ns : list Node.JSON) (a : Arrow.JSON) : bool :=
    existsb (String.eqb (Arrow.j_fromNodeId a)) (map Node.j_id ns)
    && existsb (String.eqb (Arrow.j_toNodeId a)) (map Node.j_id ns).
End WithNumber.
End Storage.

Module StorageFacts.
Section WithNumber.
Context {N : JSNumber}.

  (** [numbered f c ds]: [f] on every entry of [ds] with its running
      number, which starts at [c]. *)
Fixpoint numbered [D R : Type] (f : nat -> D -> R) (c : nat) (ds : list D)
    : list R :=
  match ds with
  | [] => []
  | x :: rest => f c x :: numbered f (S c) rest
  end.

  (** The collection that holds, for every entry, what [build] makes of
      it, filed under the id minted from its number. *)
Definition filed [D V : Type] (prefix : string) (build : nat -> D -> V)
    (c : nat) (ds : list D) : JsMap.t V :=
  numbered (fun k x => (mint prefix k, build k x)) c ds.

  (** What the loader makes of a whiteboard entry and of a label entry. *)
Definition loadedWhiteboard (k : nat) (wd : Storage.WhiteboardData)
    : Whiteboard.t :=
  Whiteboard.new k
    (Point.mk (Point.x (Storage.w_position wd))
              (Point.y (Storage.w_position wd)))
    (Storage.w_width wd) (Storage.w_height wd) (Storage.w_backgroundColor wd).

Definition loadedLabel (k : nat) (ld : Storage.LabelData) : TextLabel.t :=
  TextLabel.mk (mint "text-" k)
    (Point.mk (Point.x (Storage.l_position ld))
              (Point.y (Storage.l_position ld)))
    (Storage.l_text ld) (Storage.l_fontSize ld) false false
    (lit 100) (lit 30) (Storage.l_color ld) (Storage.l_fontFamily ld)
    (match Storage.l_showBorder ld with Some b => b | None => false end)
    (match Storage.l_borderStyle ld with Some b => b | None => BORDER_SOLID end)
    (match Storage.l_borderColor ld with Some b => b | None => BLACK end)
    (match Storage.l_borderWidth ld with Some b => b | None => THIN end)
    (match Storage.l_padding ld with Some b => b | None => lit 8 end).

  (** The serialized record of the node that is loaded from a node entry:
      the entry under a new id. *)
Definition nodeRecord (k : nat) (nd : Node.JSON) : Node.JSON :=
  Node.mkJSON (mint "node-" k)
    (Point.mk (Point.x (Node.j_position nd)) (Point.y (Node.j_position nd)))
    (Node.j_text nd) (Node.j_radius nd) (Node.j_style nd)
    (Node.j_fontFamily nd).

  (** From stored node ids to the ids of the loaded nodes; a stored id
      that occurs again is taken over by the later entry. *)
Definition rename (st : JsMap.t string * nat) (nd : Node.JSON)
    : JsMap.t string * nat :=
  (JsMap.set (Node.j_id nd) (mint "node-" (snd st)) (fst st), S (snd st)).

Definition renaming (c : nat) (ns : list Node.JSON) : JsMap.t string :=
  fst (fold_left rename ns ([], c)).

Definition renamed (ren : JsMap.t string) (id : string) : string :=
  match JsMap.get id ren with Some x => x | None => "" end.

  (** The serialized record of the arrow that is loaded from an arrow
      entry: a new id, the loaded nodes for the stored end ids. *)
Definition arrowRecord (ren : JsMap.t string) (k : nat) (ad : Arrow.JSON)
    : Arrow.JSON :=
  Arrow.mkJSON (mint "arrow-" k) (renamed ren (Arrow.j_fromNodeId ad))
    (renamed ren (Arrow.j_toNodeId ad)) (Arrow.j_strokeColor ad)
    (Arrow.j_strokeWidth ad) (Arrow.j_lineStyle ad).

Lemma numbered_snoc [D R : Type] (f : nat -> D -> R) ds : forall c x,
  numbered f c (ds ++ [x]) = numbered f c ds ++ [f (c + List.length ds) x].
Proof.
  induction ds as [|y ds IH]; intros c x; cbn [numbered app List.length].
  - now rewrite Nat.add_0_r.
  - rewrite IH. now rewrite Nat.add_succ_r.
Qed.

Lemma numbered_map [D R Q : Type] (g : R -> Q) (f : nat -> D -> R) ds :
  forall c, map g (numbered f c ds) = numbered (fun k x => g (f k x)) c ds.
Proof.
  induction ds as [|y ds IH]; intros c; cbn [numbered map];
    [reflexivity|]. now rewrite IH.
Qed.

Lemma numbered_ext [D R : Type] (f g : nat -> D -> R) ds : forall c,
  (forall i x, nth_error ds i = Some x -> f (c + i) x = g (c + i) x) ->
  numbered f c ds = numbered g c ds.
Proof.
  induction ds as [|y ds IH]; intros c H; cbn [numbered]; [reflexivity|].
  f_equal.
  - specialize (H 0 y eq_refl). now rewrite Nat.add_0_r in H.
  - apply IH. intros i x Hx. specialize (H (S i) x Hx).
    now rewrite Nat.add_succ_r in H.
Qed.

Lemma numbered_length [D R : Type] (f : nat -> D -> R) ds : forall c,
  List.length (numbered f c ds) = List.length ds.
Proof.
  induction ds as [|y ds IH]; intros c; cbn [numbered List.length];
    [reflexivity|]. now rewrite IH.
Qed.

Lemma filed_keys [D V : Type] prefix (build : nat -> D -> V) ds : forall c,
  JsMap.keys (filed prefix build c ds)
  = map (mint prefix) (seq c (List.length ds)).
Proof.
  unfold JsMap.keys, filed.
  induction ds as [|y ds IH]; intros c; cbn [numbered map List.length seq];
    [reflexivity|]. now rewrite IH.
Qed.

Lemma filed_values [D V : Type] prefix (build : nat -> D -> V) ds c :
  JsMap.values (filed prefix build c ds) = numbered build c ds.
Proof. unfold JsMap.values, filed. now rewrite numbered_map. Qed.

Lemma filed_set [D V : Type] prefix (build : nat -> D -> V) c ds x :
  JsMap.set (mint prefix (c + List.length ds))
    (build (c + List.length ds) x) (filed prefix build c ds)
  = filed prefix build c (ds ++ [x]).
Proof.
  rewrite JsMapFacts.set_fresh.
  - unfold filed. now rewrite numbered_snoc.
  - apply JsMapFacts.has_false_iff. rewrite filed_keys. intros Hin.
    apply in_map_iff in Hin as [j [Hj Hin]]. apply mint_inj in Hj.
    apply in_seq in Hin. lia.
Qed.

Lemma renaming_snoc c ns nd :
  renaming c (ns ++ [nd])
  = JsMap.set (Node.j_id nd) (mint "node-" (c + List.length ns))
      (renaming c ns).
Proof.
  assert (H : forall l st, snd (fold_left rename l st)
                           = snd st + List.length l).
  { induction l as [|y l IH]; intros st; cbn [fold_left List.length].
    - now rewrite Nat.add_0_r.
    - rewrite IH. cbn. lia. }
  unfold renaming. rewrite fold_left_app. cbn [fold_left].
  unfold rename at 1. cbn [fst]. now rewrite H.
Qed.

  (** The ids of the nodes that a map from stored ids holds. *)
Definition ids (m : JsMap.t Node.t) : JsMap.t string :=
  map (fun kv => (fst kv, Node.id (snd kv))) m.

Lemma ids_set k v m : ids (JsMap.set k v m) = JsMap.set k (Node.id v) (ids m).
Proof.
  unfold ids. induction m as [|[k' v'] m IH]; cbn; [reflexivity|].
  destruct (String.eqb k k'); cbn; [reflexivity|]. now rewrite IH.
Qed.

Lemma get_ids k m : JsMap.get k (ids m) = option_map Node.id (JsMap.get k m).
Proof.
  unfold ids. induction m as [|[k' v'] m IH]; cbn; [reflexivity|].
  destruct (String.eqb k k'); [reflexivity|assumption].
Qed.
End WithNumber.
End StorageFacts.

Module Load.
Section WithNumber.
Context {N : JSNumber}.

Definition fieldsOf (nd : Node.JSON) : Node.fields :=
  Node.mkFields
    (Point.mk (Point.x (Node.j_position nd)) (Point.y (Node.j_position nd)))
    (Node.j_text nd) (Node.j_radius nd) false false (Node.j_style nd)
    (Node.j_fontFamily nd).

  (** The node object made for the entry with the number [k]. *)
Definition handle (c a0 k : nat) (_ : Node.JSON) : Node.t :=
  Node.mk (mint "node-" k) (a0 + (k - c)).

Definition dummy : Node.t := Node.mk "" 0.

Definition arrowOf (m : JsMap.t Node.t) (k : nat) (ad : Arrow.JSON) : Arrow.t :=
  Arrow.new k
    (match JsMap.get (Arrow.j_fromNodeId ad) m with
     | Some n => n | None => dummy end)
    (match JsMap.get (Arrow.j_toNodeId ad) m with
     | Some n => n | None => dummy end)
    (Some (Arrow.j_strokeColor ad)) (Some (Arrow.j_strokeWidth ad))
    (Some (Arrow.j_lineStyle ad)).

Definition linked (m : JsMap.t Node.t) (ad : Arrow.JSON) : bool :=
  JsMap.has (Arrow.j_fromNodeId ad) m && JsMap.has (Arrow.j_toNodeId ad) m.

Lemma loadWhiteboards wbs rt d :
  Diagram.whiteboards d = [] ->
  let r := fold_left Storage.restoreWhiteboard wbs (rt, d) in
  Diagram.whiteboards (snd r)
  = StorageFacts.filed "whiteboard-" StorageFacts.loadedWhiteboard
      (Runtime.whiteboardNextId rt) wbs
  /\ Runtime.whiteboardNextId (fst r)
     = Runtime.whiteboardNextId rt + List.length wbs
  /\ Runtime.nodeStore (fst r) = Runtime.nodeStore rt
  /\ Runtime.arrowNextId (fst r) = Runtime.arrowNextId rt
  /\ Runtime.textLabelNextId (fst r) = Runtime.textLabelNextId rt
  /\ Runtime.console (fst r) = Runtime.console rt
  /\ Diagram.nodes (snd r) = Diagram.nodes d
  /\ Diagram.arrows (snd r) = Diagram.arrows d
  /\ Diagram.textLabels (snd r) = Diagram.textLabels d
  /\ Diagram.selectedElementIds (snd r) = Diagram.selectedElementIds d.
Proof.
  intros H0. induction wbs as [|wd wbs IH] using rev_ind.
  - cbn. rewrite Nat.add_0_r. now repeat split.
  - cbv zeta in IH |- *. rewrite fold_left_app. cbn [fold_left].
    destruct (fold_left Storage.restoreWhiteboard wbs (rt, d)) as [rt1 d1].
    cbn [fst snd] in IH.
    destruct IH as [I1 [I2 [I3 [I4 [I5 [I6 [I7 [I8 [I9 I10]]]]]]]]].
    change (Storage.restoreWhiteboard (rt1, d1) wd)
      with (Runtime.bumpWhiteboard rt1,
            Diagram.addWhiteboard
              (StorageFacts.loadedWhiteboard (Runtime.whiteboardNextId rt1) wd)
              d1).
    cbn [fst snd]. rewrite length_app. cbn [List.length].
    refine (conj _ (conj _ (conj I3 (conj I4 (conj I5 (conj I6
              (conj I7 (conj I8 (conj I9 I10))))))))).
    + unfold Diagram.addWhiteboard.
      cbn [Diagram.whiteboards Diagram.with_whiteboards].
      rewrite I1, I2.
      change (Whiteboard.id (StorageFacts.loadedWhiteboard ?k wd))
        with (mint "whiteboard-" k).
      apply StorageFacts.filed_set.
    + cbn [Runtime.bumpWhiteboard Runtime.whiteboardNextId]. rewrite I2. lia.
Qed.

Lemma loadNode_step rt d m nd :
  let r := Storage.restoreNode (rt, d, m) nd in
  let s := Runtime.nodeStore rt in
  let s1 := Runtime.nodeStore (fst (fst r)) in
  let node := Node.mk (mint "node-" (Node.nextId s)) (Node.nextAddr s) in
  snd r = JsMap.set (Node.j_id nd) node m
  /\ snd (fst r) = Diagram.addNode node d
  /\ Node.nextId s1 = S (Node.nextId s)
  /\ Node.nextAddr s1 = S (Node.nextAddr s)
  /\ Node.heap s1 (Node.nextAddr s) = fieldsOf nd
  /\ (forall a, a <> Node.nextAddr s -> Node.heap s1 a = Node.heap s a)
  /\ Runtime.arrowNextId (fst (fst r)) = Runtime.arrowNextId rt
  /\ Runtime.textLabelNextId (fst (fst r)) = Runtime.textLabelNextId rt
  /\ Runtime.whiteboardNextId (fst (fst r)) = Runtime.whiteboardNextId rt
  /\ Runtime.console (fst (fst r)) = Runtime.console rt.
Proof.
  cbv zeta. do 4 (split; [reflexivity|]). split; [|split].
  - cbn. now rewrite !Nat.eqb_refl.
  - intros a Ha. apply Nat.eqb_neq in Ha. cbn. now rewrite !Ha.
  - now repeat split.
Qed.

Lemma loadNodes ns rt d :
  Diagram.nodes d = [] ->
  let r := fold_left Storage.restoreNode ns (rt, d, []) in
  let s := Runtime.nodeStore rt in
  let rt1 := fst (fst r) in
  let s1 := Runtime.nodeStore rt1 in
  let d1 := snd (fst r) in
  Diagram.nodes d1
  = StorageFacts.filed "node-" (handle (Node.nextId s) (Node.nextAddr s))
      (Node.nextId s) ns
  /\ Node.nextId s1 = Node.nextId s + List.length ns
  /\ Node.nextAddr s1 = Node.nextAddr s + List.length ns
  /\ StorageFacts.ids (snd r) = StorageFacts.renaming (Node.nextId s) ns
  /\ Integrity.clonesPresent d1 (snd r)
  /\ (forall i nd, nth_error ns i = Some nd ->
        Node.heap s1 (Node.nextAddr s + i) = fieldsOf nd)
  /\ Runtime.arrowNextId rt1 = Runtime.arrowNextId rt
  /\ Runtime.textLabelNextId rt1 = Runtime.textLabelNextId rt
  /\ Runtime.whiteboardNextId rt1 = Runtime.whiteboardNextId rt
  /\ Runtime.console rt1 = Runtime.console rt
  /\ Diagram.arrows d1 = Diagram.arrows d
  /\ Diagram.textLabels d1 = Diagram.textLabels d
  /\ Diagram.whiteboards d1 = Diagram.whiteboards d
  /\ Diagram.selectedElementIds d1 = Diagram.selectedElementIds d.
Proof.
  intros H0. induction ns as [|nd ns IH] using rev_ind.
  - cbn. rewrite !Nat.add_0_r. split; [exact H0|].
    do 3 (split; [reflexivity|]). split; [intros kv []|].
    split; [intros [|i] nd H; discriminate|]. now repeat split.
  - cbv zeta in IH |- *. rewrite fold_left_app. cbn [fold_left].
    destruct (fold_left Storage.restoreNode ns (rt, d, [])) as [[rt1 d1] m1].
    cbn [fst snd] in IH.
    destruct IH as [I1 [I2 [I3 [I4 [I5 [I6 [I7 [I8 [I9 [I10
                     [I11 [I12 [I13 I14]]]]]]]]]]]]].
    pose proof (loadNode_step rt1 d1 m1 nd) as St.
    destruct (Storage.restoreNode (rt1, d1, m1) nd) as [[rt2 d2] m2].
    cbv zeta in St. cbn [fst snd] in St |- *.
    destruct St as [S1 [S2 [S3 [S4 [S5 [S6 [S7 [S8 [S9 S10]]]]]]]]].
    rewrite length_app. cbn [List.length].
    set (c := Node.nextId (Runtime.nodeStore rt)) in *.
    set (a0 := Node.nextAddr (Runtime.nodeStore rt)) in *.
    assert (E : Node.mk (mint "node-" (Node.nextId (Runtime.nodeStore rt1)))
                        (Node.nextAddr (Runtime.nodeStore rt1))
                = handle c a0 (c + List.length ns) nd).
    { unfold handle. rewrite I2, I3. f_equal. lia. }
    rewrite E in S1, S2.
    refine (conj _ (conj _ (conj _ (conj _ (conj _ (conj _
              (conj _ (conj _ (conj _ (conj _ (conj _ (conj _
                (conj _ _))))))))))))).
    + rewrite S2. unfold Diagram.addNode.
      cbn [Diagram.nodes Diagram.with_nodes]. rewrite I1.
      change (Node.id (handle c a0 (c + List.length ns) nd))
        with (mint "node-" (c + List.length ns)).
      apply StorageFacts.filed_set.
    + rewrite S3, I2. lia.
    + rewrite S4, I3. lia.
    + rewrite S1, StorageFacts.ids_set, I4, StorageFacts.renaming_snoc.
      reflexivity.
    + intros kv Hin. rewrite S2. rewrite S1 in Hin.
      unfold Diagram.addNode. cbn [Diagram.nodes Diagram.with_nodes].
      rewrite JsMapFacts.has_set.
      apply JsMapFacts.in_set in Hin as [->|Hin]; cbn [snd].
      * now rewrite String.eqb_refl.
      * rewrite (I5 kv Hin). apply orb_true_r.
    + intros i x Hx.
      destruct (Nat.lt_ge_cases i (List.length ns)) as [Hi|Hi].
      * rewrite nth_error_app1 in Hx by assumption.
        rewrite S6 by (rewrite I3; lia). now apply I6.
      * rewrite nth_error_app2 in Hx by assumption.
        destruct (i - List.length ns) as [|j] eqn:Ej; cbn in Hx;
          [|destruct j; discriminate].
        injection Hx as <-.
        replace (a0 + i) with (Node.nextAddr (Runtime.nodeStore rt1))
          by (rewrite I3; lia).
        exact S5.
    + congruence.
    + congruence.
    + congruence.
    + congruence.
    + rewrite S2. exact I11.
    + rewrite S2. exact I12.
    + rewrite S2. exact I13.
    + rewrite S2. exact I14.
Qed.

Lemma loadLabels ls rt d :
  Diagram.textLabels d = [] ->
  let r := fold_left Storage.restoreLabel ls (rt, d) in
  Diagram.textLabels (snd r)
  = StorageFacts.filed "text-" StorageFacts.loadedLabel
      (Runtime.textLabelNextId rt) ls
  /\ Runtime.textLabelNextId (fst r)
     = Runtime.textLabelNextId rt + List.length ls
  /\ Runtime.nodeStore (fst r) = Runtime.nodeStore rt
  /\ Runtime.arrowNextId (fst r) = Runtime.arrowNextId rt
  /\ Runtime.whiteboardNextId (fst r) = Runtime.whiteboardNextId rt
  /\ Runtime.console (fst r) = Runtime.console rt
  /\ Diagram.nodes (snd r) = Diagram.nodes d
  /\ Diagram.arrows (snd r) = Diagram.arrows d
  /\ Diagram.whiteboards (snd r) = Diagram.whiteboards d
  /\ Diagram.selectedElementIds (snd r) = Diagram.selectedElementIds d.
Proof.
  intros H0. induction ls as [|ld ls IH] using rev_ind.
  - cbn. rewrite Nat.add_0_r. now repeat split.
  - cbv zeta in IH |- *. rewrite fold_left_app. cbn [fold_left].
    destruct (fold_left Storage.restoreLabel ls (rt, d)) as [rt1 d1].
    cbn [fst snd] in IH.
    destruct IH as [I1 [I2 [I3 [I4 [I5 [I6 [I7 [I8 [I9 I10]]]]]]]]].
    change (Storage.restoreLabel (rt1, d1) ld)
      with (Runtime.bumpTextLabel rt1,
            Diagram.addTextLabel
              (StorageFacts.loadedLabel (Runtime.textLabelNextId rt1) ld) d1).
    cbn [fst snd]. rewrite length_app. cbn [List.length].
    refine (conj _ (conj _ (conj I3 (conj I4 (conj I5 (conj I6
              (conj I7 (conj I8 (conj I9 I10))))))))).
    + unfold Diagram.addTextLabel.
      cbn [Diagram.textLabels Diagram.with_textLabels].
      rewrite I1, I2.
      change (TextLabel.id (StorageFacts.loadedLabel ?k ld))
        with (mint "text-" k).
      apply StorageFacts.filed_set.
    + cbn [Runtime.bumpTextLabel Runtime.textLabelNextId]. rewrite I2. lia.
Qed.

Lemma loadArrow_step m rt d ad :
  Storage.restoreArrow m (rt, d) ad
  = if linked m ad
    then (Runtime.bumpArrow rt,
          Diagram.addArrow (arrowOf m (Runtime.arrowNextId rt) ad) d)
    else (rt, d).
Proof.
  unfold linked, JsMap.has, Storage.restoreArrow, arrowOf.
  destruct (JsMap.get (Arrow.j_fromNodeId ad) m) as [fromNode|];
    [destruct (JsMap.get (Arrow.j_toNodeId ad) m) as [toNode|]|];
    reflexivity.
Qed.

Lemma loadArrows m ads rt d :
  Diagram.arrows d = [] -> Integrity.clonesPresent d m ->
  let r := fold_left (Storage.restoreArrow m) ads (rt, d) in
  let kept := filter (linked m) ads in
  Diagram.arrows (snd r)
  = StorageFacts.filed "arrow-" (arrowOf m) (Runtime.arrowNextId rt) kept
  /\ Runtime.arrowNextId (fst r) = Runtime.arrowNextId rt + List.length kept
  /\ Scene.integrity (snd r) = true
  /\ Runtime.nodeStore (fst r) = Runtime.nodeStore rt
  /\ Runtime.textLabelNextId (fst r) = Runtime.textLabelNextId rt
  /\ Runtime.whiteboardNextId (fst r) = Runtime.whiteboardNextId rt
  /\ Runtime.console (fst r) = Runtime.console rt
  /\ Diagram.nodes (snd r) = Diagram.nodes d
  /\ Diagram.textLabels (snd r) = Diagram.textLabels d
  /\ Diagram.whiteboards (snd r) = Diagram.whiteboards d
  /\ Diagram.selectedElementIds (snd r) = Diagram.selectedElementIds d.
Proof.
  intros H0 Hc. induction ads as [|ad ads IH] using rev_ind.
  - cbn. rewrite Nat.add_0_r. split; [exact H0|]. split; [reflexivity|].
    split; [|now repeat split].
    unfold Scene.integrity, JsMap.values. now rewrite H0.
  - cbv zeta in IH |- *. rewrite fold_left_app, filter_app.
    cbn [fold_left filter].
    destruct (fold_left (Storage.restoreArrow m) ads (rt, d)) as [rt1 d1].
    cbn [fst snd] in IH.
    destruct IH as [I1 [I2 [I3 [I4 [I5 [I6 [I7 [I8 [I9 [I10 I11]]]]]]]]]].
    rewrite loadArrow_step.
    destruct (linked m ad) eqn:El.
    2: { rewrite app_nil_r. cbn [fst snd].
         exact (conj I1 (conj I2 (conj I3 (conj I4 (conj I5 (conj I6
                  (conj I7 (conj I8 (conj I9 (conj I10 I11)))))))))). }
    cbn [fst snd]. rewrite length_app. cbn [List.length].
    refine (conj _ (conj _ (conj _ (conj I4 (conj I5 (conj I6
              (conj I7 (conj I8 (conj I9 (conj I10 I11)))))))))).
    + unfold Diagram.addArrow. cbn [Diagram.arrows Diagram.with_arrows].
      rewrite I1, I2.
      change (Arrow.id (arrowOf m ?k ad)) with (mint "arrow-" k).
      apply StorageFacts.filed_set.
    + cbn [Runtime.bumpArrow Runtime.arrowNextId]. rewrite I2. lia.
    + apply Integrity.addArrow_integrity; [|assumption].
      unfold linked, JsMap.has in El. unfold Scene.resolves, arrowOf.
      cbn [Arrow.new Arrow.fromNode Arrow.toNode]. rewrite I8.
      destruct (JsMap.get (Arrow.j_fromNodeId ad) m) as [f|] eqn:Ef;
        [|discriminate].
      destruct (JsMap.get (Arrow.j_toNodeId ad) m) as [t|] eqn:Et;
        [|discriminate].
      apply JsMapFacts.get_in in Ef, Et. apply Hc in Ef, Et.
      cbn [snd] in Ef, Et. now rewrite Ef, Et.
Qed.
End WithNumber.
End Load.

Module Loaded.
Section WithNumber.
Context {N : JSNumber}.
Variable parse : string -> option Storage.StorageData.

Lemma node_records s c a0 ns :
  (forall i nd, nth_error ns i = Some nd ->
     Node.heap s (a0 + i) = Load.fieldsOf nd) ->
  map (Node.toJSON s) (StorageFacts.numbered (Load.handle c a0) c ns)
  = StorageFacts.numbered StorageFacts.nodeRecord c ns.
Proof.
  intros H. rewrite StorageFacts.numbered_map.
  apply StorageFacts.numbered_ext. intros i x Hx.
  unfold Node.toJSON, Node.read, Load.handle. cbn [Node.addr Node.id].
  replace (c + i - c) with i by lia. now rewrite (H i x Hx).
Qed.

Lemma arrow_records m a ads :
  Forall (fun ad => Load.linked m ad = true) ads ->
  map Arrow.toJSON (StorageFacts.numbered (Load.arrowOf m) a ads)
  = StorageFacts.numbered (StorageFacts.arrowRecord (StorageFacts.ids m)) a ads.
Proof.
  intros H. rewrite StorageFacts.numbered_map.
  apply StorageFacts.numbered_ext. intros i x Hx.
  apply nth_error_In in Hx. rewrite Forall_forall in H. apply H in Hx.
  unfold Load.linked, JsMap.has in Hx.
  unfold Arrow.toJSON, Load.arrowOf, StorageFacts.arrowRecord,
    StorageFacts.renamed.
  rewrite !StorageFacts.get_ids.
  destruct (JsMap.get (Arrow.j_fromNodeId x) m); [|discriminate].
  destruct (JsMap.get (Arrow.j_toNodeId x) m); [|discriminate].
  reflexivity.
Qed.

Lemma renaming_has c ns k :
  JsMap.has k (StorageFacts.renaming c ns)
  = existsb (String.eqb k) (map Node.j_id ns).
Proof.
  induction ns as [|nd ns IH] using rev_ind; [reflexivity|].
  rewrite StorageFacts.renaming_snoc, JsMapFacts.has_set, IH, map_app,
    existsb_app.
  cbn [map existsb]. rewrite orb_false_r. apply orb_comm.
Qed.

Lemma ids_has k m : JsMap.has k (StorageFacts.ids m) = JsMap.has k m.
Proof.
  unfold JsMap.has. rewrite StorageFacts.get_ids.
  now destruct (JsMap.get k m).
Qed.

Lemma whiteboards_fold (data : Storage.StorageData) st :
  match Storage.whiteboards data with
  | Some (wbData :: rest) =>
      fold_left Storage.restoreWhiteboard (wbData :: rest) st
  | _ =>
      match Storage.whiteboard data with
      | Some wbData => Storage.restoreWhiteboard st wbData
      | None => st
      end
  end
  = fold_left Storage.restoreWhiteboard (Storage.storedWhiteboards data) st.
Proof.
  unfold Storage.storedWhiteboards.
  destruct (Storage.whiteboards data) as [[|wd rest]|];
    try reflexivity; now destruct (Storage.whiteboard data).
Qed.

Lemma loadDiagram_phases (text : string) (data : Storage.StorageData)
    (rt : Runtime.t) :
  String.eqb text "" = false -> parse text = Some data ->
  String.eqb (Storage.version data) Storage.STORAGE_VERSION = true ->
  Storage.loadDiagram parse (Some text) rt
  = let '(rt1, d1) :=
      fold_left Storage.restoreWhiteboard (Storage.storedWhiteboards data)
        (Runtime.bumpWhiteboard rt, Diagram.mk [] [] [] [] []) in
    let '(rt2, d2, nodeMap) :=
      fold_left Storage.restoreNode (Storage.items (Storage.nodes data))
        (rt1, d1, []) in
    let '(rt3, d3) :=
      fold_left Storage.restoreLabel (Storage.items (Storage.textLabels data))
        (rt2, d2) in
    let '(rt4, d4) :=
      fold_left (Storage.restoreArrow nodeMap)
        (Storage.items (Storage.arrows data)) (rt3, d3) in
    (rt4, Some d4).
Proof.
  intros Ht Hp Hv. unfold Storage.loadDiagram. rewrite Ht, Hp, Hv.
  cbn [negb]. rewrite <- whiteboards_fold. reflexivity.
Qed.

Lemma accepted (text : string) (data : Storage.StorageData) (rt : Runtime.t) :
  String.eqb text "" = false -> parse text = Some data ->
  String.eqb (Storage.version data) Storage.STORAGE_VERSION = true ->
  let r := Storage.loadDiagram parse (Some text) rt in
  let ns := Storage.items (Storage.nodes data) in
  let ls := Storage.items (Storage.textLabels data) in
  let ads :=
    filter (Storage.linked ns) (Storage.items (Storage.arrows data)) in
  let wbs := Storage.storedWhiteboards data in
  let c := Node.nextId (Runtime.nodeStore rt) in
  let t := Runtime.textLabelNextId rt in
  let a := Runtime.arrowNextId rt in
  let w := Runtime.whiteboardNextId rt in
  exists d,
    snd r = Some d
    /\ Diagram.whiteboards d
       = StorageFacts.filed "whiteboard-" StorageFacts.loadedWhiteboard
           (S w) wbs
    /\ JsMap.keys (Diagram.nodes d)
       = map (mint "node-") (seq c (List.length ns))
    /\ map (Node.toJSON (Runtime.nodeStore (fst r)))
         (JsMap.values (Diagram.nodes d))
       = StorageFacts.numbered StorageFacts.nodeRecord c ns
    /\ Diagram.textLabels d
       = StorageFacts.filed "text-" StorageFacts.loadedLabel t ls
    /\ JsMap.keys (Diagram.arrows d)
       = map (mint "arrow-") (seq a (List.length ads))
    /\ map Arrow.toJSON (JsMap.values (Diagram.arrows d))
       = StorageFacts.numbered
           (StorageFacts.arrowRecord (StorageFacts.renaming c ns)) a ads
    /\ Diagram.selectedElementIds d = []
    /\ Scene.integrity d = true
    /\ Node.nextId (Runtime.nodeStore (fst r)) = c + List.length ns
    /\ Runtime.textLabelNextId (fst r) = t + List.length ls
    /\ Runtime.arrowNextId (fst r) = a + List.length ads
    /\ Runtime.whiteboardNextId (fst r) = S w + List.length wbs
    /\ Runtime.console (fst r) = Runtime.console rt.
Proof.
  intros Ht Hp Hv r ns ls ads wbs c t a w. subst r.
  rewrite (loadDiagram_phases text data rt Ht Hp Hv).
  set (rt0 := Runtime.bumpWhiteboard rt).
  set (d0 := Diagram.mk [] [] [] [] []).
  fold wbs.
  (* whiteboards *)
  pose proof (Load.loadWhiteboards wbs rt0 d0 eq_refl) as P1.
  cbv zeta in P1.
  destruct (fold_left Storage.restoreWhiteboard wbs (rt0, d0)) as [rt1 d1].
  cbn [fst snd] in P1.
  destruct P1 as [W1 [W2 [W3 [W4 [W5 [W6 [W7 [W8 [W9 W10]]]]]]]]].
  (* nodes *)
  fold ns.
  pose proof (Load.loadNodes ns rt1 d1 W7) as P2. cbv zeta in P2.
  set (p2 := fold_left Storage.restoreNode ns (rt1, d1, [])).
  change (fold_left Storage.restoreNode ns (rt1, d1, [])) with p2 in P2.
  clearbody p2. destruct p2 as [[rt2 d2] m]. cbn [fst snd] in P2.
  rewrite W3 in P2. cbn [Runtime.nodeStore Runtime.bumpWhiteboard rt0] in P2.
  fold c in P2.
  destruct P2 as [N1 [N2 [N3 [N4 [N5 [N6 [N7 [N8 [N9 [N10
                   [N11 [N12 [N13 N14]]]]]]]]]]]]].
  (* labels *)
  fold ls.
  assert (L0 : Diagram.textLabels d2 = []) by (rewrite N12; exact W9).
  pose proof (Load.loadLabels ls rt2 d2 L0) as P3. cbv zeta in P3.
  destruct (fold_left Storage.restoreLabel ls (rt2, d2)) as [rt3 d3].
  cbn [fst snd] in P3.
  destruct P3 as [L1 [L2 [L3 [L4 [L5 [L6 [L7 [L8 [L9 L10]]]]]]]]].
  (* arrows *)
  assert (A0 : Diagram.arrows d3 = []) by (rewrite L8, N11; exact W8).
  assert (C0 : Integrity.clonesPresent d3 m).
  { intros kv Hin. rewrite L7. now apply N5. }
  pose proof (Load.loadArrows m (Storage.items (Storage.arrows data)) rt3 d3
                A0 C0) as P4.
  cbv zeta in P4.
  assert (F : filter (Load.linked m) (Storage.items (Storage.arrows data))
              = ads).
  { subst ads. apply filter_ext. intros ad.
    unfold Load.linked, Storage.linked.
    now rewrite <- !ids_has, N4, !renaming_has. }
  rewrite F in P4.
  destruct (fold_left (Storage.restoreArrow m) _ (rt3, d3)) as [rt4 d4].
  cbn [fst snd] in P4 |- *.
  destruct P4 as [A1 [A2 [A3 [A4 [A5 [A6 [A7 [A8 [A9 [A10 A11]]]]]]]]]].
  exists d4. split; [reflexivity|].
  assert (Hn : Diagram.nodes d4
               = StorageFacts.filed "node-"
                   (Load.handle c (Node.nextAddr (Runtime.nodeStore rt)))
                   c ns).
  { rewrite A8, L7. exact N1. }
  assert (Hs : Runtime.nodeStore rt4 = Runtime.nodeStore rt2)
    by (rewrite A4; exact L3).
  refine (conj _ (conj _ (conj _ (conj _ (conj _ (conj _ (conj _
            (conj A3 (conj _ (conj _ (conj _ (conj _ _)))))))))))).
  - rewrite A10, L9, N13. exact W1.
  - rewrite Hn. apply StorageFacts.filed_keys.
  - rewrite Hn, StorageFacts.filed_values, Hs. now apply node_records.
  - rewrite A9. rewrite L1, N8, W5. reflexivity.
  - rewrite A1. rewrite StorageFacts.filed_keys, L4, N7, W4. reflexivity.
  - rewrite A1, StorageFacts.filed_values, L4, N7, W4. fold a.
    rewrite <- N4. apply arrow_records. rewrite <- F.
    apply Forall_forall. intros ad Hin. now apply filter_In in Hin.
  - rewrite A11, L10, N14. exact W10.
  - rewrite Hs. exact N2.
  - rewrite A5, L2, N8, W5. reflexivity.
  - rewrite A2, L4, N7, W4. reflexivity.
  - rewrite A6, L5, N9, W2. reflexivity.
  - rewrite A7, L6, N10. exact W6.
Qed.
End WithNumber.
End Loaded.

Section X21.
Context {N : JSNumber}.
Variable parse : string -> option Storage.StorageData.

(** X21.  [loadDiagram] gives no diagram and logs nothing when nothing or
    the empty text is stored; it gives none and logs one error when the
    text does not parse, and none and one warning when the stored version
    is not 1.0.  Otherwise it gives a diagram made of the stored entries
    alone, every one under the next id of its counter, in the stored
    order: the stored whiteboards, or the single whiteboard of the old
    format when the list is missing or empty, and no whiteboard at all
    when that is missing too (the default whiteboard of a new diagram is
    dropped); one node per node entry, whose serialized record is the
    entry under the new id; one label per label entry with the stored
    position, text, font and colour, the stored border or that of a new
    label, and always the size of a new label, 100 by 30; one arrow per
    arrow entry both of whose end ids name node entries, joining the
    nodes loaded for them, the other arrow entries being dropped.
    Nothing is selected, every arrow's ends are nodes of the diagram, the
    counters of nodes, labels and arrows advance by the number of
    elements made, that of whiteboards by one more for the default
    whiteboard that was dropped, and nothing is logged. *)
Theorem X21_loadDiagram (stored : option string) (rt : Runtime.t) :
  let r := Storage.loadDiagram parse stored rt in
  match stored with
  | None => r = (rt, None)
  | Some text =>
      if String.eqb text "" then r = (rt, None)
      else
        match parse text with
        | None => r = (Runtime.log rt Storage.loadError, None)
        | Some data =>
            if String.eqb (Storage.version data) Storage.STORAGE_VERSION
            then
              let ns := Storage.items (Storage.nodes data) in
              let ls := Storage.items (Storage.textLabels data) in
              let ads :=
                filter (Storage.linked ns)
                  (Storage.items (Storage.arrows data)) in
              let wbs := Storage.storedWhiteboards data in
              let c := Node.nextId (Runtime.nodeStore rt) in
              let t := Runtime.textLabelNextId rt in
              let a := Runtime.arrowNextId rt in
              let w := Runtime.whiteboardNextId rt in
              exists d,
                snd r = Some d
                /\ Diagram.whiteboards d
                   = StorageFacts.filed "whiteboard-"
                       StorageFacts.loadedWhiteboard (S w) wbs
                /\ JsMap.keys (Diagram.nodes d)
                   = map (mint "node-") (seq c (List.length ns))
                /\ map (Node.toJSON (Runtime.nodeStore (fst r)))
                     (JsMap.values (Diagram.nodes d))
                   = StorageFacts.numbered StorageFacts.nodeRecord c ns
                /\ Diagram.textLabels d
                   = StorageFacts.filed "text-" StorageFacts.loadedLabel t ls
                /\ JsMap.keys (Diagram.arrows d)
                   = map (mint "arrow-") (seq a (List.length ads))
                /\ map Arrow.toJSON (JsMap.values (Diagram.arrows d))
                   = StorageFacts.numbered
                       (StorageFacts.arrowRecord
                          (StorageFacts.renaming c ns)) a ads
                /\ Diagram.selectedElementIds d = []
                /\ Scene.integrity d = true
                /\ Node.nextId (Runtime.nodeStore (fst r))
                   = c + List.length ns
                /\ Runtime.textLabelNextId (fst r) = t + List.length ls
                /\ Runtime.arrowNextId (fst r) = a + List.length ads
                /\ Runtime.whiteboardNextId (fst r) = S w + List.length wbs
                /\ Runtime.console (fst r) = Runtime.console rt
            else r = (Runtime.log rt Storage.versionWarning, None)
        end
  end.
Proof.
  intros r. destruct stored as [text|]; [|reflexivity].
  destruct (String.eqb text "") eqn:Ht.
  { subst r. unfold Storage.loadDiagram. now rewrite Ht. }
  destruct (parse text) as [data|] eqn:Hp.
  2: { subst r. unfold Storage.loadDiagram. now rewrite Ht, Hp. }
  destruct (String.eqb (Storage.version data) Storage.STORAGE_VERSION) eqn:Hv.
  2: { subst r. unfold Storage.loadDiagram. now rewrite Ht, Hp, Hv. }
  exact (Loaded.accepted parse text data rt Ht Hp Hv).
Qed.
End X21.

Module SaveLoad.
Section WithNumber.
Context {N : JSNumber}.

  (** A label and a whiteboard as they come back from storage under the
      number [k]: flags and, for a label, the size are those of a new
      element. *)
Definition reloadedLabel (k : nat) (l : TextLabel.t) : TextLabel.t :=
  TextLabel.mk (mint "text-" k)
    (Point.mk (Point.x (TextLabel.position l)) (Point.y (TextLabel.position l)))
    (TextLabel.text l) (TextLabel.fontSize l) false false (lit 100) (lit 30)
    (TextLabel.color l) (TextLabel.fontFamily l) (TextLabel.showBorder l)
    (TextLabel.borderStyle l) (TextLabel.borderColor l)
    (TextLabel.borderWidth l) (TextLabel.padding l).

Definition reloadedWhiteboard (k : nat) (wb : Whiteboard.t) : Whiteboard.t :=
  Whiteboard.mk (mint "whiteboard-" k)
    (Point.mk (Point.x (Whiteboard.position wb))
              (Point.y (Whiteboard.position wb)))
    (Whiteboard.width wb) (Whiteboard.height wb)
    (Whiteboard.backgroundColor wb) false.

Lemma numbered_of_map [D E R : Type] (f : nat -> E -> R) (g : D -> E) ds :
  forall c,
  StorageFacts.numbered f c (map g ds)
  = StorageFacts.numbered (fun k x => f k (g x)) c ds.
Proof.
  induction ds as [|y ds IH]; intros c; cbn [StorageFacts.numbered map];
    [reflexivity|]. now rewrite IH.
Qed.

Lemma storedWhiteboards_saved now rt d :
  Storage.storedWhiteboards (Storage.savedData now rt d)
  = map Storage.whiteboardToJSON (JsMap.values (Diagram.whiteboards d)).
Proof.
  unfold Storage.storedWhiteboards, Storage.savedData,
    Diagram.getAllWhiteboards.
  cbn [Storage.whiteboards Storage.whiteboard].
  now destruct (map _ _).
Qed.
End WithNumber.
End SaveLoad.

Section X22.
Context {N : JSNumber}.
Variable stringify : Storage.StorageData -> string.
Variable parse : string -> option Storage.StorageData.

(** X22.  Saving a diagram and loading what was saved, when the saved
    text is not empty and parses back to the data that were saved, gives a
    diagram with the nodes, labels and whiteboards of the saved one in the
    same order, renumbered from the counters at the time of loading.
    The node records are those of the saved nodes under the new ids; a
    label comes back with its position, text, font, colour and border
    but unselected, not dragged and 100 by 30 whatever its size was; a
    whiteboard comes back with its geometry and background, unselected.
    The arrows that come back are those whose two end ids are ids of
    saved nodes, with their stroke and line style, joining the reloaded
    nodes. *)
Theorem X22_save_load (now : num) (rt : Runtime.t) (d : Diagram.t)
    (rt' : Runtime.t) :
  let text := Storage.saveDiagram stringify now rt d in
  String.eqb text "" = false ->
  parse text = Some (Storage.savedData now rt d) ->
  let r := Storage.loadDiagram parse (Some text) rt' in
  let ns :=
    map (Node.toJSON (Runtime.nodeStore rt)) (JsMap.values (Diagram.nodes d)) in
  let ads := map Arrow.toJSON (JsMap.values (Diagram.arrows d)) in
  let c := Node.nextId (Runtime.nodeStore rt') in
  exists d',
    snd r = Some d'
    /\ map (Node.toJSON (Runtime.nodeStore (fst r)))
         (JsMap.values (Diagram.nodes d'))
       = StorageFacts.numbered StorageFacts.nodeRecord c ns
    /\ JsMap.values (Diagram.textLabels d')
       = StorageFacts.numbered SaveLoad.reloadedLabel
           (Runtime.textLabelNextId rt') (JsMap.values (Diagram.textLabels d))
    /\ JsMap.values (Diagram.whiteboards d')
       = StorageFacts.numbered SaveLoad.reloadedWhiteboard
           (S (Runtime.whiteboardNextId rt'))
           (JsMap.values (Diagram.whiteboards d))
    /\ map Arrow.toJSON (JsMap.values (Diagram.arrows d'))
       = StorageFacts.numbered
           (StorageFacts.arrowRecord (StorageFacts.renaming c ns))
           (Runtime.arrowNextId rt') (filter (Storage.linked ns) ads)
    /\ Diagram.selectedElementIds d' = []
    /\ Scene.integrity d' = true.
Proof.
  intros text Ht Hp r ns ads c.
  assert (Hv : String.eqb (Storage.version (Storage.savedData now rt d))
                 Storage.STORAGE_VERSION = true) by reflexivity.
  pose proof (Loaded.accepted parse text _ rt' Ht Hp Hv) as H.
  cbv zeta in H. fold r in H.
  rewrite SaveLoad.storedWhiteboards_saved in H.
  destruct H as [d' [H1 [H2 [_ [H4 [H5 [_ [H7 [H8 [H9 _]]]]]]]]]].
  exists d'. split; [exact H1|].
  refine (conj H4 (conj _ (conj _ (conj H7 (conj H8 H9))))).
  - rewrite H5, StorageFacts.filed_values.
    cbn [Storage.savedData Storage.textLabels Storage.items].
    unfold Diagram.getAllTextLabels. rewrite SaveLoad.numbered_of_map.
    reflexivity.
  - rewrite H2, StorageFacts.filed_values, SaveLoad.numbered_of_map.
    reflexivity.
Qed.
End X22.

Module SaveLoadExample.
(** The scene of the clipboard example, saved at time 0 and loaded by a
    program that has made nothing yet. *)
Definition stringify (_ : @Storage.StorageData ZNumber) : string := "saved".

Definition parse (text : string) : option (@Storage.StorageData ZNumber) :=
  if String.eqb text "saved"
  then Some (@Storage.savedData ZNumber 0%Z (fst ClipboardExample.scene)
               (snd ClipboardExample.scene))
  else None.

Definition saved : string :=
  @Storage.saveDiagram ZNumber stringify 0%Z (fst ClipboardExample.scene)
    (snd ClipboardExample.scene).

Definition reloaded : Runtime.t * option Diagram.t :=
  @Storage.loadDiagram ZNumber parse (Some saved) (@Runtime.initial ZNumber).
End SaveLoadExample.

Lemma X22_witness :
  String.eqb SaveLoadExample.saved "" = false
  /\ SaveLoadExample.parse SaveLoadExample.saved
     = Some (@Storage.savedData ZNumber 0%Z (fst ClipboardExample.scene)
               (snd ClipboardExample.scene))
  /\ map TextLabel.width
       (JsMap.values (Diagram.textLabels (snd ClipboardExample.scene)))
     = [190%Z]
  /\ exists d',
       snd SaveLoadExample.reloaded = Some d'
       /\ map TextLabel.width (JsMap.values (Diagram.textLabels d'))
          = [100%Z].
Proof.
  split; [reflexivity|]. split; [reflexivity|]. split; [reflexivity|].
  destruct (@X22_save_load ZNumber SaveLoadExample.stringify
              SaveLoadExample.parse 0%Z (fst ClipboardExample.scene)
              (snd ClipboardExample.scene) (@Runtime.initial ZNumber)
              eq_refl eq_refl) as [d' [H1 [_ [H3 _]]]].
  exists d'. split; [exact H1|]. rewrite H3. reflexivity.
Defined.

(** ** Pressing the pointer on an element with the select tool *)

Module Click.
Section WithNumber.
Context {N : JSNumber}.

  (** The resize handle of the selected whiteboard that a press grabs. *)
Definition grabbed (d : Diagram.t) (point : Point.t) : option ResizeHandle :=
  match Diagram.getSelectedWhiteboard d with
  | Some selectedWhiteboard =>
      Whiteboard.getResizeHandleAtPoint selectedWhiteboard point (lit 12)
  | None => None
  end.

Lemma selectElement_add id rt d :
  Diagram.selectedElementIds (snd (Diagram.selectElement id true rt d))
  = JsSet.add id (Diagram.selectedElementIds d).
Proof. reflexivity. Qed.

Lemma selectElement_nodes id add rt d :
  Diagram.nodes (snd (Diagram.selectElement id add rt d)) = Diagram.nodes d.
Proof.
  pose proof (Skeleton.selectElement_same id add rt d) as [_ [H _ _ _]].
  exact H.
Qed.

Lemma markDragging_shape id rt d :
  let r := InteractionManager.markDragging id true rt d in
  Diagram.selectedElementIds (snd r) = Diagram.selectedElementIds d
  /\ forall node, Diagram.getNode id d = Some node ->
       Node.isDragging (Node.read (Runtime.nodeStore (fst r)) node) = true.
Proof.
  cbv zeta. unfold InteractionManager.markDragging. cbn [fst snd].
  split; [reflexivity|]. intros node H. rewrite H. cbn.
  now rewrite Nat.eqb_refl.
Qed.
End WithNumber.
End Click.

Section X13.
Context {N : JSNumber}.

(** X13.  With the select tool, a press that lands on an element and
    grabs no resize handle of the selected whiteboard settles the
    selection as follows: with shift held the element is added to the
    selection and nothing leaves it, so a second shift press on the same
    element does not take it out; without shift an element that is
    already selected leaves the whole selection as it is, and an element
    that is not becomes the only selected one.  A press on a node or a
    label starts dragging it and flags the node as dragged; a press on an
    arrow changes neither the mode nor the dragged element.  One update
    is notified. *)
Theorem X13_click_selection (point : Point.t) (shiftKey : bool)
    (rt : Runtime.t) (m : InteractionManager.t) (el : Hit) :
  InteractionManager.currentTool m = SELECT ->
  Diagram.findElementAtPoint (Runtime.nodeStore rt)
    (InteractionManager.diagram m) point = Some el ->
  Click.grabbed (InteractionManager.diagram m) point = None ->
  let r := InteractionManager.handleMouseDown point shiftKey rt m in
  let d := InteractionManager.diagram m in
  let sel := Diagram.selectedElementIds d in
  let id := hit_id el in
  Diagram.selectedElementIds (InteractionManager.diagram (snd r))
  = (if shiftKey then JsSet.add id sel
     else if JsSet.has id sel then sel else [id])
  /\ match hit_type el with
     | ElArrow =>
         InteractionManager.mode (snd r) = InteractionManager.mode m
         /\ InteractionManager.draggedElementId (snd r)
            = InteractionManager.draggedElementId m
     | _ =>
         InteractionManager.mode (snd r) = DRAGGING
         /\ InteractionManager.draggedElementId (snd r) = Some id
         /\ forall node, Diagram.getNode id d = Some node ->
              Node.isDragging
                (Node.read (Runtime.nodeStore (fst r)) node) = true
     end
  /\ InteractionManager.emitted (snd r)
     = InteractionManager.emitted m ++ [Update].
Proof.
  intros Htool Hel Hg r d sel id. subst r.
  unfold InteractionManager.handleMouseDown.
  cbn [InteractionManager.currentTool InteractionManager.with_mousePosition
       InteractionManager.with_dragStartPoint InteractionManager.diagram].
  rewrite Htool, Hel. unfold InteractionManager.handleSelectMouseDown.
  cbn [InteractionManager.diagram InteractionManager.with_mousePosition
       InteractionManager.with_dragStartPoint]. fold d.
  unfold Click.grabbed in Hg. fold d in Hg. rewrite Hg.
  set (d1 := InteractionManager.deselectAllWhiteboards d).
  assert (Hs1 : Diagram.selectedElementIds d1 = sel) by reflexivity.
  assert (Hn1 : Diagram.nodes d1 = Diagram.nodes d) by reflexivity.
  unfold Diagram.getSelectedIds. rewrite Hs1. fold id.
  set (p := if negb shiftKey
            then if negb (JsSet.has id sel)
                 then Diagram.selectElement id false rt d1 else (rt, d1)
            else Diagram.selectElement id true rt d1).
  assert (Hp : Diagram.selectedElementIds (snd p)
               = (if shiftKey then JsSet.add id sel
                  else if JsSet.has id sel then sel else [id])
               /\ Diagram.nodes (snd p) = Diagram.nodes d).
  { subst p. destruct shiftKey; cbn [negb].
    - rewrite Click.selectElement_add, Click.selectElement_nodes.
      now split.
    - destruct (JsSet.has id sel); cbn [negb snd].
      + now split.
      + rewrite PointerUp.selectElement_selection,
          Click.selectElement_nodes. now split. }
  clearbody p. destruct p as [rt2 d2]. cbn [snd] in Hp.
  destruct Hp as [Hp1 Hp2].
  destruct (hit_type el).
  - pose proof (Click.markDragging_shape id rt2 d2) as [M1 M2].
    destruct (InteractionManager.markDragging id true rt2 d2) as [rt3 d3].
    cbn [fst snd] in M1, M2 |- *. cbn. rewrite M1. split; [exact Hp1|].
    split; [|reflexivity]. split; [reflexivity|]. split; [reflexivity|].
    intros node Hn. apply M2. unfold Diagram.getNode in *. now rewrite Hp2.
  - cbn. split; [exact Hp1|]. now repeat split.
  - pose proof (Click.markDragging_shape id rt2 d2) as [M1 M2].
    destruct (InteractionManager.markDragging id true rt2 d2) as [rt3 d3].
    cbn [fst snd] in M1, M2 |- *. cbn. rewrite M1. split; [exact Hp1|].
    split; [|reflexivity]. split; [reflexivity|]. split; [reflexivity|].
    intros node Hn. apply M2. unfold Diagram.getNode in *. now rewrite Hp2.
Qed.
End X13.

Module ClickExample.
(** The select tool over A, B and the arrow X, nothing selected, and a
    press on the centre of A. *)
Definition manager : InteractionManager.t :=
  InteractionManager.new (snd Example.sceneAXB).

Definition pressed : Runtime.t * InteractionManager.t :=
  InteractionManager.handleMouseDown (Example.pt 0 0) false
    (fst Example.sceneAXB) manager.
End ClickExample.

Lemma X13_witness :
  InteractionManager.currentTool ClickExample.manager = SELECT
  /\ Diagram.findElementAtPoint (Runtime.nodeStore (fst Example.sceneAXB))
       (InteractionManager.diagram ClickExample.manager) (Example.pt 0 0)
     = Some (mkHit ElNode "node-0")
  /\ Click.grabbed (InteractionManager.diagram ClickExample.manager)
       (Example.pt 0 0) = None
  /\ Diagram.selectedElementIds
       (InteractionManager.diagram (snd ClickExample.pressed))
     = ["node-0"].
Proof.
  assert (H1 : InteractionManager.currentTool ClickExample.manager = SELECT)
    by reflexivity.
  assert (H2 : Diagram.findElementAtPoint
                 (Runtime.nodeStore (fst Example.sceneAXB))
                 (InteractionManager.diagram ClickExample.manager)
                 (Example.pt 0 0)
               = Some (mkHit ElNode "node-0")) by (vm_compute; reflexivity).
  assert (H3 : Click.grabbed (InteractionManager.diagram ClickExample.manager)
                 (Example.pt 0 0) = None) by (vm_compute; reflexivity).
  refine (conj H1 (conj H2 (conj H3 _))).
  exact (proj1 (X13_click_selection (Example.pt 0 0) false
                  (fst Example.sceneAXB) ClickExample.manager
                  (mkHit ElNode "node-0") H1 H2 H3)).
Defined.

(** ** Drawing an arrow: press on a node, release on another *)

Section X23.
Context {N : JSNumber}.

(** X23.  With the arrow tool, a press on a node makes that node the
    pending source and the mode arrow-creating without touching the
    scene; a release that then lands on a node with another id adds
    exactly one arrow from the source to that node, with the default
    stroke and under the next arrow id, leaves the nodes as they are,
    forgets the source, returns to the idle mode and stays on the arrow
    tool. *)
Theorem X23_arrow_gesture (p1 p2 : Point.t) (shiftKey : bool)
    (rt : Runtime.t) (m : InteractionManager.t) (a b : string)
    (A B : Node.t) :
  let d := InteractionManager.diagram m in
  let s := Runtime.nodeStore rt in
  InteractionManager.currentTool m = ARROW ->
  Diagram.findElementAtPoint s d p1 = Some (mkHit ElNode a) ->
  Diagram.getNode a d = Some A ->
  Diagram.findElementAtPoint s d p2 = Some (mkHit ElNode b) ->
  Diagram.getNode b d = Some B ->
  b <> Node.id A ->
  let pressed := InteractionManager.handleMouseDown p1 shiftKey rt m in
  let r := InteractionManager.handleMouseUp p2 (fst pressed) (snd pressed) in
  let d' := InteractionManager.diagram (snd r) in
  (fst pressed = rt
   /\ InteractionManager.diagram (snd pressed) = d
   /\ InteractionManager.mode (snd pressed) = CREATING_ARROW
   /\ InteractionManager.arrowStartNode (snd pressed) = Some A)
  /\ Diagram.arrows d'
     = JsMap.set (mint "arrow-" (Runtime.arrowNextId rt))
         (Arrow.new (Runtime.arrowNextId rt) A B None None None)
         (Diagram.arrows d)
  /\ Diagram.nodes d' = Diagram.nodes d
  /\ InteractionManager.arrowStartNode (snd r) = None
  /\ InteractionManager.mode (snd r) = IDLE
  /\ InteractionManager.currentTool (snd r) = ARROW
  /\ Runtime.arrowNextId (fst r) = S (Runtime.arrowNextId rt).
Proof.
  intros d s Htool H1 HA H2 HB Hne pressed r d'.
  assert (Hp : pressed
               = (rt,
                  InteractionManager.onUpdate
                    (InteractionManager.with_mode
                       (InteractionManager.with_arrowStartNode
                          (InteractionManager.with_mousePosition
                             (InteractionManager.with_dragStartPoint m
                                (Some p1)) p1)
                          (Some A))
                       CREATING_ARROW))).
  { subst pressed. unfold InteractionManager.handleMouseDown.
    cbn [InteractionManager.currentTool InteractionManager.with_mousePosition
         InteractionManager.with_dragStartPoint InteractionManager.diagram].
    rewrite Htool. fold d s. rewrite H1.
    unfold InteractionManager.handleArrowCreationStart.
    cbn [InteractionManager.diagram InteractionManager.with_mousePosition
         InteractionManager.with_dragStartPoint]. fold d. now rewrite HA. }
  clearbody pressed. subst pressed. cbn [fst snd] in r.
  split; [now repeat split|].
  set (m1 := InteractionManager.onUpdate _) in *.
  assert (Hc : InteractionManager.completeArrow p2 rt
                 (InteractionManager.with_mousePosition m1 p2)
               = (Runtime.bumpArrow rt,
                  InteractionManager.with_arrowStartNode
                    (InteractionManager.with_diagram
                       (InteractionManager.with_mousePosition m1 p2)
                       (Diagram.addArrow
                          (Arrow.new (Runtime.arrowNextId rt) A B
                             None None None) d))
                    None,
                  false)).
  { unfold InteractionManager.completeArrow. subst m1.
    cbn [InteractionManager.mode InteractionManager.arrowStartNode
         InteractionManager.diagram InteractionManager.with_mousePosition
         InteractionManager.onUpdate InteractionManager.emit
         InteractionManager.with_mode InteractionManager.with_arrowStartNode
         InteractionManager.with_dragStartPoint].
    fold d s. rewrite H2. cbn [hit_type hit_id].
    destruct (String.eqb b (Node.id A)) eqn:E.
    { apply String.eqb_eq in E. contradiction. }
    cbn [negb]. now rewrite HB. }
  pose proof (PointerUp.handleMouseUp_continues p2 rt m1 _ _ Hc eq_refl) as H.
  cbv zeta in H. fold r d' in H.
  destruct H as [F1 [F2 [F3 [F4 [F5 [F6 _]]]]]].
  refine (conj _ (conj _ (conj _ (conj F5 (conj _ _))))).
  - rewrite F2. reflexivity.
  - rewrite F1. reflexivity.
  - rewrite F4. reflexivity.
  - rewrite F3. subst m1. cbn. exact Htool.
  - rewrite F6. reflexivity.
Qed.
End X23.

Module ArrowGestureExample.
(** The arrow tool over A at (0,0) and B at (300,0), not yet joined. *)
Definition scene : Scene.state :=
  (fst Example.withB,
   Diagram.addNode Example.nodeB
     (Diagram.addNode Example.nodeA (snd Example.fresh))).

Definition manager : InteractionManager.t :=
  InteractionManager.setTool ARROW (InteractionManager.new (snd scene)).

Definition released : Runtime.t * InteractionManager.t :=
  let pressed :=
    InteractionManager.handleMouseDown (Example.pt 0 0) false (fst scene)
      manager in
  InteractionManager.handleMouseUp (Example.pt 300 0) (fst pressed)
    (snd pressed).
End ArrowGestureExample.

Lemma X23_witness :
  JsMap.keys
    (Diagram.arrows (InteractionManager.diagram (snd ArrowGestureExample.released)))
  = ["arrow-0"]
  /\ InteractionManager.mode (snd ArrowGestureExample.released) = IDLE.
Proof.
  pose proof (@X23_arrow_gesture ZNumber (Example.pt 0 0) (Example.pt 300 0)
                false (fst ArrowGestureExample.scene)
                ArrowGestureExample.manager "node-0" "node-1"
Example.nodeA Example.nodeB) as H.
  cbv zeta in H.
  specialize (H eq_refl).
  assert (H1 : Diagram.findElementAtPoint
                 (Runtime.nodeStore (fst ArrowGestureExample.scene))
                 (InteractionManager.diagram ArrowGestureExample.manager)
                 (Example.pt 0 0) = Some (mkHit ElNode "node-0"))
    by (vm_compute; reflexivity).
  assert (H2 : Diagram.findElementAtPoint
                 (Runtime.nodeStore (fst ArrowGestureExample.scene))
                 (InteractionManager.diagram ArrowGestureExample.manager)
                 (Example.pt 300 0) = Some (mkHit ElNode "node-1"))
    by (vm_compute; reflexivity).
  assert (Hne : "node-1" <> Node.id Example.nodeA)
    by (vm_compute; discriminate).
  specialize (H H1 eq_refl H2 eq_refl Hne).
  destruct H as [_ [Ha [_ [_ [Hm _]]]]]. split; [|exact Hm].
  change (InteractionManager.diagram (snd ArrowGestureExample.released))
    with (InteractionManager.diagram
            (snd (InteractionManager.handleMouseUp (Example.pt 300 0)
                    (fst (InteractionManager.handleMouseDown (Example.pt 0 0)
                            false (fst ArrowGestureExample.scene)
                            ArrowGestureExample.manager))
                    (snd (InteractionManager.handleMouseDown (Example.pt 0 0)
                            false (fst ArrowGestureExample.scene)
                            ArrowGestureExample.manager))))).
  rewrite Ha. reflexivity.
Defined.

(** ** Resizing a whiteboard by dragging a handle *)

Module ResizeGesture.
Section WithNumber.
Context {N : JSNumber}.

  (** A run of pointer moves. *)
Definition feed (ps : list Point.t)
    (st : Runtime.t * InteractionManager.t) : Runtime.t * InteractionManager.t :=
  fold_left (fun st p => InteractionManager.handleMouseMove p (fst st) (snd st))
    ps st.

  (** Every whiteboard is filed under its own id, once. *)
Definition wellFiled (d : Diagram.t) : Prop :=
  NoDup (JsMap.keys (Diagram.whiteboards d))
  /\ forall kv, In kv (Diagram.whiteboards d) ->
                Whiteboard.id (snd kv) = fst kv.

  (** The whiteboard after the pointer went from [p] through the places
      [ps] with the handle [h] held: resized at every place by the
      movement from the place before. *)
Fixpoint resized (h : ResizeHandle) (p : Point.t) (ps : list Point.t)
    (wb : Whiteboard.t) : Whiteboard.t :=
  match ps with
  | [] => wb
  | q :: rest =>
      resized h q rest (Whiteboard.resize wb h (Point.subtract q p))
  end.

Lemma resize_kept (wb : Whiteboard.t) h delta :
  Whiteboard.id (Whiteboard.resize wb h delta) = Whiteboard.id wb
  /\ Whiteboard.selected (Whiteboard.resize wb h delta) = Whiteboard.selected wb
  /\ Whiteboard.backgroundColor (Whiteboard.resize wb h delta)
     = Whiteboard.backgroundColor wb
  /\ (Whiteboard.isLeftHandle h = false ->
      Point.x (Whiteboard.position (Whiteboard.resize wb h delta))
      = Point.x (Whiteboard.position wb))
  /\ (Whiteboard.isTopHandle h = false ->
      Point.y (Whiteboard.position (Whiteboard.resize wb h delta))
      = Point.y (Whiteboard.position wb)).
Proof.
  destruct wb as [i [x y] w hh bg sl]. unfold Whiteboard.resize.
  destruct h; cbn;
    repeat match goal with
           | |- context [nlt ?a ?b] => destruct (nlt a b)
           end;
    cbn; repeat split; intros; try discriminate; reflexivity.
Qed.

Section Minimum.
Hypothesis min_width : nlt (lit 400) (lit 400) = false.
Hypothesis min_height : nlt (lit 300) (lit 300) = false.

Lemma resize_minimum (wb : Whiteboard.t) h delta :
  nlt (Whiteboard.width (Whiteboard.resize wb h delta)) (lit 400) = false
  /\ nlt (Whiteboard.height (Whiteboard.resize wb h delta)) (lit 300) = false.
Proof.
  destruct wb as [i [x y] w hh bg sl]. unfold Whiteboard.resize.
  destruct h; cbn;
    repeat match goal with
           | |- context [if nlt ?a ?b then _ else _] =>
               destruct (nlt a b) eqn:?
           end;
    cbn; split; assumption.
Qed.

Lemma resized_minimum h ps : forall p (wb : Whiteboard.t),
  ps <> [] ->
  nlt (Whiteboard.width (resized h p ps wb)) (lit 400) = false
  /\ nlt (Whiteboard.height (resized h p ps wb)) (lit 300) = false.
Proof.
  induction ps as [|q ps IH]; intros p wb Hne; [now contradiction Hne|].
  cbn [resized]. destruct ps as [|q' ps].
  - cbn [resized]. apply resize_minimum.
  - apply IH. discriminate.
Qed.
End Minimum.

Lemma resized_kept h ps : forall p (wb : Whiteboard.t),
  Whiteboard.id (resized h p ps wb) = Whiteboard.id wb
  /\ Whiteboard.selected (resized h p ps wb) = Whiteboard.selected wb
  /\ Whiteboard.backgroundColor (resized h p ps wb)
     = Whiteboard.backgroundColor wb
  /\ (Whiteboard.isLeftHandle h = false ->
      Point.x (Whiteboard.position (resized h p ps wb))
      = Point.x (Whiteboard.position wb))
  /\ (Whiteboard.isTopHandle h = false ->
      Point.y (Whiteboard.position (resized h p ps wb))
      = Point.y (Whiteboard.position wb)).
Proof.
  induction ps as [|q ps IH]; intros p wb; cbn [resized].
  - repeat split; reflexivity.
  - destruct (IH q (Whiteboard.resize wb h (Point.subtract q p)))
      as [I1 [I2 [I3 [I4 I5]]]].
    destruct (resize_kept wb h (Point.subtract q p)) as [K1 [K2 [K3 [K4 K5]]]].
    repeat split; intros; try congruence.
    + rewrite I4, K4; auto.
    + rewrite I5, K5; auto.
Qed.

Lemma last_cons [A : Type] (ps : list A) : forall p q,
  last (q :: ps) p = last ps q.
Proof.
  induction ps as [|x ps IH]; intros p q; [reflexivity|].
  change (last (q :: x :: ps) p) with (last (x :: ps) p).
  now rewrite (IH p x), (IH q x).
Qed.

  (** Updating the entry of the first value that satisfies [P]. *)
Lemma find_update [V : Type] (P : V -> bool) (f : V -> V) (idOf : V -> string)
    (m : JsMap.t V) (v : V) :
  NoDup (JsMap.keys m) ->
  (forall kv, In kv m -> idOf (snd kv) = fst kv) ->
  find P (JsMap.values m) = Some v ->
  P (f v) = true ->
  find P (JsMap.values (JsMap.update (idOf v) f m)) = Some (f v)
  /\ forall k, k <> idOf v ->
       JsMap.get k (JsMap.update (idOf v) f m) = JsMap.get k m.
Proof.
  intros Hnd Hk Hf Hp. split.
  - induction m as [|[k x] m IH]; [discriminate|].
    cbn in Hf |- *. inversion Hnd as [|? ? Hnot Hnd']. subst.
    destruct (P x) eqn:Ex.
    + injection Hf as ->. pose proof (Hk (k, v) (or_introl eq_refl)) as Hid.
      cbn in Hid. rewrite Hid, String.eqb_refl. cbn. now rewrite Hp.
    + destruct (String.eqb (idOf v) k) eqn:E.
      * exfalso. apply String.eqb_eq in E. apply Hnot.
        apply find_some in Hf as [Hin _].
        unfold JsMap.values in Hin. apply in_map_iff in Hin as [[k' v'] [E' Hin]].
        cbn in E'. subst v'. pose proof (Hk _ (or_intror Hin)) as Hid.
        cbn in Hid. unfold JsMap.keys. apply in_map_iff.
        exists (k', v). split; [cbn; congruence|assumption].
      * cbn. rewrite Ex. apply IH; [assumption| |assumption].
        intros kv Hin. apply Hk. now right.
  - intros k Hne. rewrite JsMapFacts.get_update.
    destruct (String.eqb (idOf v) k) eqn:E; [|reflexivity].
    apply String.eqb_eq in E. congruence.
Qed.

Lemma wellFiled_update d k f :
  (forall w, Whiteboard.id (f w) = Whiteboard.id w) ->
  wellFiled d ->
  wellFiled
    (Diagram.with_whiteboards d (JsMap.update k f (Diagram.whiteboards d))).
Proof.
  intros Hf [H1 H2]. split; cbn [Diagram.whiteboards Diagram.with_whiteboards].
  - now rewrite JsMapFacts.keys_update.
  - intros kv Hin. apply JsMapFacts.in_update in Hin as [v0 [Hin [E|E]]];
      rewrite E; [|rewrite Hf]; exact (H2 _ Hin).
Qed.

  (** The manager in the middle of a resize gesture on the whiteboard
      with the id [id0] of the scene [d0]: the pointer at [p], the
      whiteboard now [wb]. *)
Record held (h : ResizeHandle) (id0 : string) (d0 : Diagram.t)
    (p : Point.t) (wb : Whiteboard.t) (m : InteractionManager.t)
    : Prop := mkHeld {
  held_mode : InteractionManager.mode m = RESIZING_WHITEBOARD;
  held_start : InteractionManager.dragStartPoint m = Some p;
  held_handle : InteractionManager.resizingHandle m = Some h;
  held_filed : wellFiled (InteractionManager.diagram m);
  held_whiteboard :
    Diagram.getSelectedWhiteboard (InteractionManager.diagram m) = Some wb;
  held_id : Whiteboard.id wb = id0;
  held_others :
    forall k, k <> id0 ->
      JsMap.get k (Diagram.whiteboards (InteractionManager.diagram m))
      = JsMap.get k (Diagram.whiteboards d0);
  held_nodes : Diagram.nodes (InteractionManager.diagram m) = Diagram.nodes d0;
  held_arrows :
    Diagram.arrows (InteractionManager.diagram m) = Diagram.arrows d0;
  held_labels :
    Diagram.textLabels (InteractionManager.diagram m) = Diagram.textLabels d0;
  held_selection :
    Diagram.selectedElementIds (InteractionManager.diagram m)
    = Diagram.selectedElementIds d0;
  held_tool : InteractionManager.currentTool m = SELECT
}.

Lemma move_held h id0 d0 p q wb rt m :
  held h id0 d0 p wb m ->
  let r := InteractionManager.handleMouseMove q rt m in
  fst r = rt
  /\ held h id0 d0 q (Whiteboard.resize wb h (Point.subtract q p)) (snd r)
  /\ InteractionManager.emitted (snd r)
     = InteractionManager.emitted m ++ [Update].
Proof.
  intros [Hm Hs Hh Hf Hw Hid Ho Hn Ha Hl Hsel Ht].
  unfold InteractionManager.handleMouseMove.
  cbn [InteractionManager.mode InteractionManager.with_mousePosition
       InteractionManager.dragStartPoint].
  rewrite Hm, Hs. cbn [Mode_eqb].
  unfold InteractionManager.handleResizingWhiteboard.
  cbn [InteractionManager.dragStartPoint InteractionManager.resizingHandle
       InteractionManager.diagram InteractionManager.with_mousePosition].
  rewrite Hs, Hh, Hw. cbn [fst snd].
  set (wb' := Whiteboard.resize wb h (Point.subtract q p)) in *.
  destruct (resize_kept wb h (Point.subtract q p)) as [K1 [K2 _]].
  fold wb' in K1, K2.
  destruct Hf as [F1 F2].
  assert (Hsel' : Whiteboard.isSelected wb' = true).
  { unfold Whiteboard.isSelected. rewrite K2.
    unfold Diagram.getSelectedWhiteboard in Hw.
    apply find_some in Hw as [_ Hw]. exact Hw. }
  destruct (find_update Whiteboard.isSelected
              (fun w => Whiteboard.resize w h (Point.subtract q p))
              Whiteboard.id _ wb F1 F2 Hw Hsel') as [U1 U2].
  split; [reflexivity|]. split.
  - split;
      cbn [InteractionManager.mode InteractionManager.dragStartPoint
           InteractionManager.resizingHandle InteractionManager.diagram
           InteractionManager.onUpdate InteractionManager.emit
           InteractionManager.with_dragStartPoint
           InteractionManager.with_diagram
           InteractionManager.with_mousePosition
           InteractionManager.currentTool
           Diagram.nodes Diagram.arrows Diagram.textLabels
           Diagram.selectedElementIds Diagram.whiteboards
           Diagram.with_whiteboards];
      try assumption; try reflexivity.
    + apply wellFiled_update; [|now split].
      intros w. apply resize_kept.
    + congruence.
    + intros k Hk. rewrite U2; [now apply Ho|]. congruence.
  - reflexivity.
Qed.

Lemma feed_held h id0 d0 rt ps : forall p wb m,
  held h id0 d0 p wb m ->
  let r := feed ps (rt, m) in
  fst r = rt
  /\ held h id0 d0 (last ps p) (resized h p ps wb) (snd r)
  /\ InteractionManager.emitted (snd r)
     = InteractionManager.emitted m ++ repeat Update (List.length ps).
Proof.
  induction ps as [|q ps IH]; intros p wb m H.
  - cbn. rewrite app_nil_r. split; [reflexivity|]. split; [exact H|reflexivity].
  - cbv zeta. unfold feed. cbn [fold_left fst snd resized].
    destruct (move_held h id0 d0 p q wb rt m H) as [M1 [M2 M3]].
    destruct (InteractionManager.handleMouseMove q rt m) as [rt1 m1].
    cbn [fst snd] in M1, M2, M3. subst rt1.
    destruct (IH q _ m1 M2) as [I1 [I2 I3]].
    unfold feed in I1, I2, I3.
    split; [exact I1|]. split.
    + rewrite last_cons. exact I2.
    + rewrite I3, M3, <- app_assoc. reflexivity.
Qed.
End WithNumber.
End ResizeGesture.

Section X24.
Context {N : JSNumber}.
Hypothesis min_width : nlt (lit 400) (lit 400) = false.
Hypothesis min_height : nlt (lit 300) (lit 300) = false.

(** X24.  In a scene that files every whiteboard under its own id, a
    press with the select tool that grabs a handle of the selected
    whiteboard starts resizing it, and every pointer move after that
    resizes that whiteboard by the movement since the place before:
    after the moves the selected whiteboard is the one from the press,
    resized once for every move in turn.  Whatever the moves, it keeps
    its id, flag and background; a handle that is not on the left never
    moves the left edge and a handle that is not on top never moves the
    top edge; and after the first move the tests [width < 400] and
    [height < 300] fail for it, given that [400 < 400] and [300 < 300]
    fail, as they do for JavaScript numbers.  No other whiteboard, node,
    arrow or label and no selection changes; mode, handle and tool stay;
    the drag start point follows the pointer; one update is notified for
    the press and one for every move.  Moves are not undone by moving
    back: in the example below a whiteboard 1600 wide, its right handle
    dragged 2000 to the left and back again, ends 2400 wide. *)
Theorem X24_resize_gesture (p0 : Point.t) (shiftKey : bool)
    (ps : list Point.t) (rt : Runtime.t) (m : InteractionManager.t)
    (h : ResizeHandle) (wb0 : Whiteboard.t) :
  let d := InteractionManager.diagram m in
  InteractionManager.currentTool m = SELECT ->
  ResizeGesture.wellFiled d ->
  Diagram.getSelectedWhiteboard d = Some wb0 ->
  Click.grabbed d p0 = Some h ->
  let r :=
    ResizeGesture.feed ps
      (InteractionManager.handleMouseDown p0 shiftKey rt m) in
  let d' := InteractionManager.diagram (snd r) in
  let wb := ResizeGesture.resized h p0 ps wb0 in
  fst r = rt
  /\ Diagram.getSelectedWhiteboard d' = Some wb
  /\ Whiteboard.id wb = Whiteboard.id wb0
  /\ Whiteboard.selected wb = Whiteboard.selected wb0
  /\ Whiteboard.backgroundColor wb = Whiteboard.backgroundColor wb0
  /\ (Whiteboard.isLeftHandle h = false ->
      Point.x (Whiteboard.position wb) = Point.x (Whiteboard.position wb0))
  /\ (Whiteboard.isTopHandle h = false ->
      Point.y (Whiteboard.position wb) = Point.y (Whiteboard.position wb0))
  /\ (ps <> [] ->
      nlt (Whiteboard.width wb) (lit 400) = false
      /\ nlt (Whiteboard.height wb) (lit 300) = false)
  /\ (forall k, k <> Whiteboard.id wb0 ->
        JsMap.get k (Diagram.whiteboards d')
        = JsMap.get k (Diagram.whiteboards d))
  /\ Diagram.nodes d' = Diagram.nodes d
  /\ Diagram.arrows d' = Diagram.arrows d
  /\ Diagram.textLabels d' = Diagram.textLabels d
  /\ Diagram.selectedElementIds d' = Diagram.selectedElementIds d
  /\ InteractionManager.mode (snd r) = RESIZING_WHITEBOARD
  /\ InteractionManager.resizingHandle (snd r) = Some h
  /\ InteractionManager.currentTool (snd r) = SELECT
  /\ InteractionManager.dragStartPoint (snd r) = Some (last ps p0)
  /\ InteractionManager.emitted (snd r)
     = InteractionManager.emitted m
       ++ Update :: repeat Update (List.length ps).
Proof.
  intros d Htool Hf Hw Hg r d' wb.
  assert (Hp : InteractionManager.handleMouseDown p0 shiftKey rt m
               = (rt,
                  InteractionManager.onUpdate
                    (InteractionManager.with_resizingHandle
                       (InteractionManager.with_mode
                          (InteractionManager.with_mousePosition
                             (InteractionManager.with_dragStartPoint m
                                (Some p0)) p0)
                          RESIZING_WHITEBOARD)
                       (Some h)))).
  { unfold InteractionManager.handleMouseDown.
    cbn [InteractionManager.currentTool InteractionManager.with_mousePosition
         InteractionManager.with_dragStartPoint InteractionManager.diagram].
    rewrite Htool. unfold InteractionManager.handleSelectMouseDown.
    cbn [InteractionManager.diagram InteractionManager.with_mousePosition
         InteractionManager.with_dragStartPoint].
    fold d. unfold Click.grabbed in Hg. now rewrite Hg. }
  subst r d'. rewrite Hp. clear Hp.
  set (m1 := InteractionManager.onUpdate _) in *.
  set (d' := InteractionManager.diagram (snd (ResizeGesture.feed ps (rt, m1)))).
  assert (H : ResizeGesture.held h (Whiteboard.id wb0) d p0 wb0 m1).
  { subst m1. split; try reflexivity; assumption. }
  destruct (ResizeGesture.feed_held h (Whiteboard.id wb0) d rt ps p0 wb0 m1 H)
    as [F1 [F2 F3]].
  destruct F2 as [G1 G2 G3 G4 G5 G6 G7 G8 G9 G10 G11 G12].
  fold d' in G5, G7, G8, G9, G10, G11.
  destruct (ResizeGesture.resized_kept h ps p0 wb0) as [K1 [K2 [K3 [K4 K5]]]].
  fold wb in G5, K1, K2, K3, K4, K5.
  refine (conj F1 (conj G5 (conj K1 (conj K2 (conj K3 (conj K4 (conj K5
            (conj _ (conj G7 (conj G8 (conj G9 (conj G10 (conj G11
              (conj G1 (conj G3 (conj G12 (conj G2 _))))))))))))))))).
  - intros Hne.
    exact (ResizeGesture.resized_minimum min_width min_height h ps p0 wb0 Hne).
  - rewrite F3. subst m1. cbn. now rewrite <- app_assoc.
Qed.
End X24.

Module ResizeExample.
(** The default whiteboard, 1600 wide from -800 to 800, selected; the
    right handle is pressed at (800,0), dragged 2000 to the left and
    back to where it was pressed. *)
Definition scene : Scene.state :=
  Diagram.selectElement "whiteboard-0" false (fst Example.fresh)
    (snd Example.fresh).

Definition manager : InteractionManager.t :=
  InteractionManager.new (snd scene).

Definition released : Runtime.t * InteractionManager.t :=
  ResizeGesture.feed [Example.pt (-1200) 0; Example.pt 800 0]
    (InteractionManager.handleMouseDown (Example.pt 800 0) false (fst scene)
       manager).

Lemma scene_wellFiled :
  ResizeGesture.wellFiled (InteractionManager.diagram manager).
Proof.
  split.
  - vm_compute. repeat constructor. intros [].
  - vm_compute. intros kv [<-|[]]. reflexivity.
Qed.
End ResizeExample.

Lemma X24_witness :
  InteractionManager.currentTool ResizeExample.manager = SELECT
  /\ Click.grabbed (InteractionManager.diagram ResizeExample.manager)
       (Example.pt 800 0) = Some RIGHT
  /\ option_map Whiteboard.width
       (Diagram.getSelectedWhiteboard
          (InteractionManager.diagram ResizeExample.manager))
     = Some 1600%Z
  /\ exists wb,
       Diagram.getSelectedWhiteboard
         (InteractionManager.diagram (snd ResizeExample.released)) = Some wb
       /\ Whiteboard.width wb = 2400%Z
       /\ Point.x (Whiteboard.position wb) = (-800)%Z.
Proof.
  split; [reflexivity|]. split; [vm_compute; reflexivity|].
  split; [vm_compute; reflexivity|].
  destruct (@X24_resize_gesture ZNumber eq_refl eq_refl (Example.pt 800 0) false
              [Example.pt (-1200) 0; Example.pt 800 0]
              (fst ResizeExample.scene) ResizeExample.manager RIGHT
              (Whiteboard.mk "whiteboard-0" (Example.pt (-800) (-600))
                 1600%Z 1200%Z "#ffffff" true)
              eq_refl ResizeExample.scene_wellFiled eq_refl eq_refl)
    as [_ [H1 _]].
  eexists. split; [exact H1|]. split; reflexivity.
Defined.

(** ** Double click *)

Module DoubleClick.
Section WithNumber.
Context {N : JSNumber}.

Lemma clearDragging_text rt m :
  let r := InteractionManager.clearDragging rt m in
  (forall a,
     Node.text (Node.heap (Runtime.nodeStore (fst r)) a)
     = Node.text (Node.heap (Runtime.nodeStore rt) a))
  /\ (forall k,
        option_map (fun l => (TextLabel.id l, TextLabel.text l))
          (JsMap.get k
             (Diagram.textLabels (InteractionManager.diagram (snd r))))
        = option_map (fun l => (TextLabel.id l, TextLabel.text l))
            (JsMap.get k (Diagram.textLabels (InteractionManager.diagram m))))
  /\ InteractionManager.draggedElementId (snd r)
     = match InteractionManager.draggedElementId m with
       | Some EmptyString => Some EmptyString
       | _ => None
       end.
Proof.
  cbv zeta. unfold InteractionManager.clearDragging.
  destruct (InteractionManager.draggedElementId m) as [[|c id]|] eqn:E;
    cbn [InteractionManager.truthy]; try (now repeat split).
  unfold InteractionManager.markDragging. cbn [fst snd].
  split; [|split].
  - intros a.
    destruct (Diagram.getNode _ _) as [node|]; [|reflexivity].
    cbn. destruct (Nat.eqb a (Node.addr node)) eqn:Ea; [|reflexivity].
    apply Nat.eqb_eq in Ea. subst a. reflexivity.
  - intros k. cbn. rewrite JsMapFacts.get_update.
    destruct (String.eqb _ k); [|reflexivity].
    now destruct (JsMap.get k _).
  - reflexivity.
Qed.
End WithNumber.
End DoubleClick.

Section X25.
Context {N : JSNumber}.

(** X25.  A double click on a node that the scene files under the id
    found puts the manager into text editing and asks the host once to
    edit that node, with the node's current text.  A double click on a
    label does the same for the label, unless a node is filed under the
    label's id, which is then the one edited.  In both cases the element
    that a press had marked as dragged is forgotten, and nodes and arrows
    of the scene stay as they are.  A double click on an arrow or on
    nothing changes nothing, except that with the arrow tool the host is
    asked for the select tool if a tool callback is installed. *)
Theorem X25_double_click (point : Point.t) (rt : Runtime.t)
    (m : InteractionManager.t) :
  let d := InteractionManager.diagram m in
  let s := Runtime.nodeStore rt in
  let r := InteractionManager.handleDoubleClick point rt m in
  let hit := Diagram.findElementAtPoint s d point in
  let forgotten :=
    match InteractionManager.draggedElementId m with
    | Some EmptyString => Some EmptyString
    | _ => None
    end in
  (forall id ty node,
     hit = Some (mkHit ty id) -> ty <> ElArrow ->
     Diagram.getNode id d = Some node ->
     InteractionManager.mode (snd r) = EDITING_TEXT
     /\ InteractionManager.emitted (snd r)
        = InteractionManager.emitted m
          ++ [RequestTextEdit (Node.id node) (Node.text (Node.read s node))]
     /\ InteractionManager.draggedElementId (snd r) = forgotten
     /\ Diagram.nodes (InteractionManager.diagram (snd r)) = Diagram.nodes d
     /\ Diagram.arrows (InteractionManager.diagram (snd r)) = Diagram.arrows d)
  /\ (forall id ty label,
        hit = Some (mkHit ty id) -> ty <> ElArrow ->
        Diagram.getNode id d = None ->
        Diagram.getTextLabel id d = Some label ->
        InteractionManager.mode (snd r) = EDITING_TEXT
        /\ InteractionManager.emitted (snd r)
           = InteractionManager.emitted m
             ++ [RequestTextEdit (TextLabel.id label) (TextLabel.text label)]
        /\ InteractionManager.draggedElementId (snd r) = forgotten
        /\ Diagram.nodes (InteractionManager.diagram (snd r)) = Diagram.nodes d
        /\ Diagram.arrows (InteractionManager.diagram (snd r))
           = Diagram.arrows d)
  /\ ((hit = None \/ exists id, hit = Some (mkHit ElArrow id)) ->
      r = (rt,
           if Tool_eqb (InteractionManager.currentTool m) ARROW
           then InteractionManager.requestTool m SELECT else m)).
Proof.
  intros d s r hit forgotten.
  pose proof (DoubleClick.clearDragging_text rt m) as T.
  pose proof (PointerUp.clearDragging_shape rt m) as C.
  cbv zeta in T, C.
  destruct T as [T1 [T2 T3]].
  destruct C as [C1 [C2 [_ [_ [_ [C6 [_ [C8 _]]]]]]]].
  split; [|split].
  - intros id ty node Hh Hty Hn. subst r.
    unfold InteractionManager.handleDoubleClick. fold s d hit. rewrite Hh.
    destruct (InteractionManager.clearDragging rt m) as [rt1 m1].
    cbn [fst snd] in *.
    destruct ty; try contradiction;
      unfold Diagram.getNode in *; rewrite C1; fold d; rewrite Hn;
      cbn [snd fst InteractionManager.mode InteractionManager.emitted
           InteractionManager.emit InteractionManager.with_mode
           InteractionManager.draggedElementId InteractionManager.diagram];
      unfold Node.read; rewrite T1, C8, C1, C2;
      repeat split; assumption.
  - intros id ty label Hh Hty Hn Hl. subst r.
    unfold InteractionManager.handleDoubleClick. fold s d hit. rewrite Hh.
    destruct (InteractionManager.clearDragging rt m) as [rt1 m1].
    cbn [fst snd] in *.
    specialize (T2 id). unfold Diagram.getTextLabel in *. fold d in T2.
    rewrite Hl in T2.
    destruct (JsMap.get id (Diagram.textLabels (InteractionManager.diagram m1)))
      as [label1|] eqn:El; [|discriminate]. cbn in T2. injection T2 as T2 T2'.
    destruct ty; try contradiction;
      unfold Diagram.getNode in *; rewrite C1; fold d; rewrite Hn;
      unfold Diagram.getTextLabel; rewrite El;
      cbn [snd fst InteractionManager.mode InteractionManager.emitted
           InteractionManager.emit InteractionManager.with_mode
           InteractionManager.draggedElementId InteractionManager.diagram];
      rewrite C8, C1, C2, T2, T2'; repeat split; assumption.
  - intros [Hh|[id Hh]]; subst r;
      unfold InteractionManager.handleDoubleClick; fold s d hit;
      rewrite Hh; reflexivity.
Qed.
End X25.
